(** * Disaster-alert relay gateway: a shallow embedding of the core logic

  The development follows the layout of the repository:

  - [Buffer]                 the Node.js Buffer primitives the code uses
  - [Protocol]               central-service protocolUtils.js (buildMessageBuffer)
                             and tcp/protocolParser.js
  - [Md5], [AuthService]     central-service authService.js and the digest it calls
  - [CentralConfig]          central-service config/index.js
  - [Cap], [CapService]      CAP envelopes and capService.js (createAckCap)
  - [ResponseUtils]          central-service responseUtils.js
  - [CentralDb]              the central store and its repositories
  - [CentralSession]         central-service sessionManager.js
  - [DisasterHandler]        central-service disasterHandler.js
  - [Amqp], [CentralBroker]  central-service messageBrokerService.js
  - [ExternalDb]             the external store and its repositories
  - [ExternalBroker]         external-service messageBrokerService.js
  - [ExternalSession]        external-service socket/sessionManager.js
  - [CustomValidators]       external-service api/middlewares/validator.js
  - [ReportTransmit]         central-service reliableTransmitService.js and
                             reportTransmitWorker.js
  - [DisasterTransmit]       external-service reliableTransmitService.js and
                             disasterTransmitWorker.js
  - [DisasterPublishWorker]  central-service disasterPublishWorker.js
  - [ReportPublishWorker]    external-service reportPublishWorker.js
  - [Scenario]               concrete inputs for the examples

  The properties follow the definitions, grouped by component.

  JavaScript values are modelled by their ranges: a [Buffer] is a list of
  octets kept as [Z], numbers that the code reads from or writes to the wire
  are [Z], SQL tables are lists of records in insertion order. *)

From Stdlib Require Import ZArith Lia Ascii String List.
From stdpp Require Import base decidable option numbers list strings pretty gmap.

Local Open Scope Z_scope.

(** ** Node.js [Buffer] primitives *)

Module Buffer.

Abbreviation t := (list Z).

(** [Buffer.alloc(n)]: [n] zero octets. *)
Definition alloc (n : nat) : t := replicate n 0.

(** [Buffer.concat([a, b])]. *)
Definition concat (a b : t) : t := a ++ b.

(** Index normalisation of [TypedArray.prototype.subarray]: a negative
    index counts from the end, and the result is clamped to the buffer. *)
Definition clamp_index (len : nat) (i : Z) : nat :=
  if decide (i < 0) then Z.to_nat (Z.max (Z.of_nat len + i) 0)
  else Z.to_nat (Z.min i (Z.of_nat len)).

(** [buf.subarray(start, end)]. *)
Definition subarray (buf : t) (start stop : Z) : t :=
  let s := clamp_index (length buf) start in
  let e := clamp_index (length buf) stop in
  take (e - s)%nat (drop s buf).

(** [buf.subarray(start)]. *)
Definition subarray_from (buf : t) (start : Z) : t :=
  drop (clamp_index (length buf) start) buf.

(** An element store into a [Uint8Array] keeps the low eight bits. *)
Definition to_uint8 (v : Z) : Z := Z.land v 255.

(** [buf.writeUInt32BE(value, offset)]; [None] stands for the
    [RangeError] Node throws when the value is not an unsigned 32-bit
    integer or when the four octets do not fit in the buffer. *)
Definition writeUInt32BE (buf : t) (value : Z) (offset : nat) : option t :=
  if decide (0 ≤ value ≤ 4294967295) then
    if decide (offset + 4 ≤ length buf)%nat then
      Some (<[offset := to_uint8 (Z.shiftr value 24)]>
           (<[(offset + 1)%nat := to_uint8 (Z.shiftr value 16)]>
           (<[(offset + 2)%nat := to_uint8 (Z.shiftr value 8)]>
           (<[(offset + 3)%nat := to_uint8 value]> buf))))
    else None
  else None.

(** [buf.readUInt32BE(offset)]; [None] stands for the [RangeError] thrown
    when the buffer has fewer than four octets from [offset]. *)
Definition readUInt32BE (buf : t) (offset : nat) : option Z :=
  b0 ← buf !! offset;
  b1 ← buf !! (offset + 1)%nat;
  b2 ← buf !! (offset + 2)%nat;
  b3 ← buf !! (offset + 3)%nat;
  Some (b0 * 2 ^ 24 + b1 * 2 ^ 16 + b2 * 2 ^ 8 + b3).

End Buffer.

(** ** The framed wire protocol of the central service *)

Module Protocol.

(** config.tcp.protocol.HEADER.HEADER_LENGTH *)
Definition HEADER_LENGTH : nat := 16.

Record Header := mkHeader {
  messageId : Z;
  dataFormat : Z;
  magicNumber : Z;
  dataLength : Z;
}.

Record Message := mkMessage {
  header : Header;
  body : Buffer.t;
}.

Inductive ParsingState := HEADER | BODY.

(** The fields of a [ProtocolParser] instance. *)
Record Parser := mkParser {
  buffer : Buffer.t;
  neededLength : Z;
  parsingState : ParsingState;
  p_header : option Header;
}.

(** Field initialisers of the class, which [_resetParserState] restores. *)
Definition initial : Parser :=
  {| buffer := Buffer.alloc 0; neededLength := Z.of_nat HEADER_LENGTH;
     parsingState := HEADER; p_header := None |}.

(** What is left for the loop to do: twice the buffered octets, plus one
    in BODY. *)
Definition parser_measure (p : Parser) : nat :=
  (2 * length (buffer p)
   + match parsingState p with HEADER => 0 | BODY => 1 end)%nat.

Section WithConfig.

(** config.tcp.protocol.HEADER.DATA_FORMAT, .MAGIC_NUMBER (read from the
    environment) and config.tcp.protocol.MAX_BODY_LENGTH. *)
Variables DATA_FORMAT MAGIC_NUMBER MAX_BODY_LENGTH : Z.

(** The XML objects handed to the framer, and xmlbuilder2 on them:
    [xml_bytes obj] is
    [Buffer.from(create(obj).end({ headless: true, cdata: true }), 'utf-8')],
    or [None] when the library throws. *)
Context {XmlObject : Type} (xml_bytes : XmlObject → option Buffer.t).

(** protocolUtils.js, [buildMessageBuffer]. [None] is the [null] returned
    from the [catch]. *)
Definition buildMessageBuffer (messageId : Z) (xmlObject : XmlObject)
  : option Buffer.t :=
  bodyBuffer ← xml_bytes xmlObject;
  let headerBuffer := Buffer.alloc HEADER_LENGTH in
  h1 ← Buffer.writeUInt32BE headerBuffer messageId 0;
  h2 ← Buffer.writeUInt32BE h1 DATA_FORMAT 4;
  h3 ← Buffer.writeUInt32BE h2 MAGIC_NUMBER 8;
  h4 ← Buffer.writeUInt32BE h3 (Z.of_nat (length bodyBuffer)) 12;
  Some (Buffer.concat h4 bodyBuffer).

(** [emitCompleteMessage]: the record passed to [emit('message', _)] and
    the parser ready for the next header. [None] is the [TypeError] of
    [this.header.toString] on a [null] header. *)
Definition emitCompleteMessage (p : Parser) (bodyBuffer : Buffer.t)
  : option (Parser * list Message) :=
  h ← p_header p;
  Some ({| buffer := buffer p; neededLength := Z.of_nat HEADER_LENGTH;
           parsingState := HEADER; p_header := None |},
        [ {| header := h; body := bodyBuffer |} ]).

(** [_parseHeader]; [None] is a thrown error. *)
Definition _parseHeader (p : Parser) : option (Parser * list Message) :=
  let headerBuffer := Buffer.subarray (buffer p) 0 (Z.of_nat HEADER_LENGTH) in
  messageId ← Buffer.readUInt32BE headerBuffer 0;
  dataFormat ← Buffer.readUInt32BE headerBuffer 4;
  magicNumber ← Buffer.readUInt32BE headerBuffer 8;
  dataLength ← Buffer.readUInt32BE headerBuffer 12;
  if decide (magicNumber ≠ MAGIC_NUMBER) then None
  else if decide (dataLength > MAX_BODY_LENGTH) then None
  else
    let p' := {| buffer := Buffer.subarray_from (buffer p) (Z.of_nat HEADER_LENGTH);
                 neededLength := dataLength;
                 parsingState := BODY;
                 p_header := Some (mkHeader messageId dataFormat magicNumber dataLength) |} in
    if decide (neededLength p' = 0) then emitCompleteMessage p' (Buffer.alloc 0)
    else Some (p', []).

(** [_parseBody]. *)
Definition _parseBody (p : Parser) : option (Parser * list Message) :=
  let bodyLengthToParse := neededLength p in
  let bodyBuffer := Buffer.subarray (buffer p) 0 bodyLengthToParse in
  '(p', out) ← emitCompleteMessage p bodyBuffer;
  Some ({| buffer := Buffer.subarray_from (buffer p') bodyLengthToParse;
           neededLength := neededLength p';
           parsingState := parsingState p';
           p_header := p_header p' |}, out).

(** [_resetParserState]. *)
Definition _resetParserState (p : Parser) : Parser := initial.

(** The [while] loop of [_transform]. The result is [None] only when
    the iteration budget is used up. *)
Fixpoint transform_loop (fuel : nat) (p : Parser) (emitted : list Message)
  : option (Parser * list Message) :=
  if decide (Z.of_nat (length (buffer p)) >= neededLength p) then
    match fuel with
    | O => None
    | S fuel' =>
        match (match parsingState p with
               | HEADER => _parseHeader p
               | BODY => _parseBody p
               end) with
        | Some (p', out) => transform_loop fuel' p' (emitted ++ out)
        | None => Some (_resetParserState p, emitted)
        end
    end
  else Some (p, emitted).

(** Each iteration either leaves the loop or shortens the buffer, a
    BODY iteration returning to HEADER; so this many iterations do. *)
Definition budget (p : Parser) : nat :=
  (2 * length (buffer p) + 2)%nat.

(** [_transform(chunk, encoding, callback)]: the parser after the chunk
    and the messages emitted, in order. *)
Definition _transform (p : Parser) (chunk : Buffer.t)
  : option (Parser * list Message) :=
  let p0 := {| buffer := Buffer.concat (buffer p) chunk;
               neededLength := neededLength p;
               parsingState := parsingState p;
               p_header := p_header p |} in
  transform_loop (budget p0) p0 [].

End WithConfig.

End Protocol.


(** ** MD5 (RFC 1321), as computed by Node's [crypto.createHash('md5')] *)

Module Md5.

(** Arithmetic on 32-bit words. *)
Definition mask32 (x : Z) : Z := Z.land x 4294967295.
Definition add32 (x y : Z) : Z := mask32 (x + y).
Definition not32 (x : Z) : Z := Z.lxor x 4294967295.
Definition rotl32 (x c : Z) : Z :=
  mask32 (Z.lor (Z.shiftl x c) (Z.shiftr x (32 - c))).

(** Per-round left-rotation amounts. *)
Definition shifts : list Z :=
  [7; 12; 17; 22; 7; 12; 17; 22; 7; 12; 17; 22; 7; 12; 17; 22;
   5; 9; 14; 20; 5; 9; 14; 20; 5; 9; 14; 20; 5; 9; 14; 20;
   4; 11; 16; 23; 4; 11; 16; 23; 4; 11; 16; 23; 4; 11; 16; 23;
   6; 10; 15; 21; 6; 10; 15; 21; 6; 10; 15; 21; 6; 10; 15; 21].

(** [floor(2^32 * abs(sin(i + 1)))] for [i] from 0 to 63. *)
Definition sines : list Z :=
  [0xd76aa478; 0xe8c7b756; 0x242070db; 0xc1bdceee; 0xf57c0faf; 0x4787c62a; 0xa8304613; 0xfd469501;
   0x698098d8; 0x8b44f7af; 0xffff5bb1; 0x895cd7be; 0x6b901122; 0xfd987193; 0xa679438e; 0x49b40821;
   0xf61e2562; 0xc040b340; 0x265e5a51; 0xe9b6c7aa; 0xd62f105d; 0x02441453; 0xd8a1e681; 0xe7d3fbc8;
   0x21e1cde6; 0xc33707d6; 0xf4d50d87; 0x455a14ed; 0xa9e3e905; 0xfcefa3f8; 0x676f02d9; 0x8d2a4c8a;
   0xfffa3942; 0x8771f681; 0x6d9d6122; 0xfde5380c; 0xa4beea44; 0x4bdecfa9; 0xf6bb4b60; 0xbebfbc70;
   0x289b7ec6; 0xeaa127fa; 0xd4ef3085; 0x04881d05; 0xd9d4d039; 0xe6db99e5; 0x1fa27cf8; 0xc4ac5665;
   0xf4292244; 0x432aff97; 0xab9423a7; 0xfc93a039; 0x655b59c3; 0x8f0ccc92; 0xffeff47d; 0x85845dd1;
   0x6fa87e4f; 0xfe2ce6e0; 0xa3014314; 0x4e0811a1; 0xf7537e82; 0xbd3af235; 0x2ad7d2bb; 0xeb86d391].

Record State := mkState { sa : Z; sb : Z; sc : Z; sd : Z }.

Definition init : State :=
  mkState 0x67452301 0xefcdab89 0x98badcfe 0x10325476.

(** One of the 64 operations on a block of sixteen words [M]. *)
Definition round (M : list Z) (st : State) (i : nat) : State :=
  let '(mkState a b c d) := st in
  let '(f, g) :=
    if decide (i < 16)%nat then
      (Z.lor (Z.land b c) (Z.land (not32 b) d), i)
    else if decide (i < 32)%nat then
      (Z.lor (Z.land d b) (Z.land (not32 d) c), ((5 * i + 1) mod 16)%nat)
    else if decide (i < 48)%nat then
      (Z.lxor b (Z.lxor c d), ((3 * i + 5) mod 16)%nat)
    else
      (Z.lxor c (Z.lor b (not32 d)), ((7 * i) mod 16)%nat) in
  let f' := add32 (add32 (add32 f a) (nth i sines 0)) (nth g M 0) in
  mkState d (add32 b (rotl32 f' (nth i shifts 0))) b c.

(** Little-endian 32-bit words of a run of octets. *)
Fixpoint words_le (octets : list Z) : list Z :=
  match octets with
  | b0 :: b1 :: b2 :: b3 :: rest =>
      (b0 + b1 * 2 ^ 8 + b2 * 2 ^ 16 + b3 * 2 ^ 24) :: words_le rest
  | _ => []
  end.

(** The [n] low octets of [v], least significant first. *)
Definition octets_le (n : nat) (v : Z) : list Z :=
  map (λ k, Z.land (Z.shiftr v (8 * Z.of_nat k)) 255) (seq 0 n).

Definition compress (st : State) (block : list Z) : State :=
  let M := words_le block in
  let '(mkState a b c d) := fold_left (round M) (seq 0 64) st in
  mkState (add32 (sa st) a) (add32 (sb st) b) (add32 (sc st) c) (add32 (sd st) d).

(** A one bit, zeros up to 56 modulo 64, then the bit length on 64 bits. *)
Definition pad (msg : list Z) : list Z :=
  let len := Z.of_nat (length msg) in
  msg ++ [128] ++ replicate (Z.to_nat ((55 - len) mod 64)) 0 ++ octets_le 8 (8 * len).

Fixpoint absorb (nblocks : nat) (st : State) (data : list Z) : State :=
  match nblocks with
  | O => st
  | S n => absorb n (compress st (take 64 data)) (drop 64 data)
  end.

Definition digest (msg : list Z) : list Z :=
  let data := pad msg in
  let '(mkState a b c d) := absorb (length data / 64) init data in
  octets_le 4 a ++ octets_le 4 b ++ octets_le 4 c ++ octets_le 4 d.

(** [digest('hex')]: two lower-case hexadecimal digits per octet. *)
Definition hex_digit (v : Z) : ascii :=
  ascii_of_N (Z.to_N (if decide (v < 10) then 48 + v else 87 + v)).

Definition hex (octets : list Z) : string :=
  fold_right (λ b s, String (hex_digit (Z.shiftr b 4)) (String (hex_digit (Z.land b 15)) s))
             EmptyString octets.

(** [update(string)] hashes the UTF-8 octets of the string; a [string]
    here is that octet sequence. *)
Definition utf8 (s : string) : list Z :=
  map (λ c, Z.of_N (N_of_ascii c)) (list_ascii_of_string s).

Definition md5_hex (s : string) : string := hex (digest (utf8 s)).

End Md5.

(** ** central-service/src/core/services/authService.js *)

Module AuthService.

(** [String.prototype.toUpperCase] on the ASCII range, where it is applied
    here (hexadecimal digests). *)
Definition upper_ascii (c : ascii) : ascii :=
  let n := N_of_ascii c in
  if decide (97 ≤ n ≤ 122)%N then ascii_of_N (n - 32) else c.

Fixpoint toUpperCase (s : string) : string :=
  match s with
  | EmptyString => EmptyString
  | String c rest => String (upper_ascii c) (toUpperCase rest)
  end.

(** [_md5]: [crypto.createHash('md5').update(string).digest('hex').toUpperCase()]. *)
Definition _md5 (s : string) : string := toUpperCase (Md5.md5_hex s).

Section WithConfig.

(** config.auth.DEST_ID and config.auth.PASSWORD. *)
Variables DEST_ID PASSWORD : string.

(** [calculateResponse({ realm, nonce })]. *)
Definition calculateResponse (realm nonce : string) : string :=
  let a1String := DEST_ID +:+ ":" +:+ realm +:+ ":" +:+ PASSWORD in
  let a1 := _md5 a1String in
  let responseString := a1 +:+ ":" +:+ nonce in
  let response := _md5 responseString in
  response.

End WithConfig.

(** The response as the specification writes it,
    [MD5(MD5(destId:realm:password):nonce).upper()]: the hexadecimal digest
    of the inner hash is used as [digest('hex')] gives it, and the outer one
    is upper-cased. *)
Definition spec_response (destId password realm nonce : string) : string :=
  toUpperCase
    (Md5.md5_hex
       (Md5.md5_hex (destId +:+ ":" +:+ realm +:+ ":" +:+ password) +:+ ":" +:+ nonce)).

(** The characters of an upper-case hexadecimal string. *)
Definition is_upper_hex (c : ascii) : bool :=
  let n := N_of_ascii c in
  bool_decide (48 ≤ n ≤ 57)%N || bool_decide (65 ≤ n ≤ 70)%N.

End AuthService.


(** ** JavaScript values shared by the handlers *)

Module Js.

(** An [Error] object, as far as the code inspects it. *)
Record Error := mkError { name : string; message : string }.

(** [new Error(message)] *)
Definition plain_error (m : string) : Error := mkError "Error" m.

(** Truthiness of a value that is a string or [undefined]. *)
Definition truthy (v : option string) : bool :=
  match v with
  | Some s => negb (String.eqb s "")
  | None => false
  end.

(** A string-or-[undefined] inside a template literal. *)
Definition template (v : option string) : string := default "undefined" v.

End Js.

(** ** central-service configuration (config/index.js) *)

Module CentralConfig.

Definition DATA_FORMAT : Z := 1.
Definition MAX_BODY_LENGTH : Z := 20 * 1024 * 1024.

Definition ETS_REQ_SYS_CON : Z := 0xFFEE1001.
Definition ETS_RES_SYS_CON : Z := 0xFFEE2001.
Definition ETS_REQ_SYS_STS : Z := 0xFFEE1010.
Definition ETS_RES_SYS_STS : Z := 0xFFEE2010.
Definition ETS_NFY_DIS_INFO : Z := 0xFFEE3020.
Definition ETS_CNF_DIS_INFO : Z := 0xFFEE4020.
Definition ETS_REQ_DIS_REPORT : Z := 0xFFEE5020.
Definition ETS_RES_DIS_REPORT : Z := 0xFFEE6020.
Definition ETS_NFY_DEVICE_INFO : Z := 0xFFEE7010.
Definition ETS_CNF_DEVICE_INFO : Z := 0xFFEE7020.
Definition ETS_NFY_DEVICE_STS : Z := 0xFFEE8010.
Definition ETS_CNF_DEVICE_STS : Z := 0xFFEE8020.

(** config.tcp.protocol.TIMERS.TRANSMISSION_TIMEOUT, in milliseconds *)
Definition TRANSMISSION_TIMEOUT : Z := 10000.

Definition VALID_EVENT_CODES : list string :=
  ["EQI"; "EQW"; "EEW"; "FEI"; "TSA"; "TSL"; "TSW"; "TSC"; "TSO"; "TSR"; "TSI"; "VOI"; "VOA";
   "VOL"; "VOW"; "VOC"; "VOO"; "VOR"; "FLA"; "FLL"; "FLG"; "FLW"; "FLC"; "FLN"; "FLS"; "HWA";
   "HWG"; "HWL"; "HWW"; "HWN"; "HWC"; "HWE"; "HWS"; "HRA"; "HRG"; "HRL"; "HRW"; "HRN"; "HRC";
   "HRE"; "HRS"; "CWA"; "CWG"; "CWL"; "CWW"; "CWN"; "CWC"; "CWE"; "CWS"; "HAA"; "HAG"; "HAL";
   "HAW"; "HAN"; "HAC"; "HAE"; "HAS"; "SSA"; "SSG"; "SSL"; "SSW"; "SSN"; "SSC"; "SSE"; "SSS";
   "WWA"; "WWG"; "WWL"; "WWW"; "WWN"; "WWC"; "WWE"; "WWS"; "TPA"; "TPG"; "TPL"; "TPW"; "TPN";
   "TPC"; "TPE"; "TPS"; "HSA"; "HSG"; "HSL"; "HSW"; "HSN"; "HSC"; "HSE"; "HSS"; "YSW"; "YSN";
   "YSC"; "YSE"; "YSS"; "HTA"; "HTG"; "HTL"; "HTW"; "HTN"; "HTC"; "HTE"; "HTS"; "HFA"; "HFG";
   "HFL"; "HFW"; "HFN"; "HFC"; "HFE"; "HFS"; "THW"; "THS"; "DRW"; "DRS"; "NSD"; "NSW"; "NSV";
   "NSS"; "AVA"; "AVW"; "AVC"; "AVS"; "NHW"; "NHS"; "MFA"; "MFW"; "MFV"; "MFC"; "MFE"; "MFS";
   "CPW"; "CAW"; "CCW"; "CNW"; "CDC"; "GFD"; "GFS"; "NDA"; "NDW"; "NDS"; "ASD"; "ASW"; "ASV";
   "ASS"; "GRW"; "GRS"; "FDA"; "FDW"; "FDE"; "FDS"; "CWD"; "CWI"; "CHD"; "CHC"; "CHE"; "CHS";
   "DEW"; "DES"; "DEC"; "LDW"; "LDA"; "POA"; "POW"; "POS"; "POD"; "GAD"; "COD"; "RWD"; "RWS";
   "RWC"; "RWI"; "SWD"; "SWS"; "SWC"; "BCW"; "BCS"; "ISD"; "MSD"; "MSS"; "MAE"; "MPD"; "MPS";
   "FND"; "FNE"; "FNS"; "DOW"; "DOE"; "DOS"; "DBA"; "DBW"; "DBS"; "RVD"; "DWW"; "DFD"; "DFS";
   "TEW"; "TES"; "FHD"; "FHV"; "FHS"; "FRW"; "FRV"; "FRC"; "FRS"; "WHD"; "RLD"; "RLE"; "RLS";
   "RHW"; "RHS"; "NRD"; "NRS"; "CME"; "CMC"; "CAE"; "CAC"; "SHW"; "SHS"; "LAW"; "NPT"; "DIS"; "DIM"].

(** config.reportTransmitWorker.MAX_RETRIES, config.disasterPublishWorker.MAX_RETRIES
    and config.rabbitmq.MAX_RETRIES *)
Definition reportTransmitWorker_MAX_RETRIES : Z := 3.
Definition disasterPublishWorker_MAX_RETRIES : Z := 3.
Definition rabbitmq_MAX_RETRIES : Z := 3.

Definition REPORT_RETRY_EXCHANGE : string := "report_retry".
Definition REPORT_ROUTING_KEY : string := "report.external".
Definition DISASTER_EXCHANGE : string := "disaster.topic".

(** The values read from the environment. *)
Record Env := mkEnv {
  MAGIC_NUMBER : Z;                      (* CENTRAL_PROTOCOL_MAGIC_NUMBER *)
  DEST_ID : string;                      (* CENTRAL_AUTH_ID *)
  PASSWORD : string;                     (* CENTRAL_AUTH_PASSWORD *)
  CENTRAL_SYSTEM_SENDER_ID : string;
  CENTRAL_SERVICE_SENDER_ID : string;
}.

End CentralConfig.

(** ** CAP envelopes as xml2js hands them over (explicitArray: false) *)

Module Cap.

Record EventCode := mkEventCode { value : option string }.

Record Info := mkInfo { eventCode : option EventCode }.

Record Alert := mkAlert {
  identifier : option string;
  sender : option string;
  sent : option string;
  info : option Info;
}.

Record CapInfo := mkCapInfo { alert : option Alert }.

(** The [data] element of an inbound frame. [transMsgSeq] is kept as the
    integer PostgreSQL reads from its text; a text that is not an integer
    makes the first query with it fail. *)
Record ReceivedData := mkReceivedData {
  transMsgId : option string;
  transMsgSeq : option Z;
  capInfo : option CapInfo;
}.

(** The result of [xmlParser.parseStringPromise]: an object whose [data]
    member may be missing. *)
Record ParsedXml := mkParsedXml { data : option ReceivedData }.

(** [alert.info?.eventCode?.value] *)
Definition alert_eventCode (a : Alert) : option string :=
  i ← info a; e ← eventCode i; value e.

(** [receivedData.capInfo?.alert?.info?.eventCode?.value] *)
Definition envelope_eventCode (rd : ReceivedData) : option string :=
  c ← capInfo rd; a ← alert c; alert_eventCode a.

(** The acknowledgement alert built by [createAckCap]. *)
Record AckCap := mkAckCap {
  ack_identifier : string;
  ack_sender : string;
  ack_sent : string;
  ack_status : string;
  ack_msgType : string;
  ack_scope : string;
  ack_address : string;
  ack_code : string;
  ack_note : string;
  ack_references : string;
}.

(** The [data] element of an ETS_CNF_DIS_INFO reply. *)
Record CnfDisInfo := mkCnfDisInfo {
  cnf_resultCode : string;
  cnf_result : string;
  cnf_transMsgSeq : Z;
  cnf_transMsgId : string;
  cnf_capInfo : option AckCap;
}.

(** The alert of an outbound report, built by [buildDeviceInfoCap],
    [buildDeviceStatusCap] and [buildDisasterResultCap]. *)
Record ReportCap := mkReportCap {
  rc_identifier : string;
  rc_sender : string;
  rc_sent : string;
  rc_status : string;
  rc_msgType : string;
  rc_scope : string;
  rc_addresses : string;
  rc_code : list string;
  rc_note : option string;
  rc_references : option string;
  rc_category : string;
  rc_event : string;
  rc_eventCode : string;
  rc_senderName : string;
  rc_headline : string;
  rc_valueName : string;
  rc_value : string;
}.

(** The [data] element of an outbound report. *)
Record ReportData := mkReportData {
  rd_transMsgId : string;
  rd_transMsgSeq : Z;
  rd_capInfo : ReportCap;
}.

(** The objects the central service passes to [buildMessageBuffer]. *)
Inductive XmlObject :=
  | XmlCnfDisInfo (d : CnfDisInfo)
  | XmlReport (d : ReportData).

End Cap.

(** ** central-service/src/core/services/capService.js, [createAckCap] *)

Module CapService.

Section WithEnv.

Variable env : CentralConfig.Env.

(** [createAckCap(originalCap, noteCode, noteMessage)]; [now] is the
    formatted Seoul time and [None] is the thrown error. *)
Definition createAckCap (now : string) (originalCap : option Cap.CapInfo)
    (noteCode noteMessage : string) : option Cap.AckCap :=
  c ← originalCap;
  originalAlert ← Cap.alert c;
  Some {| Cap.ack_identifier := Js.template (Cap.identifier originalAlert) +:+ "_ACK";
          Cap.ack_sender := CentralConfig.CENTRAL_SERVICE_SENDER_ID env;
          Cap.ack_sent := now;
          Cap.ack_status := "System";
          Cap.ack_msgType := "Ack";
          Cap.ack_scope := "Private";
          Cap.ack_address := CentralConfig.CENTRAL_SYSTEM_SENDER_ID env;
          Cap.ack_code := "대한민국정부1.2";
          Cap.ack_note := noteCode +:+ "|" +:+ noteMessage;
          Cap.ack_references :=
            Js.template (Cap.sender originalAlert) +:+ "," +:+
            Js.template (Cap.identifier originalAlert) +:+ "," +:+
            Js.template (Cap.sent originalAlert) |}.

End WithEnv.

End CapService.

(** ** responseUtils.js *)

Module ResponseUtils.

Definition ValidationError (m : string) : Js.Error := Js.mkError "ValidationError" m.
Definition ProfileError (m : string) : Js.Error := Js.mkError "ProfileError" m.
Definition DuplicateMessageError (m : string) : Js.Error := Js.mkError "DuplicateMessageError" m.
Definition ParsingError (m : string) : Js.Error := Js.mkError "ParsingError" m.

Record ResponseCode := mkResponseCode {
  resultCode : string;
  resultText : string;
  noteCode : string;
  noteMessage : string;
}.

(** [_mapErrorToResponseCode(error)] *)
Definition _mapErrorToResponseCode (error : option Js.Error) : ResponseCode :=
  match error with
  | None => mkResponseCode "200" "OK" "000" "메시지 수신 확인"
  | Some e =>
      if decide (Js.name e = "ValidationError") then
        mkResponseCode "400" "Bad Request" "210" ("메시지 유효성 오류: " +:+ Js.message e)
      else if decide (Js.name e = "ProfileError") then
        mkResponseCode "400" "Bad Request" "220" ("프로파일 해석 오류: " +:+ Js.message e)
      else if decide (Js.name e = "DuplicateMessageError") then
        mkResponseCode "400" "Bad Request" "300" ("메시지 중복 확인: " +:+ Js.message e)
      else if decide (Js.name e = "ParsingError") then
        mkResponseCode "500" "Internal Server Error" "810" ("CAP 파싱 실패: " +:+ Js.message e)
      else
        mkResponseCode "500" "Internal Server Error" "810"
          ("재난 정보 게이트웨이 내부 오류: " +:+ Js.message e)
  end.

Section WithEnv.

Variable env : CentralConfig.Env.
Variable xml_bytes : Cap.XmlObject → option Buffer.t.

(** The XML object of the reply, before framing; [None] is an error
    thrown inside the [try]. *)
Definition responseXmlObject (now : string) (receivedData : Cap.ReceivedData)
    (capInfoObject : option Cap.CapInfo) (error : option Js.Error)
  : option Cap.CnfDisInfo :=
  if negb (Js.truthy (Cap.transMsgId receivedData)) then None
  else
    transMsgId ← Cap.transMsgId receivedData;
    transMsgSeq ← Cap.transMsgSeq receivedData;
    let rc := _mapErrorToResponseCode error in
    ackCapObject ←
      match capInfoObject with
      | Some c => Some <$> CapService.createAckCap env now (Some c) (noteCode rc) (noteMessage rc)
      | None => Some None
      end;
    Some {| Cap.cnf_resultCode := resultCode rc;
            Cap.cnf_result := resultText rc;
            Cap.cnf_transMsgSeq := transMsgSeq;
            Cap.cnf_transMsgId := transMsgId;
            Cap.cnf_capInfo := ackCapObject |}.

(** [createCnfDisInfoBuffer(receivedData, capInfoObject, error)]; [None] is
    the [null] returned when the reply cannot be built. *)
Definition createCnfDisInfoBuffer (now : string) (receivedData : Cap.ReceivedData)
    (capInfoObject : option Cap.CapInfo) (error : option Js.Error)
  : option Buffer.t :=
  obj ← responseXmlObject now receivedData capInfoObject error;
  Protocol.buildMessageBuffer CentralConfig.DATA_FORMAT (CentralConfig.MAGIC_NUMBER env)
    xml_bytes CentralConfig.ETS_CNF_DIS_INFO (Cap.XmlCnfDisInfo obj).

End WithEnv.

End ResponseUtils.

(** ** The central service's relational store

    Tables are lists of rows in insertion order. [committed] is what every
    connection sees; [in_txn] is the working copy of the one checked-out
    client between BEGIN and COMMIT or ROLLBACK. Identifiers come from
    sequences, which a ROLLBACK does not rewind. *)

Module CentralDb.

Inductive Status := PENDING | SENT | SUCCESS | FAILED.

#[global] Instance Status_eq_dec : EqDecision Status.
Proof. solve_decision. Defined.

Record TcpReceiveLog := mkTcpReceiveLog {
  trl_id : Z;
  trl_inbound_id : string;
  trl_inbound_seq : Z;
  trl_raw_message : Cap.ReceivedData;
  trl_status : Status;
  trl_error_message : option string;
}.

Record DisasterPublishLog := mkDisasterPublishLog {
  dpl_id : Z;
  dpl_tcp_receive_log_id : Z;
  dpl_routing_key : string;
  dpl_identifier : string;
  dpl_event_code : string;
  dpl_raw_message : Cap.ReceivedData;
  dpl_status : Status;
  dpl_retry_count : Z;
}.

Record MqReceiveLog := mkMqReceiveLog {
  mrl_id : Z;
  mrl_raw_message : string;
  mrl_status : Status;
  mrl_error_message : option string;
}.

(** The body of a report as the external service relays it: the member
    [identifier], when there is one, and the JSON text of the whole. *)
Record RawMessage := mkRawMessage {
  rm_identifier : option string;
  rm_json : string;
}.

Record ReportTransmitLog := mkReportTransmitLog {
  rtl_id : Z;
  rtl_mq_receive_log_id : Z;
  rtl_type : string;
  rtl_outbound_id : string;
  rtl_external_system_name : string;
  rtl_raw_message : RawMessage;
  rtl_status : Status;
  rtl_retry_count : Z;
  rtl_error_detail : option string;
  rtl_report_sequence : Z;
  rtl_updated_at : option Z;
}.

Record Tables := mkTables {
  tcp_receive_logs : list TcpReceiveLog;
  disaster_publish_logs : list DisasterPublishLog;
  mq_receive_logs : list MqReceiveLog;
  report_transmit_logs : list ReportTransmitLog;
}.

Record Db := mkDb {
  committed : Tables;
  in_txn : option Tables;
  next_id : Z;
}.

Definition empty_tables : Tables := mkTables [] [] [] [].
Definition empty : Db := mkDb empty_tables None 1.

(** Which connection runs a query: the pool (a connection of its own, in
    autocommit) or the checked-out client. *)
Inductive Conn := Pool | Client.

(** The rows a query on that connection reads. *)
Definition view (c : Conn) (db : Db) : Tables :=
  match c, in_txn db with
  | Client, Some t => t
  | _, _ => committed db
  end.

(** A write on that connection. A write of the pool is committed at once
    and is visible to the client's later statements. *)
Definition exec (c : Conn) (f : Tables → Tables) (db : Db) : Db :=
  match c, in_txn db with
  | Client, Some t => mkDb (committed db) (Some (f t)) (next_id db)
  | Client, None => mkDb (f (committed db)) None (next_id db)
  | Pool, t => mkDb (f (committed db)) (f <$> t) (next_id db)
  end.

Definition nextval (db : Db) : Z * Db :=
  (next_id db, mkDb (committed db) (in_txn db) (next_id db + 1)).

(** [client.query('BEGIN')], ['COMMIT'], ['ROLLBACK'] *)
Definition begin (db : Db) : Db :=
  match in_txn db with
  | Some _ => db
  | None => mkDb (committed db) (Some (committed db)) (next_id db)
  end.

Definition commit (db : Db) : Db :=
  match in_txn db with
  | Some t => mkDb t None (next_id db)
  | None => db
  end.

Definition rollback (db : Db) : Db := mkDb (committed db) None (next_id db).

(** *** tcpReceiveLogRepository *)

Definition set_tcp_receive_logs (f : list TcpReceiveLog → list TcpReceiveLog) (t : Tables) :=
  mkTables (f (tcp_receive_logs t)) (disaster_publish_logs t) (mq_receive_logs t)
    (report_transmit_logs t).

Definition set_disaster_publish_logs (f : list DisasterPublishLog → list DisasterPublishLog)
    (t : Tables) :=
  mkTables (tcp_receive_logs t) (f (disaster_publish_logs t)) (mq_receive_logs t)
    (report_transmit_logs t).

Definition set_mq_receive_logs (f : list MqReceiveLog → list MqReceiveLog) (t : Tables) :=
  mkTables (tcp_receive_logs t) (disaster_publish_logs t) (f (mq_receive_logs t))
    (report_transmit_logs t).

Definition set_report_transmit_logs (f : list ReportTransmitLog → list ReportTransmitLog)
    (t : Tables) :=
  mkTables (tcp_receive_logs t) (disaster_publish_logs t) (mq_receive_logs t)
    (f (report_transmit_logs t)).

(** [isDuplicate(inboundId, inboundSeq, client)] *)
Definition tcp_isDuplicate (c : Conn) (inboundId : string) (inboundSeq : Z) (db : Db) : bool :=
  existsb (λ r, bool_decide (trl_inbound_id r = inboundId ∧ trl_inbound_seq r = inboundSeq))
    (tcp_receive_logs (view c db)).

(** [create({ inboundId, inboundSeq, rawMessage }, client)]: the new id, or
    [None] when the unique constraint on (inbound_id, inbound_seq) rejects
    the row. *)
Definition tcp_create (c : Conn) (inboundId : string) (inboundSeq : Z)
    (rawMessage : Cap.ReceivedData) (db : Db) : option (Z * Db) :=
  if tcp_isDuplicate c inboundId inboundSeq db then None
  else
    let '(id, db1) := nextval db in
    Some (id, exec c (set_tcp_receive_logs
                        (λ l, l ++ [mkTcpReceiveLog id inboundId inboundSeq rawMessage
                                      PENDING None])) db1).

(** [updateStatus(logId, status, errorMessage, client)] *)
Definition tcp_updateStatus (c : Conn) (logId : Z) (status : Status)
    (errorMessage : option string) (db : Db) : Db :=
  exec c (set_tcp_receive_logs
            (map (λ r, if decide (trl_id r = logId)
                       then mkTcpReceiveLog (trl_id r) (trl_inbound_id r) (trl_inbound_seq r)
                              (trl_raw_message r) status errorMessage
                       else r))) db.

(** *** disasterPublishLogRepository *)

(** [existsByIdentifier(identifier)], on the pool *)
Definition dpl_existsByIdentifier (identifier : string) (db : Db) : bool :=
  existsb (λ r, bool_decide (dpl_identifier r = identifier))
    (disaster_publish_logs (view Pool db)).

(** [findByIdentifier(identifier)], on the pool *)
Definition dpl_findByIdentifier (identifier : string) (db : Db) : option DisasterPublishLog :=
  head (filter (λ r, dpl_identifier r = identifier) (disaster_publish_logs (view Pool db))).

(** [create(logData, client)], with ON CONFLICT (identifier) DO NOTHING *)
Definition dpl_create (c : Conn) (tcpReceiveLogId : Z) (routingKey : string)
    (rawMessage : Cap.ReceivedData) (identifier eventCode : string) (db : Db) : Db :=
  let '(id, db1) := nextval db in
  exec c (set_disaster_publish_logs
            (λ l, if existsb (λ r, bool_decide (dpl_identifier r = identifier)) l then l
                  else l ++ [mkDisasterPublishLog id tcpReceiveLogId routingKey identifier
                               eventCode rawMessage PENDING 0])) db1.

Definition dpl_updateStatusById (logId : Z) (status : Status) (db : Db) : Db :=
  exec Pool (set_disaster_publish_logs
               (map (λ r, if decide (dpl_id r = logId)
                          then mkDisasterPublishLog (dpl_id r) (dpl_tcp_receive_log_id r)
                                 (dpl_routing_key r) (dpl_identifier r) (dpl_event_code r)
                                 (dpl_raw_message r) status (dpl_retry_count r)
                          else r))) db.

Definition dpl_incrementRetryCount (logId : Z) (db : Db) : Db :=
  exec Pool (set_disaster_publish_logs
               (map (λ r, if decide (dpl_id r = logId)
                          then mkDisasterPublishLog (dpl_id r) (dpl_tcp_receive_log_id r)
                                 (dpl_routing_key r) (dpl_identifier r) (dpl_event_code r)
                                 (dpl_raw_message r) (dpl_status r) (dpl_retry_count r + 1)
                          else r))) db.

Definition dpl_findUnprocessedMessages (db : Db) : list DisasterPublishLog :=
  filter (λ r, dpl_status r = PENDING) (disaster_publish_logs (view Pool db)).

(** *** mqReceiveLogRepository *)

(** [create(rawMessage, client = pool)]: a new PENDING row, RETURNING id *)
Definition mq_create (c : Conn) (rawMessage : string) (db : Db) : Z * Db :=
  let '(id, db1) := nextval db in
  (id, exec c (set_mq_receive_logs (λ l, l ++ [mkMqReceiveLog id rawMessage PENDING None])) db1).

(** [updateStatus(logId, status, errorMessage, client = pool)] *)
Definition mq_updateStatus (c : Conn) (logId : Z) (status : Status)
    (errorMessage : option string) (db : Db) : Db :=
  exec c (set_mq_receive_logs
            (map (λ r, if decide (mrl_id r = logId)
                       then mkMqReceiveLog (mrl_id r) (mrl_raw_message r) status errorMessage
                       else r))) db.

(** The raw_message column of the inbox, in row order. *)
Definition inbox_column (t : Tables) : list string := mrl_raw_message <$> mq_receive_logs t.

(** The inbox holds exactly the messages [X], for every connection. *)
Definition inbox_is (X : list string) (db : Db) : Prop :=
  inbox_column (committed db) = X
  ∧ match in_txn db with Some t => inbox_column t = X | None => True end.

(** *** reportTransmitLogRepository (every query runs on the pool) *)

Definition report_types : list string := ["DISASTER_RESULT"; "DEVICE_INFO"; "DEVICE_STATUS"].

(** [create(mqReceiveLogId, type, outboundId, externalSystemName, rawMessage)]:
    [None] when a NOT NULL column gets no value or the check on [type]
    rejects the row. The defaults are status PENDING, retry_count 0 and
    report_sequence 1. *)
Definition rtl_create (mqReceiveLogId : Z) (type : option string) (outboundId : string)
    (externalSystemName : option string) (rawMessage : option RawMessage) (db : Db)
  : option Db :=
  ty ← type;
  name ← externalSystemName;
  raw ← rawMessage;
  if bool_decide (ty ∈ report_types) then
    let '(id, db1) := nextval db in
    Some (exec Pool (set_report_transmit_logs
                       (λ l, l ++ [mkReportTransmitLog id mqReceiveLogId ty outboundId name raw
                                     PENDING 0 None 1 None])) db1)
  else None.

Definition rtl_update (f : ReportTransmitLog → ReportTransmitLog) (logId : Z) (db : Db) : Db :=
  exec Pool (set_report_transmit_logs
               (map (λ r, if decide (rtl_id r = logId) then f r else r))) db.

(** [updateStatusById(logId, status, errorDetail = null)]; the row trigger
    stamps [updated_at]. *)
Definition rtl_updateStatusById (now : Z) (logId : Z) (status : Status)
    (errorDetail : option string) (db : Db) : Db :=
  rtl_update (λ r, mkReportTransmitLog (rtl_id r) (rtl_mq_receive_log_id r) (rtl_type r)
                     (rtl_outbound_id r) (rtl_external_system_name r) (rtl_raw_message r)
                     status (rtl_retry_count r) errorDetail (rtl_report_sequence r)
                     (Some now)) logId db.

(** [incrementRetryCountAndReportSequence(logId)] *)
Definition rtl_incrementRetryCountAndReportSequence (now : Z) (logId : Z) (db : Db) : Db :=
  rtl_update (λ r, mkReportTransmitLog (rtl_id r) (rtl_mq_receive_log_id r) (rtl_type r)
                     (rtl_outbound_id r) (rtl_external_system_name r) (rtl_raw_message r)
                     (rtl_status r) (rtl_retry_count r + 1) (rtl_error_detail r)
                     (rtl_report_sequence r + 1) (Some now)) logId db.

(** [findByOutboundIdAndReportSequence(outboundId, reportSequence)] *)
Definition rtl_findByOutboundIdAndReportSequence (outboundId : string) (reportSequence : Z)
    (db : Db) : option ReportTransmitLog :=
  head (filter (λ r, rtl_outbound_id r = outboundId ∧ rtl_report_sequence r = reportSequence)
          (report_transmit_logs (view Pool db))).

(** The WHERE clause of [findUnprocessedMessages]; a NULL [updated_at]
    makes the comparison unknown. *)
Definition rtl_unprocessed (now : Z) (r : ReportTransmitLog) : bool :=
  bool_decide (rtl_status r = PENDING)
  || (bool_decide (rtl_status r = SENT)
      && match rtl_updated_at r with
         | Some t => bool_decide (t < now - CentralConfig.TRANSMISSION_TIMEOUT)
         | None => false
         end).

Definition rtl_findUnprocessedMessages (now : Z) (db : Db) : list ReportTransmitLog :=
  filter (λ r, rtl_unprocessed now r = true) (report_transmit_logs (view Pool db)).

Definition rtl_findById (logId : Z) (db : Db) : option ReportTransmitLog :=
  head (filter (λ r, rtl_id r = logId) (report_transmit_logs (view Pool db))).

End CentralDb.

(** ** central-service/src/core/utils/sessionManager.js *)

Module CentralSession.

(** The [net.Socket] held in [currentSocket]. *)
Record Socket := mkSocket {
  destroyed : bool;
  writable : bool;
  written : list Buffer.t;
}.

Record t := mkSession { currentSocket : option Socket }.

Definition isConnected (s : t) : bool :=
  match currentSocket s with
  | Some k => negb (destroyed k) && writable k
  | None => false
  end.

(** [send(messageBuffer, logContext)] *)
Definition send (messageBuffer : Buffer.t) (s : t) : t :=
  match currentSocket s with
  | Some k =>
      if negb (destroyed k) && writable k
      then mkSession (Some (mkSocket (destroyed k) (writable k) (written k ++ [messageBuffer])))
      else s
  | None => s
  end.

(** [send] of what [buildMessageBuffer] returned. With its [null],
    [write] throws and the [catch] destroys the socket. *)
Definition send_value (messageBuffer : option Buffer.t) (s : t) : t :=
  match messageBuffer with
  | Some b => send b s
  | None =>
      match currentSocket s with
      | Some k =>
          if negb (destroyed k) && writable k
          then mkSession (Some (mkSocket true false (written k)))
          else s
      | None => s
      end
  end.

(** Everything written to the current socket so far. *)
Definition output (s : t) : list Buffer.t :=
  match currentSocket s with
  | Some k => written k
  | None => []
  end.

End CentralSession.

(** ** disasterHandler.js: the inbound disaster-alert pipeline *)

Module DisasterHandler.

(** The calls of [handleDisasterInfo] that can reject, in program order;
    [Some e] makes that call throw [e]. *)
Record Faults := mkFaults {
  getClient_fails : option Js.Error;
  isDuplicate_fails : option Js.Error;
  create_fails : option Js.Error;
  begin_fails : option Js.Error;
  outbox_create_fails : option Js.Error;
  update_success_fails : option Js.Error;
  commit_fails : option Js.Error;
  rollback_fails : option Js.Error;
  update_failed_fails : option Js.Error;
}.

Definition no_faults : Faults := mkFaults None None None None None None None None None.

Record World := mkWorld {
  db : CentralDb.Db;
  session : CentralSession.t;
}.

(** The [let] variables of [handleDisasterInfo] that the [catch] block
    reads. *)
Record Locals := mkLocals {
  receivedData : option Cap.ReceivedData;
  tcpReceiveLogId : option Z;
  alert : option Cap.Alert;
  client : bool;
}.

(** Step 4, the presence check: the alert with its identifier and event
    code when [alert], [identifier], [sender], [sent] and
    [info.eventCode.value] are all truthy. *)
Definition validated (alert : option Cap.Alert) : option (Cap.Alert * string * string) :=
  a ← alert;
  if Js.truthy (Cap.identifier a) && Js.truthy (Cap.sender a) && Js.truthy (Cap.sent a)
     && Js.truthy (Cap.alert_eventCode a)
  then
    identifier ← Cap.identifier a;
    eventCode ← Cap.alert_eventCode a;
    Some (a, identifier, eventCode)
  else None.

Section WithEnv.

Variable env : CentralConfig.Env.

(** [xmlParser.parseStringPromise(messageBodyBuffer.toString('utf-8'))];
    [None] when the promise rejects. *)
Variable parseXml : Buffer.t → option Cap.ParsedXml.

Variable xml_bytes : Cap.XmlObject → option Buffer.t.

(** [if (buffer) sessionManager.send(buffer, ...)] *)
Definition send_if_built (buffer : option Buffer.t) (s : CentralSession.t) : CentralSession.t :=
  match buffer with
  | Some b => CentralSession.send b s
  | None => s
  end.

(** The [try] block: the world and the locals where it stopped, and the
    error thrown, if any. *)
Definition try_block (f : Faults) (now : string) (w : World) (messageBodyBuffer : Buffer.t)
  : World * Locals * option Js.Error :=
  match getClient_fails f with
  | Some e => (w, mkLocals None None None false, Some e)
  | None =>
  (* 1. the envelope *)
  let parsingError := ResponseUtils.ParsingError "외부 XML 래퍼 파싱 실패." in
  match parseXml messageBodyBuffer with
  | None => (w, mkLocals None None None true, Some parsingError)
  | Some parsedXml =>
  let receivedData := Cap.data parsedXml in
  let inboundId := receivedData ≫= Cap.transMsgId in
  let inboundSeq := receivedData ≫= Cap.transMsgSeq in
  match receivedData, inboundId, inboundSeq with
  | Some rd, Some id, Some seq =>
    if negb (Js.truthy inboundId)
    then (w, mkLocals receivedData None None true, Some parsingError)
    else
    let alert := Cap.capInfo rd ≫= Cap.alert in
    let L := mkLocals receivedData None alert true in
    (* 2. duplicate check *)
    match isDuplicate_fails f with
    | Some e => (w, L, Some e)
    | None =>
    if CentralDb.tcp_isDuplicate CentralDb.Client id seq (db w)
    then (w, L, Some (ResponseUtils.DuplicateMessageError
                        ("메시지 중복 (Inbound ID: " +:+ id +:+ ", Seq: " +:+ pretty seq +:+ ")")))
    else
    (* 3. the inbox row, outside the transaction *)
    match create_fails f with
    | Some e => (w, L, Some e)
    | None =>
    match CentralDb.tcp_create CentralDb.Client id seq rd (db w) with
    | None => (w, L, Some (Js.mkError "error" "duplicate key value violates unique constraint"))
    | Some (logId, db1) =>
    let L := mkLocals receivedData (Some logId) alert true in
    match begin_fails f with
    | Some e => (mkWorld db1 (session w), L, Some e)
    | None =>
    let db2 := CentralDb.begin db1 in
    (* 4. presence of the CAP fields *)
    match validated alert with
    | None =>
        (mkWorld db2 (session w), L,
         Some (ResponseUtils.ValidationError
                 "필수 필드(alert, identifier, sender, sent, eventCode)가 누락되었습니다."))
    | Some (_, identifier, eventCode) =>
    (* 5. the allowlist *)
    if negb (bool_decide (eventCode ∈ CentralConfig.VALID_EVENT_CODES))
    then (mkWorld db2 (session w), L,
          Some (ResponseUtils.ProfileError ("정의되지 않은 Event Code: " +:+ eventCode)))
    else
    (* 6. the outbox row *)
    let routingKey := "disaster." +:+ eventCode in
    match outbox_create_fails f with
    | Some e => (mkWorld db2 (session w), L, Some e)
    | None =>
    let db3 := CentralDb.dpl_create CentralDb.Client logId routingKey rd identifier eventCode db2 in
    (* 7. inbox to SUCCESS, commit *)
    match update_success_fails f with
    | Some e => (mkWorld db3 (session w), L, Some e)
    | None =>
    let db4 := CentralDb.tcp_updateStatus CentralDb.Client logId CentralDb.SUCCESS None db3 in
    match commit_fails f with
    | Some e => (mkWorld db4 (session w), L, Some e)
    | None =>
    let db5 := CentralDb.commit db4 in
    (* 8. the positive reply *)
    let successBuffer :=
      ResponseUtils.createCnfDisInfoBuffer env xml_bytes now rd (Cap.capInfo rd) None in
    (mkWorld db5 (send_if_built successBuffer (session w)), L, None)
    end end end end end end end end
  | _, _, _ => (w, mkLocals receivedData None None true, Some parsingError)
  end end end.

(** The [catch] block. *)
Definition catch_block (f : Faults) (now : string) (w : World) (L : Locals) (err : Js.Error)
  : World :=
  let db1 :=
    if client L then
      match rollback_fails f with
      | Some _ => db w
      | None => CentralDb.rollback (db w)
      end
    else db w in
  let db2 :=
    match tcpReceiveLogId L with
    | Some logId =>
        match update_failed_fails f with
        | Some _ => db1
        | None =>
            CentralDb.tcp_updateStatus
              (if client L then CentralDb.Client else CentralDb.Pool)
              logId CentralDb.FAILED (Some (Js.message err)) db1
        end
    | None => db1
    end in
  let session' :=
    match receivedData L with
    | Some rd =>
        let errorBuffer :=
          ResponseUtils.createCnfDisInfoBuffer env xml_bytes now rd
            (match alert L with Some _ => Cap.capInfo rd | None => None end) (Some err) in
        send_if_built errorBuffer (session w)
    | None => session w
    end in
  mkWorld db2 session'.

(** [handleDisasterInfo(messageBodyBuffer)] *)
Definition handleDisasterInfo (f : Faults) (now : string) (w : World)
    (messageBodyBuffer : Buffer.t) : World :=
  match try_block f now w messageBodyBuffer with
  | (w1, _, None) => w1
  | (w1, L, Some err) => catch_block f now w1 L err
  end.

(** The XML object of the reply that a run of [handleDisasterInfo] hands
    to the framer inside [createCnfDisInfoBuffer], if it builds one. *)
Definition reply_object (f : Faults) (now : string) (w : World) (messageBodyBuffer : Buffer.t)
  : option Cap.CnfDisInfo :=
  match try_block f now w messageBodyBuffer with
  | (_, L, None) =>
      rd ← receivedData L;
      ResponseUtils.responseXmlObject env now rd (Cap.capInfo rd) None
  | (_, L, Some err) =>
      rd ← receivedData L;
      ResponseUtils.responseXmlObject env now rd
        (match alert L with Some _ => Cap.capInfo rd | None => None end) (Some err)
  end.

(** [buildMessageBuffer(ETS_CNF_DIS_INFO, responseXmlObject)] *)
Definition frame_reply (obj : Cap.CnfDisInfo) : option Buffer.t :=
  Protocol.buildMessageBuffer CentralConfig.DATA_FORMAT (CentralConfig.MAGIC_NUMBER env)
    xml_bytes CentralConfig.ETS_CNF_DIS_INFO (Cap.XmlCnfDisInfo obj).

End WithEnv.

End DisasterHandler.

(** ** amqplib deliveries and channel operations *)

Module Amqp.

(** A [ConsumeMessage]: the content as [msg.content.toString()], the
    routing key, the header [x-retry-count] and the delivery tag. *)
Record Delivery := mkDelivery {
  content : string;
  routingKey : string;
  x_retry_count : option Z;
  deliveryTag : Z;
}.

(** What a consumer does on the channel. *)
Inductive Action :=
  | Ack (tag : Z)
  | Nack (tag : Z) (requeue : bool)
  | Publish (exchange key content : string) (x_retry_count : option Z).

(** [msg.properties.headers['x-retry-count'] || 0] *)
Definition retryCount (msg : Delivery) : Z :=
  match x_retry_count msg with
  | Some n => if decide (n = 0) then 0 else n
  | None => 0
  end.

End Amqp.

(** ** central-service messageBrokerService.js, [_consumeReportMessage] *)

Module CentralBroker.

(** The calls that can reject or throw, in program order. *)
Record Faults := mkFaults {
  inbox_create_fails : option Js.Error;
  getClient_fails : option Js.Error;
  begin_fails : option Js.Error;
  exists_fails : option Js.Error;
  outbox_create_fails : option Js.Error;
  inbox_update_fails : option Js.Error;
  commit_fails : option Js.Error;
  rollback_fails : option Js.Error;
  retry_publish_fails : option Js.Error;
  final_update_fails : option Js.Error;
}.

Definition no_faults : Faults :=
  mkFaults None None None None None None None None None None.

Record World := mkWorld {
  db : CentralDb.Db;
  channel : list Amqp.Action;
}.

(** [JSON.parse(messageString)] as far as the consumer reads it. *)
Record MessageContent := mkMessageContent {
  mc_type : option string;
  mc_externalSystemName : option string;
  mc_rawMessage : option CentralDb.RawMessage;
}.

Section WithEnv.

Variable env : CentralConfig.Env.

(** [JSON.parse]; [None] is the [SyntaxError], or the [TypeError] of
    destructuring [null]. *)
Variable JSON_parse : string → option MessageContent.

(** Steps 1 to 6 of the inner [try], after BEGIN: the store they leave and
    the outbound id, or the store where they stopped and the error. *)
Definition process (f : Faults) (now : Z) (mqReceiveLogId : Z) (messageString : string)
    (db0 : CentralDb.Db) : CentralDb.Db * option Js.Error :=
  match JSON_parse messageString with
  | None => (db0, Some (Js.mkError "SyntaxError" "Unexpected token in JSON"))
  | Some messageContent =>
  let type := mc_type messageContent in
  let externalSystemName := mc_externalSystemName messageContent in
  let rawMessage := mc_rawMessage messageContent in
  let outboundId0 := "KR." +:+ CentralConfig.DEST_ID env +:+ "_" +:+ pretty now in
  let resolved : string + Js.Error :=
    if decide (type = Some "DISASTER_RESULT") then
      match rawMessage with
      | None => inr (Js.mkError "TypeError" "Cannot read properties of undefined")
      | Some raw =>
          let identifier := CentralDb.rm_identifier raw in
          match exists_fails f with
          | Some e => inr e
          | None =>
              if match identifier with
                 | Some i => CentralDb.dpl_existsByIdentifier i db0
                 | None => false
                 end
              then inl (Js.template identifier +:+ "_RPT_1")
              else inr (Js.plain_error
                          ("device_publish_logs 테이블에 존재하지 않는 identifier = "
                           +:+ Js.template identifier +:+ "."))
          end
      end
    else inl outboundId0 in
  match resolved with
  | inr e => (db0, Some e)
  | inl outboundId =>
  (* 3. the outbox row, through the pool *)
  match outbox_create_fails f with
  | Some e => (db0, Some e)
  | None =>
  match CentralDb.rtl_create mqReceiveLogId type outboundId externalSystemName rawMessage db0 with
  | None => (db0, Some (Js.mkError "error" "violates a constraint of report_transmit_logs"))
  | Some db1 =>
  (* 4. the inbox row to SUCCESS, through the client *)
  match inbox_update_fails f with
  | Some e => (db1, Some e)
  | None =>
  let db2 := CentralDb.mq_updateStatus CentralDb.Client mqReceiveLogId CentralDb.SUCCESS None db1 in
  (* 5. COMMIT *)
  match commit_fails f with
  | Some e => (db2, Some e)
  | None => (CentralDb.commit db2, None)
  end end end end end end.

(** The outer [catch]: republish with the counter raised, or dead-letter
    and mark the inbox row FAILED. *)
Definition retry_or_dead_letter (f : Faults) (msg : Amqp.Delivery) (mqReceiveLogId : option Z)
    (err : Js.Error) (w : World) : World :=
  let retryCount := Amqp.retryCount msg in
  let tag := Amqp.deliveryTag msg in
  if decide (retryCount < CentralConfig.rabbitmq_MAX_RETRIES) then
    match retry_publish_fails f with
    | None =>
        mkWorld (db w)
          (channel w ++ [Amqp.Publish CentralConfig.REPORT_RETRY_EXCHANGE
                           CentralConfig.REPORT_ROUTING_KEY (Amqp.content msg)
                           (Some (retryCount + 1));
                         Amqp.Ack tag])
    | Some _ => mkWorld (db w) (channel w ++ [Amqp.Nack tag false])
    end
  else
    let db1 :=
      match mqReceiveLogId with
      | Some logId =>
          match final_update_fails f with
          | None =>
              CentralDb.mq_updateStatus CentralDb.Pool logId CentralDb.FAILED
                (Some ("[Final Failed] " +:+ Js.message err)) (db w)
          | Some _ => db w
          end
      | None => db w
      end in
    mkWorld db1 (channel w ++ [Amqp.Nack tag false]).

(** [_consumeReportMessage(msg)] for a delivery ([msg] not [null]). *)
Definition _consumeReportMessage (f : Faults) (now : Z) (w : World) (msg : Amqp.Delivery)
  : World :=
  let messageString := Amqp.content msg in
  match inbox_create_fails f with
  | Some e => retry_or_dead_letter f msg None e w
  | None =>
  let '(mqReceiveLogId, db1) := CentralDb.mq_create CentralDb.Pool messageString (db w) in
  match getClient_fails f with
  | Some e => retry_or_dead_letter f msg (Some mqReceiveLogId) e (mkWorld db1 (channel w))
  | None =>
  let '(db2, r) :=
    match begin_fails f with
    | Some e => (db1, Some e)
    | None => process f now mqReceiveLogId messageString (CentralDb.begin db1)
    end in
  match r with
  | None => mkWorld db2 (channel w ++ [Amqp.Ack (Amqp.deliveryTag msg)])
  | Some dbErr =>
      let db3 :=
        match rollback_fails f with
        | Some _ => db2
        | None => CentralDb.rollback db2
        end in
      retry_or_dead_letter f msg (Some mqReceiveLogId) dbErr (mkWorld db3 (channel w))
  end end end.

(** The consumer on a run of deliveries, one after the other, each with
    its own faults and clock. *)
Definition consume_all (w : World) (ds : list (Faults * Z * Amqp.Delivery)) : World :=
  foldl (λ w d, _consumeReportMessage d.1.1 d.1.2 w d.2) w ds.

End WithEnv.

End CentralBroker.

(** ** The external service's relational store *)

Module ExternalDb.

Abbreviation Status := CentralDb.Status.
Abbreviation PENDING := CentralDb.PENDING.
Abbreviation SENT := CentralDb.SENT.
Abbreviation SUCCESS := CentralDb.SUCCESS.
Abbreviation FAILED := CentralDb.FAILED.

Record ExternalSystem := mkExternalSystem {
  es_id : Z;
  es_system_name : string;
  es_subscribed_event_codes : list string;
  es_is_active : bool;
}.

Record MqReceiveLog := mkMqReceiveLog {
  mrl_id : Z;
  mrl_raw_message : string;
  mrl_status : Status;
  mrl_error_message : option string;
}.

(** [JSON.parse] of a disaster message of the broker, as far as it is read:
    the members [identifier] and [eventCode] and the JSON text. *)
Record DisasterMessage := mkDisasterMessage {
  dm_identifier : option string;
  dm_eventCode : option string;
  dm_json : string;
}.

Record DisasterTransmitLog := mkDisasterTransmitLog {
  dtl_id : Z;
  dtl_mq_receive_log_id : Z;
  dtl_external_system_id : Z;
  dtl_identifier : string;
  dtl_raw_message : DisasterMessage;
  dtl_status : Status;
  dtl_retry_count : Z;
  dtl_updated_at : option Z;
}.

Record ConnectionLog := mkConnectionLog {
  cl_external_system_id : Z;
  cl_event_type : string;
  cl_ip_address : string;
  cl_detail : option string;
}.

Record Tables := mkTables {
  external_systems : list ExternalSystem;
  mq_receive_logs : list MqReceiveLog;
  disaster_transmit_logs : list DisasterTransmitLog;
  connection_logs : list ConnectionLog;
}.

Record Db := mkDb {
  committed : Tables;
  in_txn : option Tables;
  next_id : Z;
}.

Definition empty : Db := mkDb (mkTables [] [] [] []) None 1.

Abbreviation Conn := CentralDb.Conn.
Abbreviation Pool := CentralDb.Pool.
Abbreviation Client := CentralDb.Client.

Definition view (c : Conn) (db : Db) : Tables :=
  match c, in_txn db with
  | Client, Some t => t
  | _, _ => committed db
  end.

Definition exec (c : Conn) (f : Tables → Tables) (db : Db) : Db :=
  match c, in_txn db with
  | Client, Some t => mkDb (committed db) (Some (f t)) (next_id db)
  | Client, None => mkDb (f (committed db)) None (next_id db)
  | Pool, t => mkDb (f (committed db)) (f <$> t) (next_id db)
  end.

Definition begin (db : Db) : Db :=
  match in_txn db with
  | Some _ => db
  | None => mkDb (committed db) (Some (committed db)) (next_id db)
  end.

Definition commit (db : Db) : Db :=
  match in_txn db with
  | Some t => mkDb t None (next_id db)
  | None => db
  end.

Definition rollback (db : Db) : Db := mkDb (committed db) None (next_id db).

Definition set_mq_receive_logs (f : list MqReceiveLog → list MqReceiveLog) (t : Tables) :=
  mkTables (external_systems t) (f (mq_receive_logs t)) (disaster_transmit_logs t)
    (connection_logs t).

Definition set_disaster_transmit_logs
    (f : list DisasterTransmitLog → list DisasterTransmitLog) (t : Tables) :=
  mkTables (external_systems t) (mq_receive_logs t) (f (disaster_transmit_logs t))
    (connection_logs t).

Definition set_connection_logs (f : list ConnectionLog → list ConnectionLog) (t : Tables) :=
  mkTables (external_systems t) (mq_receive_logs t) (disaster_transmit_logs t)
    (f (connection_logs t)).

(** *** mqReceiveLogRepository of the external service *)

(** Modelled from the spec: mqReceiveLogRepository.js of the external
    service is not among the sources; section 4.5, step 2 has the consumer
    "Insert mq_receive_log(raw_message) status PENDING", which is also what
    the central service's repository of the same name does. *)
Definition mq_create (c : Conn) (rawMessage : string) (db : Db) : Z * Db :=
  let id := next_id db in
  (id, exec c (set_mq_receive_logs (λ l, l ++ [mkMqReceiveLog id rawMessage PENDING None]))
         (mkDb (committed db) (in_txn db) (next_id db + 1))).

(** Modelled from the spec: [updateStatus(logId, status, errorMessage,
    client)] of the same missing file; section 4.5 has "Update inbox to
    SUCCESS" and "update inbox to FAILED with [Final Failed] reason". *)
Definition mq_updateStatus (c : Conn) (logId : Z) (status : Status)
    (errorMessage : option string) (db : Db) : Db :=
  exec c (set_mq_receive_logs
            (map (λ r, if decide (mrl_id r = logId)
                       then mkMqReceiveLog (mrl_id r) (mrl_raw_message r) status errorMessage
                       else r))) db.

(** The raw_message column of the inbox, in row order. *)
Definition inbox_column (t : Tables) : list string := mrl_raw_message <$> mq_receive_logs t.

(** The inbox holds exactly the messages [X], for every connection. *)
Definition inbox_is (X : list string) (db : Db) : Prop :=
  inbox_column (committed db) = X
  ∧ match in_txn db with Some t => inbox_column t = X | None => True end.

(** *** externalSystemRepository *)

(** [findBySubscribedEventCode(eventCode)]; an [undefined] code is sent as
    NULL and matches nothing. *)
Definition findBySubscribedEventCode (eventCode : option string) (db : Db)
  : list ExternalSystem :=
  match eventCode with
  | Some code =>
      filter (λ s, code ∈ es_subscribed_event_codes s ∧ es_is_active s = true)
        (external_systems (view Pool db))
  | None => []
  end.

(** *** disasterTransmitLogRepository *)

(** One row of the VALUES list, with ON CONFLICT (external_system_id,
    identifier) DO NOTHING. *)
Definition dtl_insert (id mqReceiveLogId externalSystemId : Z) (identifier : string)
    (rawMessage : DisasterMessage) (l : list DisasterTransmitLog) : list DisasterTransmitLog :=
  if existsb (λ r, bool_decide (dtl_external_system_id r = externalSystemId
                                ∧ dtl_identifier r = identifier)) l
  then l
  else l ++ [mkDisasterTransmitLog id mqReceiveLogId externalSystemId identifier rawMessage
               PENDING 0 None].

(** The rows of one statement take consecutive values of the sequence. *)
Fixpoint dtl_insert_all (id mqReceiveLogId : Z) (systems : list Z) (identifier : string)
    (rawMessage : DisasterMessage) (l : list DisasterTransmitLog) : list DisasterTransmitLog :=
  match systems with
  | [] => l
  | s :: rest =>
      dtl_insert_all (id + 1) mqReceiveLogId rest identifier rawMessage
        (dtl_insert id mqReceiveLogId s identifier rawMessage l)
  end.

(** [createBulk(logs, client)] for the logs the consumer builds: one per
    subscribed system, all with the same inbox id, identifier and message.
    [None] is the NOT NULL violation of an [undefined] identifier. *)
Definition dtl_createBulk (c : Conn) (mqReceiveLogId : Z) (systems : list Z)
    (identifier : option string) (rawMessage : DisasterMessage) (db : Db) : option Db :=
  match systems with
  | [] => Some db
  | _ =>
      ident ← identifier;
      let id := next_id db in
      Some (exec c (set_disaster_transmit_logs
                      (dtl_insert_all id mqReceiveLogId systems ident rawMessage))
              (mkDb (committed db) (in_txn db) (next_id db + Z.of_nat (length systems))))
  end.

(** [existsByIdentifier(identifier)] *)
Definition dtl_existsByIdentifier (identifier : string) (db : Db) : bool :=
  existsb (λ r, bool_decide (dtl_identifier r = identifier))
    (disaster_transmit_logs (view Pool db)).

(** [findById(logId)] *)
Definition dtl_findById (logId : Z) (db : Db) : option DisasterTransmitLog :=
  head (filter (λ r, dtl_id r = logId) (disaster_transmit_logs (view Pool db))).

Definition dtl_update (f : DisasterTransmitLog → DisasterTransmitLog) (logId : Z) (db : Db)
  : Db :=
  exec Pool (set_disaster_transmit_logs
               (map (λ r, if decide (dtl_id r = logId) then f r else r))) db.

(** [updateStatusById(logId, status)]; the row trigger stamps [updated_at]. *)
Definition dtl_updateStatusById (now : Z) (logId : Z) (status : Status) (db : Db) : Db :=
  dtl_update (λ r, mkDisasterTransmitLog (dtl_id r) (dtl_mq_receive_log_id r)
                     (dtl_external_system_id r) (dtl_identifier r) (dtl_raw_message r)
                     status (dtl_retry_count r) (Some now)) logId db.

(** [incrementRetryCount(logId)] *)
Definition dtl_incrementRetryCount (now : Z) (logId : Z) (db : Db) : Db :=
  dtl_update (λ r, mkDisasterTransmitLog (dtl_id r) (dtl_mq_receive_log_id r)
                     (dtl_external_system_id r) (dtl_identifier r) (dtl_raw_message r)
                     (dtl_status r) (dtl_retry_count r + 1) (Some now)) logId db.

(** config.disasterTransmitWorker.TRANSMISSION_TIMEOUT *)
Definition TRANSMISSION_TIMEOUT : Z := 10000.

(** [findUnprocessedMessages()]: the ids of PENDING rows and of SENT rows
    not updated for TRANSMISSION_TIMEOUT. *)
Definition dtl_unprocessed (now : Z) (r : DisasterTransmitLog) : bool :=
  bool_decide (dtl_status r = PENDING)
  || (bool_decide (dtl_status r = SENT)
      && match dtl_updated_at r with
         | Some t => bool_decide (t < now - TRANSMISSION_TIMEOUT)
         | None => false
         end).

Definition dtl_findUnprocessedMessages (now : Z) (db : Db) : list Z :=
  dtl_id <$>
    filter (λ r, dtl_unprocessed now r = true) (disaster_transmit_logs (view Pool db)).

(** *** connectionLogRepository *)

(** [create({ externalSystemId, eventType, ipAddress, detail })] *)
Definition cl_create (externalSystemId : Z) (eventType ipAddress : string)
    (detail : option string) (db : Db) : Db :=
  exec Pool (set_connection_logs
               (λ l, l ++ [mkConnectionLog externalSystemId eventType ipAddress detail])) db.

End ExternalDb.

(** ** external-service messageBrokerService.js, [_consumeDisasterMessage] *)

Module ExternalBroker.

(** config.rabbitmq of the external service *)
Definition MAX_RETRIES : Z := 3.
Definition DISASTER_RETRY_EXCHANGE : string := "disaster_retry".

(** The calls that can reject or throw, in program order. *)
Record Faults := mkFaults {
  inbox_create_fails : option Js.Error;
  getClient_fails : option Js.Error;
  begin_fails : option Js.Error;
  find_systems_fails : option Js.Error;
  outbox_create_fails : option Js.Error;
  inbox_update_fails : option Js.Error;
  commit_fails : option Js.Error;
  rollback_fails : option Js.Error;
  retry_publish_fails : option Js.Error;
  final_update_fails : option Js.Error;
}.

Definition no_faults : Faults :=
  mkFaults None None None None None None None None None None.

Record World := mkWorld {
  db : ExternalDb.Db;
  channel : list Amqp.Action;
}.

Section WithEnv.

(** [JSON.parse]; [None] is the error it throws, or the [TypeError] of
    reading a member of [null]. *)
Variable JSON_parse : string → option ExternalDb.DisasterMessage.

(** Steps 2 to 7 of the inner [try], after BEGIN. *)
Definition process (f : Faults) (mqReceiveLogId : Z) (messageString : string)
    (db0 : ExternalDb.Db) : ExternalDb.Db * option Js.Error :=
  match JSON_parse messageString with
  | None => (db0, Some (Js.mkError "SyntaxError" "Unexpected token in JSON"))
  | Some messageContent =>
  let identifier := ExternalDb.dm_identifier messageContent in
  (* 3. the subscribers of the event code *)
  match find_systems_fails f with
  | Some e => (db0, Some e)
  | None =>
  let subscribedSystems :=
    ExternalDb.findBySubscribedEventCode (ExternalDb.dm_eventCode messageContent) db0 in
  (* 4, 5. one outbox row per subscriber, through the client *)
  let created : ExternalDb.Db + Js.Error :=
    match subscribedSystems with
    | [] => inl db0
    | _ =>
        match outbox_create_fails f with
        | Some e => inr e
        | None =>
            match ExternalDb.dtl_createBulk ExternalDb.Client mqReceiveLogId
                    (ExternalDb.es_id <$> subscribedSystems) identifier messageContent db0 with
            | Some db1 => inl db1
            | None => inr (Js.mkError "error" "null value in column identifier")
            end
        end
    end in
  match created with
  | inr e => (db0, Some e)
  | inl db1 =>
  (* 6. the inbox row to SUCCESS *)
  match inbox_update_fails f with
  | Some e => (db1, Some e)
  | None =>
  let db2 := ExternalDb.mq_updateStatus ExternalDb.Client mqReceiveLogId ExternalDb.SUCCESS
               None db1 in
  (* 7. COMMIT *)
  match commit_fails f with
  | Some e => (db2, Some e)
  | None => (ExternalDb.commit db2, None)
  end end end end end.

(** The outer [catch]. *)
Definition retry_or_dead_letter (f : Faults) (msg : Amqp.Delivery) (mqReceiveLogId : option Z)
    (err : Js.Error) (w : World) : World :=
  let retryCount := Amqp.retryCount msg in
  let tag := Amqp.deliveryTag msg in
  if decide (retryCount < MAX_RETRIES) then
    match retry_publish_fails f with
    | None =>
        mkWorld (db w)
          (channel w ++ [Amqp.Publish DISASTER_RETRY_EXCHANGE (Amqp.routingKey msg)
                           (Amqp.content msg) (Some (retryCount + 1));
                         Amqp.Ack tag])
    | Some _ => mkWorld (db w) (channel w ++ [Amqp.Nack tag false])
    end
  else
    let db1 :=
      match mqReceiveLogId with
      | Some logId =>
          match final_update_fails f with
          | None =>
              ExternalDb.mq_updateStatus ExternalDb.Pool logId ExternalDb.FAILED
                (Some ("[Final Failed] " +:+ Js.message err)) (db w)
          | Some _ => db w
          end
      | None => db w
      end in
    mkWorld db1 (channel w ++ [Amqp.Nack tag false]).

(** [_consumeDisasterMessage(msg)] for a delivery ([msg] not [null]). A
    ROLLBACK that rejects replaces the error that is handed on. *)
Definition _consumeDisasterMessage (f : Faults) (w : World) (msg : Amqp.Delivery) : World :=
  let messageString := Amqp.content msg in
  match inbox_create_fails f with
  | Some e => retry_or_dead_letter f msg None e w
  | None =>
  let '(mqReceiveLogId, db1) := ExternalDb.mq_create ExternalDb.Pool messageString (db w) in
  match getClient_fails f with
  | Some e => retry_or_dead_letter f msg (Some mqReceiveLogId) e (mkWorld db1 (channel w))
  | None =>
  let '(db2, r) :=
    match begin_fails f with
    | Some e => (db1, Some e)
    | None => process f mqReceiveLogId messageString (ExternalDb.begin db1)
    end in
  match r with
  | None => mkWorld db2 (channel w ++ [Amqp.Ack (Amqp.deliveryTag msg)])
  | Some dbErr =>
      match rollback_fails f with
      | Some e => retry_or_dead_letter f msg (Some mqReceiveLogId) e (mkWorld db2 (channel w))
      | None =>
          retry_or_dead_letter f msg (Some mqReceiveLogId) dbErr
            (mkWorld (ExternalDb.rollback db2) (channel w))
      end
  end end end.

(** The consumer on a run of deliveries, one after the other, each with
    its own faults. *)
Definition consume_all (w : World) (ds : list (Faults * Amqp.Delivery)) : World :=
  foldl (λ w d, _consumeDisasterMessage d.1 w d.2) w ds.

End WithEnv.

End ExternalBroker.

(** ** external-service/src/socket/sessionManager.js *)

Module ExternalSession.

(** [socket.system], the external_systems row attached by the
    authentication middleware. Its [id] is a bigserial value, which
    node-postgres delivers as a non-empty string: it is never falsy. *)
Record System := mkSystem {
  sys_id : Z;
  sys_system_name : string;
}.

(** A Socket.IO socket. [ref] stands for the identity of the JavaScript
    object, which is what [===] compares. *)
Record Socket := mkSocket {
  ref : nat;
  socket_id : string;
  system : option System;
  address : string;
}.

#[global] Instance System_eq_dec : EqDecision System.
Proof. solve_decision. Defined.

#[global] Instance Socket_eq_dec : EqDecision Socket.
Proof. solve_decision. Defined.

(** The effects of the session manager, in the order they happen. *)
Inductive Effect :=
  | Logged (log : ExternalDb.ConnectionLog)
  | Disconnected (socket : nat)
  | MapDeleted (systemId : Z)
  | MapSet (systemId : Z) (socket : nat).

(** [activeSockets], the store (for external_system_connection_logs), the
    sockets closed by [disconnect(true)], and the effects so far. *)
Record State := mkState {
  activeSockets : gmap Z Socket;
  db : ExternalDb.Db;
  closed : list nat;
  trace : list Effect;
}.

Definition initial : State := mkState ∅ ExternalDb.empty [] [].

(** The two inserts of [addSocket] and the insert of [removeSocket] can
    reject. *)
Record Faults := mkFaults {
  log_disconnected_fails : option Js.Error;
  log_connected_fails : option Js.Error;
  log_removed_fails : option Js.Error;
}.

Definition no_faults : Faults := mkFaults None None None.

(** [connectionLogRepository.create(log)] *)
Definition log_event (log : ExternalDb.ConnectionLog) (st : State) : State :=
  mkState (activeSockets st)
    (ExternalDb.cl_create (ExternalDb.cl_external_system_id log) (ExternalDb.cl_event_type log)
       (ExternalDb.cl_ip_address log) (ExternalDb.cl_detail log) (db st))
    (closed st) (trace st ++ [Logged log]).

(** [socket.disconnect(true)] *)
Definition disconnect (socket : Socket) (st : State) : State :=
  mkState (activeSockets st) (db st) (closed st ++ [ref socket])
    (trace st ++ [Disconnected (ref socket)]).

(** [activeSockets.delete(systemId)] *)
Definition map_delete (systemId : Z) (st : State) : State :=
  mkState (delete systemId (activeSockets st)) (db st) (closed st)
    (trace st ++ [MapDeleted systemId]).

(** [activeSockets.set(systemId, socket)] *)
Definition map_set (systemId : Z) (socket : Socket) (st : State) : State :=
  mkState (<[systemId := socket]> (activeSockets st)) (db st) (closed st)
    (trace st ++ [MapSet systemId (ref socket)]).

(** [addSocket(socket)]: the state it leaves and the error it rejects
    with, if any. *)
Definition addSocket (f : Faults) (socket : Socket) (st : State) : State * option Js.Error :=
  match system socket with
  | None => (st, Some (Js.mkError "TypeError" "Cannot read properties of undefined (reading 'id')"))
  | Some sys =>
  let systemId := sys_id sys in
  let socketId := socket_id socket in
  let ipAddress := address socket in
  let replaced : State + Js.Error :=
    match activeSockets st !! systemId with
    | Some existingSocket =>
        match log_disconnected_fails f with
        | Some e => inr e
        | None =>
            let st1 :=
              log_event
                (ExternalDb.mkConnectionLog systemId "SOCKET_DISCONNECTED"
                   (address existingSocket)
                   (Some ("기존 연결(Socket ID: " +:+ socket_id existingSocket
                          +:+ ")을 끊고 새 연결(Socket ID: " +:+ socketId +:+ ") 시도.")))
                st in
            let st2 := disconnect existingSocket st1 in
            inl (map_delete systemId st2)
        end
    | None => inl st
    end in
  match replaced with
  | inr e => (st, Some e)
  | inl st3 =>
  let st4 := map_set systemId socket st3 in
  match log_connected_fails f with
  | Some e => (st4, Some e)
  | None =>
      (log_event
         (ExternalDb.mkConnectionLog systemId "SOCKET_CONNECTED" ipAddress
            (Some ("새로운 연결(Socket ID: " +:+ socketId +:+ ") 완료.")))
         st4,
       None)
  end end end.

(** [removeSocket(socket, reason)] *)
Definition removeSocket (f : Faults) (socket : Socket) (reason : string) (st : State)
  : State * option Js.Error :=
  match system socket with
  | None => (st, None)
  | Some sys =>
  let systemId := sys_id sys in
  match activeSockets st !! systemId with
  | Some current =>
      if decide (ref current = ref socket) then
        let st1 := map_delete systemId st in
        match log_removed_fails f with
        | Some e => (st1, Some e)
        | None =>
            (log_event
               (ExternalDb.mkConnectionLog systemId "SOCKET_DISCONNECTED" (address socket)
                  (Some reason))
               st1,
             None)
        end
      else (st, None)
  | None => (st, None)
  end end.

(** [getSocketBySystemId(systemId)] *)
Definition getSocketBySystemId (systemId : Z) (st : State) : option Socket :=
  activeSockets st !! systemId.

(** The states the manager can be in: from the empty map, by calls of
    [addSocket] and [removeSocket], each running to its end. *)
Inductive reachable : State → Prop :=
  | reachable_initial : reachable initial
  | reachable_add f socket st :
      reachable st → reachable (addSocket f socket st).1
  | reachable_remove f socket reason st :
      reachable st → reachable (removeSocket f socket reason st).1.

End ExternalSession.

(** ** External service: customValidators.js *)

Module CustomValidators.

(** The part of a POST /api/reports/disaster-result request that matters
    here: [req.externalSystem], set by the authentication middleware
    before the validators run, and [req.body.identifier]. *)
Record Request := mkRequest {
  externalSystem : ExternalDb.ExternalSystem;
  body_identifier : string;
}.

(** [isExistingIdentifier(identifier)]: [inl true], or the error thrown. *)
Definition isExistingIdentifier (identifier : string) (db : ExternalDb.Db) : bool + Js.Error :=
  let exists_ := ExternalDb.dtl_existsByIdentifier identifier db in
  if negb exists_ then
    inr (Js.plain_error ("존재하지 않는 재난 정보 식별자(identifier)입니다: " +:+ identifier))
  else inl true.

(** [body('identifier')....custom(isExistingIdentifier)]: express-validator
    calls the function with the field value; the request that comes as the
    second argument is not a parameter of it. *)
Definition accepts (req : Request) (db : ExternalDb.Db) : bool :=
  match isExistingIdentifier (body_identifier req) db with
  | inl _ => true
  | inr _ => false
  end.

(** The validator as the specification words it: the identifier exists in
    disaster_transmit_logs for the submitting subscriber. *)
Definition spec_accepts (req : Request) (db : ExternalDb.Db) : bool :=
  existsb (λ r, bool_decide (ExternalDb.dtl_external_system_id r
                             = ExternalDb.es_id (externalSystem req)
                             ∧ ExternalDb.dtl_identifier r = body_identifier req))
    (ExternalDb.disaster_transmit_logs (ExternalDb.view ExternalDb.Pool db)).

End CustomValidators.


(** ** central-service reliableTransmitService.js and reportTransmitWorker.js *)

Module ReportTransmit.

Definition MAX_RETRIES : Z := CentralConfig.reportTransmitWorker_MAX_RETRIES.

(** What [MESSAGE_IDS[type]] finds: a member of the object itself, a
    member inherited from [Object.prototype] (truthy, and not a case of
    the [switch]), or [undefined]. *)
Inductive Lookup := Own (messageId : Z) | Inherited | Missing.

Definition object_prototype_members : list string :=
  ["constructor"; "hasOwnProperty"; "isPrototypeOf"; "propertyIsEnumerable";
   "toLocaleString"; "toString"; "valueOf"; "__proto__"; "__defineGetter__";
   "__defineSetter__"; "__lookupGetter__"; "__lookupSetter__"].

Definition MESSAGE_IDS (type : string) : Lookup :=
  if decide (type = "DEVICE_INFO") then Own CentralConfig.ETS_NFY_DEVICE_INFO
  else if decide (type = "DEVICE_STATUS") then Own CentralConfig.ETS_NFY_DEVICE_STS
  else if decide (type = "DISASTER_RESULT") then Own CentralConfig.ETS_REQ_DIS_REPORT
  else if bool_decide (type ∈ object_prototype_members) then Inherited
  else Missing.

(** [identifier.slice(0, -6)] *)
Definition slice_0_neg6 (identifier : string) : string :=
  substring 0 (String.length identifier - 6) identifier.

(** The calls that can reject, by call site; [Some e] makes that call
    throw [e]. *)
Record Faults := mkFaults {
  run_find_fails : option Js.Error;        (* findUnprocessedMessages, in _run *)
  find_original_fails : option Js.Error;   (* findByIdentifier, in processMessage *)
  to_sent_fails : option Js.Error;         (* updateStatusById SENT *)
  to_failed_fails : option Js.Error;       (* updateStatusById FAILED, in the catch *)
  pf_find_fails : option Js.Error;         (* findById, in processFailure *)
  pf_update_fails : option Js.Error;       (* updateStatusById PENDING *)
  ack_find_fails : option Js.Error;        (* findByOutboundIdAndReportSequence *)
  ack_success_fails : option Js.Error;     (* updateStatusById SUCCESS *)
}.

Definition no_faults : Faults := mkFaults None None None None None None None None.

(** The store, the session and [activeTimeouts]. A timer is kept as the
    retry count its callback has captured. *)
Record World := mkWorld {
  db : CentralDb.Db;
  session : CentralSession.t;
  activeTimeouts : gmap Z Z;
}.

(** The clock of one call: milliseconds for the row trigger, and the
    formatted Seoul time for [sent]. *)
Record Clock := mkClock { ms : Z; seoul : string }.

(** The [data] element of a report response, as [processAck] reads it. The
    sequence is the integer PostgreSQL reads from the text; [None] stands
    for a missing text and for one that is not an integer, which both
    throw before a row is looked up. *)
Record ResponseData := mkResponseData {
  res_transMsgId : option string;
  res_transMsgSeq : option Z;
  res_resultCode : option string;
  res_result : option string;
}.

Record ParsedResponse := mkParsedResponse { res_data : option ResponseData }.

Section WithEnv.

Variable env : CentralConfig.Env.

Variable xml_bytes : Cap.XmlObject → option Buffer.t.

(** [xmlParser.parseStringPromise] on the body of a response *)
Variable parseResponse : Buffer.t → option ParsedResponse.

(** *** capService.js, the outbound builders *)

Definition buildDeviceInfoCap (now : string) (identifier : string)
    (rawMessage : CentralDb.RawMessage) (systemName : string) : Cap.ReportCap :=
  {| Cap.rc_identifier := identifier;
     Cap.rc_sender := CentralConfig.CENTRAL_SERVICE_SENDER_ID env;
     Cap.rc_sent := now;
     Cap.rc_status := "System";
     Cap.rc_msgType := "Alert";
     Cap.rc_scope := "Private";
     Cap.rc_addresses := CentralConfig.CENTRAL_SYSTEM_SENDER_ID env;
     Cap.rc_code := ["대한민국정부1.2"; "I-C-LAS1.0"];
     Cap.rc_note := None;
     Cap.rc_references := None;
     Cap.rc_category := "Other";
     Cap.rc_event := "단말장치 제원정보";
     Cap.rc_eventCode := "DIS";
     Cap.rc_senderName := "봉화 재난 정보 게이트웨이";
     Cap.rc_headline := systemName +:+ " 단말장치 제원정보";
     Cap.rc_valueName := "DEVICE_DATA";
     Cap.rc_value := CentralDb.rm_json rawMessage |}.

Definition buildDeviceStatusCap (now : string) (identifier : string)
    (rawMessage : CentralDb.RawMessage) (systemName : string) : Cap.ReportCap :=
  {| Cap.rc_identifier := identifier;
     Cap.rc_sender := CentralConfig.CENTRAL_SERVICE_SENDER_ID env;
     Cap.rc_sent := now;
     Cap.rc_status := "System";
     Cap.rc_msgType := "Alert";
     Cap.rc_scope := "Private";
     Cap.rc_addresses := CentralConfig.CENTRAL_SYSTEM_SENDER_ID env;
     Cap.rc_code := ["대한민국정부1.2"; "I-C-LAS1.0"];
     Cap.rc_note := None;
     Cap.rc_references := None;
     Cap.rc_category := "Other";
     Cap.rc_event := "단말장치 상태정보";
     Cap.rc_eventCode := "DIS";
     Cap.rc_senderName := "봉화 재난 정보 게이트웨이";
     Cap.rc_headline := systemName +:+ " 단말장치 상태정보";
     Cap.rc_valueName := "DEVICE_STATUS";
     Cap.rc_value := CentralDb.rm_json rawMessage |}.

Definition buildDisasterResultCap (now : string) (identifier : string)
    (rawMessage : CentralDb.RawMessage) (originalSentTime originalSender : string)
  : Cap.ReportCap :=
  {| Cap.rc_identifier := identifier;
     Cap.rc_sender := CentralConfig.CENTRAL_SERVICE_SENDER_ID env;
     Cap.rc_sent := now;
     Cap.rc_status := "System";
     Cap.rc_msgType := "Ack";
     Cap.rc_scope := "Private";
     Cap.rc_addresses := CentralConfig.CENTRAL_SYSTEM_SENDER_ID env;
     Cap.rc_code := ["대한민국정부1.2"; "I-C-LAS1.0"];
     Cap.rc_note := Some "800";
     Cap.rc_references :=
       Some (originalSender +:+ "," +:+ Js.template (CentralDb.rm_identifier rawMessage)
             +:+ "," +:+ originalSentTime);
     Cap.rc_category := "Other";
     Cap.rc_event := "결과 보고";
     Cap.rc_eventCode := "DIM";
     Cap.rc_senderName := "봉화 재난 정보 게이트웨이";
     Cap.rc_headline := "재난 정보 처리결과";
     Cap.rc_valueName := "LASReport";
     Cap.rc_value := CentralDb.rm_json rawMessage |}.

(** *** reliableTransmitService.js *)

Definition clear_timeout (logId : Z) (w : World) : World :=
  mkWorld (db w) (session w) (delete logId (activeTimeouts w)).

(** [processFailure(logId, currentRetryCount, failureReason)]. The count
    only enters the log line. *)
Definition processFailure (f : Faults) (now : Clock) (logId currentRetryCount : Z)
    (failureReason : string) (w : World) : World :=
  let w1 := clear_timeout logId w in
  match pf_find_fails f with
  | Some _ => w1
  | None =>
  match CentralDb.rtl_findById logId (db w1) with
  | None => w1
  | Some currentLog =>
  if bool_decide (CentralDb.rtl_status currentLog = CentralDb.SUCCESS
                  ∨ CentralDb.rtl_status currentLog = CentralDb.FAILED) then w1
  else
    match pf_update_fails f with
    | Some _ => w1
    | None =>
        mkWorld (CentralDb.rtl_updateStatusById (ms now) logId CentralDb.PENDING
                   (Some failureReason) (db w1))
          (session w1) (activeTimeouts w1)
    end
  end end.

(** The [switch] on [type]: the CAP object, or the error thrown. *)
Definition capObject_of (f : Faults) (now : Clock) (log : CentralDb.ReportTransmitLog)
    (d : CentralDb.Db) : Cap.ReportCap + Js.Error :=
  let identifier := CentralDb.rtl_outbound_id log in
  let rawMessage := CentralDb.rtl_raw_message log in
  let externalSystemName := CentralDb.rtl_external_system_name log in
  let type := CentralDb.rtl_type log in
  if decide (type = "DEVICE_INFO") then
    inl (buildDeviceInfoCap (seoul now) identifier rawMessage externalSystemName)
  else if decide (type = "DEVICE_STATUS") then
    inl (buildDeviceStatusCap (seoul now) identifier rawMessage externalSystemName)
  else if decide (type = "DISASTER_RESULT") then
    let originalIdentifier := slice_0_neg6 identifier in
    match find_original_fails f with
    | Some e => inr e
    | None =>
    match CentralDb.dpl_findByIdentifier originalIdentifier d with
    | None =>
        inr (Js.plain_error ("원본 재난 정보 식별자(" +:+ originalIdentifier
                             +:+ ") 조회 실패. Outbound ID: " +:+ identifier))
    | Some disasterPublishLog =>
        let invalid :=
          Js.plain_error ("원본 재난 로그(" +:+ originalIdentifier
                          +:+ ")의 CAP 정보가 유효하지 않음") in
        match Cap.capInfo (CentralDb.dpl_raw_message disasterPublishLog) ≫= Cap.alert with
        | Some a =>
            match Cap.sent a, Cap.sender a with
            | Some originalSent, Some originalSender =>
                if Js.truthy (Some originalSent) && Js.truthy (Some originalSender)
                then inl (buildDisasterResultCap (seoul now) identifier rawMessage
                            originalSent originalSender)
                else inr invalid
            | _, _ => inr invalid
            end
        | None => inr invalid
        end
    end end
  else inr (Js.plain_error ("정의되지 않은 메시지 타입: " +:+ type)).

(** The [try] block of [processMessage]: the world where it stopped and
    the error thrown, if any. *)
Definition try_block (f : Faults) (now : Clock) (w : World) (log : CentralDb.ReportTransmitLog)
  : World * option Js.Error :=
  let logId := CentralDb.rtl_id log in
  let currentRetryCount := CentralDb.rtl_retry_count log in
  let reportSequence := CentralDb.rtl_report_sequence log in
  let identifier := CentralDb.rtl_outbound_id log in
  let type := CentralDb.rtl_type log in
  match MESSAGE_IDS type with
  | Missing => (w, Some (Js.plain_error ("알 수 없는 메시지 타입: " +:+ type)))
  | lookup =>
  if decide (currentRetryCount > MAX_RETRIES) then
    (w, Some (Js.plain_error ("최대 재시도 횟수(" +:+ pretty MAX_RETRIES +:+ ") 초과")))
  else if negb (CentralSession.isConnected (session w)) then (w, None)
  else
    match capObject_of f now log (db w) with
    | inr e => (w, Some e)
    | inl capObject =>
    let messageXmlToSend :=
      Cap.XmlReport {| Cap.rd_transMsgId := identifier;
                       Cap.rd_transMsgSeq := reportSequence;
                       Cap.rd_capInfo := capObject |} in
    let messageBuffer :=
      match lookup with
      | Own messageId =>
          Protocol.buildMessageBuffer CentralConfig.DATA_FORMAT
            (CentralConfig.MAGIC_NUMBER env) xml_bytes messageId messageXmlToSend
      | _ => None
      end in
    let session1 := CentralSession.send_value messageBuffer (session w) in
    match to_sent_fails f with
    | Some e => (mkWorld (db w) session1 (activeTimeouts w), Some e)
    | None =>
        (mkWorld (CentralDb.rtl_updateStatusById (ms now) logId CentralDb.SENT None (db w))
           session1 (<[logId := currentRetryCount]> (delete logId (activeTimeouts w))),
         None)
    end
    end
  end.

(** [processMessage(log)] *)
Definition processMessage (f : Faults) (now : Clock) (w : World)
    (log : CentralDb.ReportTransmitLog) : World :=
  match try_block f now w log with
  | (w1, None) => w1
  | (w1, Some err) =>
      let w2 := clear_timeout (CentralDb.rtl_id log) w1 in
      match to_failed_fails f with
      | Some _ => w2
      | None =>
          mkWorld (CentralDb.rtl_updateStatusById (ms now) (CentralDb.rtl_id log)
                     CentralDb.FAILED (Some (Js.message err)) (db w2))
            (session w2) (activeTimeouts w2)
      end
  end.

(** The callback of the timer set by [processMessage], when it fires. *)
Definition on_timeout (f : Faults) (now : Clock) (logId : Z) (w : World) : World :=
  match activeTimeouts w !! logId with
  | Some currentRetryCount =>
      processFailure f now logId currentRetryCount
        ("ACK Timeout (" +:+ pretty (CentralConfig.TRANSMISSION_TIMEOUT / 1000) +:+ "초)")
        (clear_timeout logId w)
  | None => w
  end.

(** [processAck(messageBodyBuffer)]. Every error thrown before [logId] is
    set ends the call in the [catch] with nothing done. *)
Definition processAck (f : Faults) (now : Clock) (w : World) (messageBodyBuffer : Buffer.t)
  : World :=
  match parseResponse messageBodyBuffer ≫= res_data with
  | None => w
  | Some data =>
  match res_transMsgId data, res_transMsgSeq data with
  | Some outboundId, Some reportSequence =>
  let resultCode := Js.template (res_resultCode data) in
  if negb (Js.truthy (Some outboundId)) || negb (Js.truthy (Some resultCode)) then w
  else
    match ack_find_fails f with
    | Some _ => w
    | None =>
    match CentralDb.rtl_findByOutboundIdAndReportSequence outboundId reportSequence (db w) with
    | None => w
    | Some currentLog =>
    let logId := CentralDb.rtl_id currentLog in
    let currentRetryCount := CentralDb.rtl_retry_count currentLog in
    let w1 := clear_timeout logId w in
    if bool_decide (CentralDb.rtl_status currentLog = CentralDb.FAILED
                    ∨ CentralDb.rtl_status currentLog = CentralDb.SUCCESS) then w1
    else if decide (resultCode = "200") then
      match ack_success_fails f with
      | Some e =>
          processFailure f now logId currentRetryCount
            ("ACK/NACK 처리 오류: " +:+ Js.message e) w1
      | None =>
          mkWorld (CentralDb.rtl_updateStatusById (ms now) logId CentralDb.SUCCESS None (db w1))
            (session w1) (activeTimeouts w1)
      end
    else
      let reason :=
        if Js.truthy (res_result data) then Js.template (res_result data)
        else "Error code " +:+ resultCode in
      processFailure f now logId currentRetryCount ("Received NACK Response: " +:+ reason) w1
    end end
  | _, _ => w
  end end.

(** *** reportTransmitWorker.js *)

(** [_run()]: the rows of one query, each handed to [processMessage] as it
    was read. The tasks of p-limit are taken one after the other, in row
    order. *)
Definition _run (f : Faults) (now : Clock) (w : World) : World :=
  match run_find_fails f with
  | Some _ => w
  | None =>
      foldl (processMessage f now) w (CentralDb.rtl_findUnprocessedMessages (ms now) (db w))
  end.

(** What happens to the service between two polls. *)
Inductive Event :=
  | Poll
  | Timeout (logId : Z)
  | Response (messageBodyBuffer : Buffer.t).

Definition step (w : World) (e : Faults * Clock * Event) : World :=
  match e.2 with
  | Poll => _run e.1.1 e.1.2 w
  | Timeout logId => on_timeout e.1.1 e.1.2 logId w
  | Response b => processAck e.1.1 e.1.2 w b
  end.

Definition run_events (w : World) (es : list (Faults * Clock * Event)) : World :=
  foldl step w es.

(** The columns that [incrementRetryCountAndReportSequence] would change,
    by row. *)
Definition counters (d : CentralDb.Db) : list (Z * Z * Z) :=
  (λ r, (CentralDb.rtl_id r, CentralDb.rtl_retry_count r, CentralDb.rtl_report_sequence r))
    <$> CentralDb.report_transmit_logs (CentralDb.committed d).

End WithEnv.

End ReportTransmit.


(** ** external-service reliableTransmitService.js and disasterTransmitWorker.js *)

Module DisasterTransmit.

(** config.disasterTransmitWorker.MAX_RETRIES *)
Definition MAX_RETRIES : Z := 3.

(** The calls that can reject, by call site. *)
Record Faults := mkFaults {
  run_find_fails : option Js.Error;       (* findUnprocessedMessages, in run *)
  pm_find_fails : option Js.Error;        (* findById, in _processMessage *)
  pm_failed_fails : option Js.Error;      (* updateStatusById FAILED *)
  pm_pending_fails : option Js.Error;     (* updateStatusById PENDING *)
  pm_sent_fails : option Js.Error;        (* updateStatusById SENT *)
  emit_fails : option Js.Error;           (* targetSocket.emit *)
  pf_find_fails : option Js.Error;        (* findById, in _processFailure *)
  pf_increment_fails : option Js.Error;   (* incrementRetryCount *)
  pf_update_fails : option Js.Error;      (* updateStatusById FAILED or PENDING *)
  pa_find_fails : option Js.Error;        (* findById, in _processAck *)
  pa_update_fails : option Js.Error;      (* updateStatusById SUCCESS *)
}.

Definition no_faults : Faults :=
  mkFaults None None None None None None None None None None None.

(** The payload of a 'disaster' event. *)
Record Payload := mkPayload {
  p_logId : Z;
  p_identifier : string;
  p_rawMessage : ExternalDb.DisasterMessage;
}.

Record Emit := mkEmit { em_socket : nat; em_payload : Payload }.

(** One send attempt: what its timer and its acknowledgement callback
    share. [timer] is true while the timer is armed. *)
Record Attempt := mkAttempt {
  at_logId : Z;
  at_retryCount : Z;
  ackReceived : bool;
  timer : bool;
}.

(** The answer a client passes to the acknowledgement callback. *)
Record Response := mkResponse {
  res_status : option string;
  res_logId : option Z;
  res_message : option string;
}.

(** The session manager with the store, the events emitted so far and
    the attempts made so far. *)
Record World := mkWorld {
  sessions : ExternalSession.State;
  emitted : list Emit;
  attempts : list Attempt;
}.

Definition db (w : World) : ExternalDb.Db := ExternalSession.db (sessions w).

Definition set_db (d : ExternalDb.Db) (w : World) : World :=
  mkWorld (ExternalSession.mkState (ExternalSession.activeSockets (sessions w)) d
             (ExternalSession.closed (sessions w)) (ExternalSession.trace (sessions w)))
    (emitted w) (attempts w).

Definition terminal (s : ExternalDb.Status) : bool :=
  bool_decide (s = ExternalDb.SUCCESS ∨ s = ExternalDb.FAILED).

(** [_processFailure(logId, currentRetryCount)] *)
Definition _processFailure (f : Faults) (now : Z) (logId currentRetryCount : Z) (w : World)
  : World :=
  match pf_find_fails f with
  | Some _ => w
  | None =>
  match ExternalDb.dtl_findById logId (db w) with
  | None => w
  | Some currentLog =>
  if terminal (ExternalDb.dtl_status currentLog) then w
  else
    let assumedNexRetryCount := currentRetryCount + 1 in
    let w1 :=
      match pf_increment_fails f with
      | Some _ => w
      | None => set_db (ExternalDb.dtl_incrementRetryCount now logId (db w)) w
      end in
    match pf_update_fails f with
    | Some _ => w1
    | None =>
        if decide (assumedNexRetryCount > MAX_RETRIES)
        then set_db (ExternalDb.dtl_updateStatusById now logId ExternalDb.FAILED (db w1)) w1
        else set_db (ExternalDb.dtl_updateStatusById now logId ExternalDb.PENDING (db w1)) w1
    end
  end end.

(** [_processAck(logId)] *)
Definition _processAck (f : Faults) (now : Z) (logId : Z) (w : World) : World :=
  match pa_find_fails f with
  | Some _ => w
  | None =>
      let currentLog := ExternalDb.dtl_findById logId (db w) in
      if bool_decide (ExternalDb.dtl_status <$> currentLog = Some ExternalDb.SUCCESS) then w
      else if bool_decide (ExternalDb.dtl_status <$> currentLog = Some ExternalDb.FAILED) then w
      else
        match pa_update_fails f with
        | Some _ => w
        | None => set_db (ExternalDb.dtl_updateStatusById now logId ExternalDb.SUCCESS (db w)) w
        end
  end.

(** The outer [try] of [_processMessage], for the row as it was read: the
    world where it stopped and the error thrown, if any. *)
Definition try_block (f : Faults) (now : Z) (logId : Z) (currentLog : ExternalDb.DisasterTransmitLog)
    (w : World) : World * option Js.Error :=
  let externalSystemId := ExternalDb.dtl_external_system_id currentLog in
  let identifier := ExternalDb.dtl_identifier currentLog in
  let rawMessage := ExternalDb.dtl_raw_message currentLog in
  let currentRetryCount := ExternalDb.dtl_retry_count currentLog in
  if decide (currentRetryCount >= MAX_RETRIES) then
    if decide (ExternalDb.dtl_status currentLog ≠ ExternalDb.FAILED) then
      match pm_failed_fails f with
      | Some e => (w, Some e)
      | None =>
          (set_db (ExternalDb.dtl_updateStatusById now logId ExternalDb.FAILED (db w)) w, None)
      end
    else (w, None)
  else
    match ExternalSession.getSocketBySystemId externalSystemId (sessions w) with
    | None =>
        if decide (ExternalDb.dtl_status currentLog = ExternalDb.SENT) then
          match pm_pending_fails f with
          | Some e => (w, Some e)
          | None =>
              (set_db (ExternalDb.dtl_updateStatusById now logId ExternalDb.PENDING (db w)) w,
               None)
          end
        else (w, None)
    | Some targetSocket =>
        let payload := mkPayload logId identifier rawMessage in
        match pm_sent_fails f with
        | Some e => (w, Some e)
        | None =>
            let w1 := set_db (ExternalDb.dtl_updateStatusById now logId ExternalDb.SENT (db w)) w in
            match emit_fails f with
            | Some _ => (_processFailure f now logId currentRetryCount w1, None)
            | None =>
                (mkWorld (sessions w1)
                   (emitted w1 ++ [mkEmit (ExternalSession.ref targetSocket) payload])
                   (attempts w1 ++ [mkAttempt logId currentRetryCount false true]),
                 None)
            end
        end
    end.

(** [_processMessage(logId)], which is all of [transmitMessage(logId)] *)
Definition _processMessage (f : Faults) (now : Z) (logId : Z) (w : World) : World :=
  match pm_find_fails f with
  | Some _ => w
  | None =>
  match ExternalDb.dtl_findById logId (db w) with
  | None => w
  | Some currentLog =>
  if terminal (ExternalDb.dtl_status currentLog) then w
  else
    match try_block f now logId currentLog w with
    | (w1, None) => w1
    | (w1, Some _) => _processFailure f now logId (ExternalDb.dtl_retry_count currentLog) w1
    end
  end end.

Definition set_attempt (i : nat) (a : Attempt) (w : World) : World :=
  mkWorld (sessions w) (emitted w) (<[i := a]> (attempts w)).

(** The timer of attempt [i] fires. *)
Definition on_timeout (f : Faults) (now : Z) (i : nat) (w : World) : World :=
  match attempts w !! i with
  | Some a =>
      if timer a then
        let w1 := set_attempt i (mkAttempt (at_logId a) (at_retryCount a) (ackReceived a) false) w in
        if negb (ackReceived a) then _processFailure f now (at_logId a) (at_retryCount a) w1
        else w1
      else w
  | None => w
  end.

(** The client answers attempt [i] with [response]. *)
Definition on_response (f : Faults) (now : Z) (i : nat) (response : option Response) (w : World)
  : World :=
  match attempts w !! i with
  | Some a =>
      if ackReceived a then w
      else
        let w1 := set_attempt i (mkAttempt (at_logId a) (at_retryCount a) true false) w in
        if bool_decide ((response ≫= res_status) = Some "ack"
                        ∧ (response ≫= res_logId) = Some (at_logId a))
        then _processAck f now (at_logId a) w1
        else _processFailure f now (at_logId a) (at_retryCount a) w1
  | None => w
  end.

(** [run()] of the worker: the ids of one query, each handed to
    [transmitMessage], one after the other in row order. *)
Definition run (f : Faults) (now : Z) (w : World) : World :=
  match run_find_fails f with
  | Some _ => w
  | None =>
      foldl (λ w logId, _processMessage f now logId w) w
        (ExternalDb.dtl_findUnprocessedMessages now (db w))
  end.

End DisasterTransmit.


(** ** central-service disasterPublishWorker.js *)

Module DisasterPublishWorker.

Definition MAX_RETRIES : Z := CentralConfig.disasterPublishWorker_MAX_RETRIES.

Record Faults := mkFaults {
  to_failed_fails : option Js.Error;    (* updateStatusById FAILED *)
  publish_fails : option Js.Error;      (* publishDisaster: no channel, or publish throws *)
  to_success_fails : option Js.Error;   (* updateStatusById SUCCESS *)
  increment_fails : option Js.Error;    (* incrementRetryCount *)
}.

Definition no_faults : Faults := mkFaults None None None None.

Record World := mkWorld {
  db : CentralDb.Db;
  channel : list Amqp.Action;
}.

Section WithJson.

(** [JSON.stringify({ identifier, eventCode, rawMessage })] *)
Variable JSON_stringify : string → string → Cap.ReceivedData → string.

(** [_processOutboxMessage(message)] *)
Definition _processOutboxMessage (f : Faults) (w : World) (message : CentralDb.DisasterPublishLog)
  : World :=
  let logId := CentralDb.dpl_id message in
  let retryCount := CentralDb.dpl_retry_count message in
  let tried : World * option Js.Error :=
    if decide (retryCount >= MAX_RETRIES) then
      match to_failed_fails f with
      | Some _ => (w, None)
      | None => (mkWorld (CentralDb.dpl_updateStatusById logId CentralDb.FAILED (db w)) (channel w),
                 None)
      end
    else
      match publish_fails f with
      | Some e => (w, Some e)
      | None =>
          let payload :=
            JSON_stringify (CentralDb.dpl_identifier message) (CentralDb.dpl_event_code message)
              (CentralDb.dpl_raw_message message) in
          let channel1 :=
            channel w ++ [Amqp.Publish CentralConfig.DISASTER_EXCHANGE
                            (CentralDb.dpl_routing_key message) payload None] in
          match to_success_fails f with
          | Some e => (mkWorld (db w) channel1, Some e)
          | None =>
              (mkWorld (CentralDb.dpl_updateStatusById logId CentralDb.SUCCESS (db w)) channel1,
               None)
          end
      end in
  match tried with
  | (w1, None) => w1
  | (w1, Some _) =>
      match increment_fails f with
      | Some _ => w1
      | None => mkWorld (CentralDb.dpl_incrementRetryCount logId (db w1)) (channel w1)
      end
  end.

End WithJson.

End DisasterPublishWorker.

(** ** external-service reportPublishWorker.js and reportPublishLogRepository.js *)

Module ReportPublishWorker.

(** config.reportPublishWorker.MAX_RETRIES and the exchange of reports *)
Definition MAX_RETRIES : Z := 3.
Definition REPORT_EXCHANGE : string := "report.direct".

(** A row of report_publish_logs; [rpl_raw_message] is the JSON text. *)
Record ReportPublishLog := mkReportPublishLog {
  rpl_id : Z;
  rpl_type : string;
  rpl_external_system_name : string;
  rpl_routing_key : string;
  rpl_raw_message : string;
  rpl_status : ExternalDb.Status;
  rpl_retry_count : Z;
}.

(** The worker reads and writes the table through the pool only. *)
Definition updateStatusById (logId : Z) (status : ExternalDb.Status)
    (rows : list ReportPublishLog) : list ReportPublishLog :=
  map (λ r, if decide (rpl_id r = logId)
            then mkReportPublishLog (rpl_id r) (rpl_type r) (rpl_external_system_name r)
                   (rpl_routing_key r) (rpl_raw_message r) status (rpl_retry_count r)
            else r) rows.

Definition incrementRetryCount (logId : Z) (rows : list ReportPublishLog)
  : list ReportPublishLog :=
  map (λ r, if decide (rpl_id r = logId)
            then mkReportPublishLog (rpl_id r) (rpl_type r) (rpl_external_system_name r)
                   (rpl_routing_key r) (rpl_raw_message r) (rpl_status r)
                   (rpl_retry_count r + 1)
            else r) rows.

Record Faults := mkFaults {
  to_failed_fails : option Js.Error;    (* updateStatusById FAILED *)
  publish_fails : option Js.Error;      (* publishReport: no channel, or publish throws *)
  to_success_fails : option Js.Error;   (* updateStatusById SUCCESS *)
  increment_fails : option Js.Error;    (* incrementRetryCount *)
}.

Definition no_faults : Faults := mkFaults None None None None.

Record World := mkWorld {
  report_publish_logs : list ReportPublishLog;
  channel : list Amqp.Action;
}.

Section WithJson.

(** [JSON.stringify({ type, externalSystemName, rawMessage })] *)
Variable JSON_stringify : string → string → string → string.

(** [processOutboxMessage(message)] *)
Definition processOutboxMessage (f : Faults) (w : World) (message : ReportPublishLog) : World :=
  let logId := rpl_id message in
  let retryCount := rpl_retry_count message in
  let tried : World * option Js.Error :=
    if decide (retryCount > MAX_RETRIES) then
      match to_failed_fails f with
      | Some e => (w, Some e)
      | None =>
          (mkWorld (updateStatusById logId ExternalDb.FAILED (report_publish_logs w)) (channel w),
           None)
      end
    else
      match publish_fails f with
      | Some e => (w, Some e)
      | None =>
          let payload :=
            JSON_stringify (rpl_type message) (rpl_external_system_name message)
              (rpl_raw_message message) in
          let channel1 :=
            channel w ++ [Amqp.Publish REPORT_EXCHANGE (rpl_routing_key message) payload None] in
          match to_success_fails f with
          | Some e => (mkWorld (report_publish_logs w) channel1, Some e)
          | None =>
              (mkWorld (updateStatusById logId ExternalDb.SUCCESS (report_publish_logs w))
                 channel1,
               None)
          end
      end in
  match tried with
  | (w1, None) => w1
  | (w1, Some _) =>
      match increment_fails f with
      | Some _ => w1
      | None => mkWorld (incrementRetryCount logId (report_publish_logs w1)) (channel w1)
      end
  end.

End WithJson.

End ReportPublishWorker.

(** ** The parser on a stream of chunks *)

Module ProtocolStream.

(** The sixteen octets [buildMessageBuffer] writes for a header, most
    significant octet first; [None] when a field is not an unsigned
    32-bit value. *)
Definition header_octets (h : Protocol.Header) : option Buffer.t :=
  h1 ← Buffer.writeUInt32BE (Buffer.alloc Protocol.HEADER_LENGTH) (Protocol.messageId h) 0;
  h2 ← Buffer.writeUInt32BE h1 (Protocol.dataFormat h) 4;
  h3 ← Buffer.writeUInt32BE h2 (Protocol.magicNumber h) 8;
  Buffer.writeUInt32BE h3 (Protocol.dataLength h) 12.

(** A message on the wire: the header, then the body. *)
Definition wire (m : Protocol.Message) : option Buffer.t :=
  hdr ← header_octets (Protocol.header m);
  Some (Buffer.concat hdr (Protocol.body m)).

(** The octets of a run of messages, one frame after the other. *)
Definition wire_all (ms : list Protocol.Message) : option Buffer.t :=
  frames ← mapM wire ms; Some (concat frames).

Section WithConfig.

Variables MAGIC_NUMBER MAX_BODY_LENGTH : Z.

(** A message the parser accepts: the magic number is the configured
    one, and the length is that of the body and within the limit. *)
Definition accepted (m : Protocol.Message) : Prop :=
  Protocol.magicNumber (Protocol.header m) = MAGIC_NUMBER
  ∧ Protocol.dataLength (Protocol.header m) = Z.of_nat (length (Protocol.body m))
  ∧ Protocol.dataLength (Protocol.header m) ≤ MAX_BODY_LENGTH.

(** The ['data'] events of the socket, in order, each handed to
    [_transform]: the parser after the last chunk and all the messages
    emitted. [None] is a [_transform] that does not return. *)
Definition feed (p : Protocol.Parser) (chunks : list Buffer.t)
  : option (Protocol.Parser * list Protocol.Message) :=
  foldl (λ acc chunk,
           '(p, out) ← acc;
           '(p', out') ← Protocol._transform MAGIC_NUMBER MAX_BODY_LENGTH p chunk;
           Some (p', out ++ out'))
    (Some (p, [])) chunks.

(** The parser between two iterations of the loop, with the octets [rest]
    still to come: it is waiting for a header, or for the body of [h],
    and what it holds, followed by [rest], is the wire form of the
    messages [ms] it has yet to emit. *)
Definition pending (p : Protocol.Parser) (rest : Buffer.t) (ms : list Protocol.Message) : Prop :=
  Forall accepted ms
  ∧ match Protocol.parsingState p with
    | Protocol.HEADER =>
        Protocol.neededLength p = Z.of_nat Protocol.HEADER_LENGTH
        ∧ Protocol.p_header p = None
        ∧ wire_all ms = Some (Protocol.buffer p ++ rest)
    | Protocol.BODY =>
        ∃ m ms' tail,
          ms = m :: ms'
          ∧ Protocol.p_header p = Some (Protocol.header m)
          ∧ Protocol.neededLength p = Protocol.dataLength (Protocol.header m)
          ∧ is_Some (header_octets (Protocol.header m))
          ∧ wire_all ms' = Some tail
          ∧ Protocol.buffer p ++ rest = Protocol.body m ++ tail
    end.

End WithConfig.

End ProtocolStream.

(** ** The disaster transmitter of the external service, driven by events *)

Module DisasterTransmitRun.

(** What happens to the transmitter and the session manager: a poll of
    the worker, the timer of an attempt firing, a client answering an
    attempt, a socket connecting or disconnecting. Attempts are numbered
    in the order they were made. *)
Inductive Event :=
  | Poll (f : DisasterTransmit.Faults) (now : Z)
  | Timeout (f : DisasterTransmit.Faults) (now : Z) (attempt : nat)
  | Answer (f : DisasterTransmit.Faults) (now : Z) (attempt : nat)
      (response : option DisasterTransmit.Response)
  | Connect (f : ExternalSession.Faults) (socket : ExternalSession.Socket)
  | Disconnect (f : ExternalSession.Faults) (socket : ExternalSession.Socket) (reason : string).

Definition step (w : DisasterTransmit.World) (e : Event) : DisasterTransmit.World :=
  match e with
  | Poll f now => DisasterTransmit.run f now w
  | Timeout f now i => DisasterTransmit.on_timeout f now i w
  | Answer f now i response => DisasterTransmit.on_response f now i response w
  | Connect f socket =>
      DisasterTransmit.mkWorld
        (ExternalSession.addSocket f socket (DisasterTransmit.sessions w)).1
        (DisasterTransmit.emitted w) (DisasterTransmit.attempts w)
  | Disconnect f socket reason =>
      DisasterTransmit.mkWorld
        (ExternalSession.removeSocket f socket reason (DisasterTransmit.sessions w)).1
        (DisasterTransmit.emitted w) (DisasterTransmit.attempts w)
  end.

Definition run_events (w : DisasterTransmit.World) (es : list Event) : DisasterTransmit.World :=
  foldl step w es.

End DisasterTransmitRun.

(** ** The publish workers, one poll *)

Module DisasterPublishRun.

Section WithJson.

Variable JSON_stringify : string → string → Cap.ReceivedData → string.

(** [_run()] of disasterPublishWorker.js: the PENDING rows of one query,
    each handed to [_processOutboxMessage] as it was read. The tasks of
    p-limit are taken one after the other, in row order; [f] gives the
    faults met while the row with that id is processed. *)
Definition _run (find_fails : option Js.Error) (f : Z → DisasterPublishWorker.Faults)
    (w : DisasterPublishWorker.World) : DisasterPublishWorker.World :=
  match find_fails with
  | Some _ => w
  | None =>
      foldl (λ w message,
               DisasterPublishWorker._processOutboxMessage JSON_stringify
                 (f (CentralDb.dpl_id message)) w message)
        w (CentralDb.dpl_findUnprocessedMessages (DisasterPublishWorker.db w))
  end.

(** What [publishDisaster] puts on the channel for a row. *)
Definition published (message : CentralDb.DisasterPublishLog) : Amqp.Action :=
  Amqp.Publish CentralConfig.DISASTER_EXCHANGE (CentralDb.dpl_routing_key message)
    (JSON_stringify (CentralDb.dpl_identifier message) (CentralDb.dpl_event_code message)
       (CentralDb.dpl_raw_message message))
    None.

End WithJson.

End DisasterPublishRun.

Module ReportPublishRun.

(** [findUnprocessedMessages()] of reportPublishLogRepository.js *)
Definition findUnprocessedMessages (rows : list ReportPublishWorker.ReportPublishLog)
  : list ReportPublishWorker.ReportPublishLog :=
  filter (λ r, ReportPublishWorker.rpl_status r = ExternalDb.PENDING) rows.

Section WithJson.

Variable JSON_stringify : string → string → string → string.

(** [run()] of reportPublishWorker.js, in the same way. *)
Definition run (find_fails : option Js.Error) (f : Z → ReportPublishWorker.Faults)
    (w : ReportPublishWorker.World) : ReportPublishWorker.World :=
  match find_fails with
  | Some _ => w
  | None =>
      foldl (λ w message,
               ReportPublishWorker.processOutboxMessage JSON_stringify
                 (f (ReportPublishWorker.rpl_id message)) w message)
        w (findUnprocessedMessages (ReportPublishWorker.report_publish_logs w))
  end.

(** What [publishReport] puts on the channel for a row. *)
Definition published (message : ReportPublishWorker.ReportPublishLog) : Amqp.Action :=
  Amqp.Publish ReportPublishWorker.REPORT_EXCHANGE (ReportPublishWorker.rpl_routing_key message)
    (JSON_stringify (ReportPublishWorker.rpl_type message)
       (ReportPublishWorker.rpl_external_system_name message)
       (ReportPublishWorker.rpl_raw_message message))
    None.

End WithJson.

End ReportPublishRun.

(** ** External service: customValidators.js, [isValidPastTimestamp] *)

Module Timestamp.

(** [\d] *)
Definition is_digit (c : ascii) : bool :=
  let n := N_of_ascii c in bool_decide (48 ≤ n ≤ 57)%N.

(** [/^\d{14}/.test(value)]: the first 14 characters are there and are
    digits. The expression has no [$]. *)
Definition starts_with_14_digits (value : string) : bool :=
  let head := substring 0 14 value in
  bool_decide (String.length head = 14%nat) && forallb is_digit (list_ascii_of_string head).

(** [parseInt(s, 10)] on a string that may start with digits: the number
    its leading digits write, or [None] for [NaN] when there is none.
    Sign and white space, which [parseInt] also reads, do not occur where
    it is called here. *)
Fixpoint leading_digits (s : string) (acc : option Z) : option Z :=
  match s with
  | String c rest =>
      if is_digit c
      then leading_digits rest (Some (10 * default 0 acc + (Z.of_N (N_of_ascii c) - 48)))
      else acc
  | EmptyString => acc
  end.

Definition parseInt (s : string) : option Z := leading_digits s None.

(** [value.substring(start, end)] for [start ≤ end] *)
Definition substring_between (start stop : nat) (value : string) : string :=
  substring start (stop - start) value.

(** What the code reads of a [Date]. *)
Record DateValue := mkDateValue {
  getFullYear : Z;
  getMonth : Z;
  getDate : Z;
  getHours : Z;
  getMinutes : Z;
  getSeconds : Z;
  getTime : Z;
}.

Section WithClock.

(** [new Date(year, monthIndex, day, hours, minutes, seconds)], in the
    time zone of the process, and the time of [new Date()] in
    milliseconds. *)
Variable Date_of : Z → Z → Z → Z → Z → Z → DateValue.
Variable now : Z.

Definition double_quote : string := String (ascii_of_nat 34) EmptyString.

Definition format_error : Js.Error :=
  Js.plain_error (double_quote +:+ "yyyymmddhhmiss" +:+ double_quote
                  +:+ " 형식의 14자리 숫자여야 합니다.").

Definition date_error : Js.Error :=
  Js.plain_error "유효하지 않은 날짜 형식입니다 (예: 월/일 범위 초과.".

(** [isValidPastTimestamp(value)]: [inl true], or the error thrown. A
    component that is [NaN] makes the date invalid, and every getter of
    an invalid date differs from the component. *)
Definition isValidPastTimestamp (value : string) : bool + Js.Error :=
  if negb (starts_with_14_digits value) then inr format_error
  else
    match parseInt (substring_between 0 4 value), parseInt (substring_between 4 6 value),
          parseInt (substring_between 6 8 value), parseInt (substring_between 8 10 value),
          parseInt (substring_between 10 12 value), parseInt (substring_between 12 14 value) with
    | Some year, Some month, Some day, Some hour, Some minute, Some second =>
        let date := Date_of year (month - 1) day hour minute second in
        if bool_decide (getFullYear date ≠ year ∨ getMonth date ≠ month - 1
                        ∨ getDate date ≠ day ∨ getHours date ≠ hour
                        ∨ getMinutes date ≠ minute ∨ getSeconds date ≠ second)
        then inr date_error
        else if decide (getTime date > now)
        then inr (Js.plain_error (value +:+ "는 현재 시간보다 이전이어야 합니다."))
        else inl true
    | _, _, _, _, _, _ => inr date_error
    end.

Definition accepted (value : string) : bool :=
  match isValidPastTimestamp value with inl _ => true | inr _ => false end.

End WithClock.

End Timestamp.

(** ** central-service TCP side: authHandler.js, sessionHandler.js,
       messageRouter.js and client.js *)

Module CentralLink.

(** config.tcp.protocol.TIMERS *)
Definition SESSION_CHECK_INTERVAL : Z := 30000.
Definition RESPONSE_TIMEOUT : Z := 10000.
Definition RECONNECT_INTERVAL : Z := 60000.

(** The XML objects of the requests these handlers send. *)
Inductive Request :=
  | ReqConnect (destId : string)
  | ReqAuth (destId realm nonce response : string)
  | ReqAlive (destId cmd time : string).

(** [result.data] of an ETS_RES_SYS_CON body, as [handleAuthResponse]
    reads it. *)
Record AuthData := mkAuthData {
  ad_resultCode : option string;
  ad_result : option string;
  ad_realm : option string;
  ad_nonce : option string;
}.

(** The session manager's connection and the module variables
    [authTimeoutId], [sessionCheckTimer] and [pongTimeoutId]; a timer
    variable is [true] while it holds the id of a live timer. *)
Record Link := mkLink {
  session : CentralSession.t;
  authTimeoutId : bool;
  sessionCheckTimer : bool;
  pongTimeoutId : bool;
}.

Definition set_session (s : CentralSession.t) (l : Link) : Link :=
  mkLink s (authTimeoutId l) (sessionCheckTimer l) (pongTimeoutId l).

(** [sessionManager.getConnection()?.destroy()] *)
Definition destroy (l : Link) : Link :=
  match CentralSession.currentSocket (session l) with
  | Some k =>
      set_session
        (CentralSession.mkSession
           (Some (CentralSession.mkSocket true false (CentralSession.written k)))) l
  | None => l
  end.

Section WithEnv.

Variable env : CentralConfig.Env.

(** xmlbuilder2 on the requests, and xml2js on the body of an
    ETS_RES_SYS_CON frame followed by [.data]; [None] when the parser
    throws or there is no [data]. *)
Variable xml_bytes : Request → option Buffer.t.
Variable parseAuth : Buffer.t → option AuthData.

Definition buildMessageBuffer (messageId : Z) (xmlObject : Request) : option Buffer.t :=
  Protocol.buildMessageBuffer CentralConfig.DATA_FORMAT (CentralConfig.MAGIC_NUMBER env)
    xml_bytes messageId xmlObject.

(** *** authHandler.js *)

Definition _clearAuthTimeout (l : Link) : Link :=
  mkLink (session l) false (sessionCheckTimer l) (pongTimeoutId l).

Definition _startAuthTimeout (l : Link) : Link :=
  let l1 := _clearAuthTimeout l in
  mkLink (session l1) true (sessionCheckTimer l1) (pongTimeoutId l1).

(** The callback of the timer of [_startAuthTimeout], AUTH_TIMEOUT after
    it was set, unless it was cleared. *)
Definition on_auth_timeout (l : Link) : Link :=
  if authTimeoutId l
  then destroy (mkLink (session l) false (sessionCheckTimer l) (pongTimeoutId l))
  else l.

(** [sendInitialAuthRequest()] *)
Definition sendInitialAuthRequest (l : Link) : Link :=
  match buildMessageBuffer CentralConfig.ETS_REQ_SYS_CON
          (ReqConnect (CentralConfig.DEST_ID env)) with
  | None => destroy l
  | Some messageBuffer =>
      _startAuthTimeout (set_session (CentralSession.send messageBuffer (session l)) l)
  end.

(** *** sessionHandler.js *)

(** [sendSessionCheckRequest()]; [time] is the formatted Seoul time. *)
Definition sendSessionCheckRequest (time : string) (l : Link) : Link :=
  let l1 := mkLink (session l) (authTimeoutId l) (sessionCheckTimer l) false in
  match buildMessageBuffer CentralConfig.ETS_REQ_SYS_STS
          (ReqAlive (CentralConfig.DEST_ID env) "alive" time) with
  | None => destroy l1
  | Some messageBuffer =>
      let l2 := set_session (CentralSession.send messageBuffer (session l1)) l1 in
      mkLink (session l2) (authTimeoutId l2) (sessionCheckTimer l2) true
  end.

(** The callback of the pong timer, PONG_TIMEOUT after the ping, unless it
    was cleared. *)
Definition on_pong_timeout (l : Link) : Link :=
  if pongTimeoutId l
  then destroy (mkLink (session l) (authTimeoutId l) (sessionCheckTimer l) false)
  else l.

(** [startSessionCheck()] *)
Definition startSessionCheck (time : string) (l : Link) : Link :=
  if sessionCheckTimer l then l
  else
    let l1 := sendSessionCheckRequest time l in
    mkLink (session l1) (authTimeoutId l1) true (pongTimeoutId l1).

(** A tick of the interval set by [startSessionCheck], while it runs. *)
Definition on_interval (time : string) (l : Link) : Link :=
  if sessionCheckTimer l then sendSessionCheckRequest time l else l.

(** [stopSessionCheck()] *)
Definition stopSessionCheck (l : Link) : Link :=
  mkLink (session l) (authTimeoutId l) false false.

(** [handleSessionResponse(messageBodyBuffer)]: what follows the clearing
    of the timer only parses the body and writes to the log. *)
Definition handleSessionResponse (messageBodyBuffer : Buffer.t) (l : Link) : Link :=
  mkLink (session l) (authTimeoutId l) (sessionCheckTimer l) false.

(** *** authHandler.js, [handleAuthResponse(messageBodyBuffer)] *)
Definition handleAuthResponse (time : string) (messageBodyBuffer : Buffer.t) (l : Link)
  : Link :=
  let l1 := _clearAuthTimeout l in
  match parseAuth messageBodyBuffer with
  | None => destroy l1
  | Some data =>
      if negb (Js.truthy (ad_resultCode data)) then destroy l1
      else
        let code := Js.template (ad_resultCode data) in
        if decide (code = "401") then
          match ad_realm data, ad_nonce data with
          | Some realm, Some nonce =>
              if negb (Js.truthy (Some realm)) then destroy l1
              else if negb (Js.truthy (Some nonce)) then destroy l1
              else
                let response :=
                  AuthService.calculateResponse (CentralConfig.DEST_ID env)
                    (CentralConfig.PASSWORD env) realm nonce in
                let messageBuffer :=
                  buildMessageBuffer CentralConfig.ETS_REQ_SYS_CON
                    (ReqAuth (CentralConfig.DEST_ID env) realm nonce response) in
                _startAuthTimeout
                  (set_session (CentralSession.send_value messageBuffer (session l1)) l1)
          | _, _ => destroy l1
          end
        else if decide (code = "200") then startSessionCheck time l1
        else if decide (code = "400") then destroy l1
        else if decide (code = "404") then destroy l1
        else if decide (code = "500") then destroy l1
        else destroy l1
  end.

(** *** messageRouter.js *)

(** The store and the timers of the report transmitter, next to the
    link. *)
Record World := mkWorld {
  link : Link;
  db : CentralDb.Db;
  activeTimeouts : gmap Z Z;
}.

(** What a call of [route] meets: the clock and the faults of the
    handlers it may reach. *)
Record Ambient := mkAmbient {
  time : string;
  clock : ReportTransmit.Clock;
  disaster_faults : DisasterHandler.Faults;
  ack_faults : ReportTransmit.Faults;
}.

Variable parseXml : Buffer.t → option Cap.ParsedXml.
Variable cap_xml_bytes : Cap.XmlObject → option Buffer.t.
Variable parseResponse : Buffer.t → option ReportTransmit.ParsedResponse.

(** [route(message)] for a message of the parser, which always has a
    header. Every handler catches what it throws. *)
Definition route (a : Ambient) (message : Protocol.Message) (w : World) : World :=
  let messageId := Protocol.messageId (Protocol.header message) in
  let body := Protocol.body message in
  if decide (messageId = CentralConfig.ETS_RES_SYS_CON) then
    mkWorld (handleAuthResponse (time a) body (link w)) (db w) (activeTimeouts w)
  else if decide (messageId = CentralConfig.ETS_RES_SYS_STS) then
    mkWorld (handleSessionResponse body (link w)) (db w) (activeTimeouts w)
  else if decide (messageId = CentralConfig.ETS_NFY_DIS_INFO) then
    let w1 :=
      DisasterHandler.handleDisasterInfo env parseXml cap_xml_bytes (disaster_faults a)
        (time a) (DisasterHandler.mkWorld (db w) (session (link w))) body in
    mkWorld (set_session (DisasterHandler.session w1) (link w)) (DisasterHandler.db w1)
      (activeTimeouts w)
  else if bool_decide (messageId = CentralConfig.ETS_CNF_DEVICE_INFO
                       ∨ messageId = CentralConfig.ETS_CNF_DEVICE_STS
                       ∨ messageId = CentralConfig.ETS_RES_DIS_REPORT) then
    let w1 :=
      ReportTransmit.processAck parseResponse (ack_faults a) (clock a)
        (ReportTransmit.mkWorld (db w) (session (link w)) (activeTimeouts w)) body in
    mkWorld (set_session (ReportTransmit.session w1) (link w)) (ReportTransmit.db w1)
      (ReportTransmit.activeTimeouts w1)
  else w.

(** *** client.js *)

(** [this.socket]: none yet, the socket of a connection attempt, the
    socket that [sessionManager] holds, or a socket that has closed. *)
Inductive ClientSocket := NoSocket | Connecting | Live | Closed.

(** The TCPClient instance, the world behind it and the timers it has
    set and that have not fired: reconnects and forced destroys. *)
Record Client := mkClient {
  isConnecting : bool;
  isConnected : bool;
  shouldReconnect : bool;
  socket : ClientSocket;
  world : World;
  reconnect_timers : nat;
  destroy_timers : nat;
  ended : bool;
}.

Definition set_link (l : Link) (c : Client) : Client :=
  mkClient (isConnecting c) (isConnected c) (shouldReconnect c) (socket c)
    (mkWorld l (db (world c)) (activeTimeouts (world c)))
    (reconnect_timers c) (destroy_timers c) (ended c).

(** [this.socket && !this.socket.destroyed] *)
Definition socket_usable (c : Client) : bool :=
  match socket c with
  | NoSocket => false
  | Connecting => true
  | Live =>
      match CentralSession.currentSocket (session (link (world c))) with
      | Some k => negb (CentralSession.destroyed k)
      | None => false
      end
  | Closed => false
  end.

(** [connect()], when [net.connect] and the registrations go through. *)
Definition connect (c : Client) : Client :=
  if isConnecting c || isConnected c then c
  else mkClient true (isConnected c) true Connecting (world c)
         (reconnect_timers c) (destroy_timers c) false.

(** [handleConnect()], on the socket's 'connect': the session manager
    takes the socket, fresh and writable. *)
Definition handleConnect (c : Client) : Client :=
  let l := link (world c) in
  let l1 :=
    set_session
      (CentralSession.mkSession (Some (CentralSession.mkSocket false true []))) l in
  set_link (sendInitialAuthRequest l1)
    (mkClient false true (shouldReconnect c) Live (world c)
       (reconnect_timers c) (destroy_timers c) (ended c)).

(** [handleClose()], on the socket's 'close' *)
Definition handleClose (c : Client) : Client :=
  let wasConnected := isConnected c in
  let wasConnecting := isConnecting c in
  let l := link (world c) in
  let l1 := stopSessionCheck (set_session (CentralSession.mkSession None) l) in
  let timers :=
    if shouldReconnect c && (wasConnected || wasConnecting)
    then S (reconnect_timers c) else reconnect_timers c in
  set_link l1
    (mkClient false false (shouldReconnect c)
       (match socket c with NoSocket => NoSocket | _ => Closed end)
       (world c) timers (destroy_timers c) (ended c)).

(** A reconnect timer of [handleClose] fires. *)
Definition on_reconnect_timer (c : Client) : Client :=
  match reconnect_timers c with
  | O => c
  | S n =>
      connect (mkClient (isConnecting c) (isConnected c) (shouldReconnect c) (socket c)
                 (world c) n (destroy_timers c) (ended c))
  end.

(** [disconnect(callback)] *)
Definition disconnect (c : Client) : Client :=
  let c1 := mkClient (isConnecting c) (isConnected c) false (socket c) (world c)
              (reconnect_timers c) (destroy_timers c) (ended c) in
  if socket_usable c1
  then mkClient (isConnecting c1) (isConnected c1) (shouldReconnect c1) (socket c1) (world c1)
         (reconnect_timers c1) (S (destroy_timers c1)) true
  else c1.

End WithEnv.

End CentralLink.

(** ** External service: the authentication middlewares
       (api/middlewares/auth.js and socket/auth.js) *)

Module ExternalAuth.

(** What a middleware does in the end: [next()] with the row attached to
    the request or the socket, or a refusal with its code (the HTTP
    status, or [err.data.code] of the error given to [next]). *)
Inductive Outcome :=
  | Next (externalSystem : ExternalDb.ExternalSystem)
  | Refused (code : Z).

(** The two calls that can reject. *)
Record Faults := mkFaults {
  find_fails : option Js.Error;
  log_fails : option Js.Error;
}.

Definition no_faults : Faults := mkFaults None None.

Section WithApiKey.

(** The column api_key of a row of external_systems. *)
Variable api_key : ExternalDb.ExternalSystem → string.

(** [externalSystemRepository.findByNameAndApiKey(systemName, apiKey)]:
    [rows[0] || null] *)
Definition findByNameAndApiKey (systemName apiKey : string) (db : ExternalDb.Db)
  : option ExternalDb.ExternalSystem :=
  head (filter (λ s, ExternalDb.es_system_name s = systemName ∧ api_key s = apiKey)
          (ExternalDb.external_systems (ExternalDb.view ExternalDb.Pool db))).

(** The body the two middlewares share; they differ in the event types
    and in the detail they log. *)
Definition authenticate (success failed detail : string) (f : Faults)
    (systemName apiKey : option string) (ipAddress : string) (db : ExternalDb.Db)
  : ExternalDb.Db * Outcome :=
  if negb (Js.truthy systemName) || negb (Js.truthy apiKey) then (db, Refused 401)
  else
    match find_fails f with
    | Some _ => (db, Refused 500)
    | None =>
        match findByNameAndApiKey (default "" systemName) (default "" apiKey) db with
        | None => (db, Refused 401)
        | Some externalSystem =>
            if ExternalDb.es_is_active externalSystem then
              match log_fails f with
              | Some _ => (db, Refused 500)
              | None =>
                  (ExternalDb.cl_create (ExternalDb.es_id externalSystem) success ipAddress
                     None db,
                   Next externalSystem)
              end
            else
              match log_fails f with
              | Some _ => (db, Refused 500)
              | None =>
                  (ExternalDb.cl_create (ExternalDb.es_id externalSystem) failed ipAddress
                     (Some detail) db,
                   Refused 401)
              end
        end
    end.

(** [authMiddleware(req, res, next)] with [req.get('x-system-name')],
    [req.get('x-api-key')] and [req.ip] *)
Definition authMiddleware : Faults → option string → option string → string → ExternalDb.Db
                            → ExternalDb.Db * Outcome :=
  authenticate "API_AUTH_SUCCESS" "API_AUTH_FAILED" "비활성화된 시스템으로 접근 시도".



End WithApiKey.

End ExternalAuth.

(** ** External service: the report API (routes.js, reportHandler.js and
       its repositories) *)

Module ReportApi.

(** An element of [deviceList] in a device-info report: the member
    [device_id] and the JSON text of the object. *)
Record Device := mkDevice {
  d_device_id : string;
  d_json : string;
}.

(** An element of [deviceList] in a device-status report. *)
Record StatusReport := mkStatusReport {
  sr_device_id : string;
  sr_device_status : string;
  sr_note : option string;
  sr_json : string;
}.

Record ApiReceiveLog := mkApiReceiveLog {
  arl_id : Z;
  arl_external_system_id : Z;
  arl_request_path : string;
  arl_request_body : string;
}.

(** A row of devices, as far as the code reads it. *)
Record DeviceRow := mkDeviceRow {
  dev_id : Z;
  dev_external_system_id : Z;
  dev_device_id : string;
  dev_json : string;
}.

Record DeviceStatusLog := mkDeviceStatusLog {
  dsl_id : Z;
  dsl_device_id : Z;
  dsl_status_code : string;
  dsl_status_message : option string;
}.

(** The tables the report handlers write. A row of report_publish_logs
    is kept with the columns the publish worker reads. *)
Record Tables := mkTables {
  api_receive_logs : list ApiReceiveLog;
  devices : list DeviceRow;
  device_status_logs : list DeviceStatusLog;
  report_publish_logs : list ReportPublishWorker.ReportPublishLog;
}.

Record Db := mkDb {
  committed : Tables;
  in_txn : option Tables;
  next_id : Z;
}.

Definition empty : Db := mkDb (mkTables [] [] [] []) None 1.

(** The handlers run every statement on the checked-out client. *)
Definition view (db : Db) : Tables := default (committed db) (in_txn db).

Definition exec (f : Tables → Tables) (db : Db) : Db :=
  match in_txn db with
  | Some t => mkDb (committed db) (Some (f t)) (next_id db)
  | None => mkDb (f (committed db)) None (next_id db)
  end.

Definition begin (db : Db) : Db :=
  match in_txn db with
  | Some _ => db
  | None => mkDb (committed db) (Some (committed db)) (next_id db)
  end.

Definition commit (db : Db) : Db :=
  match in_txn db with
  | Some t => mkDb t None (next_id db)
  | None => db
  end.

Definition rollback (db : Db) : Db := mkDb (committed db) None (next_id db).

(** config.rabbitmq.NAMES.REPORT_ROUTING_KEY *)
Definition REPORT_ROUTING_KEY : string := "report.external".

(** [apiReceiveLogRepository.create(...)], RETURNING id *)
Definition arl_create (externalSystemId : Z) (requestPath requestBody : string) (db : Db)
  : Z * Db :=
  let id := next_id db in
  (id, exec (λ t, mkTables (api_receive_logs t
                            ++ [mkApiReceiveLog id externalSystemId requestPath requestBody])
                    (devices t) (device_status_logs t) (report_publish_logs t))
         (mkDb (committed db) (in_txn db) (next_id db + 1))).

(** [reportPublishLogRepository.create(...)]: status PENDING and retry
    count 0 by default. *)
Definition rpl_create (type externalSystemName routingKey rawMessage : string) (db : Db) : Db :=
  let id := next_id db in
  exec (λ t, mkTables (api_receive_logs t) (devices t) (device_status_logs t)
               (report_publish_logs t
                ++ [ReportPublishWorker.mkReportPublishLog id type externalSystemName
                      routingKey rawMessage ExternalDb.PENDING 0]))
    (mkDb (committed db) (in_txn db) (next_id db + 1)).

(** *** deviceStatusLogRepository.js, [createBulk] *)

(** [deviceIdMap.get(device_id)] over the rows of the SELECT: a later row
    with the same [device_id] replaces an earlier one in the [Map]. *)
Definition deviceIdMap_get (externalSystemId : Z) (wanted : list string) (device_id : string)
    (rows : list DeviceRow) : option Z :=
  dev_id <$>
    last (filter (λ r, dev_external_system_id r = externalSystemId
                       ∧ dev_device_id r ∈ wanted
                       ∧ dev_device_id r = device_id) rows).

(** The [values] of the INSERT: one triple per report whose device is
    known, in the order of the reports. An id of the [Map] is a bigserial
    value, hence never falsy. *)
Definition status_values (externalSystemId : Z) (deviceStatusList : list StatusReport)
    (rows : list DeviceRow) : list (Z * string * option string) :=
  let deviceIdStrings := sr_device_id <$> deviceStatusList in
  omap (λ statusReport,
          match deviceIdMap_get externalSystemId deviceIdStrings (sr_device_id statusReport)
                  rows with
          | Some deviceFkId =>
              let statusCode :=
                if decide (sr_device_status statusReport = "Y") then "ONLINE" else "OFFLINE" in
              Some (deviceFkId, statusCode, sr_note statusReport)
          | None => None
          end)
    deviceStatusList.

(** The rows of one INSERT take consecutive ids. *)
Fixpoint dsl_insert_all (id : Z) (values : list (Z * string * option string))
  : list DeviceStatusLog :=
  match values with
  | [] => []
  | v :: rest => mkDeviceStatusLog id v.1.1 v.1.2 v.2 :: dsl_insert_all (id + 1) rest
  end.

(** [createBulk(externalSystemId, deviceStatusList, client)]; the two
    faults are those of the SELECT and of the INSERT. *)
Definition createBulk (select_fails insert_fails : option Js.Error) (externalSystemId : Z)
    (deviceStatusList : list StatusReport) (db : Db) : Db + Js.Error :=
  match deviceStatusList with
  | [] => inl db
  | _ =>
      match select_fails with
      | Some e => inr e
      | None =>
          let values := status_values externalSystemId deviceStatusList (devices (view db)) in
          match values with
          | [] => inl db
          | _ =>
              match insert_fails with
              | Some e => inr e
              | None =>
                  let id := next_id db in
                  inl (exec (λ t, mkTables (api_receive_logs t) (devices t)
                                    (device_status_logs t ++ dsl_insert_all id values)
                                    (report_publish_logs t))
                         (mkDb (committed db) (in_txn db)
                            (next_id db + Z.of_nat (length values))))
              end
          end
      end
  end.

(** *** reportHandler.js *)

(** The calls that can reject, in program order. *)
Record Faults := mkFaults {
  getClient_fails : option Js.Error;
  begin_fails : option Js.Error;
  api_log_fails : option Js.Error;
  status_select_fails : option Js.Error;
  status_insert_fails : option Js.Error;
  outbox_fails : option Js.Error;
  commit_fails : option Js.Error;
  rollback_fails : option Js.Error;
}.

Definition no_faults : Faults := mkFaults None None None None None None None None.

(** What the client gets: [res.status(200)], the 500 of the error
    middleware that [next(err)] reaches, or nothing when the ROLLBACK of
    the [catch] rejects. *)
Inductive Response := Ok | ServerError (e : Js.Error) | NoResponse.

(** The request after authentication and validation. *)
Record Request (Body : Type) := mkRequest {
  externalSystem : ExternalDb.ExternalSystem;
  path : string;
  body_json : string;
  body : Body;
}.
Arguments externalSystem {Body} _.
Arguments path {Body} _.
Arguments body_json {Body} _.
Arguments body {Body} _.

Record DisasterResult := mkDisasterResult {
  dr_identifier : string;
  dr_reportList_json : string;
}.

Section WithLibraries.

(** The INSERT ... ON CONFLICT (external_system_id, device_id) DO UPDATE
    of [upsertDevices] on the devices table, or the error PostgreSQL
    rejects it with; and the JSON text of the three [rawMessage] objects
    as PostgreSQL stores them. *)
Variable upsert_rows : Z → list Device → list DeviceRow → list DeviceRow + Js.Error.
Variable JSON_deviceList : list Device → string.
Variable JSON_statusList : list StatusReport → string.
Variable JSON_result : string → string → string.

(** [deviceRepository.upsertDevices(externalSystemId, devices, client)] *)
Definition upsertDevices (externalSystemId : Z) (deviceList : list Device) (db : Db)
  : Db + Js.Error :=
  match deviceList with
  | [] => inl db
  | _ =>
      match upsert_rows externalSystemId deviceList (devices (view db)) with
      | inl rows =>
          inl (exec (λ t, mkTables (api_receive_logs t) rows (device_status_logs t)
                            (report_publish_logs t)) db)
      | inr e => inr e
      end
  end.

(** The [try] of a handler after [getClient]: BEGIN, the API log, the
    handler's own statements [work], the outbox row, COMMIT. The store
    where it stopped, and the error thrown, if any. *)
Definition transaction {Body} (f : Faults) (req : Request Body)
    (work : Z → Db → Db + Js.Error) (type externalSystemName rawMessage : string) (db : Db)
  : Db * option Js.Error :=
  match begin_fails f with
  | Some e => (db, Some e)
  | None =>
  let db1 := begin db in
  match api_log_fails f with
  | Some e => (db1, Some e)
  | None =>
  let '(apiReceiveLogId, db2) :=
    arl_create (ExternalDb.es_id (externalSystem req)) (path req) (body_json req) db1 in
  match work (ExternalDb.es_id (externalSystem req)) db2 with
  | inr e => (db2, Some e)
  | inl db3 =>
  match outbox_fails f with
  | Some e => (db3, Some e)
  | None =>
  let db4 := rpl_create type externalSystemName REPORT_ROUTING_KEY rawMessage db3 in
  match commit_fails f with
  | Some e => (db4, Some e)
  | None => (commit db4, None)
  end end end end end.

(** The whole handler: [try], [catch] with its unguarded ROLLBACK, and
    the response. *)
Definition handle {Body} (f : Faults) (req : Request Body)
    (work : Z → Db → Db + Js.Error) (type rawMessage : string) (db : Db) : Db * Response :=
  match getClient_fails f with
  | Some e => (db, ServerError e)
  | None =>
      match transaction f req work type (ExternalDb.es_system_name (externalSystem req))
              rawMessage db with
      | (db1, None) => (db1, Ok)
      | (db1, Some err) =>
          match rollback_fails f with
          | Some _ => (db1, NoResponse)
          | None => (rollback db1, ServerError err)
          end
      end
  end.

Definition handleDeviceInfoReport (f : Faults) (req : Request (list Device)) (db : Db)
  : Db * Response :=
  handle f req (λ id, upsertDevices id (body req)) "DEVICE_INFO"
    (JSON_deviceList (body req)) db.

Definition handleDeviceStatusReport (f : Faults) (req : Request (list StatusReport)) (db : Db)
  : Db * Response :=
  handle f req (λ id, createBulk (status_select_fails f) (status_insert_fails f) id (body req))
    "DEVICE_STATUS" (JSON_statusList (body req)) db.

Definition handleDisasterResultReport (f : Faults) (req : Request DisasterResult) (db : Db)
  : Db * Response :=
  handle f req (λ _ db, inl db) "DISASTER_RESULT"
    (JSON_result (dr_identifier (body req)) (dr_reportList_json (body req))) db.

(** *** routes.js: the three POST routes of /api/reports *)

(** A route with the body its validators let through. *)
Inductive Report :=
  | DeviceInfo (deviceList : list Device)
  | DeviceStatus (deviceList : list StatusReport)
  | DisasterResultOf (result : DisasterResult).

(** [req.path] inside the router of /reports *)
Definition path_of (report : Report) : string :=
  match report with
  | DeviceInfo _ => "/device-info"
  | DeviceStatus _ => "/device-status"
  | DisasterResultOf _ => "/disaster-result"
  end.

(** An HTTP request: the two headers, [req.ip], the JSON text of the
    body, the route with the body as the handler reads it, and the
    errors express-validator found (path and message). *)
Record HttpRequest := mkHttpRequest {
  x_system_name : option string;
  x_api_key : option string;
  ip : string;
  json : string;
  report : Report;
  errors : list (string * string);
}.

(** The status of the response; the global error middleware of app.js
    answers 500 to an error without [status]. *)
Definition status_of (r : Response) : option Z :=
  match r with
  | Ok => Some 200
  | ServerError _ => Some 500
  | NoResponse => None
  end.

(** The handler of the route, on the request as the middlewares leave
    it. *)
Definition dispatch (f : Faults) (externalSystem : ExternalDb.ExternalSystem) (json : string)
    (report : Report) (db : Db) : Db * Response :=
  match report with
  | DeviceInfo l =>
      handleDeviceInfoReport f (mkRequest _ externalSystem (path_of report) json l) db
  | DeviceStatus l =>
      handleDeviceStatusReport f (mkRequest _ externalSystem (path_of report) json l) db
  | DisasterResultOf r =>
      handleDisasterResultReport f (mkRequest _ externalSystem (path_of report) json r) db
  end.

Variable api_key : ExternalDb.ExternalSystem → string.

(** [authMiddleware], the validators with [handleValidationErrors], the
    handler. *)
Definition post (fa : ExternalAuth.Faults) (f : Faults) (req : HttpRequest)
    (edb : ExternalDb.Db) (db : Db) : ExternalDb.Db * Db * option Z :=
  match ExternalAuth.authMiddleware api_key fa (x_system_name req) (x_api_key req) (ip req)
          edb with
  | (edb1, ExternalAuth.Refused code) => (edb1, db, Some code)
  | (edb1, ExternalAuth.Next externalSystem) =>
      match errors req with
      | [] =>
          let '(db1, r) := dispatch f externalSystem (json req) (report req) db in
          (edb1, db1, status_of r)
      | _ => (edb1, db, Some 400)
      end
  end.

End WithLibraries.

End ReportApi.

(** ** Concrete inputs used by the examples below *)

Module Scenario.

Definition env : CentralConfig.Env :=
  CentralConfig.mkEnv 0x7F3A9C21 "GW01" "secret" "KR.CAS" "KR.GW01".

(** A stand-in for xmlbuilder2 that writes the members one after the
    other; it keeps apart any two replies that differ in a code or note. *)
Definition render_ack (a : option Cap.AckCap) : string :=
  match a with
  | Some k =>
      "<capInfo><alert><identifier>" +:+ Cap.ack_identifier k +:+ "</identifier><note>"
      +:+ Cap.ack_note k +:+ "</note><references>" +:+ Cap.ack_references k
      +:+ "</references></alert></capInfo>"
  | None => "<capInfo/>"
  end.

Definition render (o : Cap.XmlObject) : string :=
  match o with
  | Cap.XmlCnfDisInfo d =>
      "<data><resultCode>" +:+ Cap.cnf_resultCode d +:+ "</resultCode><result>"
      +:+ Cap.cnf_result d +:+ "</result><transMsgSeq>" +:+ pretty (Cap.cnf_transMsgSeq d)
      +:+ "</transMsgSeq><transMsgId>" +:+ Cap.cnf_transMsgId d +:+ "</transMsgId>"
      +:+ render_ack (Cap.cnf_capInfo d) +:+ "</data>"
  | Cap.XmlReport d =>
      "<data><transMsgId>" +:+ Cap.rd_transMsgId d +:+ "</transMsgId><transMsgSeq>"
      +:+ pretty (Cap.rd_transMsgSeq d) +:+ "</transMsgSeq><capInfo><alert><identifier>"
      +:+ Cap.rc_identifier (Cap.rd_capInfo d) +:+ "</identifier><msgType>"
      +:+ Cap.rc_msgType (Cap.rd_capInfo d) +:+ "</msgType></alert></capInfo></data>"
  end.

Definition xml_bytes (o : Cap.XmlObject) : option Buffer.t := Some (Md5.utf8 (render o)).

Definition alert_of (identifier sender sent eventCode : option string) : Cap.Alert :=
  Cap.mkAlert identifier sender sent (Some (Cap.mkInfo (Some (Cap.mkEventCode eventCode)))).

Definition envelope (transMsgId : string) (transMsgSeq : Z) (a : Cap.Alert) : Cap.ReceivedData :=
  Cap.mkReceivedData (Some transMsgId) (Some transMsgSeq) (Some (Cap.mkCapInfo (Some a))).

(** Scenario 1 of the specification: transMsgId T1, sequence 1, alert A1
    with event code HTW. *)
Definition frame_htw : Cap.ReceivedData :=
  envelope "T1" 1 (alert_of (Some "A1") (Some "KR.CAS") (Some "2025-07-01T09:00:00+09:00")
                     (Some "HTW")).

(** Scenario 2: the same with event code XYZ. *)
Definition frame_xyz : Cap.ReceivedData :=
  envelope "T2" 1 (alert_of (Some "A2") (Some "KR.CAS") (Some "2025-07-01T09:00:00+09:00")
                     (Some "XYZ")).

(** Event code XYZ again, in an alert without [sender]. *)
Definition frame_xyz_no_sender : Cap.ReceivedData :=
  envelope "T3" 1 (alert_of (Some "A3") None (Some "2025-07-01T09:00:00+09:00") (Some "XYZ")).

(** A frame whose envelope has no [capInfo]. *)
Definition frame_no_cap : Cap.ReceivedData :=
  Cap.mkReceivedData (Some "T4") (Some 1) None.

(** The XML parser on four one-octet bodies that stand for the frames
    above; every other body is rejected. *)
Definition parseXml (b : Buffer.t) : option Cap.ParsedXml :=
  match b with
  | [1] => Some (Cap.mkParsedXml (Some frame_htw))
  | [2] => Some (Cap.mkParsedXml (Some frame_xyz))
  | [3] => Some (Cap.mkParsedXml (Some frame_xyz_no_sender))
  | [4] => Some (Cap.mkParsedXml (Some frame_no_cap))
  | _ => None
  end.

Definition clock : string := "2025-07-01T09:00:01+09:00".

(** An empty store and an open, writable socket. *)
Definition world0 : DisasterHandler.World :=
  DisasterHandler.mkWorld CentralDb.empty
    (CentralSession.mkSession (Some (CentralSession.mkSocket false true []))).

Definition handle (w : DisasterHandler.World) (b : Buffer.t) : DisasterHandler.World :=
  DisasterHandler.handleDisasterInfo env parseXml xml_bytes DisasterHandler.no_faults clock w b.

(** *** Broker deliveries *)

(** A DEVICE_INFO report of subscriber ESS-A, as the external service
    publishes it, and the disaster message of alert A1. *)
Definition report_json : string := "{type:DEVICE_INFO,externalSystemName:ESS-A,rawMessage:{deviceList:[D1]}}".
Definition disaster_json : string := "{identifier:A1,eventCode:HTW,rawMessage:{}}".

Definition JSON_parse_report (s : string) : option CentralBroker.MessageContent :=
  if decide (s = report_json) then
    Some (CentralBroker.mkMessageContent (Some "DEVICE_INFO") (Some "ESS-A")
            (Some (CentralDb.mkRawMessage None "{deviceList:[D1]}")))
  else None.

Definition JSON_parse_disaster (s : string) : option ExternalDb.DisasterMessage :=
  if decide (s = disaster_json) then
    Some (ExternalDb.mkDisasterMessage (Some "A1") (Some "HTW") disaster_json)
  else None.

(** A first delivery (no retry header) and its redeliveries. *)
Definition report_delivery (retry : option Z) (tag : Z) : Amqp.Delivery :=
  Amqp.mkDelivery report_json "report.external" retry tag.

Definition disaster_delivery (retry : option Z) (tag : Z) : Amqp.Delivery :=
  Amqp.mkDelivery disaster_json "disaster.HTW" retry tag.

Definition connection_lost : Js.Error := Js.mkError "Error" "Connection terminated unexpectedly".

(** The update of the inbox row to SUCCESS rejects; every other call goes
    through. *)
Definition central_update_fails : CentralBroker.Faults :=
  CentralBroker.mkFaults None None None None None (Some connection_lost) None None None None.

Definition external_update_fails : ExternalBroker.Faults :=
  ExternalBroker.mkFaults None None None None None (Some connection_lost) None None None None.

Definition central_broker0 : CentralBroker.World :=
  CentralBroker.mkWorld CentralDb.empty [].

(** Two active subscribers of HTW. *)
Definition external_db0 : ExternalDb.Db :=
  ExternalDb.mkDb
    (ExternalDb.mkTables
       [ExternalDb.mkExternalSystem 1 "ESS-A" ["HTW"; "EQW"] true;
        ExternalDb.mkExternalSystem 2 "ESS-B" ["HTW"] true]
       [] [] [])
    None 1.

Definition external_broker0 : ExternalBroker.World :=
  ExternalBroker.mkWorld external_db0 [].

Definition consume_report (f : CentralBroker.Faults) (now : Z) (w : CentralBroker.World)
    (msg : Amqp.Delivery) : CentralBroker.World :=
  CentralBroker._consumeReportMessage env JSON_parse_report f now w msg.

Definition consume_disaster (f : ExternalBroker.Faults) (w : ExternalBroker.World)
    (msg : Amqp.Delivery) : ExternalBroker.World :=
  ExternalBroker._consumeDisasterMessage JSON_parse_disaster f w msg.

(** *** WebSocket sessions and report requests *)

Definition ess_a : ExternalSession.System := ExternalSession.mkSystem 1 "ESS-A".

(** Two sockets of subscriber ESS-A: a first connection and a reconnect. *)
Definition socket_a1 : ExternalSession.Socket :=
  ExternalSession.mkSocket 1 "sock-a1" (Some ess_a) "10.0.0.5".

Definition socket_a2 : ExternalSession.Socket :=
  ExternalSession.mkSocket 2 "sock-a2" (Some ess_a) "10.0.0.6".

(** The external store after the disaster message of alert A1 was consumed
    with ESS-B as its only subscriber. *)
Definition external_db_b_only : ExternalDb.Db :=
  ExternalDb.mkDb
    (ExternalDb.mkTables
       [ExternalDb.mkExternalSystem 1 "ESS-A" ["EQW"] true;
        ExternalDb.mkExternalSystem 2 "ESS-B" ["HTW"] true]
       [ExternalDb.mkMqReceiveLog 1 disaster_json ExternalDb.SUCCESS None]
       [ExternalDb.mkDisasterTransmitLog 2 1 2 "A1"
          (ExternalDb.mkDisasterMessage (Some "A1") (Some "HTW") disaster_json)
          ExternalDb.SUCCESS 0 (Some 1751328000000)]
       [])
    None 3.

(** ESS-A, never a target of A1, posts a disaster result for A1. *)
Definition result_request_of_a : CustomValidators.Request :=
  CustomValidators.mkRequest (ExternalDb.mkExternalSystem 1 "ESS-A" ["EQW"] true) "A1".

(** *** Report and disaster transmission *)

(** The outbox row of the DEVICE_INFO report above, with a given retry
    count. *)
Definition report_row (retry : Z) : CentralDb.ReportTransmitLog :=
  CentralDb.mkReportTransmitLog 2 1 "DEVICE_INFO" "KR.GW01_1751328000000" "ESS-A"
    (CentralDb.mkRawMessage None "{deviceList:[D1]}") CentralDb.PENDING retry None 1 None.

(** That row in the store, an open socket to the central system and no
    timer. *)
Definition transmit_world (retry : Z) : ReportTransmit.World :=
  ReportTransmit.mkWorld
    (CentralDb.mkDb
       (CentralDb.mkTables [] []
          [CentralDb.mkMqReceiveLog 1 report_json CentralDb.SUCCESS None]
          [report_row retry])
       None 3)
    (CentralSession.mkSession (Some (CentralSession.mkSocket false true [])))
    ∅.

Definition at_ms (t : Z) : ReportTransmit.Clock := ReportTransmit.mkClock t clock.

(** The central system never answers in these runs. *)
Definition parseResponse (b : Buffer.t) : option ReportTransmit.ParsedResponse := None.

(** The frame of the report with transMsgSeq 1. *)
Definition report_frame : option Buffer.t :=
  Protocol.buildMessageBuffer CentralConfig.DATA_FORMAT (CentralConfig.MAGIC_NUMBER env)
    xml_bytes CentralConfig.ETS_NFY_DEVICE_INFO
    (Cap.XmlReport
       (Cap.mkReportData "KR.GW01_1751328000000" 1
          (ReportTransmit.buildDeviceInfoCap env clock "KR.GW01_1751328000000"
             (CentralDb.mkRawMessage None "{deviceList:[D1]}") "ESS-A"))).

(** The transmit row of alert A1 for ESS-A, with a given retry count. *)
Definition disaster_row (retry : Z) : ExternalDb.DisasterTransmitLog :=
  ExternalDb.mkDisasterTransmitLog 2 1 1 "A1"
    (ExternalDb.mkDisasterMessage (Some "A1") (Some "HTW") disaster_json)
    ExternalDb.PENDING retry None.

(** That row in the store while ESS-A is connected. *)
Definition disaster_world (retry : Z) : DisasterTransmit.World :=
  DisasterTransmit.mkWorld
    (ExternalSession.mkState {[ 1 := socket_a1 ]}
       (ExternalDb.mkDb
          (ExternalDb.mkTables [ExternalDb.mkExternalSystem 1 "ESS-A" ["HTW"] true]
             [ExternalDb.mkMqReceiveLog 1 disaster_json ExternalDb.SUCCESS None]
             [disaster_row retry] [])
          None 3)
       [] [])
    [] [].

(** *** The publish workers *)

(** The publish row of alert A1, with a given retry count. *)
Definition publish_row (retry : Z) : CentralDb.DisasterPublishLog :=
  CentralDb.mkDisasterPublishLog 2 1 "disaster.HTW" "A1" "HTW" frame_htw CentralDb.PENDING retry.

Definition publish_world (retry : Z) : DisasterPublishWorker.World :=
  DisasterPublishWorker.mkWorld
    (CentralDb.mkDb (CentralDb.mkTables [] [publish_row retry] [] []) None 3) [].

Definition stringify_disaster (identifier eventCode : string) (rawMessage : Cap.ReceivedData)
  : string :=
  "{identifier:" +:+ identifier +:+ ",eventCode:" +:+ eventCode +:+ ",rawMessage:{}}".

(** The publish row of the DEVICE_INFO report, with a given retry count. *)
Definition report_publish_row (retry : Z) : ReportPublishWorker.ReportPublishLog :=
  ReportPublishWorker.mkReportPublishLog 1 "DEVICE_INFO" "ESS-A" "report.external"
    "{deviceList:[D1]}" ExternalDb.PENDING retry.

Definition report_publish_world (retry : Z) : ReportPublishWorker.World :=
  ReportPublishWorker.mkWorld [report_publish_row retry] [].

Definition stringify_report (type externalSystemName rawMessage : string) : string :=
  "{type:" +:+ type +:+ ",externalSystemName:" +:+ externalSystemName +:+ ",rawMessage:"
  +:+ rawMessage +:+ "}".

End Scenario.

(** ** Further concrete inputs *)

Module Cases.

(** The store of the central service after the alert A1 of scenario 1 was
    accepted. *)
Definition central_after_a1 : CentralDb.Db :=
  DisasterHandler.db (Scenario.handle Scenario.world0 [1]).

(** The result report of subscriber ESS-A for alert A1, as the external
    service publishes it. *)
Definition result_json : string :=
  "{type:DISASTER_RESULT,externalSystemName:ESS-A,rawMessage:{identifier:A1,reportList:[]}}".

Definition result_raw : CentralDb.RawMessage :=
  CentralDb.mkRawMessage (Some "A1") "{identifier:A1,reportList:[]}".

Definition JSON_parse_result (s : string) : option CentralBroker.MessageContent :=
  if decide (s = result_json) then
    Some (CentralBroker.mkMessageContent (Some "DISASTER_RESULT") (Some "ESS-A")
            (Some result_raw))
  else None.

Definition result_delivery (retry : option Z) (tag : Z) : Amqp.Delivery :=
  Amqp.mkDelivery result_json "report.external" retry tag.

(** The report of subscriber ESS-A once the central system has
    acknowledged it. *)
Definition finished_report_row : CentralDb.ReportTransmitLog :=
  CentralDb.mkReportTransmitLog 2 1 "DEVICE_INFO" "KR.GW01_1751328000000" "ESS-A"
    (CentralDb.mkRawMessage None "{deviceList:[D1]}") CentralDb.SUCCESS 0 None 1
    (Some 1751328001000).

Definition finished_report_world : ReportTransmit.World :=
  ReportTransmit.mkWorld
    (CentralDb.mkDb
       (CentralDb.mkTables [] []
          [CentralDb.mkMqReceiveLog 1 Scenario.report_json CentralDb.SUCCESS None]
          [finished_report_row])
       None 3)
    (CentralSession.mkSession (Some (CentralSession.mkSocket false true [])))
    ∅.

(** The transmit row of alert A1 for ESS-A after its last retry failed. *)
Definition finished_disaster_row : ExternalDb.DisasterTransmitLog :=
  ExternalDb.mkDisasterTransmitLog 2 1 1 "A1"
    (ExternalDb.mkDisasterMessage (Some "A1") (Some "HTW") Scenario.disaster_json)
    ExternalDb.FAILED 4 (Some 1751328001000).

Definition finished_disaster_world : DisasterTransmit.World :=
  DisasterTransmit.mkWorld
    (ExternalSession.mkState {[ 1 := Scenario.socket_a1 ]}
       (ExternalDb.mkDb
          (ExternalDb.mkTables [ExternalDb.mkExternalSystem 1 "ESS-A" ["HTW"] true]
             [ExternalDb.mkMqReceiveLog 1 Scenario.disaster_json ExternalDb.SUCCESS None]
             [finished_disaster_row] [])
          None 3)
       [] [])
    [] [].

(** The answers of a client to the 'disaster' event of row 2. *)
Definition ack_of_2 : option DisasterTransmit.Response :=
  Some (DisasterTransmit.mkResponse (Some "ack") (Some 2) None).

Definition nack_of_2 : option DisasterTransmit.Response :=
  Some (DisasterTransmit.mkResponse (Some "nack") (Some 2) (Some "busy")).

(** The clock of the validator runs: [new Date(2025, 6, 1, 9, 0, 0)] is
    1 July 2025 09:00:00 in Seoul; every other date is invalid. *)
Definition Date_of_2025_07_01 (year monthIndex day hours minutes seconds : Z)
  : Timestamp.DateValue :=
  if bool_decide (year = 2025 ∧ monthIndex = 6 ∧ day = 1 ∧ hours = 9 ∧ minutes = 0
                  ∧ seconds = 0)
  then Timestamp.mkDateValue 2025 6 1 9 0 0 1751328000000
  else Timestamp.mkDateValue (-1) (-1) (-1) (-1) (-1) (-1) 0.

(** *** The link to the central system *)

(** xmlbuilder2 on the three requests: one octet each stands for the
    XML text. *)
Definition request_bytes (r : CentralLink.Request) : option Buffer.t :=
  match r with
  | CentralLink.ReqConnect _ => Some [1]
  | CentralLink.ReqAuth _ _ _ _ => Some [2]
  | CentralLink.ReqAlive _ _ _ => Some [3]
  end.

(** xml2js on the bodies of the answers of the central system: a 401
    challenge, a 200, a 404; every other body is rejected. *)
Definition parseAuth (b : Buffer.t) : option CentralLink.AuthData :=
  match b with
  | [41] => Some (CentralLink.mkAuthData (Some "401") (Some "Unauthorized") (Some "bonghwa")
                    (Some "n-1"))
  | [20] => Some (CentralLink.mkAuthData (Some "200") (Some "OK") None None)
  | [44] => Some (CentralLink.mkAuthData (Some "404") (Some "Not Found") None None)
  | _ => None
  end.

Definition ambient : CentralLink.Ambient :=
  CentralLink.mkAmbient Scenario.clock (Scenario.at_ms 1751328001000)
    DisasterHandler.no_faults ReportTransmit.no_faults.

Definition route_link (m : Protocol.Message) (w : CentralLink.World) : CentralLink.World :=
  CentralLink.route Scenario.env request_bytes parseAuth Scenario.parseXml Scenario.xml_bytes
    Scenario.parseResponse ambient m w.

(** A frame of the central system with a one-octet body. *)
Definition server_frame (messageId : Z) (body : Buffer.t) : Protocol.Message :=
  Protocol.mkMessage (Protocol.mkHeader messageId 1 2864434397 1) body.

(** The client before its first connection, and a link with an open
    socket. *)
Definition link_closed : CentralLink.Link :=
  CentralLink.mkLink (CentralSession.mkSession None) false false false.

Definition link_open : CentralLink.Link :=
  CentralLink.mkLink
    (CentralSession.mkSession (Some (CentralSession.mkSocket false true []))) false false false.

Definition link_start : CentralLink.Client :=
  CentralLink.connect
    (CentralLink.mkClient false false true CentralLink.NoSocket
       (CentralLink.mkWorld link_closed CentralDb.empty ∅) 0 0 false).

(** The three frames of the handshake. *)
Definition frame_connect : Buffer.t :=
  Eval vm_compute in
    default []
      (CentralLink.buildMessageBuffer Scenario.env request_bytes CentralConfig.ETS_REQ_SYS_CON
         (CentralLink.ReqConnect "")).

Definition frame_auth : Buffer.t :=
  Eval vm_compute in
    default []
      (CentralLink.buildMessageBuffer Scenario.env request_bytes CentralConfig.ETS_REQ_SYS_CON
         (CentralLink.ReqAuth "" "" "" "")).

Definition frame_alive : Buffer.t :=
  Eval vm_compute in
    default []
      (CentralLink.buildMessageBuffer Scenario.env request_bytes CentralConfig.ETS_REQ_SYS_STS
         (CentralLink.ReqAlive "" "" "")).

(** Two subscribers of the external service, the second one suspended,
    and the key of each. *)
Definition api_key (s : ExternalDb.ExternalSystem) : string :=
  "key-" +:+ ExternalDb.es_system_name s.

Definition subscribers : ExternalDb.Db :=
  ExternalDb.mkDb
    (ExternalDb.mkTables
       [ExternalDb.mkExternalSystem 1 "ESS-A" ["HTW"] true;
        ExternalDb.mkExternalSystem 2 "ESS-B" [] false]
       [] [] [])
    None 1.

(** A devices table that takes every reported device as a new row. *)
Definition upsert_rows (id : Z) (l : list ReportApi.Device) (rows : list ReportApi.DeviceRow)
  : list ReportApi.DeviceRow + Js.Error :=
  inl (rows ++ ((λ d, ReportApi.mkDeviceRow 0 id (ReportApi.d_device_id d) (ReportApi.d_json d))
                  <$> l)).

Definition JSON_deviceList (l : list ReportApi.Device) : string :=
  String.concat "," (ReportApi.d_json <$> l).

Definition JSON_statusList (l : list ReportApi.StatusReport) : string :=
  String.concat "," (ReportApi.sr_json <$> l).

Definition JSON_result (identifier reportList : string) : string :=
  identifier +:+ ":" +:+ reportList.

(** The report tables with one device of each subscriber. *)
Definition report_store : ReportApi.Db :=
  ReportApi.mkDb
    (ReportApi.mkTables []
       [ReportApi.mkDeviceRow 7 1 "D-1" "d1"; ReportApi.mkDeviceRow 8 2 "D-2" "d2"]
       [] [])
    None 10.

(** A status report of ESS-A about its own device, a device of ESS-B and
    an unknown one. *)
Definition status_list : list ReportApi.StatusReport :=
  [ReportApi.mkStatusReport "D-1" "Y" (Some "ok") "s1";
   ReportApi.mkStatusReport "D-2" "N" None "s2";
   ReportApi.mkStatusReport "D-9" "Y" None "s9"].

Definition status_request : ReportApi.HttpRequest :=
  ReportApi.mkHttpRequest (Some "ESS-A") (Some "key-ESS-A") "10.0.0.5" "body"
    (ReportApi.DeviceStatus status_list) [].

Definition dispatch_report :=
  ReportApi.dispatch upsert_rows JSON_deviceList JSON_statusList JSON_result.




End Cases.

(** * Properties *)

(** ** Framing: header octets *)

Section BufferFacts.

Lemma uint32_octets (v : Z) :
  0 ≤ v ≤ 4294967295 →
  Buffer.to_uint8 (Z.shiftr v 24) * 2 ^ 24 + Buffer.to_uint8 (Z.shiftr v 16) * 2 ^ 16
    + Buffer.to_uint8 (Z.shiftr v 8) * 2 ^ 8 + Buffer.to_uint8 v = v.
Proof.
  intros Hv. unfold Buffer.to_uint8.
  change 255 with (Z.ones 8).
  rewrite !Z.land_ones, !Z.shiftr_div_pow2 by lia.
  change (2 ^ 24) with 16777216. change (2 ^ 16) with 65536. change (2 ^ 8) with 256.
  Z.to_euclidean_division_equations. lia.
Qed.

Lemma clamp_index_nonneg (len : nat) (i : Z) :
  0 ≤ i → Buffer.clamp_index len i = Z.to_nat (Z.min i (Z.of_nat len)).
Proof. intros Hi. unfold Buffer.clamp_index. case_decide; [lia | done]. Qed.

Lemma subarray_prefix (a b : Buffer.t) :
  Buffer.subarray (a ++ b) 0 (Z.of_nat (length a)) = a.
Proof.
  unfold Buffer.subarray. rewrite !clamp_index_nonneg by lia.
  rewrite length_app.
  replace (Z.to_nat (Z.min 0 _)) with 0%nat by lia.
  replace (Z.to_nat (Z.min (Z.of_nat (length a)) _)) with (length a) by lia.
  rewrite drop_0, Nat.sub_0_r. by rewrite take_app_length.
Qed.

Lemma subarray_from_prefix (a b : Buffer.t) :
  Buffer.subarray_from (a ++ b) (Z.of_nat (length a)) = b.
Proof.
  unfold Buffer.subarray_from. rewrite clamp_index_nonneg by lia.
  rewrite length_app.
  replace (Z.to_nat (Z.min (Z.of_nat (length a)) _)) with (length a) by lia.
  by rewrite drop_app_length.
Qed.

Lemma subarray_from_length (buf : Buffer.t) (i : Z) :
  (length (Buffer.subarray_from buf i) ≤ length buf)%nat.
Proof. unfold Buffer.subarray_from. rewrite length_drop. lia. Qed.

Lemma subarray_length (buf : Buffer.t) (i j : Z) :
  (length (Buffer.subarray buf i j) ≤ length buf)%nat.
Proof. unfold Buffer.subarray. rewrite length_take, length_drop. lia. Qed.

Lemma readUInt32BE_length (buf : Buffer.t) (off : nat) (v : Z) :
  Buffer.readUInt32BE buf off = Some v → (off + 4 ≤ length buf)%nat.
Proof.
  unfold Buffer.readUInt32BE. intros H.
  destruct (buf !! off) eqn:E0; simpl in H; [|done].
  destruct (buf !! (off + 1)%nat) eqn:E1; simpl in H; [|done].
  destruct (buf !! (off + 2)%nat) eqn:E2; simpl in H; [|done].
  destruct (buf !! (off + 3)%nat) eqn:E3; simpl in H; [|done].
  apply lookup_lt_Some in E3. lia.
Qed.

End BufferFacts.

(** ** Framing: the deframer loop ends, and framer then deframer is the identity *)

Section ProtocolFacts.

Variables DATA_FORMAT MAGIC_NUMBER MAX_BODY_LENGTH : Z.
Context {XmlObject : Type} (xml_bytes : XmlObject → option Buffer.t).

Local Abbreviation buildMessageBuffer :=
  (Protocol.buildMessageBuffer DATA_FORMAT MAGIC_NUMBER xml_bytes).
Local Abbreviation _parseHeader := (Protocol._parseHeader MAGIC_NUMBER MAX_BODY_LENGTH).
Local Abbreviation transform_loop := (Protocol.transform_loop MAGIC_NUMBER MAX_BODY_LENGTH).
Local Abbreviation _transform := (Protocol._transform MAGIC_NUMBER MAX_BODY_LENGTH).

Lemma emitCompleteMessage_shape p b p' out :
  Protocol.emitCompleteMessage p b = Some (p', out) →
  Protocol.buffer p' = Protocol.buffer p ∧ Protocol.parsingState p' = Protocol.HEADER.
Proof.
  unfold Protocol.emitCompleteMessage. destruct (Protocol.p_header p); simpl; [|done].
  intros [= <- <-]. done.
Qed.

Lemma _parseHeader_measure p p' out :
  _parseHeader p = Some (p', out) →
  (Protocol.parser_measure p' + 31 ≤ 2 * length (Protocol.buffer p))%nat.
Proof.
  unfold Protocol._parseHeader. intros H.
  destruct (Buffer.readUInt32BE _ 0) as [mid|]; simpl in H; [|done].
  destruct (Buffer.readUInt32BE _ 4) as [fmt|]; simpl in H; [|done].
  destruct (Buffer.readUInt32BE _ 8) as [mag|]; simpl in H; [|done].
  destruct (Buffer.readUInt32BE _ 12) as [len|] eqn:Hlen; simpl in H; [|done].
  apply readUInt32BE_length in Hlen.
  pose proof (subarray_length (Protocol.buffer p) 0 (Z.of_nat Protocol.HEADER_LENGTH)) as Hsub.
  assert (Hdrop : length (Buffer.subarray_from (Protocol.buffer p) (Z.of_nat Protocol.HEADER_LENGTH))
                  = (length (Protocol.buffer p) - 16)%nat).
  { unfold Buffer.subarray_from. rewrite length_drop, clamp_index_nonneg by lia.
    unfold Protocol.HEADER_LENGTH. lia. }
  repeat case_decide; try done.
  - apply emitCompleteMessage_shape in H as [Hb Hs]. simpl in Hb.
    unfold Protocol.parser_measure. rewrite Hb, Hs, Hdrop. lia.
  - injection H as <- <-. unfold Protocol.parser_measure. simpl. rewrite Hdrop. lia.
Qed.

Lemma _parseBody_measure p p' out :
  Protocol._parseBody p = Some (p', out) →
  (Protocol.parser_measure p' ≤ 2 * length (Protocol.buffer p))%nat.
Proof.
  unfold Protocol._parseBody. intros H.
  destruct (Protocol.emitCompleteMessage p _) as [[q o]|] eqn:E; simpl in H; [|done].
  apply emitCompleteMessage_shape in E as [Hb Hs].
  injection H as <- <-. unfold Protocol.parser_measure. simpl. rewrite Hs, Hb.
  pose proof (subarray_from_length (Protocol.buffer p) (Protocol.neededLength p)). lia.
Qed.

Lemma transform_loop_total fuel p acc :
  (Protocol.parser_measure p < fuel)%nat → is_Some (transform_loop fuel p acc).
Proof.
  revert p acc. induction fuel as [|fuel IH]; intros p acc Hm; [lia|].
  simpl. case_decide; [|by eexists].
  destruct (Protocol.parsingState p) eqn:Hs.
  - destruct (_parseHeader p) as [[p' out]|] eqn:E; [|by eexists].
    apply IH. apply _parseHeader_measure in E.
    unfold Protocol.parser_measure in Hm. lia.
  - destruct (Protocol._parseBody p) as [[p' out]|] eqn:E; [|by eexists].
    apply IH. apply _parseBody_measure in E.
    unfold Protocol.parser_measure in Hm. rewrite Hs in Hm. lia.
Qed.

(** [_transform] always returns: the iteration budget is never the reason
    the loop stops. *)
Lemma _transform_total p chunk : is_Some (_transform p chunk).
Proof.
  unfold Protocol._transform. apply transform_loop_total.
  unfold Protocol.parser_measure, Protocol.budget. simpl.
  destruct (Protocol.parsingState p); lia.
Qed.

Lemma header_octets_read (a b c d : Z) (body : Buffer.t) :
  0 ≤ a ≤ 4294967295 → 0 ≤ b ≤ 4294967295 → 0 ≤ c ≤ 4294967295 → 0 ≤ d ≤ 4294967295 →
  ∃ hdr,
    (h1 ← Buffer.writeUInt32BE (Buffer.alloc Protocol.HEADER_LENGTH) a 0;
     h2 ← Buffer.writeUInt32BE h1 b 4;
     h3 ← Buffer.writeUInt32BE h2 c 8;
     Buffer.writeUInt32BE h3 d 12) = Some hdr
    ∧ length hdr = Protocol.HEADER_LENGTH
    ∧ Buffer.readUInt32BE hdr 0 = Some a
    ∧ Buffer.readUInt32BE hdr 4 = Some b
    ∧ Buffer.readUInt32BE hdr 8 = Some c
    ∧ Buffer.readUInt32BE hdr 12 = Some d.
Proof.
  intros Ha Hb Hc Hd. unfold Buffer.writeUInt32BE.
  rewrite (decide_True _ _ Ha). simpl.
  rewrite (decide_True _ _ Hb). simpl.
  rewrite (decide_True _ _ Hc). simpl.
  rewrite (decide_True _ _ Hd). simpl.
  eexists. split; [reflexivity|]. split; [reflexivity|].
  unfold Buffer.readUInt32BE. simpl.
  rewrite !uint32_octets by done. done.
Qed.

(** C5. For every message id, data format and magic number that are
    unsigned 32-bit values and every XML object whose serialised body has
    at most MAX_BODY_LENGTH octets, [buildMessageBuffer] returns a frame
    of 16 octets plus the body, and a fresh [ProtocolParser] fed that frame
    emits exactly one message, whose header holds the message id, the data
    format, the magic number and the body length, and whose body is the
    original body; the parser is then back in its initial state. *)
Theorem frame_deframe_roundtrip (messageId : Z) (xmlObject : XmlObject) (body : Buffer.t) :
  xml_bytes xmlObject = Some body →
  0 ≤ messageId ≤ 4294967295 →
  0 ≤ DATA_FORMAT ≤ 4294967295 →
  0 ≤ MAGIC_NUMBER ≤ 4294967295 →
  MAX_BODY_LENGTH ≤ 4294967295 →
  Z.of_nat (length body) ≤ MAX_BODY_LENGTH →
  ∃ frame,
    buildMessageBuffer messageId xmlObject = Some frame
    ∧ length frame = (Protocol.HEADER_LENGTH + length body)%nat
    ∧ _transform Protocol.initial frame
      = Some (Protocol.initial,
              [ Protocol.mkMessage
                  (Protocol.mkHeader messageId DATA_FORMAT MAGIC_NUMBER
                     (Z.of_nat (length body)))
                  body ]).
Proof.
  intros Hxml Hid Hfmt Hmag Hmax Hlen.
  destruct (header_octets_read messageId DATA_FORMAT MAGIC_NUMBER
              (Z.of_nat (length body)) body) as (hdr & Hw & Hl & R0 & R4 & R8 & R12);
    [lia..|].
  exists (hdr ++ body). split; [|split].
  - unfold Protocol.buildMessageBuffer. rewrite Hxml. cbn [mbind option_bind].
    destruct (Buffer.writeUInt32BE (Buffer.alloc _) messageId 0) as [h1|]; simpl in *; [|done].
    destruct (Buffer.writeUInt32BE h1 DATA_FORMAT 4) as [h2|]; simpl in *; [|done].
    destruct (Buffer.writeUInt32BE h2 MAGIC_NUMBER 8) as [h3|]; simpl in *; [|done].
    rewrite Hw. done.
  - rewrite length_app. lia.
  - unfold Protocol._transform, Protocol.budget, Buffer.concat.
    cbn [Protocol.buffer Protocol.initial Buffer.alloc replicate app
         Protocol.neededLength Protocol.parsingState Protocol.p_header].
    rewrite length_app, Hl.
    replace (2 * (Protocol.HEADER_LENGTH + length body) + 2)%nat
      with (S (S (2 * length body + 32))) by (unfold Protocol.HEADER_LENGTH; lia).
    set (k := (2 * length body + 32)%nat).
    assert (Hsub : Buffer.subarray (hdr ++ body) 0 (Z.of_nat Protocol.HEADER_LENGTH) = hdr)
      by (rewrite <- Hl; apply subarray_prefix).
    assert (Hrest : Buffer.subarray_from (hdr ++ body) (Z.of_nat Protocol.HEADER_LENGTH) = body)
      by (rewrite <- Hl; apply subarray_from_prefix).
    (* first iteration: the header *)
    cbn [Protocol.transform_loop Protocol.buffer Protocol.neededLength Protocol.parsingState].
    rewrite decide_True by (rewrite length_app, Hl; unfold Protocol.HEADER_LENGTH; lia).
    unfold Protocol._parseHeader. cbn [Protocol.buffer].
    rewrite Hsub, R0. cbn [mbind option_bind]. rewrite R4. cbn [mbind option_bind].
    rewrite R8. cbn [mbind option_bind]. rewrite R12. cbn [mbind option_bind].
    rewrite decide_False by (intros H; by apply H).
    rewrite decide_False by lia.
    rewrite Hrest. cbn [Protocol.neededLength].
    destruct (decide (Z.of_nat (length body) = 0)) as [Hz|Hnz].
    + (* empty body: emitted at once *)
      assert (body = []) as -> by (destruct body; [done | simpl in Hz; lia]).
      cbn. rewrite decide_False by (unfold Protocol.HEADER_LENGTH; lia). done.
    + (* second iteration: the body *)
      cbn [app]. destruct k as [|k'] eqn:Hk; [lia|].
      cbn [Protocol.transform_loop Protocol.buffer Protocol.neededLength Protocol.parsingState].
      rewrite decide_True by lia.
      unfold Protocol._parseBody, Protocol.emitCompleteMessage.
      cbn [Protocol.p_header Protocol.buffer Protocol.neededLength Protocol.parsingState
           mbind option_bind].
      pose proof (subarray_prefix body []) as Hb. rewrite app_nil_r in Hb. rewrite Hb.
      pose proof (subarray_from_prefix body []) as Hb'. rewrite app_nil_r in Hb'. rewrite Hb'.
      destruct k'; cbn; rewrite decide_False by (unfold Protocol.HEADER_LENGTH; lia); done.
Qed.

End ProtocolFacts.

(** The round trip on a concrete frame: message id ETS_CNF_DIS_INFO, data
    format 1, a magic number, the 20 MiB limit and a four-octet body, the
    serialiser being the identity on octet strings. *)
Lemma frame_deframe_roundtrip_witness :
  Z.of_nat (length [60; 100; 47; 62]) ≤ 20971520
  ∧ ∃ frame,
      Protocol.buildMessageBuffer 1 2864434397 Some 4293804064 [60; 100; 47; 62] = Some frame
      ∧ length frame = (Protocol.HEADER_LENGTH + 4)%nat
      ∧ Protocol._transform 2864434397 20971520 Protocol.initial frame
        = Some (Protocol.initial,
                [ Protocol.mkMessage (Protocol.mkHeader 4293804064 1 2864434397 4)
                    [60; 100; 47; 62] ]).
Proof.
  split; [simpl; lia|].
  apply (frame_deframe_roundtrip 1 2864434397 20971520 Some 4293804064
           [60; 100; 47; 62] [60; 100; 47; 62]);
    simpl; first [reflexivity | lia].
Defined.

(** ** The digest authenticator *)

Section AuthFacts.

Lemma octets_le_range (n : nat) (v : Z) :
  Forall (λ b, 0 ≤ b < 256) (Md5.octets_le n v).
Proof.
  unfold Md5.octets_le. apply Forall_map, Forall_forall. intros k _. simpl.
  change 255 with (Z.ones 8). rewrite Z.land_ones by lia.
  apply Z.mod_pos_bound. lia.
Qed.

Lemma octets_le_length (n : nat) (v : Z) : length (Md5.octets_le n v) = n.
Proof. unfold Md5.octets_le. by rewrite length_map, length_seq. Qed.

Lemma digest_range (msg : list Z) : Forall (λ b, 0 ≤ b < 256) (Md5.digest msg).
Proof.
  unfold Md5.digest. destruct (Md5.absorb _ _ _).
  repeat apply Forall_app_2; apply octets_le_range.
Qed.

Lemma digest_length (msg : list Z) : length (Md5.digest msg) = 16%nat.
Proof.
  unfold Md5.digest. destruct (Md5.absorb _ _ _).
  by rewrite !length_app, !octets_le_length.
Qed.

Lemma hex_length (octets : list Z) :
  String.length (Md5.hex octets) = (2 * length octets)%nat.
Proof. induction octets as [|b l IH]; simpl in *; [done | rewrite IH; lia]. Qed.

Lemma toUpperCase_length (s : string) :
  String.length (AuthService.toUpperCase s) = String.length s.
Proof. induction s; simpl; congruence. Qed.

Lemma upper_hex_digit (v : Z) :
  0 ≤ v < 16 →
  AuthService.is_upper_hex (AuthService.upper_ascii (Md5.hex_digit v)) = true.
Proof.
  intros Hv.
  assert (v = 0 ∨ v = 1 ∨ v = 2 ∨ v = 3 ∨ v = 4 ∨ v = 5 ∨ v = 6 ∨ v = 7 ∨ v = 8
          ∨ v = 9 ∨ v = 10 ∨ v = 11 ∨ v = 12 ∨ v = 13 ∨ v = 14 ∨ v = 15) as Hcases by lia.
  repeat destruct Hcases as [-> | Hcases]; try subst v; reflexivity.
Qed.

Lemma hex_upper (octets : list Z) :
  Forall (λ b, 0 ≤ b < 256) octets →
  forallb AuthService.is_upper_hex
    (list_ascii_of_string (AuthService.toUpperCase (Md5.hex octets))) = true.
Proof.
  induction 1 as [|b l Hb _ IH]; [done|].
  cbn [Md5.hex fold_right AuthService.toUpperCase list_ascii_of_string forallb].
  fold (Md5.hex l). rewrite IH, !upper_hex_digit; [done | |].
  - change 15 with (Z.ones 4). rewrite Z.land_ones by lia. apply Z.mod_pos_bound. lia.
  - rewrite Z.shiftr_div_pow2 by lia. change (2 ^ 4) with 16.
    split; [apply Z.div_pos; lia | apply Z.div_lt_upper_bound; lia].
Qed.

(** C8, as the code has it. For all destId, realm, password and nonce,
    [calculateResponse] returns the upper-case hexadecimal MD5 of
    [A1 ":" nonce], where A1 is the UPPER-CASE hexadecimal MD5 of
    [destId ":" realm ":" password]; the result is 32 characters long, all
    of them digits or letters A to F. *)
Theorem calculateResponse_digest (DEST_ID PASSWORD realm nonce : string) :
  let A1 := AuthService.toUpperCase
              (Md5.md5_hex (DEST_ID +:+ ":" +:+ realm +:+ ":" +:+ PASSWORD)) in
  let response := AuthService.calculateResponse DEST_ID PASSWORD realm nonce in
  response = AuthService.toUpperCase (Md5.md5_hex (A1 +:+ ":" +:+ nonce))
  ∧ String.length response = 32%nat
  ∧ forallb AuthService.is_upper_hex (list_ascii_of_string response) = true.
Proof.
  intros A1 response. split; [reflexivity|]. split.
  - unfold response, AuthService.calculateResponse, AuthService._md5, Md5.md5_hex.
    by rewrite toUpperCase_length, hex_length, digest_length.
  - unfold response, AuthService.calculateResponse, AuthService._md5, Md5.md5_hex.
    apply hex_upper, digest_range.
Qed.

(** C8, as stated, fails: with destId "a", password "p", realm "r" and
    nonce "n" the code answers 2C3C26F57A2C295CA663B29E73156CFC, while
    MD5(MD5(destId:realm:password):nonce).upper() with the inner digest as
    [digest('hex')] prints it is 2DB2B7B8D72C2B2ACBEF1ACBA41215A4. *)
Lemma calculateResponse_not_spec_response :
  AuthService.calculateResponse "a" "p" "r" "n" = "2C3C26F57A2C295CA663B29E73156CFC"
  ∧ AuthService.spec_response "a" "p" "r" "n" = "2DB2B7B8D72C2B2ACBEF1ACBA41215A4"
  ∧ AuthService.calculateResponse "a" "p" "r" "n"
    ≠ AuthService.spec_response "a" "p" "r" "n".
Proof.
  assert (H1 : AuthService.calculateResponse "a" "p" "r" "n"
               = "2C3C26F57A2C295CA663B29E73156CFC") by (vm_compute; reflexivity).
  assert (H2 : AuthService.spec_response "a" "p" "r" "n"
               = "2DB2B7B8D72C2B2ACBEF1ACBA41215A4") by (vm_compute; reflexivity).
  split; [done|]. split; [done|]. rewrite H1, H2. discriminate.
Qed.

End AuthFacts.

(** ** Typed replies of the inbound disaster pipeline *)

Section ResponseFacts.

Variable env : CentralConfig.Env.

Lemma responseXmlObject_codes now rd cap err obj :
  ResponseUtils.responseXmlObject env now rd cap err = Some obj →
  let rc := ResponseUtils._mapErrorToResponseCode err in
  Cap.cnf_resultCode obj = ResponseUtils.resultCode rc
  ∧ Cap.cnf_result obj = ResponseUtils.resultText rc
  ∧ ∀ ack, Cap.cnf_capInfo obj = Some ack →
      Cap.ack_note ack = ResponseUtils.noteCode rc +:+ "|" +:+ ResponseUtils.noteMessage rc.
Proof.
  intros H rc. unfold ResponseUtils.responseXmlObject in H.
  destruct (negb _); [done|].
  destruct (Cap.transMsgId rd); simpl in H; [|done].
  destruct (Cap.transMsgSeq rd); simpl in H; [|done].
  destruct cap as [c|]; cbn [mbind option_bind] in H.
  - unfold CapService.createAckCap in H. cbn [mbind option_bind] in H.
    destruct (Cap.alert c); cbn in H; [|done].
    injection H as <-. cbn. split; [done|]. split; [done|].
    by intros ack [= <-].
  - injection H as <-. cbn. done.
Qed.

(** C10. The reply codes: no error gives 200/OK with note 000; a
    ValidationError, ProfileError or DuplicateMessageError gives
    400/Bad Request with note 210, 220 or 300; a ParsingError and every
    other error give 500/Internal Server Error with note 810; the result
    code is 400 exactly for the first three kinds. The reply object built
    for the frame carries these codes, and its acknowledgement alert, when
    it has one, the note code followed by the note message. *)
Theorem nack_codes (e : Js.Error) :
  let rc := ResponseUtils._mapErrorToResponseCode (Some e) in
  let three := ["ValidationError"; "ProfileError"; "DuplicateMessageError"] in
  ResponseUtils._mapErrorToResponseCode None
    = ResponseUtils.mkResponseCode "200" "OK" "000" "메시지 수신 확인"
  ∧ (Js.name e = "ValidationError" →
       rc = ResponseUtils.mkResponseCode "400" "Bad Request" "210"
              ("메시지 유효성 오류: " +:+ Js.message e))
  ∧ (Js.name e = "ProfileError" →
       rc = ResponseUtils.mkResponseCode "400" "Bad Request" "220"
              ("프로파일 해석 오류: " +:+ Js.message e))
  ∧ (Js.name e = "DuplicateMessageError" →
       rc = ResponseUtils.mkResponseCode "400" "Bad Request" "300"
              ("메시지 중복 확인: " +:+ Js.message e))
  ∧ (Js.name e = "ParsingError" →
       rc = ResponseUtils.mkResponseCode "500" "Internal Server Error" "810"
              ("CAP 파싱 실패: " +:+ Js.message e))
  ∧ (Js.name e ∉ "ParsingError" :: three →
       rc = ResponseUtils.mkResponseCode "500" "Internal Server Error" "810"
              ("재난 정보 게이트웨이 내부 오류: " +:+ Js.message e))
  ∧ (ResponseUtils.resultCode rc = "400" ↔ Js.name e ∈ three)
  ∧ (ResponseUtils.resultCode rc = "500" ↔ Js.name e ∉ three)
  ∧ (∀ now rd cap obj,
       ResponseUtils.responseXmlObject env now rd cap (Some e) = Some obj →
       Cap.cnf_resultCode obj = ResponseUtils.resultCode rc
       ∧ Cap.cnf_result obj = ResponseUtils.resultText rc
       ∧ ∀ ack, Cap.cnf_capInfo obj = Some ack →
           Cap.ack_note ack
           = ResponseUtils.noteCode rc +:+ "|" +:+ ResponseUtils.noteMessage rc).
Proof.
  intros rc three. subst rc three. unfold ResponseUtils._mapErrorToResponseCode.
  split; [done|].
  split; [by intros -> |].
  split; [by intros -> |].
  split; [by intros -> |].
  split; [by intros -> |].
  split.
  { rewrite !not_elem_of_cons. intros Hx. repeat case_decide; try done; intuition congruence. }
  split.
  { rewrite !elem_of_cons, elem_of_nil.
    repeat case_decide; simpl; split; intros Hx; try done; intuition congruence. }
  split.
  { rewrite !not_elem_of_cons.
    repeat case_decide; simpl; split; intros Hx; try done;
      try (by intuition congruence);
      repeat split; try done; apply not_elem_of_nil. }
  intros now rd cap obj H. by apply responseXmlObject_codes in H.
Qed.

End ResponseFacts.

(** ** The inbound disaster pipeline *)

Section DisasterHandlerFacts.

Variable env : CentralConfig.Env.
Variable parseXml : Buffer.t → option Cap.ParsedXml.
Variable xml_bytes : Cap.XmlObject → option Buffer.t.

Local Abbreviation handleDisasterInfo :=
  (DisasterHandler.handleDisasterInfo env parseXml xml_bytes).
Local Abbreviation reply_object := (DisasterHandler.reply_object env parseXml xml_bytes).
Local Abbreviation frame_reply := (DisasterHandler.frame_reply env xml_bytes).

(** What the handler writes to the socket is the frame of [reply_object],
    when that frame can be built. *)
Lemma handleDisasterInfo_session f now w buf :
  DisasterHandler.session (handleDisasterInfo f now w buf)
  = DisasterHandler.send_if_built (reply_object f now w buf ≫= frame_reply)
      (DisasterHandler.session w).
Proof.
  assert (Hs : ∀ w1 L r, DisasterHandler.try_block env parseXml xml_bytes f now w buf = (w1, L, r) →
               (r = None ∧ DisasterHandler.session w1
                           = DisasterHandler.send_if_built
                               (reply_object f now w buf ≫= frame_reply)
                               (DisasterHandler.session w))
               ∨ (is_Some r ∧ DisasterHandler.session w1 = DisasterHandler.session w)).
  { intros w1 L r. unfold DisasterHandler.reply_object, DisasterHandler.try_block.
    repeat case_match; simplify_eq;
      try (intros [= <- <- <-]; right; split; [by eexists|done]).
    intros [= <- <- <-]. left. split; [done|]. cbn [DisasterHandler.session].
    cbn [DisasterHandler.receivedData mbind option_bind].
    unfold ResponseUtils.createCnfDisInfoBuffer, DisasterHandler.frame_reply. done. }
  unfold DisasterHandler.handleDisasterInfo, DisasterHandler.reply_object in *.
  destruct (DisasterHandler.try_block env parseXml xml_bytes f now w buf) as [[w1 L] r] eqn:E.
  destruct (Hs _ _ _ eq_refl) as [[-> Hw]|[[err ->] Hw]]; [done|].
  unfold DisasterHandler.catch_block. simpl. rewrite Hw.
  destruct (DisasterHandler.receivedData L); simpl; [|done].
  unfold ResponseUtils.createCnfDisInfoBuffer, DisasterHandler.frame_reply. done.
Qed.

Lemma truthy_Some (v : string) : v ≠ "" → Js.truthy (Some v) = true.
Proof. intros H. simpl. destruct (String.eqb_spec v ""); done. Qed.

Lemma validated_complete (a : Cap.Alert) (identifier code : string) :
  Cap.identifier a = Some identifier → identifier ≠ "" →
  Js.truthy (Cap.sender a) = true → Js.truthy (Cap.sent a) = true →
  Cap.alert_eventCode a = Some code → code ≠ "" →
  DisasterHandler.validated (Some a) = Some (a, identifier, code).
Proof.
  intros Hi Hi' Hs Ht Hc Hc'. unfold DisasterHandler.validated. cbn [mbind option_bind].
  rewrite Hi, Hc, Hs, Ht, !truthy_Some by done. done.
Qed.

(** C4, as the code has it. No call to the store fails, the handler
    starts outside a transaction, and the envelope parses with a non-empty
    transMsgId [id] and a transMsgSeq [seq].

    (a) If (id, seq) has not been received before and the alert carries
    identifier, sender, sent and an event code that is not in the
    allowlist, the reply object is resultCode 400 / Bad Request with note
    "220|...", the inbox gains exactly one row, (id, seq) with status
    FAILED, and disaster_publish_logs is unchanged.

    (b) If (id, seq) has been received before, the reply object is
    resultCode 400 / Bad Request, with note "300|..." when the envelope
    carries an alert and without capInfo otherwise; the store is left as
    it was, so no row is written and nothing new is pending for the broker.

    In both cases the frame of the reply object is what is written to the
    socket. *)
Theorem disaster_nack_paths now w buf rd id seq :
  parseXml buf = Some (Cap.mkParsedXml (Some rd)) →
  Cap.transMsgId rd = Some id → id ≠ "" →
  Cap.transMsgSeq rd = Some seq →
  CentralDb.in_txn (DisasterHandler.db w) = None →
  Forall (λ r, CentralDb.trl_id r ≠ CentralDb.next_id (DisasterHandler.db w))
    (CentralDb.tcp_receive_logs (CentralDb.committed (DisasterHandler.db w))) →
  let w' := handleDisasterInfo DisasterHandler.no_faults now w buf in
  let reply := reply_object DisasterHandler.no_faults now w buf in
  let dup := CentralDb.tcp_isDuplicate CentralDb.Client id seq (DisasterHandler.db w) in
  DisasterHandler.session w'
    = DisasterHandler.send_if_built (reply ≫= frame_reply) (DisasterHandler.session w)
  ∧ (dup = false →
     ∀ a identifier code,
       Cap.capInfo rd ≫= Cap.alert = Some a →
       Cap.identifier a = Some identifier → identifier ≠ "" →
       Js.truthy (Cap.sender a) = true → Js.truthy (Cap.sent a) = true →
       Cap.alert_eventCode a = Some code → code ≠ "" →
       code ∉ CentralConfig.VALID_EVENT_CODES →
       let reason := "정의되지 않은 Event Code: " +:+ code in
       (∃ ack,
          reply = Some (Cap.mkCnfDisInfo "400" "Bad Request" seq id (Some ack))
          ∧ Cap.ack_note ack = "220|프로파일 해석 오류: " +:+ reason)
       ∧ CentralDb.tcp_receive_logs (CentralDb.committed (DisasterHandler.db w'))
         = CentralDb.tcp_receive_logs (CentralDb.committed (DisasterHandler.db w))
           ++ [CentralDb.mkTcpReceiveLog (CentralDb.next_id (DisasterHandler.db w)) id seq rd
                 CentralDb.FAILED (Some reason)]
       ∧ CentralDb.disaster_publish_logs (CentralDb.committed (DisasterHandler.db w'))
         = CentralDb.disaster_publish_logs (CentralDb.committed (DisasterHandler.db w))
       ∧ CentralDb.in_txn (DisasterHandler.db w') = None)
  ∧ (dup = true →
     let reason := "메시지 중복 (Inbound ID: " +:+ id +:+ ", Seq: " +:+ pretty seq +:+ ")" in
     (∃ obj,
        reply = Some obj
        ∧ Cap.cnf_resultCode obj = "400" ∧ Cap.cnf_result obj = "Bad Request"
        ∧ Cap.cnf_transMsgId obj = id ∧ Cap.cnf_transMsgSeq obj = seq
        ∧ match Cap.capInfo rd ≫= Cap.alert with
          | Some _ => ∃ ack, Cap.cnf_capInfo obj = Some ack
                             ∧ Cap.ack_note ack = "300|메시지 중복 확인: " +:+ reason
          | None => Cap.cnf_capInfo obj = None
          end)
     ∧ DisasterHandler.db w' = DisasterHandler.db w
     ∧ CentralDb.dpl_findUnprocessedMessages (DisasterHandler.db w')
       = CentralDb.dpl_findUnprocessedMessages (DisasterHandler.db w)).
Proof.
  intros Hparse Hid Hne Hseq Htxn Hfresh w' reply dup.
  split; [apply handleDisasterInfo_session|].
  assert (Htruthy : Js.truthy (Some id) = true) by by apply truthy_Some.
  split.
  - intros Hdup a identifier code Ha Hi Hi' Hs Ht Hc Hc' Hnot reason.
    assert (Htry : DisasterHandler.try_block env parseXml xml_bytes DisasterHandler.no_faults
                     now w buf
                   = (DisasterHandler.mkWorld
                        (CentralDb.begin
                           (snd (default (0, DisasterHandler.db w)
                                   (CentralDb.tcp_create CentralDb.Client id seq rd
                                      (DisasterHandler.db w)))))
                        (DisasterHandler.session w),
                      DisasterHandler.mkLocals (Some rd)
                        (Some (CentralDb.next_id (DisasterHandler.db w))) (Some a) true,
                      Some (ResponseUtils.ProfileError reason))).
    { unfold DisasterHandler.try_block. cbn [DisasterHandler.getClient_fails
        DisasterHandler.no_faults DisasterHandler.isDuplicate_fails DisasterHandler.create_fails
        DisasterHandler.begin_fails].
      rewrite Hparse. cbn [Cap.data mbind option_bind]. rewrite Hid, Hseq, Htruthy.
      cbn [negb]. fold dup. rewrite Hdup.
      unfold CentralDb.tcp_create. fold dup. rewrite Hdup.
      cbn [CentralDb.nextval default snd]. rewrite Ha.
      rewrite (validated_complete a identifier code) by done.
      rewrite bool_decide_eq_false_2 by done. cbn [negb]. done. }
    subst w' reply. unfold DisasterHandler.handleDisasterInfo, DisasterHandler.reply_object.
    rewrite Htry. unfold CentralDb.tcp_create. fold dup. rewrite Hdup.
    cbn [CentralDb.nextval default snd DisasterHandler.receivedData DisasterHandler.alert
         mbind option_bind].
    split; [|split; [|split]].
    + unfold ResponseUtils.responseXmlObject. rewrite Hid, Hseq, Htruthy.
      cbn [negb mbind option_bind].
      destruct (Cap.capInfo rd) as [c|] eqn:Hc0; [|done]. simpl in Ha.
      unfold CapService.createAckCap. cbn [mbind option_bind fmap option_fmap option_map].
      rewrite Ha. cbn. eexists. split; [reflexivity|]. done.
    + unfold DisasterHandler.catch_block.
      cbn [DisasterHandler.client DisasterHandler.rollback_fails DisasterHandler.no_faults
           DisasterHandler.tcpReceiveLogId DisasterHandler.update_failed_fails
           DisasterHandler.db].
      unfold CentralDb.exec, CentralDb.begin, CentralDb.rollback, CentralDb.tcp_updateStatus,
        CentralDb.exec. rewrite Htxn. cbn.
      rewrite map_app. cbn. rewrite decide_True by done. f_equal.
      rewrite <- (map_id (CentralDb.tcp_receive_logs _)) at 2.
      apply map_ext_Forall. eapply Forall_impl; [exact Hfresh|].
      intros r Hr. cbn. by rewrite decide_False.
    + unfold DisasterHandler.catch_block.
      cbn [DisasterHandler.client DisasterHandler.rollback_fails DisasterHandler.no_faults
           DisasterHandler.tcpReceiveLogId DisasterHandler.update_failed_fails
           DisasterHandler.db].
      unfold CentralDb.exec, CentralDb.begin, CentralDb.rollback, CentralDb.tcp_updateStatus,
        CentralDb.exec. rewrite Htxn. cbn. done.
    + unfold DisasterHandler.catch_block.
      cbn [DisasterHandler.client DisasterHandler.rollback_fails DisasterHandler.no_faults
           DisasterHandler.tcpReceiveLogId DisasterHandler.update_failed_fails
           DisasterHandler.db].
      unfold CentralDb.exec, CentralDb.begin, CentralDb.rollback, CentralDb.tcp_updateStatus,
        CentralDb.exec. rewrite Htxn. cbn. done.
  - intros Hdup reason.
    assert (Htry : DisasterHandler.try_block env parseXml xml_bytes DisasterHandler.no_faults
                     now w buf
                   = (w, DisasterHandler.mkLocals (Some rd) None (Cap.capInfo rd ≫= Cap.alert) true,
                      Some (ResponseUtils.DuplicateMessageError reason))).
    { unfold DisasterHandler.try_block. cbn [DisasterHandler.getClient_fails
        DisasterHandler.no_faults DisasterHandler.isDuplicate_fails].
      rewrite Hparse. cbn [Cap.data mbind option_bind]. rewrite Hid, Hseq, Htruthy.
      cbn [negb]. fold dup. rewrite Hdup. done. }
    subst w' reply. unfold DisasterHandler.handleDisasterInfo, DisasterHandler.reply_object.
    rewrite Htry.
    cbn [DisasterHandler.receivedData DisasterHandler.alert mbind option_bind].
    split; [|split].
    + unfold ResponseUtils.responseXmlObject. rewrite Hid, Hseq, Htruthy.
      cbn [negb mbind option_bind].
      destruct (Cap.capInfo rd) as [c|] eqn:Hc0; cbn [mbind option_bind].
      * destruct (Cap.alert c) as [a|] eqn:Ha.
        -- unfold CapService.createAckCap. cbn [mbind option_bind fmap option_fmap option_map].
           rewrite Ha. cbn. eexists. repeat (split; [reflexivity|]). eexists. done.
        -- cbn. eexists. repeat (split; [reflexivity|]). done.
      * cbn. eexists. repeat (split; [reflexivity|]). done.
    + unfold DisasterHandler.catch_block.
      cbn [DisasterHandler.client DisasterHandler.rollback_fails DisasterHandler.no_faults
           DisasterHandler.tcpReceiveLogId DisasterHandler.db].
      unfold CentralDb.rollback. rewrite <- Htxn. by destruct (DisasterHandler.db w).
    + unfold DisasterHandler.catch_block.
      cbn [DisasterHandler.client DisasterHandler.rollback_fails DisasterHandler.no_faults
           DisasterHandler.tcpReceiveLogId DisasterHandler.db].
      unfold CentralDb.rollback. rewrite <- Htxn. by destruct (DisasterHandler.db w).
Qed.

End DisasterHandlerFacts.

Lemma XYZ_not_allowed : "XYZ" ∉ CentralConfig.VALID_EVENT_CODES.
Proof.
  apply (bool_decide_eq_false_1 ("XYZ" ∈ CentralConfig.VALID_EVENT_CODES)).
  vm_compute. reflexivity.
Qed.

(** Scenarios 2 and 3 of the specification on the empty store: the frame
    with event code XYZ, and a second delivery of a frame. *)
Lemma disaster_nack_paths_witness :
  let w' := Scenario.handle Scenario.world0 [2] in
  CentralDb.tcp_receive_logs (CentralDb.committed (DisasterHandler.db w'))
  = [CentralDb.mkTcpReceiveLog 1 "T2" 1 Scenario.frame_xyz CentralDb.FAILED
       (Some "정의되지 않은 Event Code: XYZ")]
  ∧ CentralDb.disaster_publish_logs (CentralDb.committed (DisasterHandler.db w')) = []
  ∧ DisasterHandler.db (Scenario.handle w' [2]) = DisasterHandler.db w'.
Proof.
  intros w'.
  pose proof (disaster_nack_paths Scenario.env Scenario.parseXml Scenario.xml_bytes
                Scenario.clock Scenario.world0 [2] Scenario.frame_xyz "T2" 1
                eq_refl eq_refl ltac:(discriminate) eq_refl eq_refl ltac:(constructor))
    as (_ & Ha & _).
  specialize (Ha eq_refl _ "A2" "XYZ" eq_refl eq_refl ltac:(discriminate) eq_refl eq_refl
                eq_refl ltac:(discriminate) XYZ_not_allowed).
  destruct Ha as (_ & Hrows & Hout & Htxn).
  split; [exact Hrows|]. split; [exact Hout|].
  pose proof (disaster_nack_paths Scenario.env Scenario.parseXml Scenario.xml_bytes
                Scenario.clock w' [2] Scenario.frame_xyz "T2" 1
                eq_refl eq_refl ltac:(discriminate) eq_refl Htxn) as Hb.
  assert (Hfresh : Forall (λ r, CentralDb.trl_id r ≠ CentralDb.next_id (DisasterHandler.db w'))
                     (CentralDb.tcp_receive_logs (CentralDb.committed (DisasterHandler.db w')))).
  { subst w'. vm_compute. repeat constructor. discriminate. }
  destruct (Hb Hfresh) as (_ & _ & Hdup).
  apply Hdup. vm_compute. reflexivity.
Defined.

(** C4 as stated fails. The frame below parses, its event code XYZ is not
    in the allowlist, and the reply carries note 210, not 220: the alert
    has no sender, and presence of the fields is checked first. *)
Lemma unknown_code_without_sender_is_210 :
  Scenario.parseXml [3] = Some (Cap.mkParsedXml (Some Scenario.frame_xyz_no_sender))
  ∧ Cap.envelope_eventCode Scenario.frame_xyz_no_sender = Some "XYZ"
  ∧ ("XYZ" ∉ CentralConfig.VALID_EVENT_CODES)
  ∧ ∃ ack,
      DisasterHandler.reply_object Scenario.env Scenario.parseXml Scenario.xml_bytes
        DisasterHandler.no_faults Scenario.clock Scenario.world0 [3]
      = Some (Cap.mkCnfDisInfo "400" "Bad Request" 1 "T3" (Some ack))
      ∧ Cap.ack_note ack
        = "210|메시지 유효성 오류: 필수 필드(alert, identifier, sender, sent, eventCode)가 누락되었습니다."
      ∧ substring 0 3 (Cap.ack_note ack) ≠ "220".
Proof.
  split; [reflexivity|]. split; [reflexivity|]. split; [exact XYZ_not_allowed|].
  eexists. split; [vm_compute; reflexivity|]. split; [reflexivity|]. vm_compute. discriminate.
Qed.

(** ** The broker inbox: one row per delivery *)

Section InboxFacts.

Lemma central_inbox_exec_other c f X db :
  (∀ t, CentralDb.inbox_column (f t) = CentralDb.inbox_column t) →
  CentralDb.inbox_is X db → CentralDb.inbox_is X (CentralDb.exec c f db).
Proof.
  intros Hf [Hc Ht]. unfold CentralDb.inbox_is, CentralDb.exec.
  destruct c, (CentralDb.in_txn db) as [t|]; cbn; rewrite ?Hf; done.
Qed.

Lemma central_inbox_begin X db :
  CentralDb.inbox_is X db → CentralDb.inbox_is X (CentralDb.begin db).
Proof.
  intros [Hc Ht]. unfold CentralDb.inbox_is, CentralDb.begin.
  destruct (CentralDb.in_txn db) as [t|] eqn:E; cbn; rewrite ?E; done.
Qed.

Lemma central_inbox_commit X db :
  CentralDb.inbox_is X db → CentralDb.inbox_is X (CentralDb.commit db).
Proof.
  intros [Hc Ht]. unfold CentralDb.inbox_is, CentralDb.commit.
  destruct (CentralDb.in_txn db) as [t|] eqn:E; cbn; rewrite ?E; done.
Qed.

Lemma central_inbox_rollback X db :
  CentralDb.inbox_is X db → CentralDb.inbox_is X (CentralDb.rollback db).
Proof. intros [Hc Ht]. done. Qed.

Lemma central_inbox_mq_create X db raw :
  CentralDb.inbox_is X db →
  CentralDb.inbox_is (X ++ [raw]) (CentralDb.mq_create CentralDb.Pool raw db).2.
Proof.
  intros [Hc Ht]. unfold CentralDb.inbox_is, CentralDb.mq_create, CentralDb.nextval,
    CentralDb.exec, CentralDb.inbox_column in *.
  destruct (CentralDb.in_txn db) as [t|]; cbn; rewrite !fmap_app, ?Hc, ?Ht; done.
Qed.

Lemma central_inbox_mq_updateStatus X c logId st e db :
  CentralDb.inbox_is X db →
  CentralDb.inbox_is X (CentralDb.mq_updateStatus c logId st e db).
Proof.
  apply central_inbox_exec_other. intros t. unfold CentralDb.inbox_column. cbn.
  rewrite <- list_fmap_compose. apply list_fmap_ext. intros i r _. cbn. by case_decide.
Qed.

Lemma central_inbox_rtl_create X mq ty out name raw db db' :
  CentralDb.rtl_create mq ty out name raw db = Some db' →
  CentralDb.inbox_is X db → CentralDb.inbox_is X db'.
Proof.
  unfold CentralDb.rtl_create, CentralDb.nextval. intros H.
  destruct ty; cbn [mbind option_bind] in H; [|done].
  destruct name; cbn [mbind option_bind] in H; [|done].
  destruct raw; cbn [mbind option_bind] in H; [|done]. case_bool_decide; [|done].
  match type of H with Some ?x = Some _ => assert (db' = x) as -> by congruence end.
  intros Hx. apply central_inbox_exec_other; [done|]. exact Hx.
Qed.

Lemma central_retry_inbox f msg logId err w X :
  CentralDb.inbox_is X (CentralBroker.db w) →
  CentralDb.inbox_is X (CentralBroker.db (CentralBroker.retry_or_dead_letter f msg logId err w)).
Proof.
  intros Hx. unfold CentralBroker.retry_or_dead_letter.
  case_decide; [by destruct (CentralBroker.retry_publish_fails f)|].
  cbn [CentralBroker.db].
  destruct logId; [|done]. destruct (CentralBroker.final_update_fails f); [done|].
  by apply central_inbox_mq_updateStatus.
Qed.

Lemma central_process_inbox env JSON_parse f now logId raw db X :
  CentralDb.inbox_is X db →
  CentralDb.inbox_is X (CentralBroker.process env JSON_parse f now logId raw db).1.
Proof.
  intros Hx. unfold CentralBroker.process.
  destruct (JSON_parse raw) as [mc|]; [|done].
  match goal with |- context [match ?r with inl _ => _ | inr _ => _ end] =>
    destruct r as [out|e] end; [|done].
  destruct (CentralBroker.outbox_create_fails f); [done|].
  destruct (CentralDb.rtl_create _ _ _ _ _ _) as [db1|] eqn:E; [|done].
  pose proof (central_inbox_rtl_create _ _ _ _ _ _ _ _ E Hx) as H1.
  destruct (CentralBroker.inbox_update_fails f); [done|].
  pose proof (central_inbox_mq_updateStatus X CentralDb.Client logId CentralDb.SUCCESS None _ H1).
  destruct (CentralBroker.commit_fails f); [done|].
  by apply central_inbox_commit.
Qed.

Lemma central_consume_inbox env JSON_parse f now w msg X :
  CentralDb.inbox_is X (CentralBroker.db w) →
  let w' := CentralBroker._consumeReportMessage env JSON_parse f now w msg in
  match CentralBroker.inbox_create_fails f with
  | None => CentralDb.inbox_is (X ++ [Amqp.content msg]) (CentralBroker.db w')
  | Some _ => CentralBroker.db w' = CentralBroker.db w
  end.
Proof.
  intros Hx w'. subst w'. unfold CentralBroker._consumeReportMessage.
  destruct (CentralBroker.inbox_create_fails f) as [e|].
  { unfold CentralBroker.retry_or_dead_letter.
    case_decide; [by destruct (CentralBroker.retry_publish_fails f)|done]. }
  pose proof (central_inbox_mq_create X _ (Amqp.content msg) Hx) as H1.
  destruct (CentralDb.mq_create _ _ _) as [logId db1]. cbn [snd] in H1.
  destruct (CentralBroker.getClient_fails f).
  { by apply central_retry_inbox. }
  destruct (CentralBroker.begin_fails f).
  { destruct (CentralBroker.rollback_fails f); apply central_retry_inbox; try done.
    by apply central_inbox_rollback. }
  pose proof (central_process_inbox env JSON_parse f now logId (Amqp.content msg) _ _
                (central_inbox_begin _ _ H1)) as H2.
  destruct (CentralBroker.process _ _ _ _ _ _ _) as [db2 [err|]]; cbn [fst] in H2.
  - destruct (CentralBroker.rollback_fails f); apply central_retry_inbox; try done.
    by apply central_inbox_rollback.
  - done.
Qed.

Lemma external_inbox_exec_other c f X db :
  (∀ t, ExternalDb.inbox_column (f t) = ExternalDb.inbox_column t) →
  ExternalDb.inbox_is X db → ExternalDb.inbox_is X (ExternalDb.exec c f db).
Proof.
  intros Hf [Hc Ht]. unfold ExternalDb.inbox_is, ExternalDb.exec.
  destruct c, (ExternalDb.in_txn db) as [t|]; cbn; rewrite ?Hf; done.
Qed.

Lemma external_inbox_begin X db :
  ExternalDb.inbox_is X db → ExternalDb.inbox_is X (ExternalDb.begin db).
Proof.
  intros [Hc Ht]. unfold ExternalDb.inbox_is, ExternalDb.begin.
  destruct (ExternalDb.in_txn db) as [t|] eqn:E; cbn; rewrite ?E; done.
Qed.

Lemma external_inbox_commit X db :
  ExternalDb.inbox_is X db → ExternalDb.inbox_is X (ExternalDb.commit db).
Proof.
  intros [Hc Ht]. unfold ExternalDb.inbox_is, ExternalDb.commit.
  destruct (ExternalDb.in_txn db) as [t|] eqn:E; cbn; rewrite ?E; done.
Qed.

Lemma external_inbox_rollback X db :
  ExternalDb.inbox_is X db → ExternalDb.inbox_is X (ExternalDb.rollback db).
Proof. intros [Hc Ht]. done. Qed.

Lemma external_inbox_mq_create X db raw :
  ExternalDb.inbox_is X db →
  ExternalDb.inbox_is (X ++ [raw]) (ExternalDb.mq_create ExternalDb.Pool raw db).2.
Proof.
  intros [Hc Ht]. unfold ExternalDb.inbox_is, ExternalDb.mq_create,
    ExternalDb.exec, ExternalDb.inbox_column in *.
  destruct (ExternalDb.in_txn db) as [t|]; cbn; rewrite !fmap_app, ?Hc, ?Ht; done.
Qed.

Lemma external_inbox_mq_updateStatus X c logId st e db :
  ExternalDb.inbox_is X db →
  ExternalDb.inbox_is X (ExternalDb.mq_updateStatus c logId st e db).
Proof.
  apply external_inbox_exec_other. intros t. unfold ExternalDb.inbox_column. cbn.
  rewrite <- list_fmap_compose. apply list_fmap_ext. intros i r _. cbn. by case_decide.
Qed.

Lemma external_inbox_createBulk X c mq systems ident raw db db' :
  ExternalDb.dtl_createBulk c mq systems ident raw db = Some db' →
  ExternalDb.inbox_is X db → ExternalDb.inbox_is X db'.
Proof.
  unfold ExternalDb.dtl_createBulk. intros H.
  destruct systems as [|s rest]; [by injection H as <-|].
  destruct ident; cbn [mbind option_bind] in H; [|done].
  match type of H with Some ?x = Some _ => assert (db' = x) as -> by congruence end.
  intros Hx. apply external_inbox_exec_other; [done|]. exact Hx.
Qed.

Lemma external_retry_inbox f msg logId err w X :
  ExternalDb.inbox_is X (ExternalBroker.db w) →
  ExternalDb.inbox_is X
    (ExternalBroker.db (ExternalBroker.retry_or_dead_letter f msg logId err w)).
Proof.
  intros Hx. unfold ExternalBroker.retry_or_dead_letter.
  case_decide; [by destruct (ExternalBroker.retry_publish_fails f)|].
  cbn [ExternalBroker.db].
  destruct logId; [|done]. destruct (ExternalBroker.final_update_fails f); [done|].
  by apply external_inbox_mq_updateStatus.
Qed.

Lemma external_process_inbox JSON_parse f logId raw db X :
  ExternalDb.inbox_is X db →
  ExternalDb.inbox_is X (ExternalBroker.process JSON_parse f logId raw db).1.
Proof.
  intros Hx. unfold ExternalBroker.process.
  destruct (JSON_parse raw) as [mc|]; [|done].
  destruct (ExternalBroker.find_systems_fails f); [done|].
  match goal with |- context [match ?r with inl _ => _ | inr _ => _ end] =>
    destruct r as [db1|e] eqn:E end; [|done].
  assert (H1 : ExternalDb.inbox_is X db1).
  { destruct (ExternalDb.findBySubscribedEventCode _ _) as [|s0 rest].
    - by injection E as <-.
    - destruct (ExternalBroker.outbox_create_fails f); [done|].
      destruct (ExternalDb.dtl_createBulk _ _ _ _ _ _) as [d|] eqn:E'; [|done].
      injection E as <-. by eapply external_inbox_createBulk. }
  destruct (ExternalBroker.inbox_update_fails f); [done|].
  pose proof (external_inbox_mq_updateStatus X ExternalDb.Client logId ExternalDb.SUCCESS None
                _ H1).
  destruct (ExternalBroker.commit_fails f); [done|].
  by apply external_inbox_commit.
Qed.

Lemma external_consume_inbox JSON_parse f w msg X :
  ExternalDb.inbox_is X (ExternalBroker.db w) →
  let w' := ExternalBroker._consumeDisasterMessage JSON_parse f w msg in
  match ExternalBroker.inbox_create_fails f with
  | None => ExternalDb.inbox_is (X ++ [Amqp.content msg]) (ExternalBroker.db w')
  | Some _ => ExternalBroker.db w' = ExternalBroker.db w
  end.
Proof.
  intros Hx w'. subst w'. unfold ExternalBroker._consumeDisasterMessage.
  destruct (ExternalBroker.inbox_create_fails f) as [e|].
  { unfold ExternalBroker.retry_or_dead_letter.
    case_decide; [by destruct (ExternalBroker.retry_publish_fails f)|done]. }
  pose proof (external_inbox_mq_create X _ (Amqp.content msg) Hx) as H1.
  destruct (ExternalDb.mq_create _ _ _) as [logId db1]. cbn [snd] in H1.
  destruct (ExternalBroker.getClient_fails f).
  { by apply external_retry_inbox. }
  destruct (ExternalBroker.begin_fails f).
  { destruct (ExternalBroker.rollback_fails f); apply external_retry_inbox; try done.
    by apply external_inbox_rollback. }
  pose proof (external_process_inbox JSON_parse f logId (Amqp.content msg) _ _
                (external_inbox_begin _ _ H1)) as H2.
  destruct (ExternalBroker.process _ _ _ _ _) as [db2 [err|]]; cbn [fst] in H2.
  - destruct (ExternalBroker.rollback_fails f); apply external_retry_inbox; try done.
    by apply external_inbox_rollback.
  - done.
Qed.

(** C9. Each delivery that a consumer handles appends one PENDING-born row
    to mq_receive_logs whose raw_message is the delivered content, whatever
    the retry header says and whatever fails afterwards, provided the
    insert itself succeeds; nothing is looked up first, so a run of
    deliveries adds their contents to the inbox column one per delivery and
    in order, duplicates included. When the insert fails the store is left
    untouched. This holds for the report consumer of the central service
    and for the disaster consumer of the external service. *)
Theorem inbox_row_per_delivery
    (env : CentralConfig.Env)
    (JSON_parse_report : string → option CentralBroker.MessageContent)
    (JSON_parse_disaster : string → option ExternalDb.DisasterMessage)
    (cw : CentralBroker.World) (cds : list (CentralBroker.Faults * Z * Amqp.Delivery))
    (ew : ExternalBroker.World) (eds : list (ExternalBroker.Faults * Amqp.Delivery))
    (X Y : list string) :
  CentralDb.inbox_is X (CentralBroker.db cw) →
  ExternalDb.inbox_is Y (ExternalBroker.db ew) →
  Forall (λ d, CentralBroker.inbox_create_fails d.1.1 = None) cds →
  Forall (λ d, ExternalBroker.inbox_create_fails d.1 = None) eds →
  CentralDb.inbox_is (X ++ ((λ d, Amqp.content d.2) <$> cds))
    (CentralBroker.db (CentralBroker.consume_all env JSON_parse_report cw cds))
  ∧ ExternalDb.inbox_is (Y ++ ((λ d, Amqp.content d.2) <$> eds))
      (ExternalBroker.db (ExternalBroker.consume_all JSON_parse_disaster ew eds))
  ∧ (∀ f now msg e,
       CentralBroker.inbox_create_fails f = Some e →
       CentralBroker.db (CentralBroker._consumeReportMessage env JSON_parse_report f now cw msg)
       = CentralBroker.db cw)
  ∧ (∀ f msg e,
       ExternalBroker.inbox_create_fails f = Some e →
       ExternalBroker.db (ExternalBroker._consumeDisasterMessage JSON_parse_disaster f ew msg)
       = ExternalBroker.db ew).
Proof.
  intros HX HY Hc He. split; [|split; [|split]].
  - revert cw X HX. induction Hc as [|d ds Hd _ IH]; intros cw X HX.
    + by rewrite app_nil_r.
    + cbn [fmap list_fmap]. unfold CentralBroker.consume_all. cbn [foldl].
      pose proof (central_consume_inbox env JSON_parse_report d.1.1 d.1.2 cw d.2 X HX) as H1.
      cbn zeta in H1. rewrite Hd in H1.
      specialize (IH _ _ H1). by rewrite <- app_assoc in IH.
  - revert ew Y HY. induction He as [|d ds Hd _ IH]; intros ew Y HY.
    + by rewrite app_nil_r.
    + cbn [fmap list_fmap]. unfold ExternalBroker.consume_all. cbn [foldl].
      pose proof (external_consume_inbox JSON_parse_disaster d.1 ew d.2 Y HY) as H1.
      cbn zeta in H1. rewrite Hd in H1.
      specialize (IH _ _ H1). by rewrite <- app_assoc in IH.
  - intros f now msg e Hf.
    pose proof (central_consume_inbox env JSON_parse_report f now cw msg X HX) as H1.
    cbn zeta in H1. by rewrite Hf in H1.
  - intros f msg e Hf.
    pose proof (external_consume_inbox JSON_parse_disaster f ew msg Y HY) as H1.
    cbn zeta in H1. by rewrite Hf in H1.
Qed.

End InboxFacts.

(** Three deliveries of one report and of one disaster message, the second
    and third being retries, the first failing after the inbox insert:
    three inbox rows on each side. *)
Lemma inbox_row_per_delivery_witness :
  let cds := [(Scenario.central_update_fails, 1751328000000, Scenario.report_delivery None 7);
              (CentralBroker.no_faults, 1751328010000, Scenario.report_delivery (Some 1) 8);
              (CentralBroker.no_faults, 1751328020000, Scenario.report_delivery (Some 2) 9)] in
  let eds := [(Scenario.external_update_fails, Scenario.disaster_delivery None 7);
              (ExternalBroker.no_faults, Scenario.disaster_delivery (Some 1) 8);
              (ExternalBroker.no_faults, Scenario.disaster_delivery (Some 2) 9)] in
  CentralDb.inbox_is [Scenario.report_json; Scenario.report_json; Scenario.report_json]
    (CentralBroker.db
       (CentralBroker.consume_all Scenario.env Scenario.JSON_parse_report
          Scenario.central_broker0 cds))
  ∧ ExternalDb.inbox_is
      [Scenario.disaster_json; Scenario.disaster_json; Scenario.disaster_json]
      (ExternalBroker.db
         (ExternalBroker.consume_all Scenario.JSON_parse_disaster Scenario.external_broker0 eds)).
Proof.
  intros cds eds.
  pose proof (inbox_row_per_delivery Scenario.env Scenario.JSON_parse_report
                Scenario.JSON_parse_disaster Scenario.central_broker0 cds
                Scenario.external_broker0 eds [] []) as H.
  destruct H as (Hc & He & _).
  - split; reflexivity.
  - split; reflexivity.
  - repeat constructor.
  - repeat constructor.
  - split; [exact Hc | exact He].
Defined.

(** ** The broker consumers and their transaction *)

(** The failing run in full. The central consumer receives a DEVICE_INFO
    report and the update of the inbox row to SUCCESS rejects: after the
    ROLLBACK the report_transmit_logs row is still there, committed, while
    the inbox row is still PENDING, and the message has been republished
    to the retry exchange; handling that retry adds a second outbox row for
    the same report. The external consumer under the same failure leaves
    no disaster_transmit_logs row behind. *)
Lemma report_outbox_survives_rollback :
  let w1 := Scenario.consume_report Scenario.central_update_fails 1751328000000
              Scenario.central_broker0 (Scenario.report_delivery None 7) in
  let w2 := Scenario.consume_report CentralBroker.no_faults 1751328010000 w1
              (Scenario.report_delivery (Some 1) 8) in
  let e1 := Scenario.consume_disaster Scenario.external_update_fails
              Scenario.external_broker0 (Scenario.disaster_delivery None 7) in
  let outbox w := CentralDb.rtl_outbound_id
                    <$> CentralDb.report_transmit_logs (CentralDb.committed (CentralBroker.db w)) in
  let inbox w := CentralDb.mrl_status
                   <$> CentralDb.mq_receive_logs (CentralDb.committed (CentralBroker.db w)) in
  outbox w1 = ["KR.GW01_1751328000000"]
  ∧ inbox w1 = [CentralDb.PENDING]
  ∧ CentralDb.in_txn (CentralBroker.db w1) = None
  ∧ CentralBroker.channel w1
    = [Amqp.Publish "report_retry" "report.external" Scenario.report_json (Some 1); Amqp.Ack 7]
  ∧ outbox w2 = ["KR.GW01_1751328000000"; "KR.GW01_1751328010000"]
  ∧ inbox w2 = [CentralDb.PENDING; CentralDb.SUCCESS]
  ∧ ExternalDb.disaster_transmit_logs (ExternalDb.committed (ExternalBroker.db e1)) = []
  ∧ ExternalDb.mrl_status
      <$> ExternalDb.mq_receive_logs (ExternalDb.committed (ExternalBroker.db e1))
    = [ExternalDb.PENDING].
Proof. vm_compute. repeat split; reflexivity. Qed.

(** ** The WebSocket session manager *)

Section SessionFacts.

Lemma addSocket_keys f socket st :
  (∀ k s, ExternalSession.activeSockets st !! k = Some s →
          ExternalSession.sys_id <$> ExternalSession.system s = Some k) →
  ∀ k s, ExternalSession.activeSockets (ExternalSession.addSocket f socket st).1 !! k = Some s →
         ExternalSession.sys_id <$> ExternalSession.system s = Some k.
Proof.
  intros Hst k s. unfold ExternalSession.addSocket.
  destruct (ExternalSession.system socket) as [sys|] eqn:Hsys; [|apply Hst].
  destruct (ExternalSession.activeSockets st !! ExternalSession.sys_id sys) as [old|] eqn:Hold.
  - destruct (ExternalSession.log_disconnected_fails f); [apply Hst|].
    destruct (ExternalSession.log_connected_fails f); cbn;
      rewrite lookup_insert; case_decide; subst;
      try (intros [= <-]; by rewrite Hsys);
      rewrite lookup_delete_ne by done; apply Hst.
  - destruct (ExternalSession.log_connected_fails f); cbn;
      rewrite lookup_insert; case_decide; subst;
      try (intros [= <-]; by rewrite Hsys); apply Hst.
Qed.

Lemma removeSocket_map f socket reason st :
  ExternalSession.activeSockets (ExternalSession.removeSocket f socket reason st).1
  = match ExternalSession.system socket with
    | Some sys =>
        match ExternalSession.activeSockets st !! ExternalSession.sys_id sys with
        | Some current =>
            if decide (ExternalSession.ref current = ExternalSession.ref socket)
            then delete (ExternalSession.sys_id sys) (ExternalSession.activeSockets st)
            else ExternalSession.activeSockets st
        | None => ExternalSession.activeSockets st
        end
    | None => ExternalSession.activeSockets st
    end.
Proof.
  unfold ExternalSession.removeSocket.
  destruct (ExternalSession.system socket) as [sys|]; [|done].
  destruct (ExternalSession.activeSockets st !! _) as [cur|]; [|done].
  case_decide; [|done]. by destruct (ExternalSession.log_removed_fails f).
Qed.

Lemma reachable_keys st :
  ExternalSession.reachable st →
  ∀ k s, ExternalSession.activeSockets st !! k = Some s →
         ExternalSession.sys_id <$> ExternalSession.system s = Some k.
Proof.
  induction 1 as [|f socket st _ IH|f socket reason st _ IH]; intros k s.
  - cbn. by rewrite lookup_empty.
  - by apply addSocket_keys.
  - rewrite removeSocket_map.
    destruct (ExternalSession.system socket) as [sys|]; [|apply IH].
    destruct (ExternalSession.activeSockets st !! _) as [cur|]; [|apply IH].
    case_decide; [|apply IH].
    rewrite lookup_delete. case_decide; [done|apply IH].
Qed.

(** C6. In every state the session manager can reach:
    - a subscriber id is mapped to at most one socket, and that socket is
      one that authenticated as this subscriber, so two mapped sockets of
      the same subscriber are the same socket;
    - [addSocket] of a socket whose subscriber already has a socket [old]
      logs SOCKET_DISCONNECTED with the old socket's address, then closes
      [old], then deletes the entry, and only then installs the new
      socket (and logs SOCKET_CONNECTED); [old] is closed and the map
      holds the new socket;
    - [removeSocket] changes the entry of a key only when that key is the
      subscriber id of the socket and the mapped socket is this very
      socket, and then the entry is removed; when the mapped socket is
      this very socket the entry is indeed removed. *)
Theorem single_session_per_subscriber (st : ExternalSession.State) :
  ExternalSession.reachable st →
  (∀ k1 k2 s1 s2,
     ExternalSession.activeSockets st !! k1 = Some s1 →
     ExternalSession.activeSockets st !! k2 = Some s2 →
     ExternalSession.sys_id <$> ExternalSession.system s1
     = ExternalSession.sys_id <$> ExternalSession.system s2 →
     k1 = k2 ∧ s1 = s2)
  ∧ (∀ f socket sys old,
       ExternalSession.system socket = Some sys →
       ExternalSession.activeSockets st !! ExternalSession.sys_id sys = Some old →
       ExternalSession.log_disconnected_fails f = None →
       let id := ExternalSession.sys_id sys in
       let st' := (ExternalSession.addSocket f socket st).1 in
       ∃ detail rest,
         ExternalSession.trace st'
         = ExternalSession.trace st
           ++ [ExternalSession.Logged
                 (ExternalDb.mkConnectionLog id "SOCKET_DISCONNECTED"
                    (ExternalSession.address old) detail);
               ExternalSession.Disconnected (ExternalSession.ref old);
               ExternalSession.MapDeleted id;
               ExternalSession.MapSet id (ExternalSession.ref socket)] ++ rest
         ∧ ExternalSession.activeSockets st'
           = <[id := socket]> (ExternalSession.activeSockets st)
         ∧ ExternalSession.ref old ∈ ExternalSession.closed st')
  ∧ (∀ f socket reason,
       let st' := (ExternalSession.removeSocket f socket reason st).1 in
       (∀ k, ExternalSession.activeSockets st' !! k ≠ ExternalSession.activeSockets st !! k →
             ExternalSession.sys_id <$> ExternalSession.system socket = Some k
             ∧ (∃ current, ExternalSession.activeSockets st !! k = Some current
                           ∧ ExternalSession.ref current = ExternalSession.ref socket)
             ∧ ExternalSession.activeSockets st' !! k = None)
       ∧ (∀ sys current,
            ExternalSession.system socket = Some sys →
            ExternalSession.activeSockets st !! ExternalSession.sys_id sys = Some current →
            ExternalSession.ref current = ExternalSession.ref socket →
            ExternalSession.activeSockets st' !! ExternalSession.sys_id sys = None)).
Proof.
  intros Hreach. pose proof (reachable_keys st Hreach) as Hkeys.
  split; [|split].
  - intros k1 k2 s1 s2 H1 H2 Heq.
    pose proof (Hkeys _ _ H1) as E1. pose proof (Hkeys _ _ H2) as E2.
    assert (k1 = k2) as -> by congruence. split; [done|]. congruence.
  - intros f socket sys old Hsys Hold Hf id st'. subst st' id.
    unfold ExternalSession.addSocket. rewrite Hsys, Hold, Hf.
    destruct (ExternalSession.log_connected_fails f); cbn.
    + eexists _, []. rewrite <- !app_assoc. cbn.
      split; [reflexivity|]. split; [by rewrite insert_delete_eq|].
      apply elem_of_app. right. apply list_elem_of_singleton. done.
    + eexists _, [_]. rewrite <- !app_assoc. cbn.
      split; [reflexivity|]. split; [by rewrite insert_delete_eq|].
      apply elem_of_app. right. apply list_elem_of_singleton. done.
  - intros f socket reason st'. subst st'. rewrite removeSocket_map.
    split.
    + intros k Hk.
      destruct (ExternalSession.system socket) as [sys|]; [|done].
      destruct (ExternalSession.activeSockets st !! ExternalSession.sys_id sys)
        as [cur|] eqn:Hcur; [|done].
      case_decide as Href; [|done].
      rewrite lookup_delete in Hk. case_decide as Hki; [|done]. subst k.
      split; [done|]. split; [by exists cur|]. by rewrite lookup_delete_eq.
    + intros sys cur Hsys Hcur Href. rewrite Hsys, Hcur, decide_True by done.
      by rewrite lookup_delete_eq.
Qed.

End SessionFacts.

(** A reconnect of subscriber ESS-A: the first socket is closed and the
    map holds the second. *)
Lemma single_session_per_subscriber_witness :
  let st1 := (ExternalSession.addSocket ExternalSession.no_faults Scenario.socket_a1
                ExternalSession.initial).1 in
  let st2 := (ExternalSession.addSocket ExternalSession.no_faults Scenario.socket_a2 st1).1 in
  ExternalSession.reachable st1
  ∧ ExternalSession.activeSockets st2
    = <[1 := Scenario.socket_a2]> (ExternalSession.activeSockets st1)
  ∧ ExternalSession.ref Scenario.socket_a1 ∈ ExternalSession.closed st2.
Proof.
  intros st1 st2.
  assert (Hreach : ExternalSession.reachable st1) by (repeat constructor).
  split; [exact Hreach|].
  destruct (single_session_per_subscriber st1 Hreach) as (_ & Hadd & _).
  destruct (Hadd ExternalSession.no_faults Scenario.socket_a2 Scenario.ess_a
              Scenario.socket_a1 eq_refl eq_refl eq_refl) as (detail & rest & _ & Hmap & Hclosed).
  split; [exact Hmap | exact Hclosed].
Defined.

(** ** The identifier validator of the report API *)

Section ValidatorFacts.

(** C7, as the code has it. The validator accepts a disaster-result
    report exactly when some row of disaster_transmit_logs, of whatever
    subscriber, has the identifier of the payload. *)
Theorem isExistingIdentifier_any_subscriber (req : CustomValidators.Request)
    (db : ExternalDb.Db) :
  CustomValidators.accepts req db = true
  ↔ ∃ r, r ∈ ExternalDb.disaster_transmit_logs (ExternalDb.committed db)
         ∧ ExternalDb.dtl_identifier r = CustomValidators.body_identifier req.
Proof.
  unfold CustomValidators.accepts, CustomValidators.isExistingIdentifier,
    ExternalDb.dtl_existsByIdentifier.
  assert (Hview : ExternalDb.view ExternalDb.Pool db = ExternalDb.committed db) by done.
  rewrite Hview.
  destruct (existsb _ _) eqn:E; cbn.
  - split; [intros _|done]. apply existsb_exists in E as (r & Hin & Hr).
    exists r. split; [by apply list_elem_of_In|]. by apply bool_decide_eq_true in Hr.
  - split; [done|]. intros (r & Hin & Hr). exfalso.
    assert (existsb (λ r, bool_decide (ExternalDb.dtl_identifier r
                                        = CustomValidators.body_identifier req))
              (ExternalDb.disaster_transmit_logs (ExternalDb.committed db)) = true) as E'.
    { apply existsb_exists. exists r. split; [by apply list_elem_of_In|].
      by apply bool_decide_eq_true. }
    congruence.
Qed.

(** C7 as stated fails: alert A1 has a transmit row for ESS-B only, ESS-A
    posts a result for A1, and the validator accepts it, where a check per
    submitting subscriber would reject it. *)
Lemma other_subscribers_identifier_accepted :
  (∀ r, r ∈ ExternalDb.disaster_transmit_logs
              (ExternalDb.committed Scenario.external_db_b_only) →
        ExternalDb.dtl_identifier r = "A1"
        ∧ ExternalDb.dtl_external_system_id r
          ≠ ExternalDb.es_id (CustomValidators.externalSystem Scenario.result_request_of_a))
  ∧ CustomValidators.accepts Scenario.result_request_of_a Scenario.external_db_b_only = true
  ∧ CustomValidators.spec_accepts Scenario.result_request_of_a Scenario.external_db_b_only
    = false.
Proof.
  split; [|split; reflexivity].
  intros r Hr. cbn in Hr. apply list_elem_of_singleton in Hr as ->. cbn. split; [done|lia].
Qed.

End ValidatorFacts.

(** ** The report poller of the central service *)

Section ReportTransmitFacts.

Variable env : CentralConfig.Env.
Variable xml_bytes : Cap.XmlObject → option Buffer.t.
Variable parseResponse : Buffer.t → option ReportTransmit.ParsedResponse.

Local Abbreviation processMessage := (ReportTransmit.processMessage env xml_bytes).
Local Abbreviation _run := (ReportTransmit._run env xml_bytes).
Local Abbreviation processAck := (ReportTransmit.processAck parseResponse).
Local Abbreviation run_events := (ReportTransmit.run_events env xml_bytes parseResponse).

Lemma counters_updateStatusById now logId st e d :
  ReportTransmit.counters (CentralDb.rtl_updateStatusById now logId st e d)
  = ReportTransmit.counters d.
Proof.
  unfold ReportTransmit.counters, CentralDb.rtl_updateStatusById, CentralDb.rtl_update,
    CentralDb.exec.
  cbn. rewrite <- list_fmap_compose. apply list_fmap_ext.
  intros i r _. cbn. by case_decide.
Qed.

Lemma counters_processFailure f now logId n reason w :
  ReportTransmit.counters (ReportTransmit.db (ReportTransmit.processFailure f now logId n reason w))
  = ReportTransmit.counters (ReportTransmit.db w).
Proof.
  unfold ReportTransmit.processFailure.
  repeat case_match; cbn [ReportTransmit.db ReportTransmit.clear_timeout];
    rewrite ?counters_updateStatusById; done.
Qed.

Lemma counters_try_block f now w log w1 r :
  ReportTransmit.try_block env xml_bytes f now w log = (w1, r) →
  ReportTransmit.counters (ReportTransmit.db w1) = ReportTransmit.counters (ReportTransmit.db w).
Proof.
  unfold ReportTransmit.try_block. intros H.
  repeat case_match; simplify_eq; cbn [ReportTransmit.db];
    rewrite ?counters_updateStatusById; done.
Qed.

Lemma counters_processMessage f now w log :
  ReportTransmit.counters (ReportTransmit.db (processMessage f now w log))
  = ReportTransmit.counters (ReportTransmit.db w).
Proof.
  unfold ReportTransmit.processMessage.
  destruct (ReportTransmit.try_block env xml_bytes f now w log) as [w1 r] eqn:E.
  apply counters_try_block in E.
  destruct r; [|done].
  destruct (ReportTransmit.to_failed_fails f);
    cbn [ReportTransmit.db ReportTransmit.clear_timeout]; [done|].
  by rewrite counters_updateStatusById.
Qed.

Lemma counters_run f now w :
  ReportTransmit.counters (ReportTransmit.db (_run f now w))
  = ReportTransmit.counters (ReportTransmit.db w).
Proof.
  unfold ReportTransmit._run. destruct (ReportTransmit.run_find_fails f); [done|].
  generalize (CentralDb.rtl_findUnprocessedMessages (ReportTransmit.ms now) (ReportTransmit.db w)).
  intros l. revert w. induction l as [|log l IH]; intros w; [done|].
  cbn. rewrite IH. apply counters_processMessage.
Qed.

Lemma counters_on_timeout f now logId w :
  ReportTransmit.counters (ReportTransmit.db (ReportTransmit.on_timeout f now logId w))
  = ReportTransmit.counters (ReportTransmit.db w).
Proof.
  unfold ReportTransmit.on_timeout. destruct (_ !! _); [|done].
  by rewrite counters_processFailure.
Qed.

Lemma counters_processAck f now w b :
  ReportTransmit.counters (ReportTransmit.db (processAck f now w b))
  = ReportTransmit.counters (ReportTransmit.db w).
Proof.
  unfold ReportTransmit.processAck.
  repeat case_match; cbn [ReportTransmit.db ReportTransmit.clear_timeout];
    rewrite ?counters_processFailure; cbn [ReportTransmit.db ReportTransmit.clear_timeout];
    rewrite ?counters_updateStatusById; done.
Qed.

(** C1, as the code has it. Whatever the poller, the timers and the
    responses do, in any order and with any failures of the store, no
    row of report_transmit_logs changes its retry_count or its
    report_sequence. *)
Theorem report_counters_never_change (w : ReportTransmit.World)
    (es : list (ReportTransmit.Faults * ReportTransmit.Clock * ReportTransmit.Event)) :
  ReportTransmit.counters (ReportTransmit.db (run_events w es))
  = ReportTransmit.counters (ReportTransmit.db w).
Proof.
  unfold ReportTransmit.run_events. revert w.
  induction es as [|e es IH]; intros w; [done|].
  cbn. rewrite IH. unfold ReportTransmit.step.
  destruct e as [[f now] [|logId|b]]; cbn.
  - apply counters_run.
  - apply counters_on_timeout.
  - apply counters_processAck.
Qed.

End ReportTransmitFacts.

(** The DEVICE_INFO report of ESS-A is sent, its acknowledgement times
    out, and the next poll sends it again: both frames carry transMsgSeq 1
    and the row still has retry_count 0 and report_sequence 1. *)
Lemma report_resent_with_same_sequence :
  let w :=
    ReportTransmit.run_events Scenario.env Scenario.xml_bytes Scenario.parseResponse
      (Scenario.transmit_world 0)
      [(ReportTransmit.no_faults, Scenario.at_ms 1751328005000, ReportTransmit.Poll);
       (ReportTransmit.no_faults, Scenario.at_ms 1751328015000, ReportTransmit.Timeout 2);
       (ReportTransmit.no_faults, Scenario.at_ms 1751328020000, ReportTransmit.Poll)] in
  Some (CentralSession.output (ReportTransmit.session w))
  = (λ frame, [frame; frame]) <$> Scenario.report_frame
  ∧ ReportTransmit.counters (ReportTransmit.db w) = [(2, 0, 1)]
  ∧ CentralDb.rtl_status <$> CentralDb.report_transmit_logs
                               (CentralDb.committed (ReportTransmit.db w))
    = [CentralDb.SENT].
Proof. vm_compute. repeat split. Qed.

(** ** The retry limit of the two transmit outboxes *)

Section RetryLimitFacts.

Variable env : CentralConfig.Env.
Variable xml_bytes : Cap.XmlObject → option Buffer.t.

Local Abbreviation processMessage := (ReportTransmit.processMessage env xml_bytes).
Local Abbreviation capObject_of := (ReportTransmit.capObject_of env).
Local Abbreviation frame :=
  (Protocol.buildMessageBuffer CentralConfig.DATA_FORMAT (CentralConfig.MAGIC_NUMBER env)
     xml_bytes).

Lemma output_send b s :
  CentralSession.isConnected s = true →
  CentralSession.output (CentralSession.send b s) = CentralSession.output s ++ [b].
Proof.
  unfold CentralSession.isConnected, CentralSession.send, CentralSession.output.
  destruct (CentralSession.currentSocket s) as [k|]; [|done].
  cbn. intros ->. done.
Qed.

(** The central service sends a report whose retry count is at most
    MAX_RETRIES and marks the row SENT. *)
Lemma report_within_limit_sent f now w log messageId cap buf :
  ReportTransmit.MESSAGE_IDS (CentralDb.rtl_type log) = ReportTransmit.Own messageId →
  CentralDb.rtl_retry_count log ≤ ReportTransmit.MAX_RETRIES →
  CentralSession.isConnected (ReportTransmit.session w) = true →
  capObject_of f now log (ReportTransmit.db w) = inl cap →
  frame messageId
    (Cap.XmlReport (Cap.mkReportData (CentralDb.rtl_outbound_id log)
                      (CentralDb.rtl_report_sequence log) cap)) = Some buf →
  ReportTransmit.to_sent_fails f = None →
  let w' := processMessage f now w log in
  CentralSession.output (ReportTransmit.session w')
  = CentralSession.output (ReportTransmit.session w) ++ [buf]
  ∧ ReportTransmit.db w'
    = CentralDb.rtl_updateStatusById (ReportTransmit.ms now) (CentralDb.rtl_id log)
        CentralDb.SENT None (ReportTransmit.db w).
Proof.
  intros Hid Hle Hcon Hcap Hbuf Hsent w'. subst w'.
  unfold ReportTransmit.processMessage, ReportTransmit.try_block.
  rewrite Hid. rewrite decide_False by lia. rewrite Hcon. cbn [negb].
  rewrite Hcap, Hbuf, Hsent. cbn.
  split; [by apply output_send|done].
Qed.

(** Above MAX_RETRIES it writes nothing and marks the row FAILED. *)
Lemma report_over_limit_failed f now w log :
  ReportTransmit.MESSAGE_IDS (CentralDb.rtl_type log) ≠ ReportTransmit.Missing →
  CentralDb.rtl_retry_count log > ReportTransmit.MAX_RETRIES →
  ReportTransmit.to_failed_fails f = None →
  let w' := processMessage f now w log in
  ReportTransmit.session w' = ReportTransmit.session w
  ∧ ReportTransmit.db w'
    = CentralDb.rtl_updateStatusById (ReportTransmit.ms now) (CentralDb.rtl_id log)
        CentralDb.FAILED (Some "최대 재시도 횟수(3) 초과") (ReportTransmit.db w).
Proof.
  intros Hid Hgt Hfailed w'. subst w'.
  unfold ReportTransmit.processMessage, ReportTransmit.try_block.
  destruct (ReportTransmit.MESSAGE_IDS (CentralDb.rtl_type log)) eqn:E; [| |done];
    rewrite decide_True by done; rewrite Hfailed; cbn; done.
Qed.

(** The external service emits a disaster whose retry count is below
    MAX_RETRIES and marks the row SENT. *)
Lemma disaster_below_limit_sent f now logId w row sock :
  ExternalDb.dtl_findById logId (DisasterTransmit.db w) = Some row →
  DisasterTransmit.terminal (ExternalDb.dtl_status row) = false →
  ExternalDb.dtl_retry_count row < DisasterTransmit.MAX_RETRIES →
  ExternalSession.getSocketBySystemId (ExternalDb.dtl_external_system_id row)
    (DisasterTransmit.sessions w) = Some sock →
  DisasterTransmit.pm_find_fails f = None →
  DisasterTransmit.pm_sent_fails f = None →
  DisasterTransmit.emit_fails f = None →
  let w' := DisasterTransmit._processMessage f now logId w in
  DisasterTransmit.emitted w'
  = DisasterTransmit.emitted w
    ++ [DisasterTransmit.mkEmit (ExternalSession.ref sock)
          (DisasterTransmit.mkPayload logId (ExternalDb.dtl_identifier row)
             (ExternalDb.dtl_raw_message row))]
  ∧ DisasterTransmit.db w'
    = ExternalDb.dtl_updateStatusById now logId ExternalDb.SENT (DisasterTransmit.db w).
Proof.
  intros Hrow Hterm Hlt Hsock Hfind Hsent Hemit w'. subst w'.
  unfold DisasterTransmit._processMessage, DisasterTransmit.try_block.
  rewrite Hfind, Hrow, Hterm. rewrite decide_False by lia.
  rewrite Hsock, Hsent, Hemit. cbn. done.
Qed.

(** At MAX_RETRIES and above it emits nothing and marks the row FAILED. *)
Lemma disaster_at_limit_failed f now logId w row :
  ExternalDb.dtl_findById logId (DisasterTransmit.db w) = Some row →
  DisasterTransmit.terminal (ExternalDb.dtl_status row) = false →
  DisasterTransmit.MAX_RETRIES ≤ ExternalDb.dtl_retry_count row →
  DisasterTransmit.pm_find_fails f = None →
  DisasterTransmit.pm_failed_fails f = None →
  let w' := DisasterTransmit._processMessage f now logId w in
  DisasterTransmit.emitted w' = DisasterTransmit.emitted w
  ∧ DisasterTransmit.attempts w' = DisasterTransmit.attempts w
  ∧ DisasterTransmit.db w'
    = ExternalDb.dtl_updateStatusById now logId ExternalDb.FAILED (DisasterTransmit.db w).
Proof.
  intros Hrow Hterm Hge Hfind Hfailed w'. subst w'.
  unfold DisasterTransmit._processMessage, DisasterTransmit.try_block.
  rewrite Hfind, Hrow, Hterm. rewrite decide_True by lia.
  rewrite decide_True.
  - rewrite Hfailed. cbn. done.
  - intros E. unfold DisasterTransmit.terminal in Hterm.
    apply bool_decide_eq_false in Hterm. apply Hterm. by right.
Qed.

(** The publish worker of the central service publishes a disaster whose
    retry count is below MAX_RETRIES and marks the row SUCCESS. *)
Lemma disaster_publish_below_limit JSON_stringify f w message :
  CentralDb.dpl_retry_count message < DisasterPublishWorker.MAX_RETRIES →
  DisasterPublishWorker.publish_fails f = None →
  DisasterPublishWorker.to_success_fails f = None →
  let w' := DisasterPublishWorker._processOutboxMessage JSON_stringify f w message in
  DisasterPublishWorker.channel w'
  = DisasterPublishWorker.channel w
    ++ [Amqp.Publish CentralConfig.DISASTER_EXCHANGE (CentralDb.dpl_routing_key message)
          (JSON_stringify (CentralDb.dpl_identifier message)
             (CentralDb.dpl_event_code message) (CentralDb.dpl_raw_message message))
          None]
  ∧ DisasterPublishWorker.db w'
    = CentralDb.dpl_updateStatusById (CentralDb.dpl_id message) CentralDb.SUCCESS
        (DisasterPublishWorker.db w).
Proof.
  intros Hlt Hpub Hok w'. subst w'.
  unfold DisasterPublishWorker._processOutboxMessage.
  rewrite decide_False by lia. rewrite Hpub, Hok. done.
Qed.

(** At MAX_RETRIES and above it publishes nothing and marks the row
    FAILED. *)
Lemma disaster_publish_at_limit JSON_stringify f w message :
  DisasterPublishWorker.MAX_RETRIES ≤ CentralDb.dpl_retry_count message →
  DisasterPublishWorker.to_failed_fails f = None →
  let w' := DisasterPublishWorker._processOutboxMessage JSON_stringify f w message in
  DisasterPublishWorker.channel w' = DisasterPublishWorker.channel w
  ∧ DisasterPublishWorker.db w'
    = CentralDb.dpl_updateStatusById (CentralDb.dpl_id message) CentralDb.FAILED
        (DisasterPublishWorker.db w).
Proof.
  intros Hge Hfailed w'. subst w'.
  unfold DisasterPublishWorker._processOutboxMessage.
  rewrite decide_True by lia. rewrite Hfailed. done.
Qed.

(** The publish worker of the external service publishes a report whose
    retry count is at most MAX_RETRIES and marks the row SUCCESS. *)
Lemma report_publish_within_limit JSON_stringify f w message :
  ReportPublishWorker.rpl_retry_count message ≤ ReportPublishWorker.MAX_RETRIES →
  ReportPublishWorker.publish_fails f = None →
  ReportPublishWorker.to_success_fails f = None →
  let w' := ReportPublishWorker.processOutboxMessage JSON_stringify f w message in
  ReportPublishWorker.channel w'
  = ReportPublishWorker.channel w
    ++ [Amqp.Publish ReportPublishWorker.REPORT_EXCHANGE
          (ReportPublishWorker.rpl_routing_key message)
          (JSON_stringify (ReportPublishWorker.rpl_type message)
             (ReportPublishWorker.rpl_external_system_name message)
             (ReportPublishWorker.rpl_raw_message message))
          None]
  ∧ ReportPublishWorker.report_publish_logs w'
    = ReportPublishWorker.updateStatusById (ReportPublishWorker.rpl_id message)
        ExternalDb.SUCCESS (ReportPublishWorker.report_publish_logs w).
Proof.
  intros Hle Hpub Hok w'. subst w'.
  unfold ReportPublishWorker.processOutboxMessage.
  rewrite decide_False by lia. rewrite Hpub, Hok. done.
Qed.

(** Above MAX_RETRIES it publishes nothing and marks the row FAILED. *)
Lemma report_publish_over_limit JSON_stringify f w message :
  ReportPublishWorker.rpl_retry_count message > ReportPublishWorker.MAX_RETRIES →
  ReportPublishWorker.to_failed_fails f = None →
  let w' := ReportPublishWorker.processOutboxMessage JSON_stringify f w message in
  ReportPublishWorker.channel w' = ReportPublishWorker.channel w
  ∧ ReportPublishWorker.report_publish_logs w'
    = ReportPublishWorker.updateStatusById (ReportPublishWorker.rpl_id message)
        ExternalDb.FAILED (ReportPublishWorker.report_publish_logs w).
Proof.
  intros Hgt Hfailed w'. subst w'.
  unfold ReportPublishWorker.processOutboxMessage.
  rewrite decide_True by done. rewrite Hfailed. done.
Qed.

(** C3, as the code has it. The limit is read in two ways. For the two
    report outboxes (report_transmit_logs of the central service,
    report_publish_logs of the external service) a row whose retry count
    is at most MAX_RETRIES is sent, and one above it becomes FAILED with
    nothing sent. For the two disaster outboxes (disaster_transmit_logs of
    the external service, disaster_publish_logs of the central service)
    only a row below MAX_RETRIES is sent, and a row at MAX_RETRIES becomes
    FAILED with nothing sent. *)
Theorem retry_limit_by_outbox :
  (* report_transmit_logs *)
  (∀ f now w log messageId cap buf,
     ReportTransmit.MESSAGE_IDS (CentralDb.rtl_type log) = ReportTransmit.Own messageId →
     CentralDb.rtl_retry_count log ≤ ReportTransmit.MAX_RETRIES →
     CentralSession.isConnected (ReportTransmit.session w) = true →
     capObject_of f now log (ReportTransmit.db w) = inl cap →
     frame messageId
       (Cap.XmlReport (Cap.mkReportData (CentralDb.rtl_outbound_id log)
                         (CentralDb.rtl_report_sequence log) cap)) = Some buf →
     ReportTransmit.to_sent_fails f = None →
     CentralSession.output (ReportTransmit.session (processMessage f now w log))
     = CentralSession.output (ReportTransmit.session w) ++ [buf]
     ∧ ReportTransmit.db (processMessage f now w log)
       = CentralDb.rtl_updateStatusById (ReportTransmit.ms now) (CentralDb.rtl_id log)
           CentralDb.SENT None (ReportTransmit.db w))
  ∧ (∀ f now w log,
       ReportTransmit.MESSAGE_IDS (CentralDb.rtl_type log) ≠ ReportTransmit.Missing →
       CentralDb.rtl_retry_count log > ReportTransmit.MAX_RETRIES →
       ReportTransmit.to_failed_fails f = None →
       ReportTransmit.session (processMessage f now w log) = ReportTransmit.session w
       ∧ ReportTransmit.db (processMessage f now w log)
         = CentralDb.rtl_updateStatusById (ReportTransmit.ms now) (CentralDb.rtl_id log)
             CentralDb.FAILED (Some "최대 재시도 횟수(3) 초과") (ReportTransmit.db w))
  (* report_publish_logs *)
  ∧ (∀ JSON_stringify f w message,
       ReportPublishWorker.rpl_retry_count message ≤ ReportPublishWorker.MAX_RETRIES →
       ReportPublishWorker.publish_fails f = None →
       ReportPublishWorker.to_success_fails f = None →
       ReportPublishWorker.channel
         (ReportPublishWorker.processOutboxMessage JSON_stringify f w message)
       = ReportPublishWorker.channel w
         ++ [Amqp.Publish ReportPublishWorker.REPORT_EXCHANGE
               (ReportPublishWorker.rpl_routing_key message)
               (JSON_stringify (ReportPublishWorker.rpl_type message)
                  (ReportPublishWorker.rpl_external_system_name message)
                  (ReportPublishWorker.rpl_raw_message message))
               None]
       ∧ ReportPublishWorker.report_publish_logs
           (ReportPublishWorker.processOutboxMessage JSON_stringify f w message)
         = ReportPublishWorker.updateStatusById (ReportPublishWorker.rpl_id message)
             ExternalDb.SUCCESS (ReportPublishWorker.report_publish_logs w))
  ∧ (∀ JSON_stringify f w message,
       ReportPublishWorker.rpl_retry_count message > ReportPublishWorker.MAX_RETRIES →
       ReportPublishWorker.to_failed_fails f = None →
       ReportPublishWorker.channel
         (ReportPublishWorker.processOutboxMessage JSON_stringify f w message)
       = ReportPublishWorker.channel w
       ∧ ReportPublishWorker.report_publish_logs
           (ReportPublishWorker.processOutboxMessage JSON_stringify f w message)
         = ReportPublishWorker.updateStatusById (ReportPublishWorker.rpl_id message)
             ExternalDb.FAILED (ReportPublishWorker.report_publish_logs w))
  (* disaster_transmit_logs *)
  ∧ (∀ f now logId w row sock,
       ExternalDb.dtl_findById logId (DisasterTransmit.db w) = Some row →
       DisasterTransmit.terminal (ExternalDb.dtl_status row) = false →
       ExternalDb.dtl_retry_count row < DisasterTransmit.MAX_RETRIES →
       ExternalSession.getSocketBySystemId (ExternalDb.dtl_external_system_id row)
         (DisasterTransmit.sessions w) = Some sock →
       DisasterTransmit.pm_find_fails f = None →
       DisasterTransmit.pm_sent_fails f = None →
       DisasterTransmit.emit_fails f = None →
       DisasterTransmit.emitted (DisasterTransmit._processMessage f now logId w)
       = DisasterTransmit.emitted w
         ++ [DisasterTransmit.mkEmit (ExternalSession.ref sock)
               (DisasterTransmit.mkPayload logId (ExternalDb.dtl_identifier row)
                  (ExternalDb.dtl_raw_message row))]
       ∧ DisasterTransmit.db (DisasterTransmit._processMessage f now logId w)
         = ExternalDb.dtl_updateStatusById now logId ExternalDb.SENT (DisasterTransmit.db w))
  ∧ (∀ f now logId w row,
       ExternalDb.dtl_findById logId (DisasterTransmit.db w) = Some row →
       DisasterTransmit.terminal (ExternalDb.dtl_status row) = false →
       DisasterTransmit.MAX_RETRIES ≤ ExternalDb.dtl_retry_count row →
       DisasterTransmit.pm_find_fails f = None →
       DisasterTransmit.pm_failed_fails f = None →
       DisasterTransmit.emitted (DisasterTransmit._processMessage f now logId w)
       = DisasterTransmit.emitted w
       ∧ DisasterTransmit.db (DisasterTransmit._processMessage f now logId w)
         = ExternalDb.dtl_updateStatusById now logId ExternalDb.FAILED (DisasterTransmit.db w))
  (* disaster_publish_logs *)
  ∧ (∀ JSON_stringify f w message,
       CentralDb.dpl_retry_count message < DisasterPublishWorker.MAX_RETRIES →
       DisasterPublishWorker.publish_fails f = None →
       DisasterPublishWorker.to_success_fails f = None →
       DisasterPublishWorker.channel
         (DisasterPublishWorker._processOutboxMessage JSON_stringify f w message)
       = DisasterPublishWorker.channel w
         ++ [Amqp.Publish CentralConfig.DISASTER_EXCHANGE (CentralDb.dpl_routing_key message)
               (JSON_stringify (CentralDb.dpl_identifier message)
                  (CentralDb.dpl_event_code message) (CentralDb.dpl_raw_message message))
               None]
       ∧ DisasterPublishWorker.db
           (DisasterPublishWorker._processOutboxMessage JSON_stringify f w message)
         = CentralDb.dpl_updateStatusById (CentralDb.dpl_id message) CentralDb.SUCCESS
             (DisasterPublishWorker.db w))
  ∧ (∀ JSON_stringify f w message,
       DisasterPublishWorker.MAX_RETRIES ≤ CentralDb.dpl_retry_count message →
       DisasterPublishWorker.to_failed_fails f = None →
       DisasterPublishWorker.channel
         (DisasterPublishWorker._processOutboxMessage JSON_stringify f w message)
       = DisasterPublishWorker.channel w
       ∧ DisasterPublishWorker.db
           (DisasterPublishWorker._processOutboxMessage JSON_stringify f w message)
         = CentralDb.dpl_updateStatusById (CentralDb.dpl_id message) CentralDb.FAILED
             (DisasterPublishWorker.db w)).
Proof.
  repeat apply conj.
  - intros. by apply (report_within_limit_sent f now w log messageId cap buf).
  - intros. by apply report_over_limit_failed.
  - intros. by apply report_publish_within_limit.
  - intros. by apply report_publish_over_limit.
  - intros. by apply (disaster_below_limit_sent f now logId w row sock).
  - intros f now logId w row Hrow Hterm Hge Hfind Hfailed.
    destruct (disaster_at_limit_failed f now logId w row Hrow Hterm Hge Hfind Hfailed)
      as (He & _ & Hd).
    by split.
  - intros. by apply disaster_publish_below_limit.
  - intros. by apply disaster_publish_at_limit.
Qed.

End RetryLimitFacts.

(** The four outboxes at retry count 3, which is MAX_RETRIES everywhere,
    and at its neighbours: the reports still go out at 3 and fail at 4,
    the disasters go out at 2 and fail at 3. *)
Lemma retry_limit_by_outbox_witness :
  (* report_transmit_logs at 3 and at 4 *)
  (∃ buf,
     Scenario.report_frame = Some buf
     ∧ CentralSession.output
         (ReportTransmit.session
            (ReportTransmit.processMessage Scenario.env Scenario.xml_bytes
               ReportTransmit.no_faults (Scenario.at_ms 1751328005000)
               (Scenario.transmit_world 3) (Scenario.report_row 3)))
       = [buf])
  ∧ ReportTransmit.db
      (ReportTransmit.processMessage Scenario.env Scenario.xml_bytes
         ReportTransmit.no_faults (Scenario.at_ms 1751328005000)
         (Scenario.transmit_world 4) (Scenario.report_row 4))
    = CentralDb.rtl_updateStatusById 1751328005000 2 CentralDb.FAILED
        (Some "최대 재시도 횟수(3) 초과") (ReportTransmit.db (Scenario.transmit_world 4))
  (* report_publish_logs at 3 and at 4 *)
  ∧ length (ReportPublishWorker.channel
              (ReportPublishWorker.processOutboxMessage Scenario.stringify_report
                 ReportPublishWorker.no_faults (Scenario.report_publish_world 3)
                 (Scenario.report_publish_row 3))) = 1%nat
  ∧ ReportPublishWorker.channel
      (ReportPublishWorker.processOutboxMessage Scenario.stringify_report
         ReportPublishWorker.no_faults (Scenario.report_publish_world 4)
         (Scenario.report_publish_row 4)) = []
  (* disaster_transmit_logs at 2 and at 3 *)
  ∧ length (DisasterTransmit.emitted
              (DisasterTransmit._processMessage DisasterTransmit.no_faults 1751328005000 2
                 (Scenario.disaster_world 2))) = 1%nat
  ∧ DisasterTransmit.emitted
      (DisasterTransmit._processMessage DisasterTransmit.no_faults 1751328005000 2
         (Scenario.disaster_world 3)) = []
  (* disaster_publish_logs at 2 and at 3 *)
  ∧ length (DisasterPublishWorker.channel
              (DisasterPublishWorker._processOutboxMessage Scenario.stringify_disaster
                 DisasterPublishWorker.no_faults (Scenario.publish_world 2)
                 (Scenario.publish_row 2))) = 1%nat
  ∧ DisasterPublishWorker.channel
      (DisasterPublishWorker._processOutboxMessage Scenario.stringify_disaster
         DisasterPublishWorker.no_faults (Scenario.publish_world 3)
         (Scenario.publish_row 3)) = [].
Proof.
  destruct (retry_limit_by_outbox Scenario.env Scenario.xml_bytes)
    as (H1 & H2 & H3 & H4 & H5 & H6 & H7 & H8).
  repeat apply conj.
  - eexists. split; [vm_compute; reflexivity|].
    refine (proj1 (H1 ReportTransmit.no_faults (Scenario.at_ms 1751328005000)
                     (Scenario.transmit_world 3) (Scenario.report_row 3)
                     CentralConfig.ETS_NFY_DEVICE_INFO _ _ eq_refl _ eq_refl eq_refl _ eq_refl)).
    + vm_compute. discriminate.
    + vm_compute. reflexivity.
  - refine (proj2 (H2 ReportTransmit.no_faults (Scenario.at_ms 1751328005000)
                     (Scenario.transmit_world 4) (Scenario.report_row 4) _ _ eq_refl)).
    + vm_compute. discriminate.
    + vm_compute. reflexivity.
  - rewrite (proj1 (H3 Scenario.stringify_report ReportPublishWorker.no_faults
                      (Scenario.report_publish_world 3) (Scenario.report_publish_row 3)
                      ltac:(vm_compute; discriminate) eq_refl eq_refl)).
    reflexivity.
  - refine (proj1 (H4 Scenario.stringify_report ReportPublishWorker.no_faults
                     (Scenario.report_publish_world 4) (Scenario.report_publish_row 4)
                     _ eq_refl)).
    vm_compute. reflexivity.
  - rewrite (proj1 (H5 DisasterTransmit.no_faults 1751328005000 2 (Scenario.disaster_world 2)
                      (Scenario.disaster_row 2) Scenario.socket_a1
                      eq_refl eq_refl ltac:(vm_compute; reflexivity) eq_refl
                      eq_refl eq_refl eq_refl)).
    reflexivity.
  - refine (proj1 (H6 DisasterTransmit.no_faults 1751328005000 2 (Scenario.disaster_world 3)
                     (Scenario.disaster_row 3) eq_refl eq_refl _ eq_refl eq_refl)).
    vm_compute. discriminate.
  - rewrite (proj1 (H7 Scenario.stringify_disaster DisasterPublishWorker.no_faults
                      (Scenario.publish_world 2) (Scenario.publish_row 2)
                      ltac:(vm_compute; reflexivity) eq_refl eq_refl)).
    reflexivity.
  - refine (proj1 (H8 Scenario.stringify_disaster DisasterPublishWorker.no_faults
                     (Scenario.publish_world 3) (Scenario.publish_row 3) _ eq_refl)).
    vm_compute. discriminate.
Defined.

(** C3 as stated fails for the transmit outbox of the external service:
    the row of alert A1 for ESS-A has retry count 3, which is MAX_RETRIES,
    ESS-A is connected and nothing fails, and the row is marked FAILED
    with no event emitted. *)
Lemma disaster_at_max_retries_not_sent :
  let w := Scenario.disaster_world 3 in
  let w' := DisasterTransmit._processMessage DisasterTransmit.no_faults 1751328005000 2 w in
  ExternalDb.dtl_retry_count <$> ExternalDb.dtl_findById 2 (DisasterTransmit.db w)
  = Some DisasterTransmit.MAX_RETRIES
  ∧ ExternalSession.getSocketBySystemId 1 (DisasterTransmit.sessions w)
    = Some Scenario.socket_a1
  ∧ DisasterTransmit.emitted w' = []
  ∧ DisasterTransmit.attempts w' = []
  ∧ ExternalDb.dtl_status <$> ExternalDb.dtl_findById 2 (DisasterTransmit.db w')
    = Some ExternalDb.FAILED.
Proof. vm_compute. repeat split. Qed.

(** ** One transaction for the outbox rows and the inbox row *)

Section TransactionFacts.

Lemma external_createBulk_client id systems ident raw d d1 t :
  ExternalDb.in_txn d = Some t →
  ExternalDb.dtl_createBulk ExternalDb.Client id systems ident raw d = Some d1 →
  ExternalDb.committed d1 = ExternalDb.committed d ∧ is_Some (ExternalDb.in_txn d1).
Proof.
  unfold ExternalDb.dtl_createBulk. intros Ht.
  destruct systems as [|x xs]; [intros [= <-]; eauto|].
  destruct ident as [i|]; cbn; [|done].
  intros [= <-]. unfold ExternalDb.exec. cbn. rewrite Ht. cbn. eauto.
Qed.

(** While the transaction is open, a failing run of the steps of the
    external consumer leaves the committed tables as they were. *)
Lemma external_process_committed JSON_parse f id s d d' e :
  is_Some (ExternalDb.in_txn d) →
  ExternalBroker.process JSON_parse f id s d = (d', Some e) →
  ExternalDb.committed d' = ExternalDb.committed d.
Proof.
  intros [t Ht]. unfold ExternalBroker.process.
  destruct (JSON_parse s) as [messageContent|]; [|by intros [= <- _]].
  destruct (ExternalBroker.find_systems_fails f); [by intros [= <- _]|].
  set (systems := ExternalDb.findBySubscribedEventCode _ d).
  assert (∀ d1, ExternalDb.committed d1 = ExternalDb.committed d →
                is_Some (ExternalDb.in_txn d1) →
                match ExternalBroker.inbox_update_fails f with
                | Some e0 => (d1, Some e0)
                | None =>
                    match ExternalBroker.commit_fails f with
                    | Some e0 =>
                        (ExternalDb.mq_updateStatus ExternalDb.Client id ExternalDb.SUCCESS
                           None d1, Some e0)
                    | None =>
                        (ExternalDb.commit
                           (ExternalDb.mq_updateStatus ExternalDb.Client id ExternalDb.SUCCESS
                              None d1), None)
                    end
                end = (d', Some e) →
                ExternalDb.committed d' = ExternalDb.committed d) as Htail.
  { intros d1 Hc [t1 Ht1].
    destruct (ExternalBroker.inbox_update_fails f); [by intros [= <- _]|].
    destruct (ExternalBroker.commit_fails f); [|done].
    intros [= <- _]. by rewrite Ht1. }
  destruct systems as [|x xs] eqn:Es.
  - apply Htail; eauto.
  - destruct (ExternalBroker.outbox_create_fails f); [by intros [= <- _]|].
    destruct (ExternalDb.dtl_createBulk _ _ _ _ _ _) as [d1|] eqn:Eb; [|by intros [= <- _]].
    destruct (external_createBulk_client _ _ _ _ _ _ t Ht Eb) as [Hc Hs].
    by apply Htail.
Qed.

Lemma external_pool_update_committed id st m d d0 :
  ExternalDb.committed d = ExternalDb.committed d0 →
  ExternalDb.committed (ExternalDb.mq_updateStatus ExternalDb.Pool id st m d)
  = ExternalDb.committed (ExternalDb.mq_updateStatus ExternalDb.Pool id st m d0).
Proof. unfold ExternalDb.mq_updateStatus, ExternalDb.exec. cbn. by intros ->. Qed.

Lemma external_retry_committed f msg id err d ch d0 :
  ExternalDb.committed d = ExternalDb.committed d0 →
  let w' := ExternalBroker.retry_or_dead_letter f msg (Some id) err (ExternalBroker.mkWorld d ch) in
  ExternalDb.committed (ExternalBroker.db w') = ExternalDb.committed d0
  ∨ ∃ m, ExternalDb.committed (ExternalBroker.db w')
         = ExternalDb.committed
             (ExternalDb.mq_updateStatus ExternalDb.Pool id ExternalDb.FAILED (Some m) d0).
Proof.
  intros Hd. unfold ExternalBroker.retry_or_dead_letter.
  case_decide.
  - left. by destruct (ExternalBroker.retry_publish_fails f).
  - destruct (ExternalBroker.final_update_fails f); cbn.
    + by left.
    + right. eexists. by apply external_pool_update_committed.
Qed.

(** The external consumer is atomic: either the delivery is acknowledged
    as processed, or the committed store is the one before the delivery
    with at most the inbox row added, PENDING or finally FAILED. *)
Lemma external_consumer_atomic JSON_parse f w msg :
  ExternalDb.in_txn (ExternalBroker.db w) = None →
  let w' := ExternalBroker._consumeDisasterMessage JSON_parse f w msg in
  let id := ExternalDb.next_id (ExternalBroker.db w) in
  let inserted :=
    (ExternalDb.mq_create ExternalDb.Pool (Amqp.content msg) (ExternalBroker.db w)).2 in
  ExternalBroker.channel w' = ExternalBroker.channel w ++ [Amqp.Ack (Amqp.deliveryTag msg)]
  ∨ ExternalDb.committed (ExternalBroker.db w') = ExternalDb.committed (ExternalBroker.db w)
  ∨ ExternalDb.committed (ExternalBroker.db w') = ExternalDb.committed inserted
  ∨ ∃ m, ExternalDb.committed (ExternalBroker.db w')
         = ExternalDb.committed
             (ExternalDb.mq_updateStatus ExternalDb.Pool id ExternalDb.FAILED (Some m) inserted).
Proof.
  intros Htxn w' id inserted. subst w'.
  unfold ExternalBroker._consumeDisasterMessage.
  destruct (ExternalBroker.inbox_create_fails f) as [e|].
  { right. left. unfold ExternalBroker.retry_or_dead_letter.
    case_decide; [by destruct (ExternalBroker.retry_publish_fails f)|done]. }
  change (ExternalDb.mq_create ExternalDb.Pool (Amqp.content msg) (ExternalBroker.db w))
    with (id, inserted).
  cbn iota.
  assert (Hin : ExternalDb.in_txn inserted = None).
  { subst inserted. unfold ExternalDb.mq_create, ExternalDb.exec. cbn. by rewrite Htxn. }
  destruct (ExternalBroker.getClient_fails f) as [e|].
  { right. right. by apply external_retry_committed. }
  assert (Hfail : ∀ d2 err,
            ExternalDb.committed d2 = ExternalDb.committed inserted →
            let w' :=
              match ExternalBroker.rollback_fails f with
              | Some e =>
                  ExternalBroker.retry_or_dead_letter f msg (Some id) e
                    (ExternalBroker.mkWorld d2 (ExternalBroker.channel w))
              | None =>
                  ExternalBroker.retry_or_dead_letter f msg (Some id) err
                    (ExternalBroker.mkWorld (ExternalDb.rollback d2) (ExternalBroker.channel w))
              end in
            ExternalDb.committed (ExternalBroker.db w') = ExternalDb.committed inserted
            ∨ ∃ m, ExternalDb.committed (ExternalBroker.db w')
                   = ExternalDb.committed
                       (ExternalDb.mq_updateStatus ExternalDb.Pool id ExternalDb.FAILED
                          (Some m) inserted)).
  { intros d2 err Hd2. destruct (ExternalBroker.rollback_fails f); cbn zeta.
    - by apply external_retry_committed.
    - by apply external_retry_committed. }
  destruct (ExternalBroker.begin_fails f) as [e|].
  { right. right. by apply Hfail. }
  destruct (ExternalBroker.process JSON_parse f id (Amqp.content msg) (ExternalDb.begin inserted))
    as [d2 [err|]] eqn:Ep.
  - right. right. apply Hfail.
    apply external_process_committed in Ep.
    + rewrite Ep. unfold ExternalDb.begin. by rewrite Hin.
    + unfold ExternalDb.begin. rewrite Hin. cbn. eauto.
  - by left.
Qed.

(** The central consumer is not: when the update of the inbox row or the
    COMMIT rejects after the outbox row was written, the ROLLBACK leaves
    the outbox row committed next to an inbox row that is still PENDING. *)
Lemma central_outbox_survives env JSON_parse f now w msg ty name raw e :
  CentralDb.in_txn (CentralBroker.db w) = None →
  CentralBroker.inbox_create_fails f = None →
  CentralBroker.getClient_fails f = None →
  CentralBroker.begin_fails f = None →
  CentralBroker.outbox_create_fails f = None →
  JSON_parse (Amqp.content msg)
  = Some (CentralBroker.mkMessageContent (Some ty) (Some name) (Some raw)) →
  ty = "DEVICE_INFO" ∨ ty = "DEVICE_STATUS" →
  CentralBroker.inbox_update_fails f = Some e ∨ CentralBroker.commit_fails f = Some e →
  CentralBroker.rollback_fails f = None →
  Amqp.retryCount msg < CentralConfig.rabbitmq_MAX_RETRIES →
  let w' := CentralBroker._consumeReportMessage env JSON_parse f now w msg in
  let id := CentralDb.next_id (CentralBroker.db w) in
  let t := CentralDb.committed (CentralBroker.db w) in
  CentralDb.committed (CentralBroker.db w')
  = CentralDb.mkTables (CentralDb.tcp_receive_logs t) (CentralDb.disaster_publish_logs t)
      (CentralDb.mq_receive_logs t
       ++ [CentralDb.mkMqReceiveLog id (Amqp.content msg) CentralDb.PENDING None])
      (CentralDb.report_transmit_logs t
       ++ [CentralDb.mkReportTransmitLog (id + 1) id ty
             ("KR." +:+ CentralConfig.DEST_ID env +:+ "_" +:+ pretty now) name raw
             CentralDb.PENDING 0 None 1 None])
  ∧ CentralDb.in_txn (CentralBroker.db w') = None.
Proof.
  intros Htxn Hi Hg Hb Ho Hjson Hty Hfail Hr Hretry w' id t. subst w' id t.
  unfold CentralBroker._consumeReportMessage, CentralBroker.process,
    CentralBroker.retry_or_dead_letter.
  rewrite Hi, Hg, Hb, Hjson, Ho, Hr.
  destruct w as [[t0 txn nid] ch]. cbn in Htxn. subst txn.
  assert (Hty' : bool_decide (ty ∈ CentralDb.report_types) = true).
  { apply bool_decide_eq_true. unfold CentralDb.report_types.
    destruct Hty as [-> | ->]; rewrite !elem_of_cons; auto. }
  assert (Hnot : Some ty ≠ Some "DISASTER_RESULT").
  { destruct Hty as [-> | ->]; discriminate. }
  cbn [CentralBroker.mc_type CentralBroker.mc_externalSystemName CentralBroker.mc_rawMessage
       CentralBroker.db CentralBroker.channel].
  destruct (CentralDb.mq_create _ _ _) as [id0 db1] eqn:Emq.
  rewrite decide_False by done.
  unfold CentralDb.mq_create in Emq. cbn in Emq. simplify_eq.
  unfold CentralDb.rtl_create. cbn. rewrite Hty'. cbn.
  destruct Hfail as [Hu | Hc].
  - rewrite Hu. cbn. rewrite decide_True by done.
    by destruct (CentralBroker.retry_publish_fails f).
  - destruct (CentralBroker.inbox_update_fails f); rewrite ?Hc; cbn;
      rewrite decide_True by done; by destruct (CentralBroker.retry_publish_fails f).
Qed.

(** C2, as the code has it. The disaster consumer of the external service
    is atomic: either the delivery is acknowledged as processed, or the
    committed store is the one before the delivery with at most the inbox
    row added, PENDING or finally FAILED, and no disaster_transmit_logs
    row. The report consumer of the central service is not: its outbox
    insert runs on the pool, so when the update of the inbox row or the
    COMMIT rejects afterwards, the ROLLBACK leaves the report_transmit_logs
    row committed next to an inbox row that is still PENDING. *)
Theorem outbox_atomicity_by_consumer :
  (∀ JSON_parse f w msg,
     ExternalDb.in_txn (ExternalBroker.db w) = None →
     let w' := ExternalBroker._consumeDisasterMessage JSON_parse f w msg in
     let id := ExternalDb.next_id (ExternalBroker.db w) in
     let inserted :=
       (ExternalDb.mq_create ExternalDb.Pool (Amqp.content msg) (ExternalBroker.db w)).2 in
     ExternalBroker.channel w' = ExternalBroker.channel w ++ [Amqp.Ack (Amqp.deliveryTag msg)]
     ∨ ExternalDb.committed (ExternalBroker.db w') = ExternalDb.committed (ExternalBroker.db w)
     ∨ ExternalDb.committed (ExternalBroker.db w') = ExternalDb.committed inserted
     ∨ ∃ m, ExternalDb.committed (ExternalBroker.db w')
            = ExternalDb.committed
                (ExternalDb.mq_updateStatus ExternalDb.Pool id ExternalDb.FAILED (Some m)
                   inserted))
  ∧ (∀ env JSON_parse f now w msg ty name raw e,
       CentralDb.in_txn (CentralBroker.db w) = None →
       CentralBroker.inbox_create_fails f = None →
       CentralBroker.getClient_fails f = None →
       CentralBroker.begin_fails f = None →
       CentralBroker.outbox_create_fails f = None →
       JSON_parse (Amqp.content msg)
       = Some (CentralBroker.mkMessageContent (Some ty) (Some name) (Some raw)) →
       ty = "DEVICE_INFO" ∨ ty = "DEVICE_STATUS" →
       CentralBroker.inbox_update_fails f = Some e ∨ CentralBroker.commit_fails f = Some e →
       CentralBroker.rollback_fails f = None →
       Amqp.retryCount msg < CentralConfig.rabbitmq_MAX_RETRIES →
       let w' := CentralBroker._consumeReportMessage env JSON_parse f now w msg in
       let id := CentralDb.next_id (CentralBroker.db w) in
       let t := CentralDb.committed (CentralBroker.db w) in
       CentralDb.committed (CentralBroker.db w')
       = CentralDb.mkTables (CentralDb.tcp_receive_logs t) (CentralDb.disaster_publish_logs t)
           (CentralDb.mq_receive_logs t
            ++ [CentralDb.mkMqReceiveLog id (Amqp.content msg) CentralDb.PENDING None])
           (CentralDb.report_transmit_logs t
            ++ [CentralDb.mkReportTransmitLog (id + 1) id ty
                  ("KR." +:+ CentralConfig.DEST_ID env +:+ "_" +:+ pretty now) name raw
                  CentralDb.PENDING 0 None 1 None])
       ∧ CentralDb.in_txn (CentralBroker.db w') = None).
Proof.
  split.
  - intros. by apply external_consumer_atomic.
  - intros. by apply (central_outbox_survives env JSON_parse f now w msg ty name raw e).
Qed.

End TransactionFacts.

(** The first delivery of the DEVICE_INFO report and of the disaster
    message of alert A1, each with the update of the inbox row rejecting:
    the central store keeps the outbox row, the external store keeps
    none. *)
Lemma outbox_atomicity_by_consumer_witness :
  CentralDb.report_transmit_logs
    (CentralDb.committed
       (CentralBroker.db
          (Scenario.consume_report Scenario.central_update_fails 1751328000000
             Scenario.central_broker0 (Scenario.report_delivery None 7))))
  = [CentralDb.mkReportTransmitLog 2 1 "DEVICE_INFO" "KR.GW01_1751328000000" "ESS-A"
       (CentralDb.mkRawMessage None "{deviceList:[D1]}") CentralDb.PENDING 0 None 1 None]
  ∧ ExternalDb.disaster_transmit_logs
      (ExternalDb.committed
         (ExternalBroker.db
            (Scenario.consume_disaster Scenario.external_update_fails
               Scenario.external_broker0 (Scenario.disaster_delivery None 7))))
    = [].
Proof.
  destruct outbox_atomicity_by_consumer as [Hes Hcs].
  split.
  - unfold Scenario.consume_report.
    rewrite (proj1 (Hcs Scenario.env Scenario.JSON_parse_report Scenario.central_update_fails
                      1751328000000 Scenario.central_broker0 (Scenario.report_delivery None 7)
                      "DEVICE_INFO" "ESS-A" (CentralDb.mkRawMessage None "{deviceList:[D1]}")
                      Scenario.connection_lost
                      eq_refl eq_refl eq_refl eq_refl eq_refl eq_refl
                      (or_introl eq_refl) (or_introl eq_refl) eq_refl eq_refl)).
    vm_compute. reflexivity.
  - unfold Scenario.consume_disaster.
    destruct (Hes Scenario.JSON_parse_disaster Scenario.external_update_fails
                Scenario.external_broker0 (Scenario.disaster_delivery None 7) eq_refl)
      as [H | [H | [H | [m H]]]].
    + vm_compute in H. discriminate H.
    + rewrite H. reflexivity.
    + rewrite H. reflexivity.
    + rewrite H. reflexivity.
Defined.

(** ** The stream parser against the frame builder *)

Section StreamFacts.

Variables DATA_FORMAT MAGIC_NUMBER MAX_BODY_LENGTH : Z.
Context {XmlObject : Type} (xml_bytes : XmlObject → option Buffer.t).

Local Abbreviation buildMessageBuffer :=
  (Protocol.buildMessageBuffer DATA_FORMAT MAGIC_NUMBER xml_bytes).
Local Abbreviation _parseHeader := (Protocol._parseHeader MAGIC_NUMBER MAX_BODY_LENGTH).
Local Abbreviation transform_loop := (Protocol.transform_loop MAGIC_NUMBER MAX_BODY_LENGTH).
Local Abbreviation _transform := (Protocol._transform MAGIC_NUMBER MAX_BODY_LENGTH).
Local Abbreviation feed := (ProtocolStream.feed MAGIC_NUMBER MAX_BODY_LENGTH).
Local Abbreviation accepted := (ProtocolStream.accepted MAGIC_NUMBER MAX_BODY_LENGTH).
Local Abbreviation pending := (ProtocolStream.pending MAGIC_NUMBER MAX_BODY_LENGTH).

(** More fuel than the measure asks for changes nothing. *)
Lemma transform_loop_fuel fuel1 fuel2 p acc :
  (Protocol.parser_measure p < fuel1)%nat →
  (Protocol.parser_measure p < fuel2)%nat →
  transform_loop fuel1 p acc = transform_loop fuel2 p acc.
Proof.
  revert fuel2 p acc. induction fuel1 as [|fuel1 IH]; intros fuel2 p acc H1 H2; [lia|].
  destruct fuel2 as [|fuel2]; [lia|].
  simpl. case_decide; [|done].
  destruct (Protocol.parsingState p) eqn:Hs.
  - destruct (_parseHeader p) as [[p' out]|] eqn:E; [|done].
    apply _parseHeader_measure in E.
    unfold Protocol.parser_measure in H1, H2. apply IH; lia.
  - destruct (Protocol._parseBody p) as [[p' out]|] eqn:E; [|done].
    apply _parseBody_measure in E.
    unfold Protocol.parser_measure in H1, H2. rewrite Hs in H1, H2. apply IH; lia.
Qed.

Lemma header_octets_spec h hdr :
  ProtocolStream.header_octets h = Some hdr →
  length hdr = Protocol.HEADER_LENGTH
  ∧ Buffer.readUInt32BE hdr 0 = Some (Protocol.messageId h)
  ∧ Buffer.readUInt32BE hdr 4 = Some (Protocol.dataFormat h)
  ∧ Buffer.readUInt32BE hdr 8 = Some (Protocol.magicNumber h)
  ∧ Buffer.readUInt32BE hdr 12 = Some (Protocol.dataLength h).
Proof.
  unfold ProtocolStream.header_octets. intros H.
  destruct h as [a b c d]. cbn [Protocol.messageId Protocol.dataFormat Protocol.magicNumber
                                Protocol.dataLength] in *.
  assert (Ha : 0 ≤ a ≤ 4294967295).
  { unfold Buffer.writeUInt32BE in H. destruct (decide (0 ≤ a ≤ 4294967295)); [done|done]. }
  destruct (Buffer.writeUInt32BE (Buffer.alloc _) a 0) as [h1|] eqn:E1; [|done].
  cbn [mbind option_bind] in H.
  assert (Hb : 0 ≤ b ≤ 4294967295).
  { unfold Buffer.writeUInt32BE in H. destruct (decide (0 ≤ b ≤ 4294967295)); [done|done]. }
  destruct (Buffer.writeUInt32BE h1 b 4) as [h2|] eqn:E2; [|done].
  cbn [mbind option_bind] in H.
  assert (Hc : 0 ≤ c ≤ 4294967295).
  { unfold Buffer.writeUInt32BE in H. destruct (decide (0 ≤ c ≤ 4294967295)); [done|done]. }
  destruct (Buffer.writeUInt32BE h2 c 8) as [h3|] eqn:E3; [|done].
  cbn [mbind option_bind] in H.
  assert (Hd : 0 ≤ d ≤ 4294967295).
  { unfold Buffer.writeUInt32BE in H. destruct (decide (0 ≤ d ≤ 4294967295)); [done|done]. }
  destruct (header_octets_read a b c d []) as (hdr' & Hw & Hl & R0 & R4 & R8 & R12); [done..|].
  rewrite E1 in Hw. cbn [mbind option_bind] in Hw. rewrite E2 in Hw.
  cbn [mbind option_bind] in Hw. rewrite E3 in Hw. cbn [mbind option_bind] in Hw.
  rewrite H in Hw. injection Hw as <-. done.
Qed.

Lemma wire_all_nil : ProtocolStream.wire_all [] = Some [].
Proof. reflexivity. Qed.

Lemma wire_all_cons m ms :
  ProtocolStream.wire_all (m :: ms)
  = hdr ← ProtocolStream.header_octets (Protocol.header m);
    tail ← ProtocolStream.wire_all ms;
    Some (hdr ++ Protocol.body m ++ tail).
Proof.
  unfold ProtocolStream.wire_all, ProtocolStream.wire, Buffer.concat. cbn.
  destruct (ProtocolStream.header_octets (Protocol.header m)) as [hdr|]; cbn; [|done].
  destruct (mapM _ ms) as [frames|]; cbn; [|done].
  by rewrite <- app_assoc.
Qed.

Lemma app_prefix_split {A} (a R h T : list A) :
  a ++ R = h ++ T → (length h ≤ length a)%nat → ∃ x, a = h ++ x ∧ x ++ R = T.
Proof.
  intros He Hl. exists (drop (length h) a).
  assert (Ht : take (length h) a = h).
  { rewrite <- (take_app_le a R) by done. rewrite He. by rewrite take_app_length. }
  split.
  - rewrite <- Ht at 1. by rewrite take_drop.
  - rewrite <- (take_drop (length h) a) in He. rewrite Ht in He.
    rewrite <- app_assoc in He. by apply app_inv_head in He.
Qed.

(** One iteration on a complete header. *)
Lemma header_step p h hdr x :
  Protocol.buffer p = hdr ++ x →
  ProtocolStream.header_octets h = Some hdr →
  Protocol.magicNumber h = MAGIC_NUMBER →
  Protocol.dataLength h ≤ MAX_BODY_LENGTH →
  _parseHeader p
  = Some (if decide (Protocol.dataLength h = 0)
          then (Protocol.mkParser x (Z.of_nat Protocol.HEADER_LENGTH) Protocol.HEADER None,
                [Protocol.mkMessage h []])
          else (Protocol.mkParser x (Protocol.dataLength h) Protocol.BODY (Some h), [])).
Proof.
  intros Hb Hh Hm Hl.
  destruct (header_octets_spec h hdr Hh) as (Hlen & R0 & R4 & R8 & R12).
  unfold Protocol._parseHeader. rewrite Hb.
  rewrite <- Hlen. rewrite subarray_prefix, subarray_from_prefix.
  rewrite R0. cbn [mbind option_bind]. rewrite R4. cbn [mbind option_bind].
  rewrite R8. cbn [mbind option_bind]. rewrite R12. cbn [mbind option_bind].
  rewrite decide_False by (intros Hne; by apply Hne).
  rewrite decide_False by lia.
  cbn [Protocol.neededLength]. destruct h as [a b c d]. cbn in *.
  case_decide; [|done].
  unfold Protocol.emitCompleteMessage. cbn. by rewrite Hlen.
Qed.

(** One iteration on a complete body. *)
Lemma body_step p h body x :
  Protocol.p_header p = Some h →
  Protocol.buffer p = body ++ x →
  Protocol.neededLength p = Z.of_nat (length body) →
  Protocol._parseBody p
  = Some (Protocol.mkParser x (Z.of_nat Protocol.HEADER_LENGTH) Protocol.HEADER None,
          [Protocol.mkMessage h body]).
Proof.
  intros Hh Hb Hn. unfold Protocol._parseBody, Protocol.emitCompleteMessage.
  rewrite Hh, Hb, Hn. cbn [mbind option_bind Protocol.buffer Protocol.neededLength
                           Protocol.parsingState Protocol.p_header].
  by rewrite subarray_prefix, subarray_from_prefix.
Qed.

Lemma wire_all_cons_inv m ms s :
  ProtocolStream.wire_all (m :: ms) = Some s →
  ∃ hdr tail,
    ProtocolStream.header_octets (Protocol.header m) = Some hdr
    ∧ ProtocolStream.wire_all ms = Some tail
    ∧ length hdr = Protocol.HEADER_LENGTH
    ∧ s = hdr ++ Protocol.body m ++ tail.
Proof.
  rewrite wire_all_cons. intros H.
  destruct (ProtocolStream.header_octets _) as [hdr|] eqn:Eh; [|done].
  destruct (ProtocolStream.wire_all ms) as [tail|]; [|done].
  cbn in H. injection H as <-.
  exists hdr, tail. repeat split; try done.
  by destruct (header_octets_spec _ _ Eh).
Qed.

(** The loop on a parser that holds a prefix of the wire form of [ms]
    emits the messages that are complete and stops waiting for more. *)
Lemma loop_pending fuel p acc rest ms :
  (Protocol.parser_measure p < fuel)%nat →
  pending p rest ms →
  ∃ p' out ms',
    transform_loop fuel p acc = Some (p', acc ++ out)
    ∧ ms = out ++ ms'
    ∧ pending p' rest ms'
    ∧ Z.of_nat (length (Protocol.buffer p')) < Protocol.neededLength p'.
Proof.
  revert p acc ms. induction fuel as [|fuel IH]; intros p acc ms Hfuel Hp; [lia|].
  cbn [Protocol.transform_loop]. case_decide as Hlen.
  2:{ exists p, [], ms. rewrite app_nil_r. split; [done|]. split; [done|]. split; [done|lia]. }
  destruct Hp as [Hacc Hp].
  destruct (Protocol.parsingState p) eqn:Hs.
  - destruct Hp as (Hn & Hh & Hw).
    destruct ms as [|m ms].
    { rewrite wire_all_nil in Hw. injection Hw as Hw. symmetry in Hw.
      apply app_eq_nil in Hw as [Hb _]. rewrite Hb, Hn in Hlen.
      exfalso. apply Hlen. reflexivity. }
    apply wire_all_cons_inv in Hw as (hdr & tail & Hhdr & Htail & Hl & Hw).
    destruct (app_prefix_split _ _ _ _ Hw) as (x & Hb & Hx); [rewrite Hl; rewrite Hn in Hlen; lia|].
    apply Forall_cons in Hacc as [(Hmag & Hdl & Hmax) Hacc].
    pose proof (header_step p (Protocol.header m) hdr x Hb Hhdr Hmag Hmax) as Hstep.
    rewrite Hstep. case_decide as Hz.
    + assert (Hbody : Protocol.body m = []).
      { destruct (Protocol.body m); [done|]. simpl in Hdl. lia. }
      apply _parseHeader_measure in Hstep as Hmeas. cbn in Hmeas.
      edestruct (IH (Protocol.mkParser x (Z.of_nat Protocol.HEADER_LENGTH) Protocol.HEADER None)
                   (acc ++ [Protocol.mkMessage (Protocol.header m) []]) ms)
        as (p' & out & ms' & Hrun & Hms & Hp' & Hlt).
      { unfold Protocol.parser_measure in *. cbn. lia. }
      { split; [done|]. cbn. rewrite Htail. repeat split.
        rewrite Hbody in Hx. simpl in Hx. by rewrite Hx. }
      exists p', (Protocol.mkMessage (Protocol.header m) [] :: out), ms'.
      rewrite Hrun, <- app_assoc. split; [done|]. split; [|done].
      rewrite Hms. destruct m as [h b]. cbn in *. by rewrite Hbody.
    + apply _parseHeader_measure in Hstep as Hmeas. cbn in Hmeas.
      edestruct (IH (Protocol.mkParser x (Protocol.dataLength (Protocol.header m)) Protocol.BODY
                      (Some (Protocol.header m))) (acc ++ []) (m :: ms))
        as (p' & out & ms' & Hrun & Hms & Hp' & Hlt).
      { unfold Protocol.parser_measure in *. cbn. lia. }
      { split; [by apply Forall_cons|]. cbn. exists m, ms, tail. repeat split; try done. }
      exists p', out, ms'. rewrite Hrun, app_nil_r. done.
  - destruct Hp as (m & ms' & tail & -> & Hh & Hn & Hoct & Htail & Hw).
    apply Forall_cons in Hacc as [(Hmag & Hdl & Hmax) Hacc].
    destruct (app_prefix_split _ _ _ _ Hw) as (x & Hb & Hx); [lia|].
    pose proof (body_step p (Protocol.header m) (Protocol.body m) x Hh Hb) as Hstep.
    rewrite Hstep by lia.
    edestruct (IH (Protocol.mkParser x (Z.of_nat Protocol.HEADER_LENGTH) Protocol.HEADER None)
                 (acc ++ [Protocol.mkMessage (Protocol.header m) (Protocol.body m)]) ms')
      as (p' & out & ms'' & Hrun & Hms & Hp' & Hlt).
    { assert (Hs' : Protocol._parseBody p = Some (Protocol.mkParser x (Z.of_nat Protocol.HEADER_LENGTH) Protocol.HEADER None, [Protocol.mkMessage (Protocol.header m) (Protocol.body m)]))
        by (apply Hstep; lia).
      apply _parseBody_measure in Hs'.
      unfold Protocol.parser_measure in Hfuel. rewrite Hs in Hfuel. lia. }
    { split; [done|]. cbn. rewrite Htail. repeat split. by rewrite Hx. }
    exists p', (Protocol.mkMessage (Protocol.header m) (Protocol.body m) :: out), ms''.
    rewrite Hrun, <- app_assoc. split; [done|]. split; [|done].
    rewrite Hms. by destruct m.
Qed.

Lemma measure_lt_budget q : (Protocol.parser_measure q < Protocol.budget q)%nat.
Proof.
  unfold Protocol.parser_measure, Protocol.budget. destruct (Protocol.parsingState q); lia.
Qed.

Lemma pending_append p c rest ms :
  pending p (c ++ rest) ms →
  pending (Protocol.mkParser (Buffer.concat (Protocol.buffer p) c) (Protocol.neededLength p)
             (Protocol.parsingState p) (Protocol.p_header p)) rest ms.
Proof.
  unfold ProtocolStream.pending, Buffer.concat. intros [Hacc Hp]. split; [done|].
  cbn. destruct (Protocol.parsingState p).
  - destruct Hp as (? & ? & Hw). by rewrite <- app_assoc.
  - destruct Hp as (m & ms' & tail & ? & ? & ? & ? & ? & Hw).
    exists m, ms', tail. by rewrite <- app_assoc.
Qed.

Lemma wire_all_length m ms s :
  ProtocolStream.wire_all (m :: ms) = Some s →
  (Protocol.HEADER_LENGTH + length (Protocol.body m) ≤ length s)%nat.
Proof.
  intros H. apply wire_all_cons_inv in H as (hdr & tail & _ & _ & Hl & ->).
  rewrite !length_app. lia.
Qed.

(** With nothing more to come, a parser that waits holds nothing. *)
Lemma pending_done p ms :
  pending p [] ms →
  Z.of_nat (length (Protocol.buffer p)) < Protocol.neededLength p →
  p = Protocol.initial ∧ ms = [].
Proof.
  intros [Hacc Hp] Hlt. destruct p as [b n s h]. cbn in *. destruct s.
  - destruct Hp as (-> & -> & Hw). rewrite app_nil_r in Hw.
    destruct ms as [|m ms].
    + rewrite wire_all_nil in Hw. by injection Hw as <-.
    + apply wire_all_length in Hw. unfold Protocol.HEADER_LENGTH in *. lia.
  - destruct Hp as (m & ms' & tail & -> & -> & -> & _ & _ & Hw).
    apply Forall_cons in Hacc as [(_ & Hdl & _) _].
    rewrite app_nil_r in Hw. apply (f_equal length) in Hw. rewrite length_app in Hw. lia.
Qed.

Lemma feed_pending chunks p acc rest ms :
  pending p (concat chunks ++ rest) ms →
  Z.of_nat (length (Protocol.buffer p)) < Protocol.neededLength p →
  ∃ p' out ms',
    foldl (λ acc chunk,
             '(p, out) ← acc;
             '(p', out') ← _transform p chunk;
             Some (p', out ++ out'))
      (Some (p, acc)) chunks = Some (p', acc ++ out)
    ∧ ms = out ++ ms'
    ∧ pending p' rest ms'
    ∧ Z.of_nat (length (Protocol.buffer p')) < Protocol.neededLength p'.
Proof.
  revert p acc ms. induction chunks as [|c cs IH]; intros p acc ms Hp Hlt.
  - exists p, [], ms. rewrite app_nil_r. done.
  - cbn [concat] in Hp. rewrite <- app_assoc in Hp. apply pending_append in Hp.
    cbn [foldl mbind option_bind]. unfold Protocol._transform at 2.
    edestruct (loop_pending
                 (Protocol.budget
                    (Protocol.mkParser (Buffer.concat (Protocol.buffer p) c)
                       (Protocol.neededLength p) (Protocol.parsingState p)
                       (Protocol.p_header p)))
                 _ [] _ _ (measure_lt_budget _) Hp)
      as (p1 & out1 & ms1 & Hrun & -> & Hp1 & Hlt1).
    rewrite Hrun. cbn [mbind option_bind app].
    destruct (IH p1 (acc ++ out1) ms1 Hp1 Hlt1) as (p' & out & ms' & Hf & -> & Hp' & Hlt').
    exists p', (out1 ++ out), ms'. rewrite Hf. by rewrite !app_assoc.
Qed.

(** Any chunking of the wire form of accepted messages gives back those
    messages, in order, and leaves the parser as it started. *)
Lemma feed_wire ms stream chunks :
  Forall accepted ms →
  ProtocolStream.wire_all ms = Some stream →
  concat chunks = stream →
  feed Protocol.initial chunks = Some (Protocol.initial, ms).
Proof.
  intros Hacc Hw Hc. unfold ProtocolStream.feed.
  destruct (feed_pending chunks Protocol.initial [] [] ms) as (p' & out & ms' & Hf & -> & Hp' & Hlt).
  - split; [done|]. cbn. rewrite app_nil_r, Hc. done.
  - cbn. unfold Protocol.HEADER_LENGTH. lia.
  - rewrite Hf. destruct (pending_done p' ms' Hp' Hlt) as [-> ->].
    by rewrite app_nil_r.
Qed.

Lemma buildMessageBuffer_wire messageId xmlObject body :
  xml_bytes xmlObject = Some body →
  buildMessageBuffer messageId xmlObject
  = ProtocolStream.wire
      (Protocol.mkMessage
         (Protocol.mkHeader messageId DATA_FORMAT MAGIC_NUMBER (Z.of_nat (length body))) body).
Proof.
  intros Hx. unfold Protocol.buildMessageBuffer, ProtocolStream.wire,
    ProtocolStream.header_octets. rewrite Hx. cbn.
  destruct (Buffer.writeUInt32BE _ messageId 0) as [h1|]; cbn; [|done].
  destruct (Buffer.writeUInt32BE h1 DATA_FORMAT 4) as [h2|]; cbn; [|done].
  destruct (Buffer.writeUInt32BE h2 MAGIC_NUMBER 8) as [h3|]; cbn; [|done].
  by destruct (Buffer.writeUInt32BE h3 _ 12).
Qed.

Lemma frames_wire_all (inputs : list (Z * XmlObject * Buffer.t)) (frames : list Buffer.t) :
  Forall (λ i, xml_bytes i.1.2 = Some i.2
               ∧ Z.of_nat (length i.2) ≤ MAX_BODY_LENGTH) inputs →
  Forall2 (λ i frame, buildMessageBuffer i.1.1 i.1.2 = Some frame) inputs frames →
  ProtocolStream.wire_all
    ((λ i, Protocol.mkMessage
             (Protocol.mkHeader i.1.1 DATA_FORMAT MAGIC_NUMBER (Z.of_nat (length i.2)))
             i.2) <$> inputs) = Some (concat frames).
Proof.
  intros Hin Hfr. unfold ProtocolStream.wire_all.
  assert (Hm : mapM ProtocolStream.wire
                 ((λ i, Protocol.mkMessage
                          (Protocol.mkHeader i.1.1 DATA_FORMAT MAGIC_NUMBER
                             (Z.of_nat (length i.2))) i.2) <$> inputs) = Some frames).
  { apply mapM_Some. apply Forall2_fmap_l.
    induction Hfr as [|i f inputs frames Hb _ IH].
    - constructor.
    - apply Forall_cons in Hin as [[Hx _] Hin]. constructor; [|by apply IH].
      cbn. by rewrite <- (buildMessageBuffer_wire _ _ _ Hx). }
  rewrite Hm. done.
Qed.

(** Reassembly. Frames built by [buildMessageBuffer], sent one after
    the other and cut into chunks at any octets whatever, are read by a
    fresh parser as the original messages, in order, each with its id, the
    data format, the magic number, the length of its body and its body;
    the parser ends in its initial state. *)
Theorem stream_reassembly (inputs : list (Z * XmlObject * Buffer.t))
    (frames chunks : list Buffer.t) :
  Forall (λ i, xml_bytes i.1.2 = Some i.2
               ∧ Z.of_nat (length i.2) ≤ MAX_BODY_LENGTH) inputs →
  Forall2 (λ i frame, buildMessageBuffer i.1.1 i.1.2 = Some frame) inputs frames →
  concat chunks = concat frames →
  feed Protocol.initial chunks
  = Some (Protocol.initial,
          (λ i, Protocol.mkMessage
                  (Protocol.mkHeader i.1.1 DATA_FORMAT MAGIC_NUMBER (Z.of_nat (length i.2)))
                  i.2) <$> inputs).
Proof.
  intros Hin Hfr Hc.
  apply (feed_wire _ (concat frames)); [| |done].
  - apply Forall_fmap. eapply Forall_impl; [exact Hin|].
    intros [[mid obj] body] [_ Hl]. cbn in *. repeat split; cbn; lia.
  - by apply frames_wire_all.
Qed.

Lemma loop_continue fuel p acc p' out :
  (Protocol.parser_measure p < fuel)%nat →
  Z.of_nat (length (Protocol.buffer p)) >= Protocol.neededLength p →
  match Protocol.parsingState p with
  | Protocol.HEADER => _parseHeader p
  | Protocol.BODY => Protocol._parseBody p
  end = Some (p', out) →
  transform_loop fuel p acc = transform_loop (S (Protocol.parser_measure p')) p' (acc ++ out).
Proof.
  intros Hfuel Hlen Hstep. destruct fuel as [|fuel]; [lia|].
  remember (transform_loop (S (Protocol.parser_measure p')) p' (acc ++ out)) as rhs eqn:Hr.
  cbn [Protocol.transform_loop]. rewrite decide_True by done. rewrite Hstep.
  subst rhs. apply transform_loop_fuel; [|lia].
  destruct (Protocol.parsingState p) eqn:Hs.
  - apply _parseHeader_measure in Hstep. unfold Protocol.parser_measure in Hfuel. lia.
  - apply _parseBody_measure in Hstep. unfold Protocol.parser_measure in Hfuel.
    rewrite Hs in Hfuel. lia.
Qed.

Lemma loop_reset fuel p acc :
  (Protocol.parser_measure p < fuel)%nat →
  Z.of_nat (length (Protocol.buffer p)) >= Protocol.neededLength p →
  match Protocol.parsingState p with
  | Protocol.HEADER => _parseHeader p
  | Protocol.BODY => Protocol._parseBody p
  end = None →
  transform_loop fuel p acc = Some (Protocol.initial, acc).
Proof.
  intros Hfuel Hlen Hstep. destruct fuel as [|fuel]; [lia|].
  cbn [Protocol.transform_loop]. rewrite decide_True by done. by rewrite Hstep.
Qed.

Lemma readUInt32BE_some (buf : Buffer.t) (off : nat) :
  (off + 4 ≤ length buf)%nat → is_Some (Buffer.readUInt32BE buf off).
Proof.
  intros Hl. unfold Buffer.readUInt32BE.
  destruct (lookup_lt_is_Some_2 buf off) as [b0 ->]; [lia|].
  destruct (lookup_lt_is_Some_2 buf (off + 1)) as [b1 ->]; [lia|].
  destruct (lookup_lt_is_Some_2 buf (off + 2)) as [b2 ->]; [lia|].
  destruct (lookup_lt_is_Some_2 buf (off + 3)) as [b3 ->]; [lia|].
  cbn. eauto.
Qed.

(** A header the parser rejects, at the head of the buffer, empties the
    buffer whatever follows it. *)
Lemma loop_rejects bad tail acc mag len :
  length bad = Protocol.HEADER_LENGTH →
  Buffer.readUInt32BE bad 8 = Some mag →
  Buffer.readUInt32BE bad 12 = Some len →
  mag ≠ MAGIC_NUMBER ∨ len > MAX_BODY_LENGTH →
  ∀ fuel q,
    q = Protocol.mkParser (bad ++ tail) (Z.of_nat Protocol.HEADER_LENGTH) Protocol.HEADER None →
    (Protocol.parser_measure q < fuel)%nat →
    transform_loop fuel q acc = Some (Protocol.initial, acc).
Proof.
  intros Hl H8 H12 Hbad fuel q -> Hfuel. apply loop_reset; [done| |].
  - cbn. rewrite length_app, Hl. lia.
  - cbn. unfold Protocol._parseHeader. cbn [Protocol.buffer].
    rewrite <- Hl, subarray_prefix.
    destruct (readUInt32BE_some bad 0) as [a ->]; [rewrite Hl; unfold Protocol.HEADER_LENGTH; lia|].
    destruct (readUInt32BE_some bad 4) as [b ->]; [rewrite Hl; unfold Protocol.HEADER_LENGTH; lia|].
    rewrite H8, H12. cbn [mbind option_bind].
    destruct Hbad as [Hm | Hx].
    + by rewrite decide_True.
    + case_decide; [done|]. by rewrite decide_True.
Qed.

Lemma loop_frames_then_reject ms stream bad tail mag len acc :
  Forall accepted ms →
  ProtocolStream.wire_all ms = Some stream →
  length bad = Protocol.HEADER_LENGTH →
  Buffer.readUInt32BE bad 8 = Some mag →
  Buffer.readUInt32BE bad 12 = Some len →
  mag ≠ MAGIC_NUMBER ∨ len > MAX_BODY_LENGTH →
  ∀ fuel q,
    q = Protocol.mkParser (stream ++ bad ++ tail) (Z.of_nat Protocol.HEADER_LENGTH)
          Protocol.HEADER None →
    (Protocol.parser_measure q < fuel)%nat →
    transform_loop fuel q acc = Some (Protocol.initial, acc ++ ms).
Proof.
  intros Hacc Hw Hl H8 H12 Hbad. revert stream acc Hw.
  induction Hacc as [|m ms (Hmag & Hdl & Hmax) Hacc IH]; intros stream acc Hw fuel q -> Hfuel.
  - rewrite wire_all_nil in Hw. injection Hw as <-. rewrite app_nil_r.
    by apply (loop_rejects bad tail acc mag len Hl H8 H12 Hbad fuel _ eq_refl).
  - apply wire_all_cons_inv in Hw as (hdr & rest & Hhdr & Hrest & Hlh & ->).
    rewrite <- !app_assoc in *.
    pose proof (header_step
                  (Protocol.mkParser (hdr ++ Protocol.body m ++ rest ++ bad ++ tail)
                     (Z.of_nat Protocol.HEADER_LENGTH) Protocol.HEADER None)
                  (Protocol.header m) hdr (Protocol.body m ++ rest ++ bad ++ tail)
                  eq_refl Hhdr Hmag Hmax)
      as Hstep.
    case_decide as Hz.
    + assert (Hbody : Protocol.body m = []).
      { destruct (Protocol.body m); [done|]. simpl in Hdl. lia. }
      rewrite Hbody in *. cbn [app] in *.
      rewrite (loop_continue _ _ _ _ _ Hfuel) by
        first [exact Hstep | cbn; rewrite length_app, Hlh; lia].
      rewrite (IH rest (acc ++ [Protocol.mkMessage (Protocol.header m) []]) Hrest _ _ eq_refl)
        by lia.
      rewrite <- app_assoc. destruct m as [h b]. cbn in *. by rewrite Hbody.
    + rewrite (loop_continue _ _ _ _ _ Hfuel) by
        first [exact Hstep | cbn; rewrite length_app, Hlh; lia].
      rewrite app_nil_r.
      pose proof (body_step
                    (Protocol.mkParser (Protocol.body m ++ rest ++ bad ++ tail)
                       (Protocol.dataLength (Protocol.header m)) Protocol.BODY
                       (Some (Protocol.header m)))
                    (Protocol.header m) (Protocol.body m) (rest ++ bad ++ tail)
                    eq_refl eq_refl Hdl) as Hstep2.
      rewrite (loop_continue _ _ _ _ _ (Nat.lt_succ_diag_r _)) by
        first [exact Hstep2 | cbn; rewrite length_app; lia].
      rewrite (IH rest (acc ++ [Protocol.mkMessage (Protocol.header m) (Protocol.body m)])
                 Hrest _ _ eq_refl) by lia.
      rewrite <- app_assoc. by destruct m.
Qed.

(** Loss after a corrupt header. When frames built by
    [buildMessageBuffer] are followed, in the same chunk, by sixteen
    octets whose magic number is not the configured one or whose length
    field exceeds the limit, a fresh parser emits the messages before
    them, then empties its buffer: whatever comes after the corrupt
    header in that chunk, complete frames included, is dropped, and the
    parser is back in its initial state. *)
Theorem corrupt_header_drops_rest (inputs : list (Z * XmlObject * Buffer.t))
    (frames : list Buffer.t) (bad tail : Buffer.t) (mag len : Z) :
  Forall (λ i, xml_bytes i.1.2 = Some i.2
               ∧ Z.of_nat (length i.2) ≤ MAX_BODY_LENGTH) inputs →
  Forall2 (λ i frame, buildMessageBuffer i.1.1 i.1.2 = Some frame) inputs frames →
  length bad = Protocol.HEADER_LENGTH →
  Buffer.readUInt32BE bad 8 = Some mag →
  Buffer.readUInt32BE bad 12 = Some len →
  mag ≠ MAGIC_NUMBER ∨ len > MAX_BODY_LENGTH →
  _transform Protocol.initial (concat frames ++ bad ++ tail)
  = Some (Protocol.initial,
          (λ i, Protocol.mkMessage
                  (Protocol.mkHeader i.1.1 DATA_FORMAT MAGIC_NUMBER (Z.of_nat (length i.2)))
                  i.2) <$> inputs).
Proof.
  intros Hin Hfr Hl H8 H12 Hbad.
  unfold Protocol._transform.
  eapply (loop_frames_then_reject _ (concat frames) bad tail mag len []); try done.
  - apply Forall_fmap. eapply Forall_impl; [exact Hin|].
    intros [[mid obj] body] [_ Hb]. cbn in *. repeat split; cbn; lia.
  - by apply frames_wire_all.
  - apply measure_lt_budget.
Qed.

End StreamFacts.

(** Two frames, a disaster notification with a four-octet body and a
    session response with none, arriving in three chunks cut inside the
    first header, inside the first body and inside the second header. *)
Lemma stream_reassembly_witness :
  ProtocolStream.feed 2864434397 20971520 Protocol.initial
    [[255; 238; 48; 32; 0; 0; 0];
     [1; 170; 187; 204; 221; 0; 0; 0; 4; 60; 100];
     [47; 62; 255; 238; 32; 16; 0; 0; 0; 1; 170; 187; 204; 221; 0; 0; 0; 0]]
  = Some (Protocol.initial,
          [Protocol.mkMessage
             (Protocol.mkHeader CentralConfig.ETS_NFY_DIS_INFO 1 2864434397 4) [60; 100; 47; 62];
           Protocol.mkMessage
             (Protocol.mkHeader CentralConfig.ETS_RES_SYS_STS 1 2864434397 0) []]).
Proof.
  apply (stream_reassembly 1 2864434397 20971520 Some
           [(CentralConfig.ETS_NFY_DIS_INFO, [60; 100; 47; 62], [60; 100; 47; 62]);
            (CentralConfig.ETS_RES_SYS_STS, [], [])]
           [[255; 238; 48; 32; 0; 0; 0; 1; 170; 187; 204; 221; 0; 0; 0; 4; 60; 100; 47; 62];
            [255; 238; 32; 16; 0; 0; 0; 1; 170; 187; 204; 221; 0; 0; 0; 0]]).
  - repeat constructor; cbn; lia.
  - repeat constructor.
  - reflexivity.
Defined.

(** A disaster notification, then a header with a foreign magic number,
    then a complete session response, all in one chunk: the notification
    is emitted and the session response is lost. *)
Lemma corrupt_header_drops_rest_witness :
  Protocol._transform 2864434397 20971520 Protocol.initial
    ([255; 238; 48; 32; 0; 0; 0; 1; 170; 187; 204; 221; 0; 0; 0; 4; 60; 100; 47; 62]
     ++ [255; 238; 48; 32; 0; 0; 0; 1; 1; 2; 3; 4; 0; 0; 0; 0]
     ++ [255; 238; 32; 16; 0; 0; 0; 1; 170; 187; 204; 221; 0; 0; 0; 0])
  = Some (Protocol.initial,
          [Protocol.mkMessage
             (Protocol.mkHeader CentralConfig.ETS_NFY_DIS_INFO 1 2864434397 4)
             [60; 100; 47; 62]]).
Proof.
  apply (corrupt_header_drops_rest 1 2864434397 20971520 Some
           [(CentralConfig.ETS_NFY_DIS_INFO, [60; 100; 47; 62], [60; 100; 47; 62])]
           [[255; 238; 48; 32; 0; 0; 0; 1; 170; 187; 204; 221; 0; 0; 0; 4; 60; 100; 47; 62]]
           [255; 238; 48; 32; 0; 0; 0; 1; 1; 2; 3; 4; 0; 0; 0; 0]
           [255; 238; 32; 16; 0; 0; 0; 1; 170; 187; 204; 221; 0; 0; 0; 0]
           16909060 0).
  - repeat constructor; cbn; lia.
  - repeat constructor.
  - reflexivity.
  - reflexivity.
  - reflexivity.
  - left. lia.
Defined.

(** ** The disaster handler: the accepted alert, and replays *)

Section DisasterAcceptFacts.

Variable env : CentralConfig.Env.
Variable parseXml : Buffer.t → option Cap.ParsedXml.
Variable xml_bytes : Cap.XmlObject → option Buffer.t.

Local Abbreviation handleDisasterInfo :=
  (DisasterHandler.handleDisasterInfo env parseXml xml_bytes).
Local Abbreviation reply_object := (DisasterHandler.reply_object env parseXml xml_bytes).
Local Abbreviation frame_reply := (DisasterHandler.frame_reply env xml_bytes).

(** The [try] block on an alert that is accepted: where it stops and
    what it has committed. *)
Lemma accept_try_block now w buf rd id seq a identifier code :
  parseXml buf = Some (Cap.mkParsedXml (Some rd)) →
  Cap.transMsgId rd = Some id → id ≠ "" →
  Cap.transMsgSeq rd = Some seq →
  CentralDb.in_txn (DisasterHandler.db w) = None →
  Forall (λ r, CentralDb.trl_id r ≠ CentralDb.next_id (DisasterHandler.db w))
    (CentralDb.tcp_receive_logs (CentralDb.committed (DisasterHandler.db w))) →
  CentralDb.tcp_isDuplicate CentralDb.Client id seq (DisasterHandler.db w) = false →
  Cap.capInfo rd ≫= Cap.alert = Some a →
  Cap.identifier a = Some identifier → identifier ≠ "" →
  Js.truthy (Cap.sender a) = true → Js.truthy (Cap.sent a) = true →
  Cap.alert_eventCode a = Some code → code ≠ "" →
  code ∈ CentralConfig.VALID_EVENT_CODES →
  let t := CentralDb.committed (DisasterHandler.db w) in
  let logId := CentralDb.next_id (DisasterHandler.db w) in
  ∃ d,
  DisasterHandler.try_block env parseXml xml_bytes DisasterHandler.no_faults now w buf
  = (DisasterHandler.mkWorld d
       (DisasterHandler.send_if_built
          (ResponseUtils.createCnfDisInfoBuffer env xml_bytes now rd (Cap.capInfo rd)
             None) (DisasterHandler.session w)),
     DisasterHandler.mkLocals (Some rd) (Some logId) (Some a) true, None)
  ∧ CentralDb.committed d
    = CentralDb.mkTables
        (CentralDb.tcp_receive_logs t
         ++ [CentralDb.mkTcpReceiveLog logId id seq rd CentralDb.SUCCESS None])
        (if existsb (λ r, bool_decide (CentralDb.dpl_identifier r = identifier))
              (CentralDb.disaster_publish_logs t)
         then CentralDb.disaster_publish_logs t
         else CentralDb.disaster_publish_logs t
              ++ [CentralDb.mkDisasterPublishLog (logId + 1) logId
                    ("disaster." +:+ code) identifier code rd CentralDb.PENDING 0])
        (CentralDb.mq_receive_logs t) (CentralDb.report_transmit_logs t)
  ∧ CentralDb.in_txn d = None.
Proof.
  intros Hparse Hid Hne Hseq Htxn Hfresh Hdup Ha Hi Hi' Hs Ht Hc Hc' Hin t logId.
  assert (Htruthy : Js.truthy (Some id) = true) by by apply truthy_Some.
  unfold DisasterHandler.try_block. cbn [DisasterHandler.getClient_fails
    DisasterHandler.no_faults DisasterHandler.isDuplicate_fails DisasterHandler.create_fails
    DisasterHandler.begin_fails DisasterHandler.outbox_create_fails
    DisasterHandler.update_success_fails DisasterHandler.commit_fails].
  rewrite Hparse. cbn [Cap.data mbind option_bind]. rewrite Hid, Hseq, Htruthy.
  cbn [negb]. rewrite Hdup.
  unfold CentralDb.tcp_create. rewrite Hdup.
  cbn [CentralDb.nextval]. rewrite Ha.
  rewrite (validated_complete a identifier code) by done.
  rewrite bool_decide_eq_true_2 by done. cbn [negb].
  eexists. split; [reflexivity|].
  subst t logId. destruct w as [[t0 txn nid] s]. cbn in Htxn, Hfresh |- *. subst txn.
  destruct t0 as [tcp dpl mq rtl]. cbn in Hfresh |- *. split; [|done].
  unfold CentralDb.set_tcp_receive_logs, CentralDb.set_disaster_publish_logs. cbn.
  f_equal.
  rewrite map_app. cbn. rewrite decide_True by done. f_equal.
  rewrite <- (map_id tcp) at 2.
  apply map_ext_Forall. eapply Forall_impl; [exact Hfresh|].
  intros r Hr. cbn. by rewrite decide_False.
Qed.

(** The accepted alert. No call to the store fails, the handler starts
    outside a transaction, the pair (id, seq) is new, and the alert
    carries identifier, sender, sent and an event code of the allowlist.
    Then the inbox gains the row (id, seq) with status SUCCESS; the outbox
    gains one PENDING row with routing key "disaster.<code>", unless a row
    with the same CAP identifier is already there, in which case the
    outbox is left as it was; both are committed; and the reply is
    resultCode 200 with note "000|...", acknowledging "<identifier>_ACK". *)
Theorem disaster_accept_path now w buf rd id seq a identifier code :
  parseXml buf = Some (Cap.mkParsedXml (Some rd)) →
  Cap.transMsgId rd = Some id → id ≠ "" →
  Cap.transMsgSeq rd = Some seq →
  CentralDb.in_txn (DisasterHandler.db w) = None →
  Forall (λ r, CentralDb.trl_id r ≠ CentralDb.next_id (DisasterHandler.db w))
    (CentralDb.tcp_receive_logs (CentralDb.committed (DisasterHandler.db w))) →
  CentralDb.tcp_isDuplicate CentralDb.Client id seq (DisasterHandler.db w) = false →
  Cap.capInfo rd ≫= Cap.alert = Some a →
  Cap.identifier a = Some identifier → identifier ≠ "" →
  Js.truthy (Cap.sender a) = true → Js.truthy (Cap.sent a) = true →
  Cap.alert_eventCode a = Some code → code ≠ "" →
  code ∈ CentralConfig.VALID_EVENT_CODES →
  let w' := handleDisasterInfo DisasterHandler.no_faults now w buf in
  let reply := reply_object DisasterHandler.no_faults now w buf in
  let t := CentralDb.committed (DisasterHandler.db w) in
  let logId := CentralDb.next_id (DisasterHandler.db w) in
  CentralDb.committed (DisasterHandler.db w')
  = CentralDb.mkTables
      (CentralDb.tcp_receive_logs t
       ++ [CentralDb.mkTcpReceiveLog logId id seq rd CentralDb.SUCCESS None])
      (if existsb (λ r, bool_decide (CentralDb.dpl_identifier r = identifier))
            (CentralDb.disaster_publish_logs t)
       then CentralDb.disaster_publish_logs t
       else CentralDb.disaster_publish_logs t
            ++ [CentralDb.mkDisasterPublishLog (logId + 1) logId ("disaster." +:+ code)
                  identifier code rd CentralDb.PENDING 0])
      (CentralDb.mq_receive_logs t) (CentralDb.report_transmit_logs t)
  ∧ CentralDb.in_txn (DisasterHandler.db w') = None
  ∧ (∃ ack,
       reply = Some (Cap.mkCnfDisInfo "200" "OK" seq id (Some ack))
       ∧ Cap.ack_note ack = "000|메시지 수신 확인"
       ∧ Cap.ack_identifier ack = identifier +:+ "_ACK")
  ∧ DisasterHandler.session w'
    = DisasterHandler.send_if_built (reply ≫= frame_reply) (DisasterHandler.session w).
Proof.
  intros Hparse Hid Hne Hseq Htxn Hfresh Hdup Ha Hi Hi' Hs Ht Hc Hc' Hin w' reply t logId.
  assert (Htruthy : Js.truthy (Some id) = true) by by apply truthy_Some.
  pose proof (accept_try_block now w buf rd id seq a identifier code Hparse Hid Hne Hseq Htxn
                Hfresh Hdup Ha Hi Hi' Hs Ht Hc Hc' Hin) as Htry.
  cbv zeta in Htry.
  destruct Htry as (d & Htry & Hd & Hdt).
  subst w' reply. unfold DisasterHandler.handleDisasterInfo, DisasterHandler.reply_object.
  rewrite Htry. cbn [DisasterHandler.db DisasterHandler.session DisasterHandler.receivedData
                     mbind option_bind].
  split; [done|]. split; [done|]. split.
  - unfold ResponseUtils.responseXmlObject. rewrite Hid, Hseq, Htruthy.
    cbn [negb mbind option_bind].
    destruct (Cap.capInfo rd) as [c|] eqn:Hc0; [|done]. simpl in Ha.
    unfold CapService.createAckCap. cbn [mbind option_bind fmap option_fmap option_map].
    rewrite Ha. cbn. eexists. split; [reflexivity|]. cbn. rewrite Hi. done.
  - unfold ResponseUtils.createCnfDisInfoBuffer, DisasterHandler.frame_reply. done.
Qed.

Local Abbreviation has_pair := (λ (id : string) (seq : Z) (t : CentralDb.Tables),
  existsb (λ r, bool_decide (CentralDb.trl_inbound_id r = id ∧ CentralDb.trl_inbound_seq r = seq))
    (CentralDb.tcp_receive_logs t) = true).

Local Abbreviation recorded := (λ (id : string) (seq : Z) (d : CentralDb.Db),
  has_pair id seq (CentralDb.committed d)
  ∧ ∀ t, CentralDb.in_txn d = Some t → has_pair id seq t).

Lemma recorded_exec id seq c g d :
  (∀ t, has_pair id seq t → has_pair id seq (g t)) →
  recorded id seq d → recorded id seq (CentralDb.exec c g d).
Proof.
  intros Hg [Hc Ht]. unfold CentralDb.exec.
  destruct c, (CentralDb.in_txn d) as [t|] eqn:E; cbn; (split; [by auto|]);
    intros t' Ht'; simplify_eq; auto.
Qed.

Lemma recorded_begin id seq d : recorded id seq d → recorded id seq (CentralDb.begin d).
Proof.
  intros [Hc Ht]. unfold CentralDb.begin.
  destruct (CentralDb.in_txn d) eqn:E.
  - split; [done|]. intros t' Ht'. apply Ht. congruence.
  - cbn. split; [done|]. by intros t' [= <-].
Qed.

Lemma recorded_commit id seq d : recorded id seq d → recorded id seq (CentralDb.commit d).
Proof.
  intros [Hc Ht]. unfold CentralDb.commit.
  destruct (CentralDb.in_txn d) eqn:E.
  - cbn. split; [auto|done].
  - split; [done|]. intros t' Ht'. apply Ht. congruence.
Qed.

Lemma recorded_rollback id seq d : recorded id seq d → recorded id seq (CentralDb.rollback d).
Proof. intros [Hc Ht]. unfold CentralDb.rollback. cbn. by split. Qed.

Lemma recorded_updateStatus id seq c logId st e d :
  recorded id seq d → recorded id seq (CentralDb.tcp_updateStatus c logId st e d).
Proof.
  intros H. unfold CentralDb.tcp_updateStatus. apply recorded_exec; [|done].
  intros t Ht. unfold CentralDb.set_tcp_receive_logs. cbn.
  apply existsb_exists in Ht as (r & Hin & Hr). apply existsb_exists.
  eexists. split; [apply in_map, Hin|]. cbn. destruct (decide (CentralDb.trl_id r = logId)); exact Hr.
Qed.

Lemma recorded_dpl_create id seq c logId key rd identifier code d :
  recorded id seq d →
  recorded id seq (CentralDb.dpl_create c logId key rd identifier code d).
Proof.
  intros [Hc Ht]. unfold CentralDb.dpl_create. cbn [CentralDb.nextval].
  apply recorded_exec; [by intros t| by split].
Qed.

Lemma recorded_tcp_create id seq rd d logId d1 :
  CentralDb.in_txn d = None →
  CentralDb.tcp_create CentralDb.Client id seq rd d = Some (logId, d1) →
  recorded id seq d1.
Proof.
  unfold CentralDb.tcp_create. intros Htxn. case_match; [done|].
  cbn [CentralDb.nextval]. intros [= <- <-].
  unfold CentralDb.exec. cbn. rewrite Htxn. cbn. split; [|done].
  rewrite existsb_app. cbn. rewrite bool_decide_eq_true_2 by done.
  by rewrite orb_true_r.
Qed.

(** At most once. Once the handler has got past the duplicate check and
    the inbox insert for the pair (id, seq), the pair stays recorded,
    whichever later step fails; and every later frame with the same pair,
    whatever else it carries, leaves the committed store as it is. *)
Theorem disaster_pair_handled_once f now w buf rd id seq :
  parseXml buf = Some (Cap.mkParsedXml (Some rd)) →
  Cap.transMsgId rd = Some id → id ≠ "" →
  Cap.transMsgSeq rd = Some seq →
  CentralDb.in_txn (DisasterHandler.db w) = None →
  DisasterHandler.getClient_fails f = None →
  DisasterHandler.isDuplicate_fails f = None →
  DisasterHandler.create_fails f = None →
  let w' := handleDisasterInfo f now w buf in
  CentralDb.tcp_isDuplicate CentralDb.Pool id seq (DisasterHandler.db w') = true
  ∧ CentralDb.tcp_isDuplicate CentralDb.Client id seq (DisasterHandler.db w') = true
  ∧ ∀ f2 now2 buf2 rd2,
      parseXml buf2 = Some (Cap.mkParsedXml (Some rd2)) →
      Cap.transMsgId rd2 = Some id → Cap.transMsgSeq rd2 = Some seq →
      DisasterHandler.getClient_fails f2 = None →
      DisasterHandler.isDuplicate_fails f2 = None →
      CentralDb.committed (DisasterHandler.db (handleDisasterInfo f2 now2 w' buf2))
      = CentralDb.committed (DisasterHandler.db w').
Proof.
  intros Hparse Hid Hne Hseq Htxn Hg Hd Hc w'.
  assert (Htruthy : Js.truthy (Some id) = true) by by apply truthy_Some.
  assert (Hrec : recorded id seq (DisasterHandler.db w')).
  { subst w'. unfold DisasterHandler.handleDisasterInfo, DisasterHandler.try_block.
    rewrite Hg, Hparse. cbn [Cap.data mbind option_bind]. rewrite Hid, Hseq, Htruthy, Hd, Hc.
    cbn [negb].
    destruct (CentralDb.tcp_isDuplicate CentralDb.Client id seq (DisasterHandler.db w)) eqn:Hdup.
    { unfold DisasterHandler.catch_block. cbn.
      assert (Hr : recorded id seq (DisasterHandler.db w)).
      { unfold CentralDb.tcp_isDuplicate, CentralDb.view in Hdup. rewrite Htxn in Hdup.
        split; [done|]. intros t Ht. congruence. }
      destruct (DisasterHandler.rollback_fails f); [done|]. by apply recorded_rollback. }
    destruct (CentralDb.tcp_create CentralDb.Client id seq rd (DisasterHandler.db w))
      as [[logId d1]|] eqn:Hcreate.
    2:{ unfold CentralDb.tcp_create in Hcreate. by rewrite Hdup in Hcreate. }
    pose proof (recorded_tcp_create _ _ _ _ _ _ Htxn Hcreate) as Hr1.
    assert (Hcatch : ∀ d L err,
              recorded id seq d →
              recorded id seq
                (DisasterHandler.db
                   (DisasterHandler.catch_block env xml_bytes f now
                      (DisasterHandler.mkWorld d (DisasterHandler.session w)) L err))).
    { intros d L err Hr. unfold DisasterHandler.catch_block. cbn [DisasterHandler.db].
      repeat case_match; auto using recorded_rollback, recorded_updateStatus. }
    repeat case_match; simplify_eq; cbn [DisasterHandler.db];
      auto 10 using recorded_begin, recorded_commit, recorded_updateStatus,
        recorded_dpl_create. }
  destruct Hrec as [Hcm Htx].
  assert (Hcl : CentralDb.tcp_isDuplicate CentralDb.Client id seq (DisasterHandler.db w') = true).
  { unfold CentralDb.tcp_isDuplicate, CentralDb.view.
    destruct (CentralDb.in_txn (DisasterHandler.db w')) eqn:E; auto. }
  split; [done|]. split; [done|].
  intros f2 now2 buf2 rd2 Hparse2 Hid2 Hseq2 Hg2 Hd2.
  unfold DisasterHandler.handleDisasterInfo, DisasterHandler.try_block.
  rewrite Hg2, Hparse2. cbn [Cap.data mbind option_bind]. rewrite Hid2, Hseq2, Htruthy, Hd2.
  cbn [negb]. rewrite Hcl.
  unfold DisasterHandler.catch_block. cbn.
  by destruct (DisasterHandler.rollback_fails f2).
Qed.

End DisasterAcceptFacts.

Lemma disaster_accept_path_witness :
  CentralDb.committed (DisasterHandler.db (Scenario.handle Scenario.world0 [1]))
  = CentralDb.mkTables
      [CentralDb.mkTcpReceiveLog 1 "T1" 1 Scenario.frame_htw CentralDb.SUCCESS None]
      [CentralDb.mkDisasterPublishLog 2 1 "disaster.HTW" "A1" "HTW" Scenario.frame_htw
         CentralDb.PENDING 0]
      [] [].
Proof.
  pose proof (disaster_accept_path Scenario.env Scenario.parseXml Scenario.xml_bytes
                Scenario.clock Scenario.world0 [1] Scenario.frame_htw "T1" 1 _ "A1" "HTW"
                eq_refl eq_refl ltac:(discriminate) eq_refl eq_refl ltac:(constructor)
                eq_refl eq_refl eq_refl ltac:(discriminate) eq_refl eq_refl eq_refl
                ltac:(discriminate) ltac:(vm_compute; repeat constructor))
    as (Hrows & _).
  exact Hrows.
Defined.

Lemma disaster_pair_handled_once_witness :
  let w' := Scenario.handle Scenario.world0 [1] in
  CentralDb.committed (DisasterHandler.db (Scenario.handle w' [1]))
  = CentralDb.committed (DisasterHandler.db w').
Proof.
  intros w'.
  pose proof (disaster_pair_handled_once Scenario.env Scenario.parseXml Scenario.xml_bytes
                DisasterHandler.no_faults Scenario.clock Scenario.world0 [1]
                Scenario.frame_htw "T1" 1
                eq_refl eq_refl ltac:(discriminate) eq_refl eq_refl eq_refl eq_refl eq_refl)
    as (_ & _ & Hreplay).
  exact (Hreplay DisasterHandler.no_faults Scenario.clock [1] Scenario.frame_htw
           eq_refl eq_refl eq_refl eq_refl eq_refl).
Defined.

(** ** The consumers: settlement, fan-out and redelivery *)

Section ConsumerFacts.



Lemma central_retry_channel f msg logId err w :
  CentralBroker.retry_publish_fails f = None →
  let w' := CentralBroker.retry_or_dead_letter f msg logId err w in
  let tag := Amqp.deliveryTag msg in
  let n := Amqp.retryCount msg in
  (n < CentralConfig.rabbitmq_MAX_RETRIES
   ∧ CentralBroker.channel w'
     = CentralBroker.channel w
       ++ [Amqp.Publish CentralConfig.REPORT_RETRY_EXCHANGE CentralConfig.REPORT_ROUTING_KEY
             (Amqp.content msg) (Some (n + 1));
           Amqp.Ack tag])
  ∨ (CentralConfig.rabbitmq_MAX_RETRIES ≤ n
     ∧ CentralBroker.channel w' = CentralBroker.channel w ++ [Amqp.Nack tag false]).
Proof.
  intros Hp. cbn zeta. unfold CentralBroker.retry_or_dead_letter. rewrite Hp. case_decide.
  - left. eauto.
  - right. cbn. split; [lia|done].
Qed.

(** Every delivery to the report consumer is settled once, provided the
    republish to the retry exchange does not throw: acknowledged as
    processed; or, below the retry limit, republished to the retry
    exchange under the report routing key with the header x-retry-count
    raised by one, and then acknowledged; or, at the limit, rejected
    without requeue. *)
Theorem report_delivery_settled env JSON_parse f now w msg :
  CentralBroker.retry_publish_fails f = None →
  let w' := CentralBroker._consumeReportMessage env JSON_parse f now w msg in
  let tag := Amqp.deliveryTag msg in
  let n := Amqp.retryCount msg in
  CentralBroker.channel w' = CentralBroker.channel w ++ [Amqp.Ack tag]
  ∨ (n < CentralConfig.rabbitmq_MAX_RETRIES
     ∧ CentralBroker.channel w'
       = CentralBroker.channel w
         ++ [Amqp.Publish CentralConfig.REPORT_RETRY_EXCHANGE CentralConfig.REPORT_ROUTING_KEY
               (Amqp.content msg) (Some (n + 1));
             Amqp.Ack tag])
  ∨ (CentralConfig.rabbitmq_MAX_RETRIES ≤ n
     ∧ CentralBroker.channel w' = CentralBroker.channel w ++ [Amqp.Nack tag false]).
Proof.
  intros Hp. cbn zeta. unfold CentralBroker._consumeReportMessage.
  destruct (CentralBroker.inbox_create_fails f).
  { right. by apply (central_retry_channel f msg None). }
  destruct (CentralDb.mq_create _ _ _) as [id db1].
  destruct (CentralBroker.getClient_fails f).
  { right. by apply (central_retry_channel f msg (Some id) _ (CentralBroker.mkWorld db1 _)). }
  destruct (match CentralBroker.begin_fails f with Some e => _ | None => _ end) as [db2 [e|]].
  - right. by apply (central_retry_channel f msg (Some id) _ (CentralBroker.mkWorld _ _)).
  - by left.
Qed.

Lemma dtl_insert_spec id mq sys ident m l :
  ExternalDb.dtl_insert id mq sys ident m l = l
  ∨ ExternalDb.dtl_insert id mq sys ident m l
    = l ++ [ExternalDb.mkDisasterTransmitLog id mq sys ident m ExternalDb.PENDING 0 None].
Proof. unfold ExternalDb.dtl_insert. case_match; auto. Qed.

Lemma dtl_insert_covers id mq sys ident m l :
  ∃ r, r ∈ ExternalDb.dtl_insert id mq sys ident m l
       ∧ ExternalDb.dtl_external_system_id r = sys ∧ ExternalDb.dtl_identifier r = ident.
Proof.
  unfold ExternalDb.dtl_insert.
  destruct (existsb _ l) eqn:E.
  - apply existsb_exists in E as (r & Hin & Hr). apply bool_decide_eq_true in Hr.
    exists r. split; [by apply list_elem_of_In|done].
  - eexists. split; [apply elem_of_app; right; apply list_elem_of_singleton; reflexivity|done].
Qed.

Lemma dtl_insert_all_spec systems id mq ident m l :
  ∃ new,
    ExternalDb.dtl_insert_all id mq systems ident m l = l ++ new
    ∧ Forall (λ r, ExternalDb.dtl_identifier r = ident
                   ∧ ExternalDb.dtl_status r = ExternalDb.PENDING
                   ∧ ExternalDb.dtl_retry_count r = 0
                   ∧ ExternalDb.dtl_raw_message r = m
                   ∧ ExternalDb.dtl_mq_receive_log_id r = mq
                   ∧ ExternalDb.dtl_external_system_id r ∈ systems) new.
Proof.
  revert id l. induction systems as [|s rest IH]; intros id l; cbn.
  - exists []. by rewrite app_nil_r.
  - destruct (IH (id + 1) (ExternalDb.dtl_insert id mq s ident m l)) as (new & -> & Hnew).
    assert (Hnew' : Forall (λ r, ExternalDb.dtl_identifier r = ident
                   ∧ ExternalDb.dtl_status r = ExternalDb.PENDING
                   ∧ ExternalDb.dtl_retry_count r = 0
                   ∧ ExternalDb.dtl_raw_message r = m
                   ∧ ExternalDb.dtl_mq_receive_log_id r = mq
                   ∧ ExternalDb.dtl_external_system_id r ∈ s :: rest) new).
    { eapply Forall_impl; [exact Hnew|]. cbn. intros r (?&?&?&?&?&?).
      repeat split; try done. by apply list_elem_of_further. }
    destruct (dtl_insert_spec id mq s ident m l) as [-> | ->].
    + by exists new.
    + eexists (_ :: new). rewrite <- app_assoc. split; [reflexivity|].
      constructor; [|done]. cbn. repeat split; try done. apply list_elem_of_here.
Qed.

Lemma dtl_insert_all_covers systems id mq ident m l s :
  s ∈ systems →
  ∃ r, r ∈ ExternalDb.dtl_insert_all id mq systems ident m l
       ∧ ExternalDb.dtl_external_system_id r = s ∧ ExternalDb.dtl_identifier r = ident.
Proof.
  revert id l. induction systems as [|x rest IH]; intros id l Hs; [by apply elem_of_nil in Hs|].
  cbn. apply elem_of_cons in Hs as [-> | Hs]; [|by apply IH].
  destruct (dtl_insert_covers id mq x ident m l) as (r & Hin & Hr).
  destruct (dtl_insert_all_spec rest (id + 1) mq ident m
              (ExternalDb.dtl_insert id mq x ident m l)) as (new & -> & _).
  exists r. split; [|done]. apply elem_of_app. by left.
Qed.

Lemma dtl_insert_all_idem systems id mq ident m l :
  (∀ s, s ∈ systems →
        ∃ r, r ∈ l ∧ ExternalDb.dtl_external_system_id r = s
             ∧ ExternalDb.dtl_identifier r = ident) →
  ExternalDb.dtl_insert_all id mq systems ident m l = l.
Proof.
  revert id. induction systems as [|x rest IH]; intros id Hall; [done|].
  cbn. assert (ExternalDb.dtl_insert id mq x ident m l = l) as ->.
  { unfold ExternalDb.dtl_insert.
    destruct (Hall x (list_elem_of_here _ _)) as (r & Hin & Hr).
    assert (existsb (λ r0, bool_decide (ExternalDb.dtl_external_system_id r0 = x
                                       ∧ ExternalDb.dtl_identifier r0 = ident)) l = true) as ->;
      [|done].
    apply existsb_exists. exists r. split; [by apply list_elem_of_In|].
    by apply bool_decide_eq_true. }
  apply IH. intros s Hs. apply Hall. by apply list_elem_of_further.
Qed.

Lemma external_retry_outbox f msg logId err w :
  let w' := ExternalBroker.retry_or_dead_letter f msg logId err w in
  ExternalDb.external_systems (ExternalDb.committed (ExternalBroker.db w'))
  = ExternalDb.external_systems (ExternalDb.committed (ExternalBroker.db w))
  ∧ ExternalDb.disaster_transmit_logs (ExternalDb.committed (ExternalBroker.db w'))
    = ExternalDb.disaster_transmit_logs (ExternalDb.committed (ExternalBroker.db w)).
Proof.
  cbn zeta. unfold ExternalBroker.retry_or_dead_letter.
  case_decide; [by destruct (ExternalBroker.retry_publish_fails f)|].
  destruct logId; [|done]. by destruct (ExternalBroker.final_update_fails f).
Qed.

Local Ltac external_failing :=
  try match goal with
      | |- context [ExternalBroker.rollback_fails ?f] =>
          destruct (ExternalBroker.rollback_fails f)
      end;
  match goal with
  | |- context [ExternalBroker.retry_or_dead_letter ?f ?m ?l ?e ?w] =>
      destruct (external_retry_outbox f m l e w) as [-> ->]
  end; cbn; auto.

(** What a delivery does to the committed outbox of the external
    service, whatever fails: nothing, or, when every step went through,
    the bulk insert for the subscribers of the event code. *)
Lemma external_consume_outbox JSON_parse f w msg :
  ExternalDb.in_txn (ExternalBroker.db w) = None →
  let w' := ExternalBroker._consumeDisasterMessage JSON_parse f w msg in
  let id := ExternalDb.next_id (ExternalBroker.db w) in
  let t := ExternalDb.committed (ExternalBroker.db w) in
  let t' := ExternalDb.committed (ExternalBroker.db w') in
  ExternalDb.external_systems t' = ExternalDb.external_systems t
  ∧ (ExternalDb.disaster_transmit_logs t' = ExternalDb.disaster_transmit_logs t
     ∨ ∃ m ident,
         JSON_parse (Amqp.content msg) = Some m
         ∧ ExternalDb.dm_identifier m = Some ident
         ∧ ExternalBroker.channel w'
           = ExternalBroker.channel w ++ [Amqp.Ack (Amqp.deliveryTag msg)]
         ∧ ExternalDb.in_txn (ExternalBroker.db w') = None
         ∧ ExternalDb.disaster_transmit_logs t'
           = ExternalDb.dtl_insert_all (id + 1) id
               (ExternalDb.es_id
                  <$> ExternalDb.findBySubscribedEventCode (ExternalDb.dm_eventCode m)
                        (ExternalBroker.db w))
               ident m (ExternalDb.disaster_transmit_logs t)).
Proof.
  intros Htxn. cbn zeta. destruct w as [[t txn nid] ch]. cbn in Htxn. subst txn.
  unfold ExternalBroker._consumeDisasterMessage, ExternalBroker.process.
  cbn [ExternalBroker.db ExternalBroker.channel].
  destruct (ExternalBroker.inbox_create_fails f); [by external_failing|].
  unfold ExternalDb.mq_create. cbn.
  destruct (ExternalBroker.getClient_fails f); [by external_failing|].
  destruct (ExternalBroker.begin_fails f); [by external_failing|].
  destruct (JSON_parse (Amqp.content msg)) as [m|] eqn:Hm; [|by external_failing].
  destruct (ExternalBroker.find_systems_fails f); [by external_failing|].
  unfold ExternalDb.begin. cbn.
  change (ExternalDb.findBySubscribedEventCode (ExternalDb.dm_eventCode m) _)
    with (ExternalDb.findBySubscribedEventCode (ExternalDb.dm_eventCode m)
            (ExternalDb.mkDb t None nid)).
  destruct (ExternalDb.findBySubscribedEventCode _ _) as [|x xs] eqn:Hs.
  { destruct (ExternalBroker.inbox_update_fails f); [by external_failing|].
    destruct (ExternalBroker.commit_fails f); [by external_failing|].
    cbn. auto. }
  destruct (ExternalBroker.outbox_create_fails f); [by external_failing|].
  unfold ExternalDb.dtl_createBulk.
  cbn [fmap list_fmap].
  destruct (ExternalDb.dm_identifier m) as [ident|] eqn:Hi; cbn; [|by external_failing].
  destruct (ExternalBroker.inbox_update_fails f); [by external_failing|].
  destruct (ExternalBroker.commit_fails f); [by external_failing|].
  cbn. split; [done|]. right. exists m, ident. repeat split; try done. by rewrite Hs.
Qed.

Lemma findBySubscribedEventCode_systems code d1 d2 :
  ExternalDb.external_systems (ExternalDb.committed d1)
  = ExternalDb.external_systems (ExternalDb.committed d2) →
  ExternalDb.findBySubscribedEventCode code d1 = ExternalDb.findBySubscribedEventCode code d2.
Proof.
  intros H. unfold ExternalDb.findBySubscribedEventCode, ExternalDb.view.
  destruct code; [|done]. by rewrite H.
Qed.

(** The delivery on which nothing fails. *)
Lemma external_consume_success JSON_parse w msg m ident :
  ExternalDb.in_txn (ExternalBroker.db w) = None →
  JSON_parse (Amqp.content msg) = Some m →
  ExternalDb.dm_identifier m = Some ident →
  let w' := ExternalBroker._consumeDisasterMessage JSON_parse ExternalBroker.no_faults w msg in
  let id := ExternalDb.next_id (ExternalBroker.db w) in
  let t := ExternalDb.committed (ExternalBroker.db w) in
  let t' := ExternalDb.committed (ExternalBroker.db w') in
  ExternalBroker.channel w' = ExternalBroker.channel w ++ [Amqp.Ack (Amqp.deliveryTag msg)]
  ∧ ExternalDb.in_txn (ExternalBroker.db w') = None
  ∧ ExternalDb.external_systems t' = ExternalDb.external_systems t
  ∧ ExternalDb.disaster_transmit_logs t'
    = ExternalDb.dtl_insert_all (id + 1) id
        (ExternalDb.es_id
           <$> ExternalDb.findBySubscribedEventCode (ExternalDb.dm_eventCode m)
                 (ExternalBroker.db w))
        ident m (ExternalDb.disaster_transmit_logs t).
Proof.
  intros Htxn Hm Hi. cbn zeta. destruct w as [[t txn nid] ch]. cbn in Htxn. subst txn.
  unfold ExternalBroker._consumeDisasterMessage, ExternalBroker.process.
  cbn [ExternalBroker.db ExternalBroker.channel ExternalBroker.no_faults
       ExternalBroker.inbox_create_fails ExternalBroker.getClient_fails
       ExternalBroker.begin_fails ExternalBroker.find_systems_fails
       ExternalBroker.outbox_create_fails ExternalBroker.inbox_update_fails
       ExternalBroker.commit_fails ExternalDb.committed ExternalDb.next_id].
  set (subs := ExternalDb.findBySubscribedEventCode (ExternalDb.dm_eventCode m)
                 (ExternalDb.mkDb t None nid)).
  unfold ExternalDb.mq_create. cbn. rewrite Hm.
  unfold ExternalDb.begin. cbn.
  change (ExternalDb.findBySubscribedEventCode (ExternalDb.dm_eventCode m) _) with subs.
  destruct subs as [|x xs]; [done|].
  unfold ExternalDb.dtl_createBulk. cbn [fmap list_fmap]. rewrite Hi. done.
Qed.

(** Fan-out. A delivery on which nothing fails is acknowledged, and the
    committed outbox then holds a row (subscriber, identifier) for every
    active subscriber of the event code. The rows it gained are PENDING
    with retry count 0, carry the message and the id of the inbox row,
    and each belongs to an active subscriber of the event code; existing
    rows are kept as they are, in place. *)
Theorem disaster_fanout JSON_parse w msg m ident :
  ExternalDb.in_txn (ExternalBroker.db w) = None →
  JSON_parse (Amqp.content msg) = Some m →
  ExternalDb.dm_identifier m = Some ident →
  let w' := ExternalBroker._consumeDisasterMessage JSON_parse ExternalBroker.no_faults w msg in
  let t := ExternalDb.committed (ExternalBroker.db w) in
  let t' := ExternalDb.committed (ExternalBroker.db w') in
  let subscriber (s : ExternalDb.ExternalSystem) : Prop :=
    s ∈ ExternalDb.external_systems t
    ∧ ExternalDb.es_is_active s = true
    ∧ ∃ code, ExternalDb.dm_eventCode m = Some code
              ∧ code ∈ ExternalDb.es_subscribed_event_codes s in
  ExternalBroker.channel w' = ExternalBroker.channel w ++ [Amqp.Ack (Amqp.deliveryTag msg)]
  ∧ (∀ s, subscriber s →
          ∃ r, r ∈ ExternalDb.disaster_transmit_logs t'
               ∧ ExternalDb.dtl_external_system_id r = ExternalDb.es_id s
               ∧ ExternalDb.dtl_identifier r = ident)
  ∧ ∃ new,
      ExternalDb.disaster_transmit_logs t' = ExternalDb.disaster_transmit_logs t ++ new
      ∧ Forall (λ r, ExternalDb.dtl_identifier r = ident
                     ∧ ExternalDb.dtl_status r = ExternalDb.PENDING
                     ∧ ExternalDb.dtl_retry_count r = 0
                     ∧ ExternalDb.dtl_raw_message r = m
                     ∧ ExternalDb.dtl_mq_receive_log_id r
                       = ExternalDb.next_id (ExternalBroker.db w)
                     ∧ ∃ s, subscriber s
                            ∧ ExternalDb.dtl_external_system_id r = ExternalDb.es_id s) new.
Proof.
  intros Htxn Hm Hi. cbn zeta.
  destruct (external_consume_success JSON_parse w msg m ident Htxn Hm Hi)
    as (Hch & _ & _ & Hrows).
  assert (Hsub : ∀ s, s ∈ ExternalDb.findBySubscribedEventCode (ExternalDb.dm_eventCode m)
                            (ExternalBroker.db w)
                      ↔ s ∈ ExternalDb.external_systems (ExternalDb.committed (ExternalBroker.db w))
                        ∧ ExternalDb.es_is_active s = true
                        ∧ ∃ code, ExternalDb.dm_eventCode m = Some code
                                  ∧ code ∈ ExternalDb.es_subscribed_event_codes s).
  { intros s. unfold ExternalDb.findBySubscribedEventCode, ExternalDb.view.
    destruct (ExternalDb.dm_eventCode m) as [code|].
    - rewrite list_elem_of_filter. split.
      + intros [[H1 H2] H3]. eauto 10.
      + intros (H1 & H2 & code' & [= <-] & H3). done.
    - split; [by intros ?%elem_of_nil|]. by intros (_ & _ & code & ? & _). }
  split; [exact Hch|]. rewrite Hrows. split.
  - intros s Hs. apply Hsub in Hs.
    apply dtl_insert_all_covers. apply list_elem_of_fmap. eauto.
  - destruct (dtl_insert_all_spec
                (ExternalDb.es_id
                   <$> ExternalDb.findBySubscribedEventCode (ExternalDb.dm_eventCode m)
                         (ExternalBroker.db w))
                (ExternalDb.next_id (ExternalBroker.db w) + 1)
                (ExternalDb.next_id (ExternalBroker.db w)) ident m
                (ExternalDb.disaster_transmit_logs (ExternalDb.committed (ExternalBroker.db w))))
      as (new & Hnew & Hall).
    exists new. split; [exact Hnew|].
    eapply Forall_impl; [exact Hall|]. cbn. intros r (?&?&?&?&?&Hin).
    repeat split; try done.
    apply list_elem_of_fmap in Hin as (s & -> & Hs). exists s. split; [by apply Hsub|done].
Qed.

(** Redelivery. After a delivery on which nothing failed, a delivery of
    the same message, whatever fails or not this time, leaves the committed
    outbox as it is: no subscriber gets a second row for the alert. *)
Theorem disaster_redelivery_adds_nothing JSON_parse w msg m ident f2 msg2 :
  ExternalDb.in_txn (ExternalBroker.db w) = None →
  JSON_parse (Amqp.content msg) = Some m →
  ExternalDb.dm_identifier m = Some ident →
  JSON_parse (Amqp.content msg2) = Some m →
  let w1 := ExternalBroker._consumeDisasterMessage JSON_parse ExternalBroker.no_faults w msg in
  let w2 := ExternalBroker._consumeDisasterMessage JSON_parse f2 w1 msg2 in
  ExternalDb.disaster_transmit_logs (ExternalDb.committed (ExternalBroker.db w2))
  = ExternalDb.disaster_transmit_logs (ExternalDb.committed (ExternalBroker.db w1)).
Proof.
  intros Htxn Hm Hi Hm2. cbn zeta.
  destruct (external_consume_success JSON_parse w msg m ident Htxn Hm Hi)
    as (_ & Htxn1 & Hsys & Hrows).
  destruct (external_consume_outbox JSON_parse f2 _ msg2 Htxn1)
    as (_ & [Hsame | (m' & ident' & Hm' & Hi' & _ & _ & Hrows2)]); [exact Hsame|].
  rewrite Hm2 in Hm'. simplify_eq. rewrite Hrows2.
  apply dtl_insert_all_idem. intros s Hs.
  rewrite (findBySubscribedEventCode_systems _ _ (ExternalBroker.db w) Hsys) in Hs.
  rewrite Hrows. by apply dtl_insert_all_covers.
Qed.

End ConsumerFacts.

Lemma report_delivery_settled_witness :
  CentralBroker.channel
    (Scenario.consume_report Scenario.central_update_fails 1751328001000
       Scenario.central_broker0 (Scenario.report_delivery None 7))
  = [Amqp.Publish CentralConfig.REPORT_RETRY_EXCHANGE CentralConfig.REPORT_ROUTING_KEY
       Scenario.report_json (Some 1);
     Amqp.Ack 7].
Proof.
  destruct (report_delivery_settled Scenario.env Scenario.JSON_parse_report
              Scenario.central_update_fails 1751328001000 Scenario.central_broker0
              (Scenario.report_delivery None 7) eq_refl) as [H | [[_ H] | [_ H]]].
  - vm_compute in H. discriminate H.
  - exact H.
  - vm_compute in H. discriminate H.
Defined.

Lemma disaster_fanout_witness :
  let w' := Scenario.consume_disaster ExternalBroker.no_faults Scenario.external_broker0
              (Scenario.disaster_delivery None 3) in
  ExternalBroker.channel w' = [Amqp.Ack 3]
  ∧ ∃ r, r ∈ ExternalDb.disaster_transmit_logs (ExternalDb.committed (ExternalBroker.db w'))
         ∧ ExternalDb.dtl_external_system_id r = 2
         ∧ ExternalDb.dtl_identifier r = "A1".
Proof.
  intros w'.
  destruct (disaster_fanout Scenario.JSON_parse_disaster Scenario.external_broker0
              (Scenario.disaster_delivery None 3)
              (ExternalDb.mkDisasterMessage (Some "A1") (Some "HTW") Scenario.disaster_json)
              "A1" eq_refl eq_refl eq_refl) as (Hch & Hall & _).
  split; [exact Hch|].
  apply (Hall (ExternalDb.mkExternalSystem 2 "ESS-B" ["HTW"] true)).
  split; [|split; [reflexivity|]].
  - vm_compute. apply list_elem_of_further, list_elem_of_here.
  - exists "HTW". split; [reflexivity|]. apply list_elem_of_here.
Defined.

Lemma disaster_redelivery_adds_nothing_witness :
  let w1 := Scenario.consume_disaster ExternalBroker.no_faults Scenario.external_broker0
              (Scenario.disaster_delivery None 3) in
  let w2 := Scenario.consume_disaster ExternalBroker.no_faults w1
              (Scenario.disaster_delivery None 4) in
  ExternalDb.disaster_transmit_logs (ExternalDb.committed (ExternalBroker.db w2))
  = ExternalDb.disaster_transmit_logs (ExternalDb.committed (ExternalBroker.db w1)).
Proof.
  exact (disaster_redelivery_adds_nothing Scenario.JSON_parse_disaster
           Scenario.external_broker0 (Scenario.disaster_delivery None 3)
           (ExternalDb.mkDisasterMessage (Some "A1") (Some "HTW") Scenario.disaster_json)
           "A1" ExternalBroker.no_faults (Scenario.disaster_delivery None 4)
           eq_refl eq_refl eq_refl eq_refl).
Defined.

(** ** Disaster-result reports: from the consumer to the CAP object *)

Section ResultReportFacts.

Variable env : CentralConfig.Env.
Variable JSON_parse : string → option CentralBroker.MessageContent.

Lemma length_string_app (a b : string) :
  String.length (a +:+ b) = (String.length a + String.length b)%nat.
Proof. induction a as [|c a IH]; simpl; [done|]. by f_equal. Qed.

Lemma substring_prefix (a b : string) :
  substring 0 (String.length a) (a +:+ b) = a.
Proof.
  induction a as [|c a IH]; simpl.
  - by destruct b.
  - by f_equal.
Qed.

(** The outbound id of a result report gives back the identifier of the
    alert. *)
Lemma slice_RPT_1 (identifier : string) :
  ReportTransmit.slice_0_neg6 (identifier +:+ "_RPT_1") = identifier.
Proof.
  unfold ReportTransmit.slice_0_neg6. rewrite length_string_app. cbn [String.length].
  replace (String.length identifier + 6 - 6)%nat with (String.length identifier) by lia.
  apply substring_prefix.
Qed.

Lemma dpl_find_exists i d p :
  CentralDb.dpl_findByIdentifier i d = Some p → CentralDb.dpl_existsByIdentifier i d = true.
Proof.
  unfold CentralDb.dpl_findByIdentifier, CentralDb.dpl_existsByIdentifier.
  intros H. apply head_Some_elem_of, list_elem_of_filter in H as [Hp Hin].
  apply existsb_exists. exists p. split; [by apply list_elem_of_In|].
  by apply bool_decide_eq_true.
Qed.

Lemma dpl_exists_ext i d1 d2 :
  CentralDb.disaster_publish_logs (CentralDb.committed d1)
  = CentralDb.disaster_publish_logs (CentralDb.committed d2) →
  CentralDb.dpl_existsByIdentifier i d1 = CentralDb.dpl_existsByIdentifier i d2.
Proof. unfold CentralDb.dpl_existsByIdentifier, CentralDb.view. by intros ->. Qed.

(** A DISASTER_RESULT report for an alert that was published, on a
    delivery where nothing fails: the outbox gains one PENDING row whose
    outbound id is the alert identifier followed by _RPT_1, and the
    delivery is acknowledged. For that row the transmitter builds, at any
    time, the CAP object of type Ack with note 800 whose references are
    the sender of the original alert, the alert identifier and the sent
    time of the original alert, read back from the published alert. *)
Theorem disaster_result_refers_to_alert now w msg name raw i p a originalSent originalSender :
  CentralDb.in_txn (CentralBroker.db w) = None →
  JSON_parse (Amqp.content msg)
  = Some (CentralBroker.mkMessageContent (Some "DISASTER_RESULT") (Some name) (Some raw)) →
  CentralDb.rm_identifier raw = Some i →
  CentralDb.dpl_findByIdentifier i (CentralBroker.db w) = Some p →
  Cap.capInfo (CentralDb.dpl_raw_message p) ≫= Cap.alert = Some a →
  Cap.sent a = Some originalSent → originalSent ≠ "" →
  Cap.sender a = Some originalSender → originalSender ≠ "" →
  let w' := CentralBroker._consumeReportMessage env JSON_parse CentralBroker.no_faults now w msg in
  let id := CentralDb.next_id (CentralBroker.db w) in
  let row := CentralDb.mkReportTransmitLog (id + 1) id "DISASTER_RESULT" (i +:+ "_RPT_1") name raw
               CentralDb.PENDING 0 None 1 None in
  CentralDb.report_transmit_logs (CentralDb.committed (CentralBroker.db w'))
  = CentralDb.report_transmit_logs (CentralDb.committed (CentralBroker.db w)) ++ [row]
  ∧ CentralBroker.channel w' = CentralBroker.channel w ++ [Amqp.Ack (Amqp.deliveryTag msg)]
  ∧ ∀ clock, ∃ cap,
      ReportTransmit.capObject_of env ReportTransmit.no_faults clock row (CentralBroker.db w')
      = inl cap
      ∧ Cap.rc_identifier cap = i +:+ "_RPT_1"
      ∧ Cap.rc_msgType cap = "Ack"
      ∧ Cap.rc_note cap = Some "800"
      ∧ Cap.rc_references cap
        = Some (originalSender +:+ "," +:+ i +:+ "," +:+ originalSent).
Proof.
  intros Htxn Hm Hi Hp Ha Hsent Hsent' Hsender Hsender'. cbn zeta.
  pose proof (dpl_find_exists _ _ _ Hp) as Hex.
  destruct w as [[t txn nid] ch]. cbn in Htxn. subst txn.
  unfold CentralBroker._consumeReportMessage, CentralBroker.process.
  cbn [CentralBroker.db CentralBroker.channel CentralBroker.no_faults
       CentralBroker.inbox_create_fails CentralBroker.getClient_fails
       CentralBroker.begin_fails CentralBroker.exists_fails
       CentralBroker.outbox_create_fails CentralBroker.inbox_update_fails
       CentralBroker.commit_fails CentralDb.committed CentralDb.next_id] in *.
  unfold CentralDb.mq_create. cbn [CentralDb.nextval]. cbn iota. rewrite Hm.
  cbn [CentralBroker.mc_type CentralBroker.mc_externalSystemName CentralBroker.mc_rawMessage].
  rewrite decide_True by done. rewrite Hi.
  match goal with
  | |- context [CentralDb.dpl_existsByIdentifier i ?d] =>
      rewrite (dpl_exists_ext i d (CentralDb.mkDb t None nid)) by reflexivity
  end.
  rewrite Hex. cbn [Js.template default].
  unfold CentralDb.rtl_create. cbn.
  split; [done|]. split; [done|].
  intros clock. unfold ReportTransmit.capObject_of.
  cbn [CentralDb.rtl_type CentralDb.rtl_outbound_id CentralDb.rtl_raw_message
       CentralDb.rtl_external_system_name ReportTransmit.find_original_fails
       ReportTransmit.no_faults].
  rewrite decide_False by done. rewrite decide_False by done. rewrite decide_True by done.
  rewrite slice_RPT_1.
  assert (Hp' : ∀ d, CentralDb.disaster_publish_logs (CentralDb.committed d)
                     = CentralDb.disaster_publish_logs t →
                     CentralDb.dpl_findByIdentifier i d = Some p).
  { intros d Hd. unfold CentralDb.dpl_findByIdentifier, CentralDb.view in *.
    by rewrite Hd. }
  rewrite Hp' by done. rewrite Ha, Hsent, Hsender.
  rewrite !truthy_Some by done. cbn [andb].
  eexists. split; [reflexivity|]. cbn. by rewrite Hi.
Qed.

(** A DISASTER_RESULT report whose identifier is not that of a published
    alert never reaches the outbox, whatever else fails or not, and its
    delivery is not acknowledged as processed. *)
Theorem result_for_unknown_alert_rejected f now w msg name raw :
  CentralDb.in_txn (CentralBroker.db w) = None →
  JSON_parse (Amqp.content msg)
  = Some (CentralBroker.mkMessageContent (Some "DISASTER_RESULT") name (Some raw)) →
  match CentralDb.rm_identifier raw with
  | Some i => CentralDb.dpl_existsByIdentifier i (CentralBroker.db w)
  | None => false
  end = false →
  let w' := CentralBroker._consumeReportMessage env JSON_parse f now w msg in
  CentralDb.report_transmit_logs (CentralDb.committed (CentralBroker.db w'))
  = CentralDb.report_transmit_logs (CentralDb.committed (CentralBroker.db w))
  ∧ CentralBroker.channel w' ≠ CentralBroker.channel w ++ [Amqp.Ack (Amqp.deliveryTag msg)].
Proof.
  intros Htxn Hm Hex. cbn zeta.
  destruct w as [[t txn nid] ch]. cbn in Htxn. subst txn.
  assert (Hretry : ∀ logId err d,
            CentralDb.report_transmit_logs (CentralDb.committed d)
            = CentralDb.report_transmit_logs t →
            let w' := CentralBroker.retry_or_dead_letter f msg logId err
                        (CentralBroker.mkWorld d ch) in
            CentralDb.report_transmit_logs (CentralDb.committed (CentralBroker.db w'))
            = CentralDb.report_transmit_logs t
            ∧ CentralBroker.channel w' ≠ ch ++ [Amqp.Ack (Amqp.deliveryTag msg)]).
  { intros logId err d Hd. cbn zeta. unfold CentralBroker.retry_or_dead_letter.
    case_decide.
    - destruct (CentralBroker.retry_publish_fails f); cbn; (split; [done|]);
        intros Hch%app_inv_head; discriminate Hch.
    - cbn. split.
      + destruct logId; [|done]. by destruct (CentralBroker.final_update_fails f).
      + intros Hch%app_inv_head; discriminate Hch. }
  unfold CentralBroker._consumeReportMessage, CentralBroker.process.
  cbn [CentralBroker.db CentralBroker.channel CentralDb.committed] in *.
  destruct (CentralBroker.inbox_create_fails f); [by apply Hretry|].
  unfold CentralDb.mq_create. cbn [CentralDb.nextval]. cbn iota.
  destruct (CentralBroker.getClient_fails f); [by apply Hretry|].
  destruct (CentralBroker.begin_fails f).
  { destruct (CentralBroker.rollback_fails f); by apply Hretry. }
  rewrite Hm.
  cbn [CentralBroker.mc_type CentralBroker.mc_externalSystemName CentralBroker.mc_rawMessage].
  rewrite decide_True by done.
  destruct (CentralBroker.exists_fails f).
  { destruct (CentralBroker.rollback_fails f); by apply Hretry. }
  destruct (CentralDb.rm_identifier raw) as [i|].
  - match goal with
    | |- context [CentralDb.dpl_existsByIdentifier i ?d] =>
        rewrite (dpl_exists_ext i d (CentralDb.mkDb t None nid)) by reflexivity
    end.
    rewrite Hex. destruct (CentralBroker.rollback_fails f); by apply Hretry.
  - destruct (CentralBroker.rollback_fails f); by apply Hretry.
Qed.

End ResultReportFacts.

Lemma disaster_result_refers_to_alert_witness :
  let w := CentralBroker.mkWorld Cases.central_after_a1 [] in
  let w' := CentralBroker._consumeReportMessage Scenario.env Cases.JSON_parse_result
              CentralBroker.no_faults 1751328001000 w (Cases.result_delivery None 9) in
  CentralDb.report_transmit_logs (CentralDb.committed (CentralBroker.db w'))
  = [CentralDb.mkReportTransmitLog 4 3 "DISASTER_RESULT" "A1_RPT_1" "ESS-A" Cases.result_raw
       CentralDb.PENDING 0 None 1 None]
  ∧ CentralBroker.channel w' = [Amqp.Ack 9].
Proof.
  intros w w'.
  destruct (disaster_result_refers_to_alert Scenario.env Cases.JSON_parse_result
              1751328001000 w (Cases.result_delivery None 9) "ESS-A" Cases.result_raw "A1"
              (CentralDb.mkDisasterPublishLog 2 1 "disaster.HTW" "A1" "HTW" Scenario.frame_htw
                 CentralDb.PENDING 0)
              _ "2025-07-01T09:00:00+09:00" "KR.CAS"
              eq_refl eq_refl eq_refl eq_refl eq_refl eq_refl ltac:(discriminate)
              eq_refl ltac:(discriminate)) as (Hrows & Hch & _).
  split; [exact Hrows | exact Hch].
Defined.

Lemma result_for_unknown_alert_rejected_witness :
  let w' := CentralBroker._consumeReportMessage Scenario.env Cases.JSON_parse_result
              CentralBroker.no_faults 1751328001000 Scenario.central_broker0
              (Cases.result_delivery None 9) in
  CentralDb.report_transmit_logs (CentralDb.committed (CentralBroker.db w')) = [].
Proof.
  intros w'.
  destruct (result_for_unknown_alert_rejected Scenario.env Cases.JSON_parse_result
              CentralBroker.no_faults 1751328001000 Scenario.central_broker0
              (Cases.result_delivery None 9) (Some "ESS-A") Cases.result_raw
              eq_refl eq_refl eq_refl) as (Hrows & _).
  exact Hrows.
Defined.

(** ** Finished rows of the transmit services *)

Section FinishedReportFacts.

Variable env : CentralConfig.Env.
Variable xml_bytes : Cap.XmlObject → option Buffer.t.
Variable parseResponse : Buffer.t → option ReportTransmit.ParsedResponse.

Local Abbreviation rows := (λ d : CentralDb.Db,
  CentralDb.report_transmit_logs (CentralDb.committed d)).

(** The row [r] is in the table, and ids are unique (the primary key). *)
Local Abbreviation kept := (λ (r : CentralDb.ReportTransmitLog) (d : CentralDb.Db),
  NoDup (CentralDb.rtl_id <$> rows d) ∧ r ∈ rows d).

Local Abbreviation finished := (λ r : CentralDb.ReportTransmitLog,
  CentralDb.rtl_status r = CentralDb.SUCCESS ∨ CentralDb.rtl_status r = CentralDb.FAILED).

Lemma NoDup_fmap_eq {A B} (f : A → B) (l : list A) (x y : A) :
  NoDup (f <$> l) → x ∈ l → y ∈ l → f x = f y → x = y.
Proof.
  induction l as [|a l IH]; [by intros _ ?%elem_of_nil|].
  rewrite fmap_cons, NoDup_cons. intros [Ha Hl] Hx Hy Hf.
  apply elem_of_cons in Hx as [-> | Hx]; apply elem_of_cons in Hy as [-> | Hy]; auto.
  - exfalso. apply Ha. rewrite Hf. by apply list_elem_of_fmap_2.
  - exfalso. apply Ha. rewrite <- Hf. by apply list_elem_of_fmap_2.
Qed.

Lemma rtl_update_rows g logId d :
  rows (CentralDb.rtl_update g logId d)
  = (λ x, if decide (CentralDb.rtl_id x = logId) then g x else x) <$> rows d.
Proof. done. Qed.

Lemma rtl_update_kept g logId r d :
  (∀ x, CentralDb.rtl_id (g x) = CentralDb.rtl_id x) →
  CentralDb.rtl_id r ≠ logId →
  kept r d → kept r (CentralDb.rtl_update g logId d).
Proof.
  intros Hg Hne [Hnd Hin]. rewrite rtl_update_rows. split.
  - rewrite <- list_fmap_compose.
    erewrite list_fmap_ext; [exact Hnd|].
    intros i x _. cbn. by case_decide.
  - apply list_elem_of_fmap. exists r. by rewrite decide_False.
Qed.

Lemma rtl_updateStatusById_kept now logId st e r d :
  CentralDb.rtl_id r ≠ logId →
  kept r d → kept r (CentralDb.rtl_updateStatusById now logId st e d).
Proof. intros. by apply rtl_update_kept. Qed.

Lemma rtl_findById_kept logId r d x :
  kept r d → CentralDb.rtl_findById logId d = Some x →
  CentralDb.rtl_id r = logId → x = r.
Proof.
  intros [Hnd Hin] Hfind Hid.
  apply head_Some_elem_of, list_elem_of_filter in Hfind as [Hx Hxin].
  eapply NoDup_fmap_eq; eauto. congruence.
Qed.

Lemma processFailure_kept f now logId n reason w r :
  finished r → kept r (ReportTransmit.db w) →
  kept r (ReportTransmit.db (ReportTransmit.processFailure f now logId n reason w)).
Proof.
  intros Hfin Hk. unfold ReportTransmit.processFailure.
  cbn [ReportTransmit.clear_timeout ReportTransmit.db ReportTransmit.session
       ReportTransmit.activeTimeouts].
  destruct (ReportTransmit.pf_find_fails f); [done|].
  destruct (CentralDb.rtl_findById logId (ReportTransmit.db w)) as [x|] eqn:Hfind; [|done].
  case_bool_decide as Hst; [done|].
  destruct (ReportTransmit.pf_update_fails f); [done|].
  cbn [ReportTransmit.db]. apply rtl_updateStatusById_kept; [|done].
  intros Hid. apply Hst. by rewrite (rtl_findById_kept _ _ _ _ Hk Hfind Hid).
Qed.

Lemma processMessage_kept f now w log r :
  CentralDb.rtl_id r ≠ CentralDb.rtl_id log →
  kept r (ReportTransmit.db w) →
  kept r (ReportTransmit.db (ReportTransmit.processMessage env xml_bytes f now w log)).
Proof.
  intros Hne Hk. unfold ReportTransmit.processMessage.
  destruct (ReportTransmit.try_block env xml_bytes f now w log) as [w1 r1] eqn:Htry.
  assert (Hk1 : kept r (ReportTransmit.db w1)).
  { unfold ReportTransmit.try_block in Htry.
    repeat case_match; simplify_eq; cbn [ReportTransmit.db]; try done;
      by apply rtl_updateStatusById_kept. }
  destruct r1; [|done].
  cbn [ReportTransmit.clear_timeout ReportTransmit.db].
  destruct (ReportTransmit.to_failed_fails f); [done|].
  cbn [ReportTransmit.db]. by apply rtl_updateStatusById_kept.
Qed.

Lemma run_kept f now w r :
  finished r → kept r (ReportTransmit.db w) →
  kept r (ReportTransmit.db (ReportTransmit._run env xml_bytes f now w)).
Proof.
  intros Hfin Hk. unfold ReportTransmit._run.
  destruct (ReportTransmit.run_find_fails f); [done|].
  assert (Hl : Forall (λ log, CentralDb.rtl_id r ≠ CentralDb.rtl_id log)
                 (CentralDb.rtl_findUnprocessedMessages (ReportTransmit.ms now)
                    (ReportTransmit.db w))).
  { apply Forall_forall. intros log Hlog Hid.
    apply list_elem_of_filter in Hlog as [Hun Hin].
    destruct Hk as [Hnd Hr].
    assert (log = r) as -> by (eapply NoDup_fmap_eq; eauto).
    unfold CentralDb.rtl_unprocessed in Hun.
    destruct Hfin as [Hs | Hs]; rewrite Hs in Hun; done. }
  remember (CentralDb.rtl_findUnprocessedMessages (ReportTransmit.ms now)
              (ReportTransmit.db w)) as l eqn:El.
  clear El. revert w Hk.
  induction Hl as [|log l Hlog _ IH]; intros w Hk; [done|].
  cbn [foldl]. apply IH. by apply processMessage_kept.
Qed.

Lemma processAck_kept f now w b r :
  finished r → kept r (ReportTransmit.db w) →
  kept r (ReportTransmit.db (ReportTransmit.processAck parseResponse f now w b)).
Proof.
  intros Hfin Hk. unfold ReportTransmit.processAck.
  destruct (parseResponse b ≫= ReportTransmit.res_data) as [data|]; [|done].
  destruct (ReportTransmit.res_transMsgId data) as [outboundId|]; [|done].
  destruct (ReportTransmit.res_transMsgSeq data) as [seq|]; [|done].
  case_match; [done|].
  destruct (ReportTransmit.ack_find_fails f); [done|].
  destruct (CentralDb.rtl_findByOutboundIdAndReportSequence _ _ _) as [x|] eqn:Hfind; [|done].
  case_bool_decide as Hst; [done|].
  assert (Hne : CentralDb.rtl_id r ≠ CentralDb.rtl_id x).
  { intros Hid. apply Hst.
    apply head_Some_elem_of, list_elem_of_filter in Hfind as [_ Hxin].
    destruct Hk as [Hnd Hr].
    assert (x = r) as -> by (eapply NoDup_fmap_eq; eauto).
    destruct Hfin; [by right|by left]. }
  case_decide.
  - destruct (ReportTransmit.ack_success_fails f).
    + by apply processFailure_kept.
    + cbn [ReportTransmit.db ReportTransmit.clear_timeout].
      by apply rtl_updateStatusById_kept.
  - by apply processFailure_kept.
Qed.

Lemma step_kept w e r :
  finished r → kept r (ReportTransmit.db w) →
  kept r (ReportTransmit.db (ReportTransmit.step env xml_bytes parseResponse w e)).
Proof.
  intros Hfin Hk. unfold ReportTransmit.step. destruct e.2.
  - by apply run_kept.
  - unfold ReportTransmit.on_timeout.
    destruct (ReportTransmit.activeTimeouts w !! logId); [|done].
    by apply processFailure_kept.
  - by apply processAck_kept.
Qed.

(** A finished report stays as it is. With unique row ids, a row of
    report_transmit_logs that is SUCCESS or FAILED is still in the table,
    with every column unchanged, after any run of polls, timer expiries
    and responses, whatever fails in them. *)
Theorem finished_report_is_final (w : ReportTransmit.World)
    (es : list (ReportTransmit.Faults * ReportTransmit.Clock * ReportTransmit.Event))
    (r : CentralDb.ReportTransmitLog) :
  NoDup (CentralDb.rtl_id <$> rows (ReportTransmit.db w)) →
  r ∈ rows (ReportTransmit.db w) →
  CentralDb.rtl_status r = CentralDb.SUCCESS ∨ CentralDb.rtl_status r = CentralDb.FAILED →
  r ∈ rows (ReportTransmit.db (ReportTransmit.run_events env xml_bytes parseResponse w es)).
Proof.
  intros Hnd Hin Hfin.
  assert (Hk : kept r (ReportTransmit.db w)) by done. clear Hnd Hin.
  revert w Hk. induction es as [|e es IH]; intros w Hk; [apply Hk|].
  unfold ReportTransmit.run_events. cbn [foldl]. apply IH. by apply step_kept.
Qed.

End FinishedReportFacts.

Section FinishedDisasterFacts.

Local Abbreviation rows := (λ d : ExternalDb.Db,
  ExternalDb.disaster_transmit_logs (ExternalDb.committed d)).

Local Abbreviation kept := (λ (r : ExternalDb.DisasterTransmitLog) (d : ExternalDb.Db),
  NoDup (ExternalDb.dtl_id <$> rows d) ∧ r ∈ rows d).

Local Abbreviation finished := (λ r : ExternalDb.DisasterTransmitLog,
  ExternalDb.dtl_status r = ExternalDb.SUCCESS ∨ ExternalDb.dtl_status r = ExternalDb.FAILED).

Lemma dtl_update_rows g logId d :
  rows (ExternalDb.dtl_update g logId d)
  = (λ x, if decide (ExternalDb.dtl_id x = logId) then g x else x) <$> rows d.
Proof. done. Qed.

Lemma dtl_update_kept g logId r d :
  (∀ x, ExternalDb.dtl_id (g x) = ExternalDb.dtl_id x) →
  ExternalDb.dtl_id r ≠ logId →
  kept r d → kept r (ExternalDb.dtl_update g logId d).
Proof.
  intros Hg Hne [Hnd Hin]. rewrite dtl_update_rows. split.
  - rewrite <- list_fmap_compose.
    erewrite list_fmap_ext; [exact Hnd|].
    intros i x _. cbn. by case_decide.
  - apply list_elem_of_fmap. exists r. by rewrite decide_False.
Qed.

Lemma dtl_updateStatusById_kept now logId st r d :
  ExternalDb.dtl_id r ≠ logId →
  kept r d → kept r (ExternalDb.dtl_updateStatusById now logId st d).
Proof. intros. by apply dtl_update_kept. Qed.

Lemma dtl_incrementRetryCount_kept now logId r d :
  ExternalDb.dtl_id r ≠ logId →
  kept r d → kept r (ExternalDb.dtl_incrementRetryCount now logId d).
Proof. intros. by apply dtl_update_kept. Qed.

Lemma dtl_findById_kept logId r d x :
  kept r d → ExternalDb.dtl_findById logId d = Some x →
  ExternalDb.dtl_id r = logId → x = r.
Proof.
  intros [Hnd Hin] Hfind Hid.
  apply head_Some_elem_of, list_elem_of_filter in Hfind as [Hx Hxin].
  eapply NoDup_fmap_eq; eauto. congruence.
Qed.

Lemma dtl_findById_finished logId r d :
  finished r → kept r d → ExternalDb.dtl_id r = logId →
  ExternalDb.dtl_findById logId d = Some r.
Proof.
  intros Hfin Hk Hid.
  destruct (ExternalDb.dtl_findById logId d) as [x|] eqn:Hfind.
  - by rewrite (dtl_findById_kept _ _ _ _ Hk Hfind Hid).
  - exfalso. destruct Hk as [_ Hin].
    unfold ExternalDb.dtl_findById in Hfind. apply head_None in Hfind.
    assert (r ∈ filter (λ r0, ExternalDb.dtl_id r0 = logId)
                  (ExternalDb.disaster_transmit_logs
                     (ExternalDb.view ExternalDb.Pool d))) as Hr
      by by apply list_elem_of_filter.
    rewrite Hfind in Hr. by apply elem_of_nil in Hr.
Qed.

Lemma terminal_finished r :
  DisasterTransmit.terminal (ExternalDb.dtl_status r) = true ↔ finished r.
Proof. unfold DisasterTransmit.terminal. by rewrite bool_decide_eq_true. Qed.

Lemma _processFailure_kept f now logId n w r :
  finished r → kept r (DisasterTransmit.db w) →
  kept r (DisasterTransmit.db (DisasterTransmit._processFailure f now logId n w)).
Proof.
  intros Hfin Hk. unfold DisasterTransmit._processFailure.
  destruct (DisasterTransmit.pf_find_fails f); [done|].
  destruct (ExternalDb.dtl_findById logId (DisasterTransmit.db w)) as [x|] eqn:Hfind; [|done].
  destruct (DisasterTransmit.terminal (ExternalDb.dtl_status x)) eqn:Hst; [done|].
  assert (Hne : ExternalDb.dtl_id r ≠ logId).
  { intros Hid. rewrite (dtl_findById_kept _ _ _ _ Hk Hfind Hid) in Hst.
    apply terminal_finished in Hfin. congruence. }
  assert (Hk1 : kept r (DisasterTransmit.db
                          match DisasterTransmit.pf_increment_fails f with
                          | Some _ => w
                          | None =>
                              DisasterTransmit.set_db
                                (ExternalDb.dtl_incrementRetryCount now logId
                                   (DisasterTransmit.db w)) w
                          end)).
  { destruct (DisasterTransmit.pf_increment_fails f); [done|].
    by apply dtl_incrementRetryCount_kept. }
  destruct (DisasterTransmit.pf_update_fails f); [done|].
  case_decide; by apply dtl_updateStatusById_kept.
Qed.

Lemma _processAck_kept f now logId w r :
  finished r → kept r (DisasterTransmit.db w) →
  kept r (DisasterTransmit.db (DisasterTransmit._processAck f now logId w)).
Proof.
  intros Hfin Hk. unfold DisasterTransmit._processAck.
  destruct (DisasterTransmit.pa_find_fails f); [done|].
  case_bool_decide as H1; [done|]. case_bool_decide as H2; [done|].
  destruct (DisasterTransmit.pa_update_fails f); [done|].
  apply dtl_updateStatusById_kept; [|done].
  intros Hid. rewrite (dtl_findById_finished _ _ _ Hfin Hk Hid) in H1, H2.
  cbn in H1, H2. destruct Hfin as [Hs | Hs]; rewrite Hs in H1, H2; done.
Qed.

Lemma _processMessage_kept f now logId w r :
  finished r → kept r (DisasterTransmit.db w) →
  kept r (DisasterTransmit.db (DisasterTransmit._processMessage f now logId w)).
Proof.
  intros Hfin Hk. unfold DisasterTransmit._processMessage.
  destruct (DisasterTransmit.pm_find_fails f); [done|].
  destruct (ExternalDb.dtl_findById logId (DisasterTransmit.db w)) as [x|] eqn:Hfind; [|done].
  destruct (DisasterTransmit.terminal (ExternalDb.dtl_status x)) eqn:Hst; [done|].
  assert (Hne : ExternalDb.dtl_id r ≠ logId).
  { intros Hid. rewrite (dtl_findById_kept _ _ _ _ Hk Hfind Hid) in Hst.
    apply terminal_finished in Hfin. congruence. }
  destruct (DisasterTransmit.try_block f now logId x w) as [w1 r1] eqn:Htry.
  assert (Hk1 : kept r (DisasterTransmit.db w1)).
  { unfold DisasterTransmit.try_block in Htry.
    repeat case_match; simplify_eq; try done;
      try (by apply dtl_updateStatusById_kept).
    apply _processFailure_kept; [done|]. by apply dtl_updateStatusById_kept. }
  destruct r1; [|done]. by apply _processFailure_kept.
Qed.

Lemma disaster_step_kept w e r :
  finished r → kept r (DisasterTransmit.db w) →
  kept r (DisasterTransmit.db (DisasterTransmitRun.step w e)).
Proof.
  intros Hfin Hk. destruct e as [f now|f now i|f now i response|f socket|f socket reason];
    cbn [DisasterTransmitRun.step].
  - unfold DisasterTransmit.run. destruct (DisasterTransmit.run_find_fails f); [done|].
    generalize (ExternalDb.dtl_findUnprocessedMessages now (DisasterTransmit.db w)).
    intros l. revert w Hk. induction l as [|logId l IH]; intros w Hk; [done|].
    cbn [foldl]. apply IH. by apply _processMessage_kept.
  - unfold DisasterTransmit.on_timeout.
    destruct (DisasterTransmit.attempts w !! i) as [a|]; [|done].
    destruct (DisasterTransmit.timer a); [|done].
    destruct (DisasterTransmit.ackReceived a); [done|]. by apply _processFailure_kept.
  - unfold DisasterTransmit.on_response.
    destruct (DisasterTransmit.attempts w !! i) as [a|]; [|done].
    destruct (DisasterTransmit.ackReceived a); [done|].
    case_bool_decide; [by apply _processAck_kept | by apply _processFailure_kept].
  - unfold ExternalSession.addSocket.
    repeat case_match; simplify_eq; done.
  - unfold ExternalSession.removeSocket.
    repeat case_match; simplify_eq; done.
Qed.

(** A finished transmission stays as it is. With unique row ids, a row of
    disaster_transmit_logs that is SUCCESS or FAILED is still in the table,
    with every column unchanged, after any run of polls, timer expiries,
    client answers, connects and disconnects, whatever fails in them: a
    late ack does not turn a FAILED row into SUCCESS, and a late timeout or
    nack does not count against a SUCCESS row. *)
Theorem finished_disaster_is_final (w : DisasterTransmit.World)
    (es : list DisasterTransmitRun.Event) (r : ExternalDb.DisasterTransmitLog) :
  NoDup (ExternalDb.dtl_id <$> rows (DisasterTransmit.db w)) →
  r ∈ rows (DisasterTransmit.db w) →
  ExternalDb.dtl_status r = ExternalDb.SUCCESS ∨ ExternalDb.dtl_status r = ExternalDb.FAILED →
  r ∈ rows (DisasterTransmit.db (DisasterTransmitRun.run_events w es)).
Proof.
  intros Hnd Hin Hfin.
  assert (Hk : kept r (DisasterTransmit.db w)) by done. clear Hnd Hin.
  revert w Hk. induction es as [|e es IH]; intros w Hk; [apply Hk|].
  unfold DisasterTransmitRun.run_events. cbn [foldl]. apply IH. by apply disaster_step_kept.
Qed.

(** Only the first answer to an attempt counts: once a client has
    answered an attempt that was waiting for its answer, a second answer
    to it and the expiry of its timer change nothing, whatever they
    carry. *)
Theorem first_answer_counts f1 now1 i response1 w a f2 now2 response2 :
  let w1 := DisasterTransmit.on_response f1 now1 i response1 w in
  DisasterTransmit.attempts w !! i = Some a →
  DisasterTransmit.ackReceived a = false →
  DisasterTransmit.on_response f2 now2 i response2 w1 = w1
  ∧ DisasterTransmit.on_timeout f2 now2 i w1 = w1.
Proof.
  cbn zeta. intros Ha Hfirst.
  assert (Hatt : ∀ w0, DisasterTransmit.attempts w0 !! i = Some a →
            ∃ a', DisasterTransmit.attempts (DisasterTransmit.on_response f1 now1 i response1 w0)
                  !! i = Some a'
                  ∧ DisasterTransmit.ackReceived a' = true
                  ∧ (DisasterTransmit.ackReceived a = false → DisasterTransmit.timer a' = false)).
  { intros w0 H0. unfold DisasterTransmit.on_response. rewrite H0.
    destruct (DisasterTransmit.ackReceived a) eqn:Hack; [by exists a|].
    assert (Hp : ∀ w', DisasterTransmit.attempts
                         (DisasterTransmit._processFailure f1 now1 (DisasterTransmit.at_logId a)
                            (DisasterTransmit.at_retryCount a) w')
                       = DisasterTransmit.attempts w').
    { intros w'. unfold DisasterTransmit._processFailure.
      destruct (DisasterTransmit.pf_find_fails f1); [done|].
      destruct (ExternalDb.dtl_findById _ _); [|done].
      destruct (DisasterTransmit.terminal _); [done|].
      destruct (DisasterTransmit.pf_increment_fails f1),
        (DisasterTransmit.pf_update_fails f1); try done; by case_decide. }
    assert (Hq : ∀ w', DisasterTransmit.attempts
                         (DisasterTransmit._processAck f1 now1 (DisasterTransmit.at_logId a) w')
                       = DisasterTransmit.attempts w').
    { intros w'. unfold DisasterTransmit._processAck.
      destruct (DisasterTransmit.pa_find_fails f1); [done|].
      repeat case_bool_decide; try done.
      by destruct (DisasterTransmit.pa_update_fails f1). }
    eexists. case_bool_decide; rewrite ?Hp, ?Hq; cbn;
      (split; [apply list_lookup_insert_eq; by eapply lookup_lt_Some|done]). }
  destruct (Hatt w Ha) as (a' & Ha' & Hack & Htimer).
  split.
  - unfold DisasterTransmit.on_response at 1. by rewrite Ha', Hack.
  - unfold DisasterTransmit.on_timeout. rewrite Ha'.
    by rewrite (Htimer Hfirst).
Qed.

End FinishedDisasterFacts.

Lemma finished_report_is_final_witness :
  Cases.finished_report_row
  ∈ CentralDb.report_transmit_logs
      (CentralDb.committed
         (ReportTransmit.db
            (ReportTransmit.run_events Scenario.env Scenario.xml_bytes Scenario.parseResponse
               Cases.finished_report_world
               [(ReportTransmit.no_faults, Scenario.at_ms 1751328100000, ReportTransmit.Poll);
                (ReportTransmit.no_faults, Scenario.at_ms 1751328100001,
                 ReportTransmit.Timeout 2)]))).
Proof.
  apply (finished_report_is_final Scenario.env Scenario.xml_bytes Scenario.parseResponse
           Cases.finished_report_world).
  - apply NoDup_singleton.
  - apply list_elem_of_here.
  - left. reflexivity.
Defined.

Lemma finished_disaster_is_final_witness :
  Cases.finished_disaster_row
  ∈ ExternalDb.disaster_transmit_logs
      (ExternalDb.committed
         (DisasterTransmit.db
            (DisasterTransmitRun.run_events Cases.finished_disaster_world
               [DisasterTransmitRun.Poll DisasterTransmit.no_faults 1751328100000;
                DisasterTransmitRun.Answer DisasterTransmit.no_faults 1751328100001 0
                  Cases.ack_of_2]))).
Proof.
  apply (finished_disaster_is_final Cases.finished_disaster_world).
  - apply NoDup_singleton.
  - apply list_elem_of_here.
  - right. reflexivity.
Defined.

Lemma first_answer_counts_witness :
  let w := DisasterTransmit.run DisasterTransmit.no_faults 1751328001000
             (Scenario.disaster_world 0) in
  let w1 := DisasterTransmit.on_response DisasterTransmit.no_faults 1751328002000 0
              Cases.ack_of_2 w in
  DisasterTransmit.attempts w = [DisasterTransmit.mkAttempt 2 0 false true]
  ∧ DisasterTransmit.on_response DisasterTransmit.no_faults 1751328003000 0 Cases.nack_of_2 w1
    = w1.
Proof.
  intros w w1.
  assert (Hw : DisasterTransmit.attempts w = [DisasterTransmit.mkAttempt 2 0 false true])
    by (vm_compute; reflexivity).
  split; [exact Hw|].
  apply (first_answer_counts DisasterTransmit.no_faults 1751328002000 0%nat Cases.ack_of_2 w
           (DisasterTransmit.mkAttempt 2 0 false true)
           DisasterTransmit.no_faults 1751328003000 Cases.nack_of_2).
  - rewrite Hw. reflexivity.
  - reflexivity.
Defined.

(** ** The publish workers: what one poll publishes and leaves *)

Section PublishRunFacts.

Lemma filter_none {A} (P : A → Prop) `{!∀ x, Decision (P x)} (l : list A) :
  Forall (λ x, ¬ P x) l → filter P l = [].
Proof.
  induction 1 as [|x l Hx _ IH]; [done|]. by rewrite filter_cons, decide_False, IH.
Qed.

Section Disaster.

Variable JSON_stringify : string → string → Cap.ReceivedData → string.

Local Abbreviation rows := (λ w : DisasterPublishWorker.World,
  CentralDb.disaster_publish_logs (CentralDb.committed (DisasterPublishWorker.db w))).

Local Abbreviation process := (λ f w message,
  DisasterPublishWorker._processOutboxMessage JSON_stringify
    (f (CentralDb.dpl_id message)) w message).

Lemma disaster_process_channel (f : Z → DisasterPublishWorker.Faults) w m :
  DisasterPublishWorker.channel (process f w m)
  = DisasterPublishWorker.channel w
    ++ (if bool_decide (CentralDb.dpl_retry_count m < DisasterPublishWorker.MAX_RETRIES
                        ∧ DisasterPublishWorker.publish_fails (f (CentralDb.dpl_id m)) = None)
        then [DisasterPublishRun.published JSON_stringify m] else []).
Proof.
  unfold DisasterPublishWorker._processOutboxMessage.
  case_decide as Hr.
  - rewrite bool_decide_eq_false_2 by (intros [? _]; lia).
    destruct (DisasterPublishWorker.to_failed_fails _); cbn; by rewrite app_nil_r.
  - destruct (DisasterPublishWorker.publish_fails _) eqn:Hp.
    + rewrite bool_decide_eq_false_2 by (by intros [_ ?]).
      destruct (DisasterPublishWorker.increment_fails _); cbn; by rewrite app_nil_r.
    + rewrite bool_decide_eq_true_2 by (split; [lia|done]).
      destruct (DisasterPublishWorker.to_success_fails _); [|done].
      by destruct (DisasterPublishWorker.increment_fails _).
Qed.

Lemma disaster_foldl_channel (f : Z → DisasterPublishWorker.Faults) l w :
  DisasterPublishWorker.channel (foldl (process f) w l)
  = DisasterPublishWorker.channel w
    ++ (DisasterPublishRun.published JSON_stringify
          <$> filter (λ m, CentralDb.dpl_retry_count m < DisasterPublishWorker.MAX_RETRIES
                           ∧ DisasterPublishWorker.publish_fails (f (CentralDb.dpl_id m)) = None)
                l).
Proof.
  revert w. induction l as [|m l IH]; intros w; [by rewrite app_nil_r|].
  cbn [foldl]. rewrite IH, disaster_process_channel, filter_cons.
  destruct (decide (CentralDb.dpl_retry_count m < DisasterPublishWorker.MAX_RETRIES
                    ∧ DisasterPublishWorker.publish_fails (f (CentralDb.dpl_id m)) = None))
    as [H | H].
  - rewrite bool_decide_eq_true_2 by done. by rewrite <- app_assoc.
  - rewrite bool_decide_eq_false_2 by done. by rewrite app_nil_r.
Qed.

(** Without faults a row leaves PENDING when it is processed, and no row
    ever becomes PENDING. *)
Lemma disaster_process_rows w m :
  Forall2 (λ r r', (CentralDb.dpl_status r ≠ CentralDb.PENDING
                    → CentralDb.dpl_status r' ≠ CentralDb.PENDING)
                   ∧ (CentralDb.dpl_id r = CentralDb.dpl_id m
                      → CentralDb.dpl_status r' ≠ CentralDb.PENDING)
                   ∧ CentralDb.dpl_id r' = CentralDb.dpl_id r)
    (rows w) (rows (process (λ _, DisasterPublishWorker.no_faults) w m)).
Proof.
  unfold DisasterPublishWorker._processOutboxMessage.
  cbn [DisasterPublishWorker.no_faults DisasterPublishWorker.to_failed_fails
       DisasterPublishWorker.publish_fails DisasterPublishWorker.to_success_fails].
  case_decide; cbn;
    (apply Forall2_fmap_r, Forall_Forall2_diag, Forall_forall; intros r _; cbv beta;
     repeat split; intros; case_decide; cbn; try done; congruence).
Qed.

Lemma disaster_rows_trans (m : CentralDb.DisasterPublishLog)
    (l k0 k1 k2 : list CentralDb.DisasterPublishLog) :
  Forall2 (λ r r', (CentralDb.dpl_status r ≠ CentralDb.PENDING
                    → CentralDb.dpl_status r' ≠ CentralDb.PENDING)
                   ∧ (CentralDb.dpl_id r = CentralDb.dpl_id m
                      → CentralDb.dpl_status r' ≠ CentralDb.PENDING)
                   ∧ CentralDb.dpl_id r' = CentralDb.dpl_id r) k0 k1 →
  Forall2 (λ r r', (CentralDb.dpl_status r ≠ CentralDb.PENDING
                    → CentralDb.dpl_status r' ≠ CentralDb.PENDING)
                   ∧ (CentralDb.dpl_id r ∈ CentralDb.dpl_id <$> l
                      → CentralDb.dpl_status r' ≠ CentralDb.PENDING)
                   ∧ CentralDb.dpl_id r' = CentralDb.dpl_id r) k1 k2 →
  Forall2 (λ r r', (CentralDb.dpl_status r ≠ CentralDb.PENDING
                    → CentralDb.dpl_status r' ≠ CentralDb.PENDING)
                   ∧ (CentralDb.dpl_id r ∈ CentralDb.dpl_id <$> m :: l
                      → CentralDb.dpl_status r' ≠ CentralDb.PENDING)
                   ∧ CentralDb.dpl_id r' = CentralDb.dpl_id r) k0 k2.
Proof.
  intros H1. revert k2.
  induction H1 as [|r r1 t0 t1 (Ha & Hb & Hc) _ IH1]; intros k2 H2.
  - inversion H2. constructor.
  - inversion H2 as [|? r2 ? k2' (Ha' & Hb' & Hc') H2']; subst.
    constructor; [|by apply IH1].
    repeat split.
    + auto.
    + rewrite fmap_cons, elem_of_cons. intros [Hid | Hin]; [auto|].
      apply Hb'. by rewrite Hc.
    + congruence.
Qed.

Lemma disaster_foldl_rows l w :
  Forall2 (λ r r', (CentralDb.dpl_status r ≠ CentralDb.PENDING
                    → CentralDb.dpl_status r' ≠ CentralDb.PENDING)
                   ∧ (CentralDb.dpl_id r ∈ CentralDb.dpl_id <$> l
                      → CentralDb.dpl_status r' ≠ CentralDb.PENDING)
                   ∧ CentralDb.dpl_id r' = CentralDb.dpl_id r)
    (rows w) (rows (foldl (process (λ _, DisasterPublishWorker.no_faults)) w l)).
Proof.
  revert w. induction l as [|m l IH]; intros w.
  - apply Forall_Forall2_diag, Forall_forall. intros r _.
    repeat split; try done. by intros ?%elem_of_nil.
  - cbn [foldl]. eapply disaster_rows_trans; [apply disaster_process_rows|apply IH].
Qed.

(** One poll of the disaster publish worker. Whatever fails, it puts on
    the channel exactly one message per PENDING row that is below the
    retry limit and whose publish does not throw, in row order, to the
    disaster exchange under the row's routing key, and nothing else. When
    nothing fails, no row is PENDING afterwards, so the next poll does
    nothing: no alert is published twice. *)
Theorem disaster_poll_publishes (f : Z → DisasterPublishWorker.Faults)
    (w : DisasterPublishWorker.World) :
  let pending := CentralDb.dpl_findUnprocessedMessages (DisasterPublishWorker.db w) in
  DisasterPublishWorker.channel (DisasterPublishRun._run JSON_stringify None f w)
  = DisasterPublishWorker.channel w
    ++ (DisasterPublishRun.published JSON_stringify
          <$> filter (λ m, CentralDb.dpl_retry_count m < DisasterPublishWorker.MAX_RETRIES
                           ∧ DisasterPublishWorker.publish_fails (f (CentralDb.dpl_id m)) = None)
                pending)
  ∧ let w' := DisasterPublishRun._run JSON_stringify None
                (λ _, DisasterPublishWorker.no_faults) w in
    CentralDb.dpl_findUnprocessedMessages (DisasterPublishWorker.db w') = []
    ∧ DisasterPublishRun._run JSON_stringify None (λ _, DisasterPublishWorker.no_faults) w'
      = w'.
Proof.
  cbn zeta. split; [apply disaster_foldl_channel|].
  assert (Hnone : CentralDb.dpl_findUnprocessedMessages
                    (DisasterPublishWorker.db
                       (DisasterPublishRun._run JSON_stringify None
                          (λ _, DisasterPublishWorker.no_faults) w)) = []).
  { unfold DisasterPublishRun._run.
    pose proof (disaster_foldl_rows
                  (CentralDb.dpl_findUnprocessedMessages (DisasterPublishWorker.db w)) w) as H.
    unfold CentralDb.dpl_findUnprocessedMessages at 2. unfold CentralDb.view.
    apply filter_none, Forall_forall. intros r' Hr'.
    apply list_elem_of_lookup in Hr' as [i Hi].
    destruct (Forall2_lookup_r _ _ _ i r' H Hi) as (r & Hr & Ha & Hb & Hc).
    destruct (decide (CentralDb.dpl_status r = CentralDb.PENDING)) as [Hp | Hp]; [|auto].
    apply Hb. apply list_elem_of_fmap. exists r. split; [done|].
    apply list_elem_of_filter. split; [done|]. by eapply list_elem_of_lookup_2. }
  split; [exact Hnone|].
  unfold DisasterPublishRun._run at 1. by rewrite Hnone.
Qed.

End Disaster.

Section Report.

Variable JSON_stringify : string → string → string → string.

Local Abbreviation process := (λ f w message,
  ReportPublishWorker.processOutboxMessage JSON_stringify
    (f (ReportPublishWorker.rpl_id message)) w message).

Lemma report_process_channel (f : Z → ReportPublishWorker.Faults) w m :
  ReportPublishWorker.channel (process f w m)
  = ReportPublishWorker.channel w
    ++ (if bool_decide (ReportPublishWorker.rpl_retry_count m ≤ ReportPublishWorker.MAX_RETRIES
                        ∧ ReportPublishWorker.publish_fails (f (ReportPublishWorker.rpl_id m))
                          = None)
        then [ReportPublishRun.published JSON_stringify m] else []).
Proof.
  unfold ReportPublishWorker.processOutboxMessage.
  case_decide as Hr.
  - rewrite bool_decide_eq_false_2 by (intros [? _]; lia).
    destruct (ReportPublishWorker.to_failed_fails _); cbn; [|by rewrite app_nil_r].
    destruct (ReportPublishWorker.increment_fails _); cbn; by rewrite app_nil_r.
  - destruct (ReportPublishWorker.publish_fails _) eqn:Hp.
    + rewrite bool_decide_eq_false_2 by (by intros [_ ?]).
      destruct (ReportPublishWorker.increment_fails _); cbn; by rewrite app_nil_r.
    + rewrite bool_decide_eq_true_2 by (split; [lia|done]).
      destruct (ReportPublishWorker.to_success_fails _); [|done].
      by destruct (ReportPublishWorker.increment_fails _).
Qed.

Lemma report_foldl_channel (f : Z → ReportPublishWorker.Faults) l w :
  ReportPublishWorker.channel (foldl (process f) w l)
  = ReportPublishWorker.channel w
    ++ (ReportPublishRun.published JSON_stringify
          <$> filter (λ m, ReportPublishWorker.rpl_retry_count m ≤ ReportPublishWorker.MAX_RETRIES
                           ∧ ReportPublishWorker.publish_fails
                               (f (ReportPublishWorker.rpl_id m)) = None)
                l).
Proof.
  revert w. induction l as [|m l IH]; intros w; [by rewrite app_nil_r|].
  cbn [foldl]. rewrite IH, report_process_channel, filter_cons.
  destruct (decide (ReportPublishWorker.rpl_retry_count m ≤ ReportPublishWorker.MAX_RETRIES
                    ∧ ReportPublishWorker.publish_fails (f (ReportPublishWorker.rpl_id m))
                      = None))
    as [H | H].
  - rewrite bool_decide_eq_true_2 by done. by rewrite <- app_assoc.
  - rewrite bool_decide_eq_false_2 by done. by rewrite app_nil_r.
Qed.

Lemma report_process_rows w m :
  Forall2 (λ r r', (ReportPublishWorker.rpl_status r ≠ ExternalDb.PENDING
                    → ReportPublishWorker.rpl_status r' ≠ ExternalDb.PENDING)
                   ∧ (ReportPublishWorker.rpl_id r = ReportPublishWorker.rpl_id m
                      → ReportPublishWorker.rpl_status r' ≠ ExternalDb.PENDING)
                   ∧ ReportPublishWorker.rpl_id r' = ReportPublishWorker.rpl_id r)
    (ReportPublishWorker.report_publish_logs w)
    (ReportPublishWorker.report_publish_logs
       (process (λ _, ReportPublishWorker.no_faults) w m)).
Proof.
  unfold ReportPublishWorker.processOutboxMessage.
  cbn [ReportPublishWorker.no_faults ReportPublishWorker.to_failed_fails
       ReportPublishWorker.publish_fails ReportPublishWorker.to_success_fails].
  case_decide; cbn; unfold ReportPublishWorker.updateStatusById;
    (apply Forall2_fmap_r, Forall_Forall2_diag, Forall_forall; intros r _; cbv beta;
     repeat split; intros; case_decide; cbn; try done; congruence).
Qed.

Lemma report_rows_trans (m : ReportPublishWorker.ReportPublishLog)
    (l k0 k1 k2 : list ReportPublishWorker.ReportPublishLog) :
  Forall2 (λ r r', (ReportPublishWorker.rpl_status r ≠ ExternalDb.PENDING
                    → ReportPublishWorker.rpl_status r' ≠ ExternalDb.PENDING)
                   ∧ (ReportPublishWorker.rpl_id r = ReportPublishWorker.rpl_id m
                      → ReportPublishWorker.rpl_status r' ≠ ExternalDb.PENDING)
                   ∧ ReportPublishWorker.rpl_id r' = ReportPublishWorker.rpl_id r) k0 k1 →
  Forall2 (λ r r', (ReportPublishWorker.rpl_status r ≠ ExternalDb.PENDING
                    → ReportPublishWorker.rpl_status r' ≠ ExternalDb.PENDING)
                   ∧ (ReportPublishWorker.rpl_id r ∈ ReportPublishWorker.rpl_id <$> l
                      → ReportPublishWorker.rpl_status r' ≠ ExternalDb.PENDING)
                   ∧ ReportPublishWorker.rpl_id r' = ReportPublishWorker.rpl_id r) k1 k2 →
  Forall2 (λ r r', (ReportPublishWorker.rpl_status r ≠ ExternalDb.PENDING
                    → ReportPublishWorker.rpl_status r' ≠ ExternalDb.PENDING)
                   ∧ (ReportPublishWorker.rpl_id r ∈ ReportPublishWorker.rpl_id <$> m :: l
                      → ReportPublishWorker.rpl_status r' ≠ ExternalDb.PENDING)
                   ∧ ReportPublishWorker.rpl_id r' = ReportPublishWorker.rpl_id r) k0 k2.
Proof.
  intros H1. revert k2.
  induction H1 as [|r r1 t0 t1 (Ha & Hb & Hc) _ IH1]; intros k2 H2.
  - inversion H2. constructor.
  - inversion H2 as [|? r2 ? k2' (Ha' & Hb' & Hc') H2']; subst.
    constructor; [|by apply IH1].
    repeat split.
    + auto.
    + rewrite fmap_cons, elem_of_cons. intros [Hid | Hin]; [auto|].
      apply Hb'. by rewrite Hc.
    + congruence.
Qed.

Lemma report_foldl_rows l w :
  Forall2 (λ r r', (ReportPublishWorker.rpl_status r ≠ ExternalDb.PENDING
                    → ReportPublishWorker.rpl_status r' ≠ ExternalDb.PENDING)
                   ∧ (ReportPublishWorker.rpl_id r ∈ ReportPublishWorker.rpl_id <$> l
                      → ReportPublishWorker.rpl_status r' ≠ ExternalDb.PENDING)
                   ∧ ReportPublishWorker.rpl_id r' = ReportPublishWorker.rpl_id r)
    (ReportPublishWorker.report_publish_logs w)
    (ReportPublishWorker.report_publish_logs
       (foldl (process (λ _, ReportPublishWorker.no_faults)) w l)).
Proof.
  revert w. induction l as [|m l IH]; intros w.
  - apply Forall_Forall2_diag, Forall_forall. intros r _.
    repeat split; try done. by intros ?%elem_of_nil.
  - cbn [foldl]. eapply report_rows_trans; [apply report_process_rows|apply IH].
Qed.

(** One poll of the report publish worker. Whatever fails, it puts on the
    channel exactly one message per PENDING row whose retry count is at
    most the limit and whose publish does not throw, in row order, to the
    report exchange under the row's routing key, and nothing else. When
    nothing fails, no row is PENDING afterwards, so the next poll does
    nothing: no report is published twice. *)
Theorem report_poll_publishes (f : Z → ReportPublishWorker.Faults)
    (w : ReportPublishWorker.World) :
  let pending :=
    ReportPublishRun.findUnprocessedMessages (ReportPublishWorker.report_publish_logs w) in
  ReportPublishWorker.channel (ReportPublishRun.run JSON_stringify None f w)
  = ReportPublishWorker.channel w
    ++ (ReportPublishRun.published JSON_stringify
          <$> filter (λ m, ReportPublishWorker.rpl_retry_count m ≤ ReportPublishWorker.MAX_RETRIES
                           ∧ ReportPublishWorker.publish_fails
                               (f (ReportPublishWorker.rpl_id m)) = None)
                pending)
  ∧ let w' := ReportPublishRun.run JSON_stringify None (λ _, ReportPublishWorker.no_faults) w in
    ReportPublishRun.findUnprocessedMessages (ReportPublishWorker.report_publish_logs w') = []
    ∧ ReportPublishRun.run JSON_stringify None (λ _, ReportPublishWorker.no_faults) w' = w'.
Proof.
  cbn zeta. split; [apply report_foldl_channel|].
  assert (Hnone : ReportPublishRun.findUnprocessedMessages
                    (ReportPublishWorker.report_publish_logs
                       (ReportPublishRun.run JSON_stringify None
                          (λ _, ReportPublishWorker.no_faults) w)) = []).
  { unfold ReportPublishRun.run.
    pose proof (report_foldl_rows
                  (ReportPublishRun.findUnprocessedMessages
                     (ReportPublishWorker.report_publish_logs w)) w) as H.
    unfold ReportPublishRun.findUnprocessedMessages at 2.
    apply filter_none, Forall_forall. intros r' Hr'.
    apply list_elem_of_lookup in Hr' as [i Hi].
    destruct (Forall2_lookup_r _ _ _ i r' H Hi) as (r & Hr & Ha & Hb & Hc).
    destruct (decide (ReportPublishWorker.rpl_status r = ExternalDb.PENDING)) as [Hp | Hp];
      [|auto].
    apply Hb. apply list_elem_of_fmap. exists r. split; [done|].
    apply list_elem_of_filter. split; [done|]. by eapply list_elem_of_lookup_2. }
  split; [exact Hnone|].
  unfold ReportPublishRun.run at 1. by rewrite Hnone.
Qed.

End Report.

End PublishRunFacts.

(** ** The past-timestamp validator *)

Section TimestampFacts.

Variable Date_of : Z → Z → Z → Z → Z → Z → Timestamp.DateValue.
Variable now : Z.

Lemma substring_app_l (s t : string) (a n : nat) :
  (a + n ≤ String.length s)%nat → substring a n (s +:+ t) = substring a n s.
Proof.
  revert a n. induction s as [|c s IH]; intros a n Hlen; simpl in *.
  - assert (a = 0 ∧ n = 0)%nat as [-> ->] by lia. by destruct t.
  - destruct a as [|a].
    + destruct n as [|n]; [done|]. f_equal. apply (IH 0%nat). lia.
    + apply IH. lia.
Qed.

(** The validator reads the first 14 characters only. A value of 14
    characters followed by anything at all is accepted exactly when the 14
    characters alone are: trailing text after yyyymmddhhmiss passes the
    check. *)
Theorem timestamp_reads_first_14 (value suffix : string) :
  String.length value = 14%nat →
  Timestamp.accepted Date_of now (value +:+ suffix) = Timestamp.accepted Date_of now value.
Proof.
  intros Hlen.
  unfold Timestamp.accepted, Timestamp.isValidPastTimestamp, Timestamp.starts_with_14_digits,
    Timestamp.substring_between.
  rewrite !(substring_app_l value suffix) by (rewrite Hlen; cbn; lia).
  destruct (negb _); [done|].
  repeat (case_match; try done).
Qed.

End TimestampFacts.

Lemma timestamp_reads_first_14_witness :
  Timestamp.accepted Cases.Date_of_2025_07_01 1751328001000 "20250701090000 or so" = true.
Proof.
  exact (eq_trans
           (timestamp_reads_first_14 Cases.Date_of_2025_07_01 1751328001000
              "20250701090000" " or so" eq_refl)
           eq_refl).
Defined.

(** ** The link to the central system: handshake, keep-alive, reconnect *)

Section LinkFacts.

Variable env : CentralConfig.Env.
Variable xml_bytes : CentralLink.Request → option Buffer.t.
Variable parseAuth : Buffer.t → option CentralLink.AuthData.
Variable parseXml : Buffer.t → option Cap.ParsedXml.
Variable cap_xml_bytes : Cap.XmlObject → option Buffer.t.
Variable parseResponse : Buffer.t → option ReportTransmit.ParsedResponse.

Local Abbreviation route :=
  (CentralLink.route env xml_bytes parseAuth parseXml cap_xml_bytes parseResponse).
Local Abbreviation buildMessageBuffer := (CentralLink.buildMessageBuffer env xml_bytes).
Local Abbreviation handleConnect := (CentralLink.handleConnect env xml_bytes).
Local Abbreviation frame_of := (λ (messageId : Z) (body : Buffer.t) (h : Protocol.Header),
  Protocol.mkMessage
    (Protocol.mkHeader messageId (Protocol.dataFormat h) (Protocol.magicNumber h)
       (Protocol.dataLength h)) body).

Lemma handleConnect_world (c : CentralLink.Client) (f1 : Buffer.t) :
  buildMessageBuffer CentralConfig.ETS_REQ_SYS_CON
    (CentralLink.ReqConnect (CentralConfig.DEST_ID env)) = Some f1 →
  CentralLink.world (handleConnect c)
  = CentralLink.mkWorld
      (CentralLink.mkLink
         (CentralSession.mkSession (Some (CentralSession.mkSocket false true [f1])))
         true
         (CentralLink.sessionCheckTimer (CentralLink.link (CentralLink.world c)))
         (CentralLink.pongTimeoutId (CentralLink.link (CentralLink.world c))))
      (CentralLink.db (CentralLink.world c))
      (CentralLink.activeTimeouts (CentralLink.world c))
  ∧ CentralLink.isConnected (handleConnect c) = true
  ∧ CentralLink.isConnecting (handleConnect c) = false.
Proof.
  intros Hf1. unfold CentralLink.handleConnect, CentralLink.sendInitialAuthRequest.
  fold buildMessageBuffer. rewrite Hf1. done.
Qed.

Lemma route_challenge (a : CentralLink.Ambient) (h : Protocol.Header) (body f2 : Buffer.t)
    (realm nonce : string) (result : option string) (w : CentralLink.World)
    (out : list Buffer.t) :
  parseAuth body = Some (CentralLink.mkAuthData (Some "401") result (Some realm) (Some nonce)) →
  realm ≠ "" → nonce ≠ "" →
  buildMessageBuffer CentralConfig.ETS_REQ_SYS_CON
    (CentralLink.ReqAuth (CentralConfig.DEST_ID env) realm nonce
       (AuthService.calculateResponse (CentralConfig.DEST_ID env) (CentralConfig.PASSWORD env)
          realm nonce)) = Some f2 →
  CentralLink.session (CentralLink.link w)
  = CentralSession.mkSession (Some (CentralSession.mkSocket false true out)) →
  route a (frame_of CentralConfig.ETS_RES_SYS_CON body h) w
  = CentralLink.mkWorld
      (CentralLink.mkLink
         (CentralSession.mkSession (Some (CentralSession.mkSocket false true (out ++ [f2]))))
         true
         (CentralLink.sessionCheckTimer (CentralLink.link w))
         (CentralLink.pongTimeoutId (CentralLink.link w)))
      (CentralLink.db w) (CentralLink.activeTimeouts w).
Proof.
  intros Hparse Hrealm Hnonce Hf2 Hs.
  destruct w as [[s t1 t2 t3] store tm]. cbn in Hs. subst s. unfold CentralLink.route.
  cbn [Protocol.messageId Protocol.header Protocol.body].
  rewrite decide_True by done.
  unfold CentralLink.handleAuthResponse. rewrite Hparse.
  cbn [CentralLink.ad_resultCode CentralLink.ad_realm CentralLink.ad_nonce
       Js.template default].
  rewrite !truthy_Some by done. cbn [negb].
  rewrite decide_True by done.
  fold buildMessageBuffer. rewrite Hf2. done.
Qed.

Lemma route_granted (a : CentralLink.Ambient) (h : Protocol.Header) (body f3 : Buffer.t)
    (d : CentralLink.AuthData) (w : CentralLink.World) (out : list Buffer.t) :
  parseAuth body = Some d → CentralLink.ad_resultCode d = Some "200" →
  buildMessageBuffer CentralConfig.ETS_REQ_SYS_STS
    (CentralLink.ReqAlive (CentralConfig.DEST_ID env) "alive" (CentralLink.time a)) = Some f3 →
  CentralLink.sessionCheckTimer (CentralLink.link w) = false →
  CentralLink.session (CentralLink.link w)
  = CentralSession.mkSession (Some (CentralSession.mkSocket false true out)) →
  route a (frame_of CentralConfig.ETS_RES_SYS_CON body h) w
  = CentralLink.mkWorld
      (CentralLink.mkLink
         (CentralSession.mkSession (Some (CentralSession.mkSocket false true (out ++ [f3]))))
         false true true)
      (CentralLink.db w) (CentralLink.activeTimeouts w).
Proof.
  intros Hparse Hcode Hf3 Htimer Hs.
  destruct w as [[s t1 t2 t3] store tm]. cbn in Hs, Htimer. subst s t2. unfold CentralLink.route.
  cbn [Protocol.messageId Protocol.header Protocol.body].
  rewrite decide_True by done.
  unfold CentralLink.handleAuthResponse. rewrite Hparse, Hcode.
  rewrite truthy_Some by done.
  cbn [Js.template default negb].
  rewrite decide_False by done. rewrite decide_True by done.
  unfold CentralLink.startSessionCheck.
  cbn [CentralLink._clearAuthTimeout CentralLink.sessionCheckTimer CentralLink.link].
  unfold CentralLink.sendSessionCheckRequest. fold buildMessageBuffer. rewrite Hf3.
  done.
Qed.

(** The handshake. On 'connect' the client registers the socket and sends
    ETS_REQ_SYS_CON with its destId; to the 401 challenge with realm and
    nonce it answers ETS_REQ_SYS_CON with destId, realm, nonce and the
    digest of [calculateResponse]; on the 200 that follows it sends the
    first ping. These three frames, in this order, are all that is
    written to the socket; the auth timer is armed while an answer is
    awaited and cleared at the end, the ping interval and the pong timer
    are running, the socket is open, and the store is untouched. *)
Theorem auth_handshake (c : CentralLink.Client) (a1 a2 : CentralLink.Ambient)
    (h1 h2 : Protocol.Header) (body401 body200 f1 f2 f3 : Buffer.t)
    (realm nonce : string) (d200 : CentralLink.AuthData) (result401 : option string) :
  CentralLink.sessionCheckTimer (CentralLink.link (CentralLink.world c)) = false →
  buildMessageBuffer CentralConfig.ETS_REQ_SYS_CON
    (CentralLink.ReqConnect (CentralConfig.DEST_ID env)) = Some f1 →
  parseAuth body401
  = Some (CentralLink.mkAuthData (Some "401") result401 (Some realm) (Some nonce)) →
  realm ≠ "" → nonce ≠ "" →
  buildMessageBuffer CentralConfig.ETS_REQ_SYS_CON
    (CentralLink.ReqAuth (CentralConfig.DEST_ID env) realm nonce
       (AuthService.calculateResponse (CentralConfig.DEST_ID env) (CentralConfig.PASSWORD env)
          realm nonce)) = Some f2 →
  parseAuth body200 = Some d200 → CentralLink.ad_resultCode d200 = Some "200" →
  buildMessageBuffer CentralConfig.ETS_REQ_SYS_STS
    (CentralLink.ReqAlive (CentralConfig.DEST_ID env) "alive" (CentralLink.time a2)) = Some f3 →
  let c1 := handleConnect c in
  let w2 := route a1 (frame_of CentralConfig.ETS_RES_SYS_CON body401 h1) (CentralLink.world c1) in
  let w3 := route a2 (frame_of CentralConfig.ETS_RES_SYS_CON body200 h2) w2 in
  CentralLink.isConnected c1 = true
  ∧ CentralLink.session (CentralLink.link (CentralLink.world c1))
    = CentralSession.mkSession (Some (CentralSession.mkSocket false true [f1]))
  ∧ CentralLink.authTimeoutId (CentralLink.link (CentralLink.world c1)) = true
  ∧ CentralLink.session (CentralLink.link w2)
    = CentralSession.mkSession (Some (CentralSession.mkSocket false true [f1; f2]))
  ∧ CentralLink.authTimeoutId (CentralLink.link w2) = true
  ∧ CentralLink.link w3
    = CentralLink.mkLink
        (CentralSession.mkSession (Some (CentralSession.mkSocket false true [f1; f2; f3])))
        false true true
  ∧ CentralLink.db w3 = CentralLink.db (CentralLink.world c).
Proof.
  intros Htimer Hf1 H401 Hrealm Hnonce Hf2 H200 Hcode Hf3. cbn zeta.
  destruct (handleConnect_world c f1 Hf1) as (Hw1 & Hconn & _).
  rewrite Hw1. cbn [CentralLink.link CentralLink.session CentralLink.authTimeoutId].
  split; [done|]. split; [done|]. split; [done|].
  rewrite (route_challenge a1 h1 body401 f2 realm nonce result401 _ [f1]) by done.
  cbn [CentralLink.link CentralLink.session CentralLink.authTimeoutId app].
  split; [done|]. split; [done|].
  rewrite (route_granted a2 h2 body200 f3 d200 _ [f1; f2]) by done.
  done.
Qed.

(** Failed authentication. An ETS_RES_SYS_CON body that cannot be parsed,
    has no result code, has a code other than 401 and 200, or is a 401
    challenge without realm or nonce, makes the handler destroy the
    socket: nothing is written in answer, the auth timer is cleared, and
    nothing can be written to the socket afterwards. The same happens
    when the auth timer expires. *)
Theorem auth_failure_closes (time : string) (body : Buffer.t) (l : CentralLink.Link)
    (k : CentralSession.Socket) :
  CentralSession.currentSocket (CentralLink.session l) = Some k →
  match parseAuth body with
  | None => True
  | Some d =>
      match CentralLink.ad_resultCode d with
      | None => True
      | Some code =>
          code = ""
          ∨ (code ≠ "401" ∧ code ≠ "200")
          ∨ (code = "401"
             ∧ (Js.truthy (CentralLink.ad_realm d) = false
                ∨ Js.truthy (CentralLink.ad_nonce d) = false))
      end
  end →
  let closed :=
    CentralLink.mkLink
      (CentralSession.mkSession
         (Some (CentralSession.mkSocket true false (CentralSession.written k))))
      false (CentralLink.sessionCheckTimer l) (CentralLink.pongTimeoutId l) in
  CentralLink.handleAuthResponse env xml_bytes parseAuth time body l = closed
  ∧ (CentralLink.authTimeoutId l = true → CentralLink.on_auth_timeout l = closed)
  ∧ ∀ b, CentralSession.send b (CentralLink.session closed) = CentralLink.session closed.
Proof.
  intros Hk Hbad. cbn zeta.
  assert (Hd : CentralLink.destroy (CentralLink._clearAuthTimeout l)
               = CentralLink.mkLink
                   (CentralSession.mkSession
                      (Some (CentralSession.mkSocket true false (CentralSession.written k))))
                   false (CentralLink.sessionCheckTimer l) (CentralLink.pongTimeoutId l)).
  { unfold CentralLink.destroy, CentralLink._clearAuthTimeout.
    cbn [CentralLink.session]. by rewrite Hk. }
  split; [|split].
  - unfold CentralLink.handleAuthResponse.
    destruct (parseAuth body) as [d|]; [|exact Hd].
    destruct (CentralLink.ad_resultCode d) as [code|] eqn:Hcode; [|exact Hd].
    destruct (decide (code = "")) as [-> | Hne]; [exact Hd|].
    rewrite truthy_Some by done. cbn [negb Js.template default].
    destruct Hbad as [-> | [[H1 H2] | [-> Hmiss]]]; [done| |].
    + rewrite decide_False by done. rewrite decide_False by done.
      repeat case_decide; exact Hd.
    + rewrite decide_True by done.
      destruct (CentralLink.ad_realm d) as [realm|], (CentralLink.ad_nonce d) as [nonce|];
        try exact Hd.
      destruct Hmiss as [Hm | Hm]; rewrite Hm; cbn [negb]; [exact Hd|].
      by destruct (negb (Js.truthy (Some realm))).
  - intros Ht. unfold CentralLink.on_auth_timeout. rewrite Ht.
    unfold CentralLink.destroy. cbn [CentralLink.session]. by rewrite Hk.
  - intros b. done.
Qed.

(** Keep-alive. After a ping, the expiry of the pong timer destroys the
    socket. An ETS_RES_SYS_STS frame, whatever its body says and even when
    it cannot be parsed, clears the timer: the expiry then never happens,
    the socket stays open and nothing is written or stored. *)
Theorem pong_keeps_alive (time : string) (a : CentralLink.Ambient) (h : Protocol.Header)
    (body ping : Buffer.t) (w : CentralLink.World) (out : list Buffer.t) :
  buildMessageBuffer CentralConfig.ETS_REQ_SYS_STS
    (CentralLink.ReqAlive (CentralConfig.DEST_ID env) "alive" time) = Some ping →
  CentralLink.session (CentralLink.link w)
  = CentralSession.mkSession (Some (CentralSession.mkSocket false true out)) →
  let w1 :=
    CentralLink.mkWorld (CentralLink.sendSessionCheckRequest env xml_bytes time (CentralLink.link w))
      (CentralLink.db w) (CentralLink.activeTimeouts w) in
  let w2 := route a (frame_of CentralConfig.ETS_RES_SYS_STS body h) w1 in
  CentralLink.session (CentralLink.on_pong_timeout (CentralLink.link w1))
  = CentralSession.mkSession (Some (CentralSession.mkSocket true false (out ++ [ping])))
  ∧ CentralLink.pongTimeoutId (CentralLink.link w2) = false
  ∧ CentralLink.on_pong_timeout (CentralLink.link w2) = CentralLink.link w2
  ∧ CentralLink.session (CentralLink.link w2)
    = CentralSession.mkSession (Some (CentralSession.mkSocket false true (out ++ [ping])))
  ∧ CentralLink.db w2 = CentralLink.db w.
Proof.
  intros Hping Hs. destruct w as [[s t1 t2 t3] store tm]. cbn in Hs. subst s. cbn zeta.
  unfold CentralLink.sendSessionCheckRequest. fold buildMessageBuffer. rewrite Hping.
  unfold CentralLink.route.
  cbn [Protocol.messageId Protocol.header Protocol.body].
  rewrite decide_False by done. rewrite decide_True by done.
  done.
Qed.

(** A reconnect that [handleClose] has scheduled survives [disconnect]:
    when the connection is lost and a shutdown is requested before the
    reconnect timer fires, [disconnect] clears [shouldReconnect] and
    leaves the timer alone, and when the timer fires the client connects
    again and sets [shouldReconnect] again. *)
Theorem reconnect_survives_disconnect (c : CentralLink.Client) :
  CentralLink.isConnected c = true ∨ CentralLink.isConnecting c = true →
  CentralLink.shouldReconnect c = true →
  let c1 := CentralLink.handleClose c in
  let c2 := CentralLink.disconnect c1 in
  let c3 := CentralLink.on_reconnect_timer c2 in
  CentralLink.reconnect_timers c1 = S (CentralLink.reconnect_timers c)
  ∧ CentralLink.shouldReconnect c2 = false
  ∧ CentralLink.reconnect_timers c2 = S (CentralLink.reconnect_timers c)
  ∧ CentralLink.isConnecting c3 = true
  ∧ CentralLink.shouldReconnect c3 = true
  ∧ CentralLink.socket c3 = CentralLink.Connecting.
Proof.
  intros Hup Hre. cbn zeta.
  assert (Hor : CentralLink.isConnected c || CentralLink.isConnecting c = true).
  { destruct Hup as [-> | ->]; [done|]. by rewrite orb_true_r. }
  unfold CentralLink.handleClose. rewrite Hre, Hor. cbn [andb].
  unfold CentralLink.disconnect, CentralLink.socket_usable.
  cbn [CentralLink.set_link CentralLink.socket CentralLink.world CentralLink.link
       CentralLink.session CentralLink.reconnect_timers CentralLink.shouldReconnect
       CentralLink.isConnecting CentralLink.isConnected CentralLink.destroy_timers
       CentralLink.ended].
  destruct (CentralLink.socket c); cbn; done.
Qed.

End LinkFacts.

Lemma auth_handshake_witness :
  let c1 := CentralLink.handleConnect Scenario.env Cases.request_bytes Cases.link_start in
  let w2 := Cases.route_link (Cases.server_frame CentralConfig.ETS_RES_SYS_CON [41])
              (CentralLink.world c1) in
  let w3 := Cases.route_link (Cases.server_frame CentralConfig.ETS_RES_SYS_CON [20]) w2 in
  CentralLink.link w3
  = CentralLink.mkLink
      (CentralSession.mkSession
         (Some (CentralSession.mkSocket false true
                  [Cases.frame_connect; Cases.frame_auth; Cases.frame_alive])))
      false true true.
Proof.
  intros c1 w2 w3.
  pose proof (auth_handshake Scenario.env Cases.request_bytes Cases.parseAuth Scenario.parseXml
                Scenario.xml_bytes Scenario.parseResponse Cases.link_start
                Cases.ambient Cases.ambient
                (Protocol.mkHeader 0 1 2864434397 1) (Protocol.mkHeader 0 1 2864434397 1)
                [41] [20] Cases.frame_connect Cases.frame_auth Cases.frame_alive
                "bonghwa" "n-1"
                (CentralLink.mkAuthData (Some "200") (Some "OK") None None) (Some "Unauthorized")
                eq_refl ltac:(vm_compute; reflexivity) eq_refl ltac:(discriminate)
                ltac:(discriminate) ltac:(vm_compute; reflexivity) eq_refl eq_refl
                ltac:(vm_compute; reflexivity))
    as (_ & _ & _ & _ & _ & H & _).
  exact H.
Defined.

Lemma auth_failure_closes_witness :
  CentralSession.currentSocket
    (CentralLink.session
       (CentralLink.handleAuthResponse Scenario.env Cases.request_bytes Cases.parseAuth
          Scenario.clock [44] Cases.link_open))
  = Some (CentralSession.mkSocket true false []).
Proof.
  destruct (auth_failure_closes Scenario.env Cases.request_bytes Cases.parseAuth
              Scenario.clock [44] Cases.link_open (CentralSession.mkSocket false true [])
              eq_refl
              ltac:(right; left; split; discriminate)) as (H & _).
  rewrite H. reflexivity.
Defined.

Lemma pong_keeps_alive_witness :
  let w1 :=
    CentralLink.mkWorld
      (CentralLink.sendSessionCheckRequest Scenario.env Cases.request_bytes Scenario.clock
         Cases.link_open)
      CentralDb.empty ∅ in
  let w2 := Cases.route_link (Cases.server_frame CentralConfig.ETS_RES_SYS_STS [99]) w1 in
  CentralLink.on_pong_timeout (CentralLink.link w2) = CentralLink.link w2.
Proof.
  intros w1 w2.
  destruct (pong_keeps_alive Scenario.env Cases.request_bytes Cases.parseAuth Scenario.parseXml
              Scenario.xml_bytes Scenario.parseResponse Scenario.clock Cases.ambient
              (Protocol.mkHeader 0 1 2864434397 1) [99] Cases.frame_alive
              (CentralLink.mkWorld Cases.link_open CentralDb.empty ∅) []
              ltac:(vm_compute; reflexivity) eq_refl) as (_ & _ & H & _).
  exact H.
Defined.

Lemma reconnect_survives_disconnect_witness :
  let c := CentralLink.handleConnect Scenario.env Cases.request_bytes Cases.link_start in
  CentralLink.isConnecting
    (CentralLink.on_reconnect_timer (CentralLink.disconnect (CentralLink.handleClose c)))
  = true.
Proof.
  intros c.
  destruct (reconnect_survives_disconnect c ltac:(left; reflexivity) eq_refl)
    as (_ & _ & _ & H & _).
  exact H.
Defined.

(** ** The authentication middlewares of the external service *)

Section AuthFacts.

Variable api_key : ExternalDb.ExternalSystem → string.

Lemma cl_create_logs id eventType ip detail db :
  ExternalDb.connection_logs (ExternalDb.view ExternalDb.Pool
                                (ExternalDb.cl_create id eventType ip detail db))
  = ExternalDb.connection_logs (ExternalDb.view ExternalDb.Pool db)
    ++ [ExternalDb.mkConnectionLog id eventType ip detail].
Proof. by destruct db as [c [t|] n]. Qed.

Lemma cl_create_systems id eventType ip detail db :
  ExternalDb.external_systems (ExternalDb.view ExternalDb.Pool
                                 (ExternalDb.cl_create id eventType ip detail db))
  = ExternalDb.external_systems (ExternalDb.view ExternalDb.Pool db).
Proof. by destruct db as [c [t|] n]. Qed.

Lemma authenticate_next success failed detail fa name key ip db db' sys :
  ExternalAuth.authenticate api_key success failed detail fa name key ip db
  = (db', ExternalAuth.Next sys) →
  sys ∈ ExternalDb.external_systems (ExternalDb.view ExternalDb.Pool db)
  ∧ ExternalDb.es_is_active sys = true
  ∧ name = Some (ExternalDb.es_system_name sys)
  ∧ key = Some (api_key sys)
  ∧ db' = ExternalDb.cl_create (ExternalDb.es_id sys) success ip None db.
Proof.
  unfold ExternalAuth.authenticate.
  destruct name as [name|], key as [key|]; simpl; rewrite ?orb_true_r; try done.
  destruct (_ || _); [done|].
  destruct (ExternalAuth.find_fails fa); [done|].
  destruct (ExternalAuth.findByNameAndApiKey api_key name key db) as [s|] eqn:Hf; [|done].
  apply head_Some_elem_of, list_elem_of_filter in Hf as [[Hn Hk] Hin].
  destruct (ExternalDb.es_is_active s) eqn:Ha;
    destruct (ExternalAuth.log_fails fa); try done.
  intros [= <- <-]. by subst.
Qed.

Lemma authenticate_refused success failed detail fa name key ip db db' code :
  ExternalAuth.authenticate api_key success failed detail fa name key ip db
  = (db', ExternalAuth.Refused code) →
  code = 401 ∨ code = 500.
Proof.
  unfold ExternalAuth.authenticate. intros H.
  repeat case_match; simplify_eq; auto.
Qed.




End AuthFacts.

(** ** The report API of the external service *)

Section ReportApiFacts.

Variable upsert_rows : Z → list ReportApi.Device → list ReportApi.DeviceRow
                       → list ReportApi.DeviceRow + Js.Error.
Variable JSON_deviceList : list ReportApi.Device → string.
Variable JSON_statusList : list ReportApi.StatusReport → string.
Variable JSON_result : string → string → string.

Local Abbreviation dispatch :=
  (ReportApi.dispatch upsert_rows JSON_deviceList JSON_statusList JSON_result).

(** What the statements of a handler between the API log and the outbox
    row may do: they stay in the transaction and leave the two logs. *)
Local Abbreviation in_transaction work :=
  (∀ (id : Z) c t n,
     match work id (ReportApi.mkDb c (Some t) n) with
     | inl d' => ∃ t' n', d' = ReportApi.mkDb c (Some t') n'
                          ∧ ReportApi.api_receive_logs t' = ReportApi.api_receive_logs t
                          ∧ ReportApi.report_publish_logs t' = ReportApi.report_publish_logs t
     | inr _ => True
     end).

Lemma handle_spec {Body} (f : ReportApi.Faults) (req : ReportApi.Request Body) work type raw db :
  ReportApi.in_txn db = None →
  in_transaction work →
  let out := ReportApi.handle f req work type raw db in
  match out.2 with
  | ReportApi.Ok =>
      ∃ t' n',
        work (ExternalDb.es_id (ReportApi.externalSystem req))
          (ReportApi.arl_create (ExternalDb.es_id (ReportApi.externalSystem req))
             (ReportApi.path req) (ReportApi.body_json req) (ReportApi.begin db)).2
        = inl (ReportApi.mkDb (ReportApi.committed db) (Some t') n')
        ∧ out.1
          = ReportApi.mkDb
              (ReportApi.mkTables
                 (ReportApi.api_receive_logs (ReportApi.committed db)
                  ++ [ReportApi.mkApiReceiveLog (ReportApi.next_id db)
                        (ExternalDb.es_id (ReportApi.externalSystem req))
                        (ReportApi.path req) (ReportApi.body_json req)])
                 (ReportApi.devices t') (ReportApi.device_status_logs t')
                 (ReportApi.report_publish_logs (ReportApi.committed db)
                  ++ [ReportPublishWorker.mkReportPublishLog n' type
                        (ExternalDb.es_system_name (ReportApi.externalSystem req))
                        ReportApi.REPORT_ROUTING_KEY raw ExternalDb.PENDING 0]))
              None (n' + 1)
  | _ => ReportApi.committed out.1 = ReportApi.committed db
  end.
Proof.
  intros Htx Hwork. destruct db as [c tx n]. cbn in Htx. subst tx.
  unfold ReportApi.handle, ReportApi.transaction.
  destruct (ReportApi.getClient_fails f); [done|].
  destruct (ReportApi.begin_fails f); [by destruct (ReportApi.rollback_fails f)|].
  destruct (ReportApi.api_log_fails f); [by destruct (ReportApi.rollback_fails f)|].
  cbn [ReportApi.begin ReportApi.in_txn ReportApi.committed ReportApi.next_id
       ReportApi.arl_create ReportApi.exec].
  cbv zeta.
  match goal with |- context [work ?i ?d] => pose proof (Hwork i c
    (ReportApi.mkTables
       (ReportApi.api_receive_logs c
        ++ [ReportApi.mkApiReceiveLog n (ExternalDb.es_id (ReportApi.externalSystem req))
              (ReportApi.path req) (ReportApi.body_json req)])
       (ReportApi.devices c) (ReportApi.device_status_logs c) (ReportApi.report_publish_logs c))
    (n + 1)) as Hw end.
  cbn [snd].
  destruct (work _ _) as [d' | e]; [|by destruct (ReportApi.rollback_fails f)].
  destruct Hw as (t' & n' & -> & Ha & Hr).
  destruct (ReportApi.outbox_fails f); [by destruct (ReportApi.rollback_fails f)|].
  destruct (ReportApi.commit_fails f); [by destruct (ReportApi.rollback_fails f)|].
  cbn. exists t', n'. split; [done|]. by rewrite Ha, Hr.
Qed.

Lemma upsertDevices_in_transaction l :
  in_transaction (λ id, ReportApi.upsertDevices upsert_rows id l).
Proof.
  intros id c t n. unfold ReportApi.upsertDevices.
  destruct l as [|d l]; [by exists t, n|].
  cbn. destruct (upsert_rows _ _ _); [|done]. by eexists _, _.
Qed.

Lemma createBulk_in_transaction sf inf l :
  in_transaction (λ id, ReportApi.createBulk sf inf id l).
Proof.
  intros id c t n. unfold ReportApi.createBulk.
  destruct l as [|d l]; [by exists t, n|].
  destruct sf; [done|]. cbv zeta.
  destruct (ReportApi.status_values _ _ _); [by exists t, n|].
  destruct inf; [done|]. cbn. by eexists _, _.
Qed.

Lemma dispatch_spec (f : ReportApi.Faults) (externalSystem : ExternalDb.ExternalSystem)
    (json : string) (report : ReportApi.Report) (db : ReportApi.Db) :
  ReportApi.in_txn db = None →
  let out := dispatch f externalSystem json report db in
  let id := ExternalDb.es_id externalSystem in
  let logged :=
    (ReportApi.arl_create id (ReportApi.path_of report) json (ReportApi.begin db)).2 in
  match out.2 with
  | ReportApi.Ok =>
      ∃ t' n',
        match report with
        | ReportApi.DeviceInfo l => ReportApi.upsertDevices upsert_rows id l logged
        | ReportApi.DeviceStatus l =>
            ReportApi.createBulk (ReportApi.status_select_fails f)
              (ReportApi.status_insert_fails f) id l logged
        | ReportApi.DisasterResultOf _ => inl logged
        end = inl (ReportApi.mkDb (ReportApi.committed db) (Some t') n')
        ∧ out.1
          = ReportApi.mkDb
              (ReportApi.mkTables
                 (ReportApi.api_receive_logs (ReportApi.committed db)
                  ++ [ReportApi.mkApiReceiveLog (ReportApi.next_id db) id
                        (ReportApi.path_of report) json])
                 (ReportApi.devices t') (ReportApi.device_status_logs t')
                 (ReportApi.report_publish_logs (ReportApi.committed db)
                  ++ [ReportPublishWorker.mkReportPublishLog n'
                        match report with
                        | ReportApi.DeviceInfo _ => "DEVICE_INFO"
                        | ReportApi.DeviceStatus _ => "DEVICE_STATUS"
                        | ReportApi.DisasterResultOf _ => "DISASTER_RESULT"
                        end
                        (ExternalDb.es_system_name externalSystem)
                        ReportApi.REPORT_ROUTING_KEY
                        match report with
                        | ReportApi.DeviceInfo l => JSON_deviceList l
                        | ReportApi.DeviceStatus l => JSON_statusList l
                        | ReportApi.DisasterResultOf r =>
                            JSON_result (ReportApi.dr_identifier r)
                              (ReportApi.dr_reportList_json r)
                        end
                        ExternalDb.PENDING 0]))
              None (n' + 1)
  | _ => ReportApi.committed out.1 = ReportApi.committed db
  end.
Proof.
  intros Htx. cbv zeta.
  destruct report as [l | l | r]; unfold ReportApi.dispatch,
    ReportApi.handleDeviceInfoReport, ReportApi.handleDeviceStatusReport,
    ReportApi.handleDisasterResultReport.
  - match goal with |- context [ReportApi.handle f ?req ?work ?ty ?raw db] =>
      exact (handle_spec f req work ty raw db Htx (upsertDevices_in_transaction l))
    end.
  - match goal with |- context [ReportApi.handle f ?req ?work ?ty ?raw db] =>
      exact (handle_spec f req work ty raw db Htx (createBulk_in_transaction _ _ l))
    end.
  - match goal with |- context [ReportApi.handle f ?req ?work ?ty ?raw db] =>
      refine (handle_spec f req work ty raw db Htx _)
    end.
    by intros id c t n; exists t, n.
Qed.

(** One report request, once authenticated and validated, is all or
    nothing. Answered 200, it has committed exactly one API log of the
    request and one outbox row, PENDING with retry count 0, under the
    reporting system's name, the report routing key, and the type and
    payload of its route. Answered otherwise, or not at all, whichever
    call failed, the committed tables are as before. *)
Theorem report_request_all_or_nothing (f : ReportApi.Faults)
    (externalSystem : ExternalDb.ExternalSystem) (json : string) (report : ReportApi.Report)
    (db : ReportApi.Db) :
  ReportApi.in_txn db = None →
  let out := dispatch f externalSystem json report db in
  match out.2 with
  | ReportApi.Ok =>
      ReportApi.in_txn out.1 = None
      ∧ ReportApi.api_receive_logs (ReportApi.committed out.1)
        = ReportApi.api_receive_logs (ReportApi.committed db)
          ++ [ReportApi.mkApiReceiveLog (ReportApi.next_id db) (ExternalDb.es_id externalSystem)
                (ReportApi.path_of report) json]
      ∧ ∃ row,
          ReportApi.report_publish_logs (ReportApi.committed out.1)
          = ReportApi.report_publish_logs (ReportApi.committed db) ++ [row]
          ∧ ReportPublishWorker.rpl_status row = ExternalDb.PENDING
          ∧ ReportPublishWorker.rpl_retry_count row = 0
          ∧ ReportPublishWorker.rpl_external_system_name row
            = ExternalDb.es_system_name externalSystem
          ∧ ReportPublishWorker.rpl_routing_key row = ReportApi.REPORT_ROUTING_KEY
          ∧ match report with
            | ReportApi.DeviceInfo l =>
                ReportPublishWorker.rpl_type row = "DEVICE_INFO"
                ∧ ReportPublishWorker.rpl_raw_message row = JSON_deviceList l
            | ReportApi.DeviceStatus l =>
                ReportPublishWorker.rpl_type row = "DEVICE_STATUS"
                ∧ ReportPublishWorker.rpl_raw_message row = JSON_statusList l
            | ReportApi.DisasterResultOf r =>
                ReportPublishWorker.rpl_type row = "DISASTER_RESULT"
                ∧ ReportPublishWorker.rpl_raw_message row
                  = JSON_result (ReportApi.dr_identifier r) (ReportApi.dr_reportList_json r)
            end
  | _ => ReportApi.committed out.1 = ReportApi.committed db
  end.
Proof.
  intros Htx. pose proof (dispatch_spec f externalSystem json report db Htx) as H.
  cbv zeta in *. destruct (dispatch f externalSystem json report db) as [d' []]; try exact H.
  destruct H as (t' & n' & _ & H). cbn [fst snd] in *. subst d'. cbn.
  repeat split. eexists. repeat split. by destruct report.
Qed.

Lemma deviceIdMap_get_Some id wanted d rows k :
  ReportApi.deviceIdMap_get id wanted d rows = Some k →
  ∃ row, row ∈ rows ∧ ReportApi.dev_external_system_id row = id
         ∧ ReportApi.dev_device_id row = d ∧ ReportApi.dev_id row = k.
Proof.
  unfold ReportApi.deviceIdMap_get. intros H.
  apply fmap_Some in H as (row & Hl & ->).
  apply last_Some in Hl as [l' Hl].
  assert (Hin : row ∈ filter (λ r, ReportApi.dev_external_system_id r = id
                                   ∧ ReportApi.dev_device_id r ∈ wanted
                                   ∧ ReportApi.dev_device_id r = d) rows).
  { rewrite Hl. apply elem_of_app. right. apply list_elem_of_here. }
  apply list_elem_of_filter in Hin as [(? & ? & ?) ?]. by exists row.
Qed.

Lemma deviceIdMap_get_None id wanted d rows :
  ReportApi.deviceIdMap_get id wanted d rows = None →
  d ∈ wanted →
  ∀ row, row ∈ rows → ReportApi.dev_external_system_id row = id
    → ReportApi.dev_device_id row ≠ d.
Proof.
  unfold ReportApi.deviceIdMap_get. intros H Hd row Hin Hid Heq.
  apply fmap_None, last_None in H.
  assert (Hf : row ∈ filter (λ r, ReportApi.dev_external_system_id r = id
                                  ∧ ReportApi.dev_device_id r ∈ wanted
                                  ∧ ReportApi.dev_device_id r = d) rows).
  { apply list_elem_of_filter. split; [|done]. repeat split; [done| |done]. by rewrite Heq. }
  rewrite H in Hf. by apply elem_of_nil in Hf.
Qed.

(** A device the reporting system has registered. *)
Local Abbreviation registered id rows report :=
  (Exists (λ row, ReportApi.dev_external_system_id row = id
                  ∧ ReportApi.dev_device_id row = ReportApi.sr_device_id report) rows).

(** The log of one status report. *)
Local Abbreviation logs_report id rows log report :=
  (∃ row, row ∈ rows ∧ ReportApi.dev_external_system_id row = id
          ∧ ReportApi.dev_device_id row = ReportApi.sr_device_id report
          ∧ ReportApi.dsl_device_id log = ReportApi.dev_id row
          ∧ ReportApi.dsl_status_code log
            = (if decide (ReportApi.sr_device_status report = "Y") then "ONLINE"
               else "OFFLINE")
          ∧ ReportApi.dsl_status_message log = ReportApi.sr_note report).

Lemma status_values_spec id rows l n :
  Forall2 (λ log report, logs_report id rows log report)
    (ReportApi.dsl_insert_all n (ReportApi.status_values id l rows))
    (filter (λ report, registered id rows report) l).
Proof.
  unfold ReportApi.status_values. cbv zeta.
  assert (Hsub : ∀ r, r ∈ l → ReportApi.sr_device_id r ∈ ReportApi.sr_device_id <$> l).
  { intros r Hr. apply list_elem_of_fmap. by exists r. }
  revert Hsub. generalize (ReportApi.sr_device_id <$> l) as wanted. intros wanted.
  revert n. induction l as [|r l IH]; intros n Hsub; [constructor|].
  cbn [omap list_omap]. rewrite filter_cons.
  destruct (ReportApi.deviceIdMap_get id wanted (ReportApi.sr_device_id r) rows) as [k|] eqn:Hg.
  - destruct (deviceIdMap_get_Some _ _ _ _ _ Hg) as (row & Hin & Hid & Hd & Hk).
    destruct (decide (registered id rows r)) as [He | He].
    + cbn [ReportApi.dsl_insert_all]. constructor.
      * exists row. by repeat split.
      * apply IH. intros r' Hr'. apply Hsub. by apply list_elem_of_further.
    + destruct He. apply Exists_exists. by exists row.
  - destruct (decide (registered id rows r)) as [He | He].
    + apply Exists_exists in He as (row & Hin & Hid & Hd).
      exfalso. eapply deviceIdMap_get_None; eauto. apply Hsub, list_elem_of_here.
    + apply IH. intros r' Hr'. apply Hsub. by apply list_elem_of_further.
Qed.

(** A device-status report that is answered 200 has added one status log
    for each report of the list whose device the reporting system has
    registered, in the order of the list: it points to that device's
    row, says ONLINE for the status Y and OFFLINE for any other, and
    carries the note. A report about any other device, another system's
    included, leaves no log and does not fail the request. The devices
    table is as before. *)
Theorem status_report_logs_known_devices (f : ReportApi.Faults)
    (externalSystem : ExternalDb.ExternalSystem) (json : string)
    (l : list ReportApi.StatusReport) (db : ReportApi.Db) :
  ReportApi.in_txn db = None →
  let out := dispatch f externalSystem json (ReportApi.DeviceStatus l) db in
  let id := ExternalDb.es_id externalSystem in
  let rows := ReportApi.devices (ReportApi.committed db) in
  out.2 = ReportApi.Ok →
  ReportApi.devices (ReportApi.committed out.1) = rows
  ∧ ∃ new,
      ReportApi.device_status_logs (ReportApi.committed out.1)
      = ReportApi.device_status_logs (ReportApi.committed db) ++ new
      ∧ Forall2 (λ log report, logs_report id rows log report) new
          (filter (λ report, registered id rows report) l).
Proof.
  intros Htx. pose proof (dispatch_spec f externalSystem json (ReportApi.DeviceStatus l) db Htx)
    as H.
  cbv zeta in *. destruct (dispatch _ _ _ _ db) as [d' r]. cbn [fst snd] in *.
  intros ->. destruct H as (t' & n' & Hw & ->).
  destruct db as [c tx n]. cbn in Htx. subst tx.
  cbn [ReportApi.committed ReportApi.devices ReportApi.device_status_logs].
  revert Hw. unfold ReportApi.createBulk.
  cbn [ReportApi.begin ReportApi.in_txn ReportApi.committed ReportApi.next_id
       ReportApi.arl_create ReportApi.exec snd].
  destruct l as [|r l].
  { intros [= <- <-]. cbn. split; [done|]. exists []. by rewrite app_nil_r. }
  destruct (ReportApi.status_select_fails f); [done|]. cbv zeta.
  cbn [ReportApi.view ReportApi.in_txn default ReportApi.devices].
  pose proof (status_values_spec (ExternalDb.es_id externalSystem) (ReportApi.devices c)
                (r :: l) (n + 1)) as Hv.
  destruct (ReportApi.status_values _ (r :: l) _) as [|v vs] eqn:Ev.
  { intros [= <- <-]. cbn [ReportApi.devices ReportApi.device_status_logs].
    split; [done|]. exists []. rewrite app_nil_r. split; [done|].
    cbn [ReportApi.dsl_insert_all] in Hv. exact Hv. }
  destruct (ReportApi.status_insert_fails f); [done|].
  cbn [ReportApi.in_txn ReportApi.committed ReportApi.next_id].
  intros [= <- <-]. cbn [ReportApi.devices ReportApi.device_status_logs].
  split; [done|]. eexists. split; [done|]. exact Hv.
Qed.

Section Published.

Variable JSON_stringify : string → string → string → string.

(** From the API to the broker: the report of a request answered 200 is
    on the report exchange after the next poll of the publish worker
    whose publish does not throw, under the report routing key, with the
    type of the route, the reporting system's name and the payload. *)
Theorem accepted_report_is_published (f : ReportApi.Faults)
    (externalSystem : ExternalDb.ExternalSystem) (json : string) (report : ReportApi.Report)
    (db : ReportApi.Db) (g : Z → ReportPublishWorker.Faults) (channel : list Amqp.Action) :
  ReportApi.in_txn db = None →
  (∀ id, ReportPublishWorker.publish_fails (g id) = None) →
  let out := dispatch f externalSystem json report db in
  out.2 = ReportApi.Ok →
  let w :=
    ReportPublishWorker.mkWorld (ReportApi.report_publish_logs (ReportApi.committed out.1))
      channel in
  Amqp.Publish ReportPublishWorker.REPORT_EXCHANGE ReportApi.REPORT_ROUTING_KEY
    (JSON_stringify
       match report with
       | ReportApi.DeviceInfo _ => "DEVICE_INFO"
       | ReportApi.DeviceStatus _ => "DEVICE_STATUS"
       | ReportApi.DisasterResultOf _ => "DISASTER_RESULT"
       end
       (ExternalDb.es_system_name externalSystem)
       match report with
       | ReportApi.DeviceInfo l => JSON_deviceList l
       | ReportApi.DeviceStatus l => JSON_statusList l
       | ReportApi.DisasterResultOf r =>
           JSON_result (ReportApi.dr_identifier r) (ReportApi.dr_reportList_json r)
       end)
    None
  ∈ ReportPublishWorker.channel (ReportPublishRun.run JSON_stringify None g w).
Proof.
  intros Htx Hg. pose proof (dispatch_spec f externalSystem json report db Htx) as H.
  cbv zeta in *. destruct (dispatch _ _ _ _ db) as [d' r]. cbn [fst snd] in *.
  intros ->. destruct H as (t' & n' & _ & ->).
  unfold ReportPublishRun.run. rewrite report_foldl_channel.
  cbn [ReportPublishWorker.channel ReportPublishWorker.report_publish_logs
       ReportApi.committed ReportApi.report_publish_logs].
  apply elem_of_app. right. apply list_elem_of_fmap.
  eexists (ReportPublishWorker.mkReportPublishLog n' _ _ _ _ ExternalDb.PENDING 0).
  split; [reflexivity|].
  apply list_elem_of_filter. split.
  - split; [by cbn|apply Hg].
  - unfold ReportPublishRun.findUnprocessedMessages.
    apply list_elem_of_filter. split; [done|].
    apply elem_of_app. right. apply list_elem_of_here.
Qed.

End Published.


Section Gate.

Variable api_key : ExternalDb.ExternalSystem → string.

Local Abbreviation post :=
  (ReportApi.post upsert_rows JSON_deviceList JSON_statusList JSON_result api_key).

(** The report API writes for nobody else. A request that is answered
    200, or that changes a committed table of the reports, carried the
    name and the key of an active system and passed the validators; its
    success is the last entry of the connection log, and every outbox
    row it added bears that system's name. *)
Theorem api_requires_active_credentials (fa : ExternalAuth.Faults) (f : ReportApi.Faults)
    (req : ReportApi.HttpRequest) (edb : ExternalDb.Db) (db : ReportApi.Db) :
  ReportApi.in_txn db = None →
  let out := post fa f req edb db in
  out.2 = Some 200 ∨ ReportApi.committed out.1.2 ≠ ReportApi.committed db →
  ∃ sys,
    sys ∈ ExternalDb.external_systems (ExternalDb.view ExternalDb.Pool edb)
    ∧ ExternalDb.es_is_active sys = true
    ∧ ReportApi.x_system_name req = Some (ExternalDb.es_system_name sys)
    ∧ ReportApi.x_api_key req = Some (api_key sys)
    ∧ ReportApi.errors req = []
    ∧ ExternalDb.connection_logs (ExternalDb.view ExternalDb.Pool out.1.1)
      = ExternalDb.connection_logs (ExternalDb.view ExternalDb.Pool edb)
        ++ [ExternalDb.mkConnectionLog (ExternalDb.es_id sys) "API_AUTH_SUCCESS"
              (ReportApi.ip req) None]
    ∧ ∃ rows,
        ReportApi.report_publish_logs (ReportApi.committed out.1.2)
        = ReportApi.report_publish_logs (ReportApi.committed db) ++ rows
        ∧ Forall (λ row, ReportPublishWorker.rpl_external_system_name row
                         = ExternalDb.es_system_name sys) rows.
Proof.
  intros Htx. cbv zeta. unfold ReportApi.post, ExternalAuth.authMiddleware.
  destruct (ExternalAuth.authenticate _ _ _ _ _ _ _ _ _) as [edb1 [sys | code]] eqn:Ha.
  2: { apply authenticate_refused in Ha. cbn. intros [[= ->] | H]; [lia|done]. }
  apply authenticate_next in Ha as (Hin & Hact & Hn & Hk & ->).
  destruct (ReportApi.errors req) as [|e es]; [|cbn; by intros [|]].
  pose proof (dispatch_spec f sys (ReportApi.json req) (ReportApi.report req) db Htx) as H.
  cbv zeta in H.
  destruct (dispatch f sys (ReportApi.json req) (ReportApi.report req) db) as [db1 r].
  cbn [fst snd] in *.
  destruct r; cbn [ReportApi.status_of]; try (intros [|]; done).
  intros _. destruct H as (t' & n' & _ & ->).
  exists sys. do 5 (split; [done|]). split; [apply cl_create_logs|].
  eexists [_]. split; [reflexivity|]. by constructor.
Qed.

End Gate.

End ReportApiFacts.

Lemma report_request_all_or_nothing_witness :
  let out :=
    Cases.dispatch_report ReportApi.no_faults (ExternalDb.mkExternalSystem 1 "ESS-A" ["HTW"] true)
      "body" (ReportApi.DeviceStatus Cases.status_list) Cases.report_store in
  ReportApi.api_receive_logs (ReportApi.committed out.1)
  = [ReportApi.mkApiReceiveLog 10 1 "/device-status" "body"].
Proof.
  intros out.
  pose proof (report_request_all_or_nothing Cases.upsert_rows Cases.JSON_deviceList
                Cases.JSON_statusList Cases.JSON_result ReportApi.no_faults
                (ExternalDb.mkExternalSystem 1 "ESS-A" ["HTW"] true) "body"
                (ReportApi.DeviceStatus Cases.status_list) Cases.report_store eq_refl) as H.
  destruct H as (_ & H & _). exact H.
Defined.

Lemma status_report_logs_known_devices_witness :
  let out :=
    Cases.dispatch_report ReportApi.no_faults (ExternalDb.mkExternalSystem 1 "ESS-A" ["HTW"] true)
      "body" (ReportApi.DeviceStatus Cases.status_list) Cases.report_store in
  ReportApi.devices (ReportApi.committed out.1)
  = ReportApi.devices (ReportApi.committed Cases.report_store).
Proof.
  intros out.
  destruct (status_report_logs_known_devices Cases.upsert_rows Cases.JSON_deviceList
              Cases.JSON_statusList Cases.JSON_result ReportApi.no_faults
              (ExternalDb.mkExternalSystem 1 "ESS-A" ["HTW"] true) "body"
              Cases.status_list Cases.report_store eq_refl eq_refl) as [H _].
  exact H.
Defined.

Lemma accepted_report_is_published_witness :
  let out :=
    Cases.dispatch_report ReportApi.no_faults (ExternalDb.mkExternalSystem 1 "ESS-A" ["HTW"] true)
      "body" (ReportApi.DeviceStatus Cases.status_list) Cases.report_store in
  Amqp.Publish ReportPublishWorker.REPORT_EXCHANGE ReportApi.REPORT_ROUTING_KEY
    "{type:DEVICE_STATUS,externalSystemName:ESS-A,rawMessage:s1,s2,s9}" None
  ∈ ReportPublishWorker.channel
      (ReportPublishRun.run Scenario.stringify_report None
         (λ _, ReportPublishWorker.no_faults)
         (ReportPublishWorker.mkWorld
            (ReportApi.report_publish_logs (ReportApi.committed out.1)) [])).
Proof.
  intros out.
  exact (accepted_report_is_published Cases.upsert_rows Cases.JSON_deviceList
           Cases.JSON_statusList Cases.JSON_result Scenario.stringify_report
           ReportApi.no_faults (ExternalDb.mkExternalSystem 1 "ESS-A" ["HTW"] true) "body"
           (ReportApi.DeviceStatus Cases.status_list) Cases.report_store
           (λ _, ReportPublishWorker.no_faults) [] eq_refl (λ _, eq_refl) eq_refl).
Defined.

Lemma api_requires_active_credentials_witness :
  let out :=
    ReportApi.post Cases.upsert_rows Cases.JSON_deviceList Cases.JSON_statusList
      Cases.JSON_result Cases.api_key ExternalAuth.no_faults ReportApi.no_faults
      Cases.status_request Cases.subscribers Cases.report_store in
  out.2 = Some 200
  ∧ ∃ sys, sys ∈ ExternalDb.external_systems
                   (ExternalDb.view ExternalDb.Pool Cases.subscribers)
           ∧ ExternalDb.es_is_active sys = true
           ∧ Some "ESS-A" = Some (ExternalDb.es_system_name sys).
Proof.
  intros out. split; [reflexivity|].
  destruct (api_requires_active_credentials Cases.upsert_rows Cases.JSON_deviceList
              Cases.JSON_statusList Cases.JSON_result Cases.api_key ExternalAuth.no_faults
              ReportApi.no_faults Cases.status_request Cases.subscribers Cases.report_store
              eq_refl (or_introl eq_refl)) as (sys & H1 & H2 & H3 & _).
  exists sys. repeat split; assumption.
Defined.


(** ** One poll of the disaster transmit worker *)

Section TransmitDeliveryFacts.

Local Abbreviation rows := (λ d : ExternalDb.Db,
  ExternalDb.disaster_transmit_logs (ExternalDb.committed d)).

Local Abbreviation kept := (λ (r : ExternalDb.DisasterTransmitLog) (d : ExternalDb.Db),
  NoDup (ExternalDb.dtl_id <$> rows d) ∧ r ∈ rows d).

(** What the handling of one row leaves of the rest: another row, the
    session map, and the events emitted before. *)
Local Abbreviation apart := (λ (r : ExternalDb.DisasterTransmitLog)
                               (w w' : DisasterTransmit.World),
  kept r (DisasterTransmit.db w')
  ∧ ExternalSession.activeSockets (DisasterTransmit.sessions w')
    = ExternalSession.activeSockets (DisasterTransmit.sessions w)
  ∧ ∃ more, DisasterTransmit.emitted w' = DisasterTransmit.emitted w ++ more).










End TransmitDeliveryFacts.


(** ** From an accepted alert to the broker *)

Section AlertPublishedFacts.

Variable env : CentralConfig.Env.
Variable parseXml : Buffer.t → option Cap.ParsedXml.
Variable xml_bytes : Cap.XmlObject → option Buffer.t.
Variable JSON_stringify : string → string → Cap.ReceivedData → string.

(** From the socket to the broker: an alert that is accepted, and whose
    CAP identifier is not in the outbox yet, is on the disaster exchange
    after the next poll of the publish worker whose publish does not
    throw, under the routing key "disaster.<code>", with its identifier,
    its event code and the received data. *)
Theorem accepted_alert_is_published now w buf rd id seq a identifier code
    (g : Z → DisasterPublishWorker.Faults) (channel : list Amqp.Action) :
  parseXml buf = Some (Cap.mkParsedXml (Some rd)) →
  Cap.transMsgId rd = Some id → id ≠ "" →
  Cap.transMsgSeq rd = Some seq →
  CentralDb.in_txn (DisasterHandler.db w) = None →
  Forall (λ r, CentralDb.trl_id r ≠ CentralDb.next_id (DisasterHandler.db w))
    (CentralDb.tcp_receive_logs (CentralDb.committed (DisasterHandler.db w))) →
  CentralDb.tcp_isDuplicate CentralDb.Client id seq (DisasterHandler.db w) = false →
  Cap.capInfo rd ≫= Cap.alert = Some a →
  Cap.identifier a = Some identifier → identifier ≠ "" →
  Js.truthy (Cap.sender a) = true → Js.truthy (Cap.sent a) = true →
  Cap.alert_eventCode a = Some code → code ≠ "" →
  code ∈ CentralConfig.VALID_EVENT_CODES →
  existsb (λ r, bool_decide (CentralDb.dpl_identifier r = identifier))
    (CentralDb.disaster_publish_logs (CentralDb.committed (DisasterHandler.db w))) = false →
  (∀ logId, DisasterPublishWorker.publish_fails (g logId) = None) →
  let w' :=
    DisasterHandler.handleDisasterInfo env parseXml xml_bytes DisasterHandler.no_faults now w
      buf in
  Amqp.Publish CentralConfig.DISASTER_EXCHANGE ("disaster." +:+ code)
    (JSON_stringify identifier code rd) None
  ∈ DisasterPublishWorker.channel
      (DisasterPublishRun._run JSON_stringify None g
         (DisasterPublishWorker.mkWorld (DisasterHandler.db w') channel)).
Proof.
  intros Hparse Hid Hne Hseq Htxn Hfresh Hdup Ha Hi Hi' Hs Ht Hc Hc' Hin Hnew Hg w'.
  pose proof (accept_try_block env parseXml xml_bytes now w buf rd id seq a identifier code
                Hparse Hid Hne Hseq Htxn Hfresh Hdup Ha Hi Hi' Hs Ht Hc Hc' Hin) as Htry.
  cbv zeta in Htry. destruct Htry as (d & Htry & Hd & Hdt).
  rewrite Hnew in Hd.
  assert (Hw : DisasterHandler.db w' = d).
  { subst w'. unfold DisasterHandler.handleDisasterInfo. by rewrite Htry. }
  rewrite Hw. unfold DisasterPublishRun._run. rewrite disaster_foldl_channel.
  cbn [DisasterPublishWorker.channel DisasterPublishWorker.db].
  apply elem_of_app. right. apply list_elem_of_fmap.
  eexists (CentralDb.mkDisasterPublishLog _ _ ("disaster." +:+ code) identifier code rd
             CentralDb.PENDING 0).
  split; [reflexivity|].
  apply list_elem_of_filter. split.
  - split; [by cbn|apply Hg].
  - unfold CentralDb.dpl_findUnprocessedMessages.
    apply list_elem_of_filter. split; [done|].
    unfold CentralDb.view. rewrite Hd.
    cbn [CentralDb.disaster_publish_logs].
    apply elem_of_app. right. apply list_elem_of_here.
Qed.

End AlertPublishedFacts.

Lemma accepted_alert_is_published_witness :
  Amqp.Publish CentralConfig.DISASTER_EXCHANGE "disaster.HTW" "{identifier:A1,eventCode:HTW,rawMessage:{}}"
    None
  ∈ DisasterPublishWorker.channel
      (DisasterPublishRun._run Scenario.stringify_disaster None
         (λ _, DisasterPublishWorker.no_faults)
         (DisasterPublishWorker.mkWorld
            (DisasterHandler.db (Scenario.handle Scenario.world0 [1])) [])).
Proof.
  exact (accepted_alert_is_published Scenario.env Scenario.parseXml Scenario.xml_bytes
           Scenario.stringify_disaster Scenario.clock Scenario.world0 [1] Scenario.frame_htw
           "T1" 1 _ "A1" "HTW" (λ _, DisasterPublishWorker.no_faults) []
           eq_refl eq_refl ltac:(discriminate) eq_refl eq_refl ltac:(constructor)
           eq_refl eq_refl eq_refl ltac:(discriminate) eq_refl eq_refl eq_refl
           ltac:(discriminate) ltac:(vm_compute; repeat constructor) eq_refl
           (λ _, eq_refl)).
Defined.
